(** * whatsapp-bridge-v2: connection lifecycle, health monitor, event queue
      and tool gate, embedded from the Go sources.

    Embedding
    - [State]   package state (states.go, machine.go, the trigger constants)
    - [Backoff] the exponential back-off policy held by the health monitor
    - [Config]  package config (config.go), the settings the monitor reads
    - [Health]  package health (the monitor)
    - [Store]   package store (models.go, repository.go, sqlite.go)
    - [Bridge]  package bridge (events.go, the client interface, the bridge
                and its raw-event handlers)
    - [Api]     package api (tools.go, errors.go, handlers_*.go)
    - [Main]    package main: the wiring of bridge and monitor
    - [Queries] the questions the read-only tools put to the store
    - [Spec]    the tables of the written specification
    - [Observer], [Calls]  recording callbacks and call sequences
    - [BridgeEvents]  package bridge: the handlers of raw protocol events
    - [WhatsApp]  package whatsapp: the event hub of the client
    - [Tools]   package api: the handlers behind the ready gate and the
                advertised tools
    - [Mcp]     package mcp (server.go, protocol.go, the transport)

    Properties
    - [StateFacts], [HealthFacts], [StoreFacts], [BridgeFacts], [ApiFacts]
    - [StateMore], [HealthMore], [BridgeMore], [WhatsAppMore], [ApiMore],
      [McpMore]

    Conventions: a Go method that mutates its receiver returns the receiver
    after the call; durations and instants are nanosecond counts in [Z];
    clock readings and random draws are arguments (the database keeps the
    clock its statements read). *)

From Stdlib Require Import ZArith QArith Qround Lia Lqa List Bool.
From stdpp Require Import base strings gmap.
Import ListNotations.

Local Open Scope string_scope.

(* ===================================================================== *)
(** ** package state                                                      *)
(* ===================================================================== *)
Module State.

(** [type State string] with its thirteen declared constants (states.go).
    The machine is only ever given these constants, so the type is
    embedded as their enumeration; [State_String] gives the string each
    one holds. *)
Inductive State : Type :=
  | StateDisconnected
  | StateConnecting
  | StateConnected
  | StateReconnecting
  | StateQRPending
  | StateAuthenticating
  | StateSyncing
  | StateReady
  | StateLoggedOut
  | StateSessionExpired
  | StateTemporaryBan
  | StateShuttingDown
  | StateFatalError.

(** [func (s State) String() string]: the string each constant holds. *)
Definition State_String (s : State) : string :=
  match s with
  | StateDisconnected => "disconnected"
  | StateConnecting => "connecting"
  | StateConnected => "connected"
  | StateReconnecting => "reconnecting"
  | StateQRPending => "qr_pending"
  | StateAuthenticating => "authenticating"
  | StateSyncing => "syncing"
  | StateReady => "ready"
  | StateLoggedOut => "logged_out"
  | StateSessionExpired => "session_expired"
  | StateTemporaryBan => "temporary_ban"
  | StateShuttingDown => "shutting_down"
  | StateFatalError => "fatal_error"
  end.

(** The constants of the [const ( ... )] block, in declaration order. *)
Definition declared_states : list State :=
  [ StateDisconnected; StateConnecting; StateConnected; StateReconnecting;
    StateQRPending; StateAuthenticating; StateSyncing; StateReady;
    StateLoggedOut; StateSessionExpired; StateTemporaryBan;
    StateShuttingDown; StateFatalError ].

Definition State_eqb (a b : State) : bool :=
  match a, b with
  | StateDisconnected, StateDisconnected
  | StateConnecting, StateConnecting
  | StateConnected, StateConnected
  | StateReconnecting, StateReconnecting
  | StateQRPending, StateQRPending
  | StateAuthenticating, StateAuthenticating
  | StateSyncing, StateSyncing
  | StateReady, StateReady
  | StateLoggedOut, StateLoggedOut
  | StateSessionExpired, StateSessionExpired
  | StateTemporaryBan, StateTemporaryBan
  | StateShuttingDown, StateShuttingDown
  | StateFatalError, StateFatalError => true
  | _, _ => false
  end.

#[global] Instance State_eq_dec : EqDecision State.
Proof. solve_decision. Defined.

(** [func (s State) IsConnectedSubstate() bool] *)
Definition IsConnectedSubstate (s : State) : bool :=
  match s with
  | StateQRPending | StateAuthenticating | StateSyncing | StateReady => true
  | _ => false
  end.

(** [func (s State) IsTerminal() bool] *)
Definition IsTerminal (s : State) : bool :=
  match s with
  | StateLoggedOut | StateSessionExpired | StateTemporaryBan | StateFatalError => true
  | _ => false
  end.

(** [func (s State) IsOperational() bool] *)
Definition IsOperational (s : State) : bool := State_eqb s StateReady.

(** [type Trigger string] with its fifteen declared constants. *)
Inductive Trigger : Type :=
  | TriggerConnect
  | TriggerDisconnect
  | TriggerQRRequired
  | TriggerQRScanned
  | TriggerAuthenticated
  | TriggerSyncComplete
  | TriggerConnectionLost
  | TriggerReconnect
  | TriggerReconnected
  | TriggerSessionInvalid
  | TriggerBanDetected
  | TriggerBanLifted
  | TriggerLogout
  | TriggerShutdown
  | TriggerFatalError.

Definition Trigger_String (t : Trigger) : string :=
  match t with
  | TriggerConnect => "connect"
  | TriggerDisconnect => "disconnect"
  | TriggerQRRequired => "qr_required"
  | TriggerQRScanned => "qr_scanned"
  | TriggerAuthenticated => "authenticated"
  | TriggerSyncComplete => "sync_complete"
  | TriggerConnectionLost => "connection_lost"
  | TriggerReconnect => "reconnect"
  | TriggerReconnected => "reconnected"
  | TriggerSessionInvalid => "session_invalid"
  | TriggerBanDetected => "ban_detected"
  | TriggerBanLifted => "ban_lifted"
  | TriggerLogout => "logout"
  | TriggerShutdown => "shutdown"
  | TriggerFatalError => "fatal_error"
  end.

Definition declared_triggers : list Trigger :=
  [ TriggerConnect; TriggerDisconnect; TriggerQRRequired; TriggerQRScanned;
    TriggerAuthenticated; TriggerSyncComplete; TriggerConnectionLost;
    TriggerReconnect; TriggerReconnected; TriggerSessionInvalid;
    TriggerBanDetected; TriggerBanLifted; TriggerLogout; TriggerShutdown;
    TriggerFatalError ].

#[global] Instance Trigger_eq_dec : EqDecision Trigger.
Proof. solve_decision. Defined.

Definition Trigger_eqb (a b : Trigger) : bool := bool_decide (a = b).

(** *** The configuration built by [NewMachine]

    [sm.Configure(s).Permit(t, d)...] registers, for source state [s], the
    destination [d] of trigger [t].  One entry per [Configure] call, one
    pair per [Permit] call, in source order. *)
Definition StateConfiguration : Type := (State * list (Trigger * State))%type.

Definition Configure (s : State) (permits : list (Trigger * State)) : StateConfiguration :=
  (s, permits).

Definition Permit (t : Trigger) (d : State) : Trigger * State := (t, d).

Definition NewMachine_configuration : list StateConfiguration :=
  [ Configure StateDisconnected
      [ Permit TriggerConnect StateConnecting;
        Permit TriggerShutdown StateShuttingDown ];
    Configure StateConnecting
      [ Permit TriggerQRRequired StateQRPending;
        Permit TriggerAuthenticated StateSyncing;
        Permit TriggerConnectionLost StateReconnecting;
        Permit TriggerDisconnect StateDisconnected;
        Permit TriggerShutdown StateShuttingDown;
        Permit TriggerFatalError StateFatalError ];
    Configure StateQRPending
      [ Permit TriggerQRScanned StateAuthenticating;
        Permit TriggerConnectionLost StateReconnecting;
        Permit TriggerDisconnect StateDisconnected;
        Permit TriggerShutdown StateShuttingDown;
        Permit TriggerFatalError StateFatalError ];
    Configure StateAuthenticating
      [ Permit TriggerAuthenticated StateSyncing;
        Permit TriggerSessionInvalid StateSessionExpired;
        Permit TriggerConnectionLost StateReconnecting;
        Permit TriggerDisconnect StateDisconnected;
        Permit TriggerShutdown StateShuttingDown;
        Permit TriggerFatalError StateFatalError ];
    Configure StateSyncing
      [ Permit TriggerSyncComplete StateReady;
        Permit TriggerConnectionLost StateReconnecting;
        Permit TriggerDisconnect StateDisconnected;
        Permit TriggerShutdown StateShuttingDown;
        Permit TriggerFatalError StateFatalError ];
    Configure StateReady
      [ Permit TriggerConnectionLost StateReconnecting;
        Permit TriggerSessionInvalid StateSessionExpired;
        Permit TriggerBanDetected StateTemporaryBan;
        Permit TriggerLogout StateLoggedOut;
        Permit TriggerDisconnect StateDisconnected;
        Permit TriggerShutdown StateShuttingDown;
        Permit TriggerFatalError StateFatalError ];
    Configure StateReconnecting
      [ Permit TriggerReconnected StateReady;
        Permit TriggerQRRequired StateQRPending;
        Permit TriggerSessionInvalid StateSessionExpired;
        Permit TriggerDisconnect StateDisconnected;
        Permit TriggerShutdown StateShuttingDown;
        Permit TriggerFatalError StateFatalError ];
    Configure StateTemporaryBan
      [ Permit TriggerBanLifted StateReconnecting;
        Permit TriggerDisconnect StateDisconnected;
        Permit TriggerShutdown StateShuttingDown;
        Permit TriggerFatalError StateFatalError ];
    Configure StateLoggedOut
      [ Permit TriggerConnect StateConnecting;
        Permit TriggerShutdown StateShuttingDown ];
    Configure StateSessionExpired
      [ Permit TriggerConnect StateConnecting;
        Permit TriggerShutdown StateShuttingDown ];
    Configure StateShuttingDown [];
    Configure StateFatalError
      [ Permit TriggerShutdown StateShuttingDown ] ].

(** Look-up of the behaviour registered for a trigger. *)
Fixpoint find_permit (t : Trigger) (permits : list (Trigger * State)) : option State :=
  match permits with
  | [] => None
  | (t', d) :: rest => if Trigger_eqb t t' then Some d else find_permit t rest
  end.

Fixpoint find_configuration (s : State) (cfg : list StateConfiguration)
  : option (list (Trigger * State)) :=
  match cfg with
  | [] => None
  | (s', permits) :: rest =>
      if State_eqb s s' then Some permits else find_configuration s rest
  end.

(** The destination the configured machine gives trigger [t] in state [s];
    a state that was never configured (here [StateConnected]) has no
    behaviour for any trigger. *)
Definition destination (s : State) (t : Trigger) : option State :=
  match find_configuration s NewMachine_configuration with
  | Some permits => find_permit t permits
  | None => None
  end.

(** The error [FireCtx] returns for a trigger with no valid leaving
    transition from the current state. *)
Inductive TransitionError : Type :=
  | InvalidTransition (from : State) (trigger : Trigger).

Definition TransitionError_Error (e : TransitionError) : string :=
  match e with
  | InvalidTransition from trigger =>
      "stateless: No valid leaving transitions are permitted from state '"
        ++ State_String from ++ "' for trigger '" ++ Trigger_String trigger
        ++ "', consider ignoring the trigger"
  end.

Section Machine.
(** [W] is whatever the transition callbacks act upon. *)
Context {W : Type}.

(** [type TransitionCallback func(ctx, from, to State, trigger Trigger)] *)
Definition TransitionCallback : Type := State -> State -> Trigger -> W -> W.

Record Machine : Type := mkMachine
  { sm : State;
    callbacks : list TransitionCallback }.

(** [func NewMachine() *Machine] *)
Definition NewMachine : Machine :=
  {| sm := StateDisconnected; callbacks := [] |}.

(** [func (m *Machine) State(ctx) (State, error)] *)
Definition CurrentState (m : Machine) : State := sm m.

(** The [OnTransitioned] hook: every registered callback, in order. *)
Definition dispatch (cbs : list TransitionCallback) (from to : State)
           (trigger : Trigger) (w : W) : W :=
  fold_left (fun acc cb => cb from to trigger acc) cbs w.

(** [func (m *Machine) Fire(ctx, trigger, args...) error] *)
Definition Fire (m : Machine) (trigger : Trigger) (w : W)
  : option TransitionError * Machine * W :=
  match destination (sm m) trigger with
  | Some to =>
      (None,
       {| sm := to; callbacks := callbacks m |},
       dispatch (callbacks m) (sm m) to trigger w)
  | None => (Some (InvalidTransition (sm m) trigger), m, w)
  end.

(** [func (m *Machine) CanFire(ctx, trigger, args...) (bool, error)] *)
Definition CanFire (m : Machine) (trigger : Trigger) : bool :=
  match destination (sm m) trigger with
  | Some _ => true
  | None => false
  end.

(** [func (m *Machine) OnTransition(cb TransitionCallback)] *)
Definition OnTransition (m : Machine) (cb : TransitionCallback) : Machine :=
  {| sm := sm m; callbacks := callbacks m ++ [cb] |}.

(** [func (m *Machine) IsReady() bool] *)
Definition IsReady (m : Machine) : bool := State_eqb (sm m) StateReady.

(** [func (m *Machine) IsConnected() bool] *)
Definition IsConnected (m : Machine) : bool :=
  IsConnectedSubstate (sm m) || State_eqb (sm m) StateConnecting.

(** Firing a sequence of triggers one after the other; a refused trigger
    leaves the machine where it is and the next one is tried. *)
Fixpoint fire_all (m : Machine) (ts : list Trigger) (w : W) : Machine * W :=
  match ts with
  | [] => (m, w)
  | t :: rest =>
      let '(_, m', w') := Fire m t w in fire_all m' rest w'
  end.
End Machine.

Arguments Machine W : clear implicits.
Arguments TransitionCallback W : clear implicits.

(** The state reached from a given one by a trigger sequence. *)
Fixpoint run (s : State) (ts : list Trigger) : State :=
  match ts with
  | [] => s
  | t :: rest =>
      match destination s t with
      | Some d => run d rest
      | None => run s rest
      end
  end.

(** A state is reachable when some trigger sequence fired on a new machine
    ends in it. *)
Definition reachable (s : State) : Prop :=
  exists ts : list Trigger, run StateDisconnected ts = s.

End State.

(* ===================================================================== *)
(** ** The back-off policy held by the health monitor                     *)
(* ===================================================================== *)
Module Backoff.

(** [time.Duration]: a count of nanoseconds. *)
Definition Duration : Type := Z.

Definition Nanosecond : Duration := 1%Z.
Definition Millisecond : Duration := 1000000%Z.
Definition Second : Duration := 1000000000%Z.
Definition Minute : Duration := (60 * Second)%Z.

(** Conversion of a floating-point value to a duration drops the
    fractional part (towards zero). *)
Definition truncate (q : Q) : Z :=
  if Qle_bool 0 q then Qfloor q else Qceiling q.

(** Modelled from the spec: the back-off policy object of the Health
    Controller.  The monitor obtains it from the exponential back-off
    package it imports ([backoff.NewExponentialBackOff], [Reset],
    [NextBackOff]); that package is not among the sources.  The spec gives
    the algorithm: exponential growth from a configured base interval,
    capped at a configured maximum interval, with jitter (a randomized
    multiplicative factor) applied per attempt.  The record carries the
    policy's settings and its cursor; floating-point values are exact
    rationals, and the random draw of each attempt is an explicit argument
    in the half-open unit interval. *)
Record ExponentialBackOff : Type := mkBackOff
  { InitialInterval : Duration;
    RandomizationFactor : Q;
    Multiplier : Q;
    MaxInterval : Duration;
    MaxElapsedTime : Duration;
    currentInterval : Duration }.

Definition DefaultInitialInterval : Duration := (500 * Millisecond)%Z.
Definition DefaultRandomizationFactor : Q := 1 # 2.
Definition DefaultMultiplier : Q := 3 # 2.
Definition DefaultMaxInterval : Duration := (60 * Second)%Z.
Definition DefaultMaxElapsedTime : Duration := (15 * Minute)%Z.

(** [Reset]: the cursor returns to the initial interval. *)
Definition Reset (b : ExponentialBackOff) : ExponentialBackOff :=
  {| InitialInterval := InitialInterval b;
     RandomizationFactor := RandomizationFactor b;
     Multiplier := Multiplier b;
     MaxInterval := MaxInterval b;
     MaxElapsedTime := MaxElapsedTime b;
     currentInterval := InitialInterval b |}.

(** [NewExponentialBackOff]: default settings, then [Reset]. *)
Definition NewExponentialBackOff : ExponentialBackOff :=
  Reset {| InitialInterval := DefaultInitialInterval;
           RandomizationFactor := DefaultRandomizationFactor;
           Multiplier := DefaultMultiplier;
           MaxInterval := DefaultMaxInterval;
           MaxElapsedTime := DefaultMaxElapsedTime;
           currentInterval := 0%Z |}.

(** The jittered value: a point of
    [[current - factor*current, current + factor*current]] chosen by the
    draw [random]. *)
Definition getRandomValueFromInterval (randomizationFactor random : Q)
           (current : Duration) : Duration :=
  if Qeq_bool randomizationFactor 0 then current
  else
    let delta := (randomizationFactor * inject_Z current)%Q in
    let minInterval := (inject_Z current - delta)%Q in
    let maxInterval := (inject_Z current + delta)%Q in
    truncate (minInterval + random * (maxInterval - minInterval + 1))%Q.

(** Exponential growth of the cursor, capped at the maximum interval. *)
Definition incrementCurrentInterval (b : ExponentialBackOff) : ExponentialBackOff :=
  let next :=
    if Qle_bool (inject_Z (MaxInterval b) / Multiplier b) (inject_Z (currentInterval b))
    then MaxInterval b
    else truncate (inject_Z (currentInterval b) * Multiplier b)%Q in
  {| InitialInterval := InitialInterval b;
     RandomizationFactor := RandomizationFactor b;
     Multiplier := Multiplier b;
     MaxInterval := MaxInterval b;
     MaxElapsedTime := MaxElapsedTime b;
     currentInterval := next |}.

(** [NextBackOff] with the elapsed-time limit switched off
    ([MaxElapsedTime = 0], as [NewMonitor] sets it): the jittered value of
    the current interval is returned and the cursor advances. *)
Definition NextBackOff (random : Q) (b : ExponentialBackOff)
  : Duration * ExponentialBackOff :=
  (getRandomValueFromInterval (RandomizationFactor b) random (currentInterval b),
   incrementCurrentInterval b).

(** A draw of the random source: a value of the half-open unit interval. *)
Definition unit_draw (r : Q) : Prop := (0 <= r)%Q /\ (r < 1)%Q.

End Backoff.

(* ===================================================================== *)
(** ** package config (the settings the monitor reads)                    *)
(* ===================================================================== *)
Module Config.
Import Backoff.

Record Config : Type := mkConfig
  { ConnectTimeout : Duration;
    KeepaliveInterval : Duration;
    ReconnectMaxRetries : Z;
    ReconnectBaseDelay : Duration;
    ReconnectMaxDelay : Duration }.

(** [func DefaultConfig() *Config] *)
Definition DefaultConfig : Config :=
  {| ConnectTimeout := (30 * Second)%Z;
     KeepaliveInterval := (30 * Second)%Z;
     ReconnectMaxRetries := 10%Z;
     ReconnectBaseDelay := (1 * Second)%Z;
     ReconnectMaxDelay := (5 * Minute)%Z |}.

(** The reconnect and keep-alive checks of [func (c *Config) Validate() error]. *)
Definition Validate_reconnect (c : Config) : bool :=
  (0 <? KeepaliveInterval c)%Z
  && (0 <=? ReconnectMaxRetries c)%Z
  && (0 <? ReconnectBaseDelay c)%Z
  && (0 <? ReconnectMaxDelay c)%Z
  && (ReconnectBaseDelay c <=? ReconnectMaxDelay c)%Z.

End Config.

(* ===================================================================== *)
(** ** package health                                                     *)
(* ===================================================================== *)
Module Health.
Import Backoff Config.

(** Go's [int] and [int64] are 64-bit two's-complement. *)
Definition wrap64 (z : Z) : Z := ((z + 2 ^ 63) mod 2 ^ 64 - 2 ^ 63)%Z.

(** [type Status struct] *)
Record Status : Type := mkStatus
  { Status_State : string;
    Status_Connected : bool;
    Status_UptimeSeconds : Z;
    Status_LastMessage : Z;
    Status_ReconnectCount : Z;
    Status_MessagesReceived : Z;
    Status_MessagesSent : Z }.

(** [type Monitor struct]; wall-clock instants are nanosecond counts and
    the clock reading is an argument of the operations that take one. *)
Record Monitor : Type := mkMonitor
  { keepaliveInterval : Duration;
    reconnectBackoff : ExponentialBackOff;
    maxRetries : Z;
    retryCount : Z;
    startTime : Z;
    lastMessage : Z;
    reconnectCount : Z;
    messagesReceived : Z;
    messagesSent : Z }.

(** [func NewMonitor(cfg *config.Config, sm *state.Machine) *Monitor] *)
Definition NewMonitor (cfg : Config) (now : Z) : Monitor :=
  let bo := NewExponentialBackOff in
  let bo := {| InitialInterval := ReconnectBaseDelay cfg;
               RandomizationFactor := RandomizationFactor bo;
               Multiplier := Multiplier bo;
               MaxInterval := ReconnectMaxDelay cfg;
               MaxElapsedTime := 0%Z;
               currentInterval := currentInterval bo |} in
  let bo := Reset bo in
  {| keepaliveInterval := KeepaliveInterval cfg;
     reconnectBackoff := bo;
     maxRetries := ReconnectMaxRetries cfg;
     retryCount := 0%Z;
     startTime := now;
     lastMessage := 0%Z;
     reconnectCount := 0%Z;
     messagesReceived := 0%Z;
     messagesSent := 0%Z |}.

Definition set_backoff (bo : ExponentialBackOff) (rc : Z) (m : Monitor) : Monitor :=
  {| keepaliveInterval := keepaliveInterval m;
     reconnectBackoff := bo;
     maxRetries := maxRetries m;
     retryCount := rc;
     startTime := startTime m;
     lastMessage := lastMessage m;
     reconnectCount := reconnectCount m;
     messagesReceived := messagesReceived m;
     messagesSent := messagesSent m |}.

(** [func (m *Monitor) GetStatus() Status]; [currentState] is what the
    state machine reports at the time of the call. *)
Definition GetStatus (currentState : State.State) (now : Z) (m : Monitor) : Status :=
  {| Status_State := State.State_String currentState;
     Status_Connected := State.State_eqb currentState State.StateReady;
     Status_UptimeSeconds := ((now - startTime m) ÷ Second)%Z;
     Status_LastMessage := lastMessage m;
     Status_ReconnectCount := reconnectCount m;
     Status_MessagesReceived := messagesReceived m;
     Status_MessagesSent := messagesSent m |}.

(** [func (m *Monitor) RecordMessageReceived()] *)
Definition RecordMessageReceived (now : Z) (m : Monitor) : Monitor :=
  {| keepaliveInterval := keepaliveInterval m;
     reconnectBackoff := reconnectBackoff m;
     maxRetries := maxRetries m;
     retryCount := retryCount m;
     startTime := startTime m;
     lastMessage := now;
     reconnectCount := reconnectCount m;
     messagesReceived := wrap64 (messagesReceived m + 1);
     messagesSent := messagesSent m |}.

(** [func (m *Monitor) RecordMessageSent()] *)
Definition RecordMessageSent (m : Monitor) : Monitor :=
  {| keepaliveInterval := keepaliveInterval m;
     reconnectBackoff := reconnectBackoff m;
     maxRetries := maxRetries m;
     retryCount := retryCount m;
     startTime := startTime m;
     lastMessage := lastMessage m;
     reconnectCount := reconnectCount m;
     messagesReceived := messagesReceived m;
     messagesSent := wrap64 (messagesSent m + 1) |}.

(** [func (m *Monitor) GetNextReconnectDelay() time.Duration] *)
Definition GetNextReconnectDelay (random : Q) (m : Monitor) : Duration * Monitor :=
  let rc := wrap64 (retryCount m + 1) in
  let '(d, bo) := NextBackOff random (reconnectBackoff m) in
  (d, set_backoff bo rc m).

(** [func (m *Monitor) ResetReconnectBackoff()] *)
Definition ResetReconnectBackoff (m : Monitor) : Monitor :=
  set_backoff (Reset (reconnectBackoff m)) 0%Z m.

(** [func (m *Monitor) IsMaxRetriesExceeded() bool] *)
Definition IsMaxRetriesExceeded (m : Monitor) : bool :=
  (maxRetries m <? retryCount m)%Z.

(** [func (m *Monitor) IncrementReconnectCount()] *)
Definition IncrementReconnectCount (m : Monitor) : Monitor :=
  {| keepaliveInterval := keepaliveInterval m;
     reconnectBackoff := reconnectBackoff m;
     maxRetries := maxRetries m;
     retryCount := retryCount m;
     startTime := startTime m;
     lastMessage := lastMessage m;
     reconnectCount := wrap64 (reconnectCount m + 1);
     messagesReceived := messagesReceived m;
     messagesSent := messagesSent m |}.

(** [func (m *Monitor) OnConnectionRestored()] *)
Definition OnConnectionRestored (m : Monitor) : Monitor :=
  ResetReconnectBackoff m.

(** [func (m *Monitor) Start()] *)
Definition Start (now : Z) (m : Monitor) : Monitor :=
  {| keepaliveInterval := keepaliveInterval m;
     reconnectBackoff := reconnectBackoff m;
     maxRetries := maxRetries m;
     retryCount := retryCount m;
     startTime := now;
     lastMessage := lastMessage m;
     reconnectCount := reconnectCount m;
     messagesReceived := messagesReceived m;
     messagesSent := messagesSent m |}.

(** The scheduling half of [func (m *Monitor) ScheduleReconnect(callback)]:
    nothing is armed once the retry limit is exceeded, otherwise the next
    delay is taken.  The timer itself is not modelled. *)
Definition ScheduleReconnect (random : Q) (m : Monitor) : option Duration * Monitor :=
  if IsMaxRetriesExceeded m then (None, m)
  else let '(d, m') := GetNextReconnectDelay random m in (Some d, m').

(** The monitor's operations, as a vocabulary for sequences of calls. *)
Inductive Op : Type :=
  | OpStart (now : Z)
  | OpRecordMessageReceived (now : Z)
  | OpRecordMessageSent
  | OpGetNextReconnectDelay (random : Q)
  | OpResetReconnectBackoff
  | OpIncrementReconnectCount
  | OpScheduleReconnect (random : Q)
  | OpOnConnectionRestored.

Definition apply_op (o : Op) (m : Monitor) : Monitor :=
  match o with
  | OpStart now => Start now m
  | OpRecordMessageReceived now => RecordMessageReceived now m
  | OpRecordMessageSent => RecordMessageSent m
  | OpGetNextReconnectDelay r => snd (GetNextReconnectDelay r m)
  | OpResetReconnectBackoff => ResetReconnectBackoff m
  | OpIncrementReconnectCount => IncrementReconnectCount m
  | OpScheduleReconnect r => snd (ScheduleReconnect r m)
  | OpOnConnectionRestored => OnConnectionRestored m
  end.

Definition is_reset_op (o : Op) : bool :=
  match o with
  | OpResetReconnectBackoff | OpOnConnectionRestored => true
  | _ => false
  end.

(** [n] consecutive calls of [GetNextReconnectDelay], one draw per call:
    the delays returned, in call order, and the monitor afterwards. *)
Fixpoint next_delays (draws : list Q) (m : Monitor) : list Duration * Monitor :=
  match draws with
  | [] => ([], m)
  | r :: rest =>
      let '(d, m1) := GetNextReconnectDelay r m in
      let '(ds, m2) := next_delays rest m1 in
      (d :: ds, m2)
  end.

(** The un-jittered interval the policy holds before each of those calls. *)
Fixpoint next_intervals (draws : list Q) (m : Monitor) : list Duration :=
  match draws with
  | [] => []
  | r :: rest =>
      currentInterval (reconnectBackoff m)
        :: next_intervals rest (snd (GetNextReconnectDelay r m))
  end.

End Health.

(* ===================================================================== *)
(** ** package store (models.go, repository.go)                           *)
(* ===================================================================== *)
Module Store.

(** Go's [error] values as the code tells them apart: the sentinel
    [ErrNotFound] and any other error with its message. *)
Inductive error : Type :=
  | ErrNotFound
  | ErrorString (msg : string).

Definition error_Error (e : error) : string :=
  match e with
  | ErrNotFound => "not found"
  | ErrorString msg => msg
  end.

Inductive result (A : Type) : Type :=
  | Ok (a : A)
  | Err (e : error).
Arguments Ok {A} a.
Arguments Err {A} e.

(** [type Message struct] *)
Record Message : Type := mkMessage
  { Message_ID : string;
    Message_ChatJID : string;
    Message_Sender : string;
    Message_Content : string;
    Message_Timestamp : Z;
    Message_IsFromMe : bool;
    Message_MediaType : string;
    Message_Filename : string;
    Message_MediaURL : string;
    Message_MediaKey : list Z;
    Message_FileSHA256 : list Z;
    Message_FileLength : Z;
    Message_QuotedID : string;
    Message_QuotedSender : string;
    Message_IsStarred : bool;
    Message_IsDeleted : bool;
    Message_Reactions : list string }.

(** [type Chat struct] *)
Record Chat : Type := mkChat
  { Chat_JID : string;
    Chat_Name : string;
    Chat_IsGroup : bool;
    Chat_LastMessageTime : Z;
    Chat_UnreadCount : Z;
    Chat_Archived : bool;
    Chat_Pinned : bool;
    Chat_Muted : bool;
    Chat_MutedUntil : option Z;
    Chat_UpdatedAt : Z }.

(** [type Contact struct] *)
Record Contact : Type := mkContact
  { Contact_JID : string;
    Contact_Name : string;
    Contact_PushName : string;
    Contact_Phone : string;
    Contact_BusinessName : string;
    Contact_Blocked : bool;
    Contact_IsSaved : bool;
    Contact_UpdatedAt : Z }.

(** [type StatusUpdate struct] *)
Record StatusUpdate : Type := mkStatusUpdate
  { StatusUpdate_ID : string;
    StatusUpdate_SenderJID : string;
    StatusUpdate_MediaType : string;
    StatusUpdate_Content : string;
    StatusUpdate_PostedAt : Z;
    StatusUpdate_ExpiresAt : Z;
    StatusUpdate_Viewed : bool }.

(** [type Transition struct] *)
Record Transition : Type := mkTransition
  { Transition_ID : Z;
    Transition_FromState : State.State;
    Transition_ToState : State.State;
    Transition_Trigger : string;
    Transition_Timestamp : Z;
    Transition_Error : string }.

(** The repository interfaces of repository.go, restricted to the methods
    the bridge and the read-only tool handlers call.  [DB] is the store
    behind them; a write returns its error, if any, and the store after. *)
Class Repositories (DB : Type) : Type :=
  { Messages_Store : Message -> DB -> option error * DB;
    Messages_List : string -> Z -> string -> DB -> result (list Message);
    Chats_Upsert : Chat -> DB -> option error * DB;
    Chats_List : Z -> DB -> result (list Chat);
    Chats_GetByJID : string -> DB -> result Chat;
    Chats_UpdateLastMessage : string -> Z -> DB -> option error * DB;
    Contacts_Search : string -> Z -> DB -> result (list Contact);
    Contacts_GetByJID : string -> DB -> result Contact;
    Contacts_GetBlocked : DB -> result (list Contact);
    State_SaveState : State.State -> DB -> option error * DB;
    State_LogTransition : State.State -> State.State -> string -> DB -> option error * DB;
    State_GetTransitionHistory : Z -> DB -> result (list Transition) }.

(** *** sqlite.go: the SQLite implementation of the repositories *)

(** [type SQLiteStore struct]: the database behind the repositories, as
    the tables that [runMigrations] creates and the methods below read or
    write.  A table is the list of its rows in rowid order, the order of
    insertion; a row has the columns of the Go struct that is written to
    it and scanned from it.  [tbl_bridge_state] is the [state] column of
    the one row of [bridge_state] (its [updated_at] is written and never
    read).  [clock] is the next reading of [time.Now()]: a statement that
    binds [time.Now()] takes it and leaves a later one.  Timestamps are
    instants; the driver writes them as text, in one time zone, where the
    order of the texts is the order of the instants.

    The model leaves out the failure of the database itself (an I/O error,
    a closed or locked database, a cancelled context) and of the driver (a
    value it cannot bind): here a statement fails only by the constraint
    it violates.  The properties below that are not about this store hold
    for every implementation of [Repositories], failing writes included. *)
Record SQLiteStore : Type := mkSQLiteStore
  { tbl_chats : list Chat;
    tbl_messages : list Message;
    tbl_contacts : list Contact;
    tbl_status_updates : list StatusUpdate;
    tbl_bridge_state : State.State;
    tbl_transitions : list Transition;
    clock : Z }.

(** [func NewSQLiteStore(dsn string)] on a database that did not exist:
    the connection is opened with [_foreign_keys=on], [runMigrations]
    creates the tables, empty, and seeds [bridge_state] with
    ['disconnected'].  The clock starts at instant 0. *)
Definition NewSQLiteStore : SQLiteStore :=
  {| tbl_chats := []; tbl_messages := []; tbl_contacts := [];
     tbl_status_updates := []; tbl_bridge_state := State.StateDisconnected;
     tbl_transitions := []; clock := 0%Z |}.

Definition with_chats (rows : list Chat) (db : SQLiteStore) : SQLiteStore :=
  {| tbl_chats := rows; tbl_messages := tbl_messages db;
     tbl_contacts := tbl_contacts db; tbl_status_updates := tbl_status_updates db;
     tbl_bridge_state := tbl_bridge_state db; tbl_transitions := tbl_transitions db;
     clock := clock db |}.

Definition with_messages (rows : list Message) (db : SQLiteStore) : SQLiteStore :=
  {| tbl_chats := tbl_chats db; tbl_messages := rows;
     tbl_contacts := tbl_contacts db; tbl_status_updates := tbl_status_updates db;
     tbl_bridge_state := tbl_bridge_state db; tbl_transitions := tbl_transitions db;
     clock := clock db |}.

Definition with_bridge_state (s : State.State) (db : SQLiteStore) : SQLiteStore :=
  {| tbl_chats := tbl_chats db; tbl_messages := tbl_messages db;
     tbl_contacts := tbl_contacts db; tbl_status_updates := tbl_status_updates db;
     tbl_bridge_state := s; tbl_transitions := tbl_transitions db;
     clock := clock db |}.

Definition with_transitions (rows : list Transition) (db : SQLiteStore) : SQLiteStore :=
  {| tbl_chats := tbl_chats db; tbl_messages := tbl_messages db;
     tbl_contacts := tbl_contacts db; tbl_status_updates := tbl_status_updates db;
     tbl_bridge_state := tbl_bridge_state db; tbl_transitions := rows;
     clock := clock db |}.

(** The database after a statement that bound [time.Now()]. *)
Definition tick (db : SQLiteStore) : SQLiteStore :=
  {| tbl_chats := tbl_chats db; tbl_messages := tbl_messages db;
     tbl_contacts := tbl_contacts db; tbl_status_updates := tbl_status_updates db;
     tbl_bridge_state := tbl_bridge_state db; tbl_transitions := tbl_transitions db;
     clock := (clock db + 1)%Z |}.

(** [LIMIT ?]: a negative limit is no limit. *)
Definition sql_limit (limit : Z) {A : Type} (rows : list A) : list A :=
  if (limit <? 0)%Z then rows else firstn (Z.to_nat limit) rows.

(** [ORDER BY key DESC]; rows with the same key stay in row order (SQL
    leaves their order to the engine). *)
Fixpoint insert_desc {A : Type} (key : A -> Z) (row : A) (sorted : list A) : list A :=
  match sorted with
  | [] => [row]
  | r :: rest =>
      if (key r <=? key row)%Z then row :: sorted
      else r :: insert_desc key row rest
  end.

Definition order_by_desc {A : Type} (key : A -> Z) (rows : list A) : list A :=
  fold_right (insert_desc key) [] rows.

(** [INSERT ... ON CONFLICT(key) DO UPDATE SET ...] of every other column:
    the row with the key is overwritten where it is, and with no such row
    the new one is added. *)
Fixpoint upsert_row {A : Type} (same : A -> bool) (row : A) (rows : list A) : list A :=
  match rows with
  | [] => [row]
  | r :: rest => if same r then row :: rest else r :: upsert_row same row rest
  end.

(** [row.Scan] answering [sql.ErrNoRows] with [ErrNotFound]. *)
Definition query_row {A : Type} (p : A -> bool) (rows : list A) : result A :=
  match find p rows with
  | Some a => Ok a
  | None => Err ErrNotFound
  end.

(** The characters of a UTF-8 text: a byte of 0xC0 or above with the
    continuation bytes (0x80 to 0xBF) that follow it, or a single byte. *)
Definition is_continuation (c : Ascii.ascii) : bool :=
  (128 <=? Ascii.nat_of_ascii c)%nat && (Ascii.nat_of_ascii c <? 192)%nat.

Fixpoint continuation (chars : list (list Ascii.ascii)) : list Ascii.ascii * list (list Ascii.ascii) :=
  match chars with
  | [c] :: rest =>
      if is_continuation c
      then let '(bytes, rest') := continuation rest in (c :: bytes, rest')
      else ([], chars)
  | _ => ([], chars)
  end.

Fixpoint utf8_chars (bytes : list Ascii.ascii) : list (list Ascii.ascii) :=
  match bytes with
  | [] => []
  | c :: rest =>
      if (192 <=? Ascii.nat_of_ascii c)%nat
      then let '(more, chars) := continuation (utf8_chars rest) in (c :: more) :: chars
      else [c] :: utf8_chars rest
  end.

(** Upper-case letters of ASCII as their lower-case ones. *)
Definition fold_case (c : Ascii.ascii) : Ascii.ascii :=
  if (65 <=? Ascii.nat_of_ascii c)%nat && (Ascii.nat_of_ascii c <=? 90)%nat
  then Ascii.ascii_of_nat (Ascii.nat_of_ascii c + 32)
  else c.

Fixpoint same_char (a b : list Ascii.ascii) : bool :=
  match a, b with
  | [], [] => true
  | x :: a', y :: b' => Ascii.eqb (fold_case x) (fold_case y) && same_char a' b'
  | _, _ => false
  end.

(** The character is the one of ASCII with this code. *)
Definition is_char (code : nat) (char : list Ascii.ascii) : bool :=
  match char with
  | [x] => (Ascii.nat_of_ascii x =? code)%nat
  | _ => false
  end.

(** The codes of [%] and [_]. *)
Definition percent : nat := 37.
Definition underscore : nat := 95.

(** SQLite's [text LIKE pattern] with no [ESCAPE], on the characters of
    the two: [%] stands for any run of characters, [_] for any one
    character, every other character for itself, the letters of ASCII
    without regard to case. *)
Fixpoint like_chars (pattern text : list (list Ascii.ascii)) : bool :=
  match pattern with
  | [] => match text with [] => true | _ :: _ => false end
  | p :: pattern' =>
      if is_char percent p then
        (fix from (t : list (list Ascii.ascii)) : bool :=
           like_chars pattern' t
           || match t with
              | [] => false
              | _ :: t' => from t'
              end) text
      else
        match text with
        | [] => false
        | c :: text' => (is_char underscore p || same_char p c) && like_chars pattern' text'
        end
  end.

Definition like (text pattern : string) : bool :=
  like_chars (utf8_chars (String.list_ascii_of_string pattern))
             (utf8_chars (String.list_ascii_of_string text)).

Definition same_message (chatJID msgID : string) (m : Message) : bool :=
  String.eqb (Message_ChatJID m) chatJID && String.eqb (Message_ID m) msgID.

Definition same_chat (jid : string) (c : Chat) : bool := String.eqb (Chat_JID c) jid.

(** [func (r *SQLiteMessageRepo) Store]: [INSERT OR REPLACE INTO messages]
    of every column but [reactions], which takes its default.  The
    foreign key of [chat_jid] refuses a message whose chat has no row; a
    row with the same [(id, chat_jid)] is deleted and the new row added. *)
Definition SQLiteMessageRepo_Store (msg : Message) (db : SQLiteStore)
  : option error * SQLiteStore :=
  if existsb (same_chat (Message_ChatJID msg)) (tbl_chats db) then
    let row :=
      {| Message_ID := Message_ID msg;
         Message_ChatJID := Message_ChatJID msg;
         Message_Sender := Message_Sender msg;
         Message_Content := Message_Content msg;
         Message_Timestamp := Message_Timestamp msg;
         Message_IsFromMe := Message_IsFromMe msg;
         Message_MediaType := Message_MediaType msg;
         Message_Filename := Message_Filename msg;
         Message_MediaURL := Message_MediaURL msg;
         Message_MediaKey := Message_MediaKey msg;
         Message_FileSHA256 := Message_FileSHA256 msg;
         Message_FileLength := Message_FileLength msg;
         Message_QuotedID := Message_QuotedID msg;
         Message_QuotedSender := Message_QuotedSender msg;
         Message_IsStarred := Message_IsStarred msg;
         Message_IsDeleted := Message_IsDeleted msg;
         Message_Reactions := [] |} in
    (None,
     with_messages
       (List.filter (fun m => negb (same_message (Message_ChatJID msg) (Message_ID msg) m))
                    (tbl_messages db) ++ [row]) db)
  else (Some (ErrorString "FOREIGN KEY constraint failed"), db).

(** [func scanMessages(rows)]: the thirteen columns the queries select;
    the media key, the file hash, the file length and the reactions are
    not among them and keep their zero values. *)
Definition scanMessage (row : Message) : Message :=
  {| Message_ID := Message_ID row;
     Message_ChatJID := Message_ChatJID row;
     Message_Sender := Message_Sender row;
     Message_Content := Message_Content row;
     Message_Timestamp := Message_Timestamp row;
     Message_IsFromMe := Message_IsFromMe row;
     Message_MediaType := Message_MediaType row;
     Message_Filename := Message_Filename row;
     Message_MediaURL := Message_MediaURL row;
     Message_MediaKey := [];
     Message_FileSHA256 := [];
     Message_FileLength := 0%Z;
     Message_QuotedID := Message_QuotedID row;
     Message_QuotedSender := Message_QuotedSender row;
     Message_IsStarred := Message_IsStarred row;
     Message_IsDeleted := Message_IsDeleted row;
     Message_Reactions := [] |}.

Definition scanMessages (rows : list Message) : list Message := map scanMessage rows.

(** [func (r *SQLiteMessageRepo) List]: the messages of the chat, latest
    first; with [before], those earlier than the message of that id in the
    chat, and none when the chat has no such message (the subquery is
    then NULL). *)
Definition SQLiteMessageRepo_List (chatJID : string) (limit : Z) (before : string)
           (db : SQLiteStore) : result (list Message) :=
  let of_chat := List.filter (fun m => String.eqb (Message_ChatJID m) chatJID)
                             (tbl_messages db) in
  let selected :=
    if String.eqb before "" then of_chat
    else match find (same_message chatJID before) (tbl_messages db) with
         | Some pivot =>
             List.filter (fun m => (Message_Timestamp m <? Message_Timestamp pivot)%Z)
                         of_chat
         | None => []
         end in
  Ok (scanMessages (sql_limit limit (order_by_desc Message_Timestamp selected))).

(** [func (r *SQLiteMessageRepo) SetStarred]: an [UPDATE] of the rows with
    the key, of which there is at most one. *)
Definition SQLiteMessageRepo_SetStarred (chatJID msgID : string) (starred : bool)
           (db : SQLiteStore) : option error * SQLiteStore :=
  (None,
   with_messages
     (map (fun m =>
             if same_message chatJID msgID m
             then {| Message_ID := Message_ID m;
                     Message_ChatJID := Message_ChatJID m;
                     Message_Sender := Message_Sender m;
                     Message_Content := Message_Content m;
                     Message_Timestamp := Message_Timestamp m;
                     Message_IsFromMe := Message_IsFromMe m;
                     Message_MediaType := Message_MediaType m;
                     Message_Filename := Message_Filename m;
                     Message_MediaURL := Message_MediaURL m;
                     Message_MediaKey := Message_MediaKey m;
                     Message_FileSHA256 := Message_FileSHA256 m;
                     Message_FileLength := Message_FileLength m;
                     Message_QuotedID := Message_QuotedID m;
                     Message_QuotedSender := Message_QuotedSender m;
                     Message_IsStarred := starred;
                     Message_IsDeleted := Message_IsDeleted m;
                     Message_Reactions := Message_Reactions m |}
             else m)
          (tbl_messages db)) db).

(** [func (r *SQLiteChatRepo) Upsert]: the row is written with
    [time.Now()] as [updated_at], whatever the chat's own. *)
Definition SQLiteChatRepo_Upsert (chat : Chat) (db : SQLiteStore)
  : option error * SQLiteStore :=
  let row :=
    {| Chat_JID := Chat_JID chat; Chat_Name := Chat_Name chat;
       Chat_IsGroup := Chat_IsGroup chat;
       Chat_LastMessageTime := Chat_LastMessageTime chat;
       Chat_UnreadCount := Chat_UnreadCount chat; Chat_Archived := Chat_Archived chat;
       Chat_Pinned := Chat_Pinned chat; Chat_Muted := Chat_Muted chat;
       Chat_MutedUntil := Chat_MutedUntil chat; Chat_UpdatedAt := clock db |} in
  (None, tick (with_chats (upsert_row (same_chat (Chat_JID chat)) row (tbl_chats db)) db)).

(** [func (r *SQLiteChatRepo) List] *)
Definition SQLiteChatRepo_List (limit : Z) (db : SQLiteStore) : result (list Chat) :=
  Ok (sql_limit limit (order_by_desc Chat_LastMessageTime (tbl_chats db))).

(** [func (r *SQLiteChatRepo) GetByJID] *)
Definition SQLiteChatRepo_GetByJID (jid : string) (db : SQLiteStore) : result Chat :=
  query_row (same_chat jid) (tbl_chats db).

(** [func (r *SQLiteChatRepo) UpdateLastMessage]: an [UPDATE] of the rows
    with the jid; with no such row it changes nothing and is no error. *)
Definition SQLiteChatRepo_UpdateLastMessage (jid : string) (t : Z) (db : SQLiteStore)
  : option error * SQLiteStore :=
  (None,
   tick (with_chats
           (map (fun c =>
                   if same_chat jid c
                   then {| Chat_JID := Chat_JID c; Chat_Name := Chat_Name c;
                           Chat_IsGroup := Chat_IsGroup c; Chat_LastMessageTime := t;
                           Chat_UnreadCount := Chat_UnreadCount c;
                           Chat_Archived := Chat_Archived c;
                           Chat_Pinned := Chat_Pinned c; Chat_Muted := Chat_Muted c;
                           Chat_MutedUntil := Chat_MutedUntil c;
                           Chat_UpdatedAt := clock db |}
                   else c)
                (tbl_chats db)) db)).

(** [func (r *SQLiteContactRepo) Search]: the contacts of which the name,
    the push name, the business name or the phone is [LIKE] the query
    between two [%], in row order. *)
Definition SQLiteContactRepo_Search (query : string) (limit : Z) (db : SQLiteStore)
  : result (list Contact) :=
  let pattern := "%" ++ query ++ "%" in
  Ok (sql_limit limit
        (List.filter (fun c => like (Contact_Name c) pattern
                               || like (Contact_PushName c) pattern
                               || like (Contact_BusinessName c) pattern
                               || like (Contact_Phone c) pattern)
                     (tbl_contacts db))).

(** [func (r *SQLiteContactRepo) GetByJID] *)
Definition SQLiteContactRepo_GetByJID (jid : string) (db : SQLiteStore) : result Contact :=
  query_row (fun c => String.eqb (Contact_JID c) jid) (tbl_contacts db).

(** [func (r *SQLiteContactRepo) GetBlocked] *)
Definition SQLiteContactRepo_GetBlocked (db : SQLiteStore) : result (list Contact) :=
  Ok (List.filter Contact_Blocked (tbl_contacts db)).

(** [func (r *SQLiteStatusRepo) GetAll]: the status updates that expire
    after [time.Now()], latest first. *)
Definition SQLiteStatusRepo_GetAll (db : SQLiteStore) : result (list StatusUpdate) :=
  Ok (order_by_desc StatusUpdate_PostedAt
        (List.filter (fun s => (clock db <? StatusUpdate_ExpiresAt s)%Z)
                     (tbl_status_updates db))).

(** [func (r *SQLiteStatusRepo) GetByContact] *)
Definition SQLiteStatusRepo_GetByContact (contactJID : string) (db : SQLiteStore)
  : result (list StatusUpdate) :=
  Ok (order_by_desc StatusUpdate_PostedAt
        (List.filter (fun s => String.eqb (StatusUpdate_SenderJID s) contactJID
                               && (clock db <? StatusUpdate_ExpiresAt s)%Z)
                     (tbl_status_updates db))).

(** [func (r *SQLiteStateRepo) SaveState]: an [UPDATE] of the seeded row. *)
Definition SQLiteStateRepo_SaveState (s : State.State) (db : SQLiteStore)
  : option error * SQLiteStore :=
  (None, tick (with_bridge_state s db)).

(** [id INTEGER PRIMARY KEY AUTOINCREMENT]: one above the largest id. *)
Definition next_id (rows : list Transition) : Z :=
  (fold_right Z.max 0 (map Transition_ID rows) + 1)%Z.

(** [func (r *SQLiteStateRepo) LogTransition]: the row takes the next id,
    [time.Now()] as its timestamp and the default, empty, error. *)
Definition SQLiteStateRepo_LogTransition (from to : State.State) (trigger : string)
           (db : SQLiteStore) : option error * SQLiteStore :=
  (None,
   tick (with_transitions
           (tbl_transitions db
              ++ [ {| Transition_ID := next_id (tbl_transitions db);
                      Transition_FromState := from;
                      Transition_ToState := to;
                      Transition_Trigger := trigger;
                      Transition_Timestamp := clock db;
                      Transition_Error := "" |} ]) db)).

(** [func (r *SQLiteStateRepo) GetTransitionHistory] *)
Definition SQLiteStateRepo_GetTransitionHistory (limit : Z) (db : SQLiteStore)
  : result (list Transition) :=
  Ok (sql_limit limit (order_by_desc Transition_Timestamp (tbl_transitions db))).

#[global] Instance SQLiteStore_Repositories : Repositories SQLiteStore :=
  {| Messages_Store := SQLiteMessageRepo_Store;
     Messages_List := SQLiteMessageRepo_List;
     Chats_Upsert := SQLiteChatRepo_Upsert;
     Chats_List := SQLiteChatRepo_List;
     Chats_GetByJID := SQLiteChatRepo_GetByJID;
     Chats_UpdateLastMessage := SQLiteChatRepo_UpdateLastMessage;
     Contacts_Search := SQLiteContactRepo_Search;
     Contacts_GetByJID := SQLiteContactRepo_GetByJID;
     Contacts_GetBlocked := SQLiteContactRepo_GetBlocked;
     State_SaveState := SQLiteStateRepo_SaveState;
     State_LogTransition := SQLiteStateRepo_LogTransition;
     State_GetTransitionHistory := SQLiteStateRepo_GetTransitionHistory |}.

End Store.

(* ===================================================================== *)
(** ** package bridge                                                     *)
(* ===================================================================== *)
Module Bridge.
Import State Store.

(** [type EventType int] (events.go) *)
Inductive EventType : Type :=
  | EventMessage
  | EventReceipt
  | EventPresence
  | EventGroupUpdate
  | EventConnectionChange
  | EventHistorySync
  | EventCallOffer
  | EventChatArchive
  | EventQRCode.

Definition EventType_String (e : EventType) : string :=
  match e with
  | EventMessage => "message"
  | EventReceipt => "receipt"
  | EventPresence => "presence"
  | EventGroupUpdate => "group_update"
  | EventConnectionChange => "connection_change"
  | EventHistorySync => "history_sync"
  | EventCallOffer => "call_offer"
  | EventChatArchive => "chat_archive"
  | EventQRCode => "qr_code"
  end.

(** [type MessagePayload struct] *)
Record MessagePayload : Type := mkMessagePayload
  { MP_ID : string;
    MP_ChatJID : string;
    MP_Sender : string;
    MP_Content : string;
    MP_IsFromMe : bool;
    MP_MediaType : string;
    MP_Timestamp : Z }.

(** [type QRCodePayload struct] *)
Record QRCodePayload : Type := mkQRCodePayload { QR_Code : string }.

(** [type ConnectionPayload struct] *)
Record ConnectionPayload : Type := mkConnectionPayload
  { CP_Connected : bool; CP_Reason : string }.

(** [Payload interface{}]: the dynamic type of the value an event carries. *)
Inductive Payload : Type :=
  | PayloadMessage (p : MessagePayload)
  | PayloadQRCode (p : QRCodePayload)
  | PayloadConnection (p : ConnectionPayload)
  | PayloadOther.

(** [type Event struct] *)
Record Event : Type := mkEvent
  { Event_Type : EventType;
    Event_Payload : Payload;
    Event_Timestamp : Z }.

(** [func NewEvent(t EventType, payload interface{}) Event] *)
Definition NewEvent (t : EventType) (payload : Payload) (now : Z) : Event :=
  {| Event_Type := t; Event_Payload := payload; Event_Timestamp := now |}.

(** What the bridge writes to its [slog.Logger]. *)
Inductive Level : Type := LevelDebug | LevelInfo | LevelWarn | LevelError.

Record LogRecord : Type := mkLog { log_level : Level; log_msg : string }.

(** A buffered Go channel of events: [make(chan Event, capacity)]. *)
Record Chan : Type := mkChan
  { buffer : list Event;
    capacity : nat;
    closed : bool }.

Definition make_chan (capacity : nat) : Chan :=
  {| buffer := []; capacity := capacity; closed := false |}.

(** The outcome of the send case of a [select] that has a [default]. *)
Inductive TrySend : Type :=
  | Sent (c : Chan)
  | WouldBlock
  | PanicClosed.

Definition try_send (evt : Event) (c : Chan) : TrySend :=
  if closed c then PanicClosed
  else if (length (buffer c) <? capacity c)%nat
       then Sent {| buffer := buffer c ++ [evt];
                    capacity := capacity c;
                    closed := closed c |}
       else WouldBlock.

(** One receive of [for evt := range b.events]. *)
Definition receive (c : Chan) : option (Event * Chan) :=
  match buffer c with
  | [] => None
  | evt :: rest =>
      Some (evt, {| buffer := rest; capacity := capacity c; closed := closed c |})
  end.

(** The operations of the [WhatsAppClient] interface that the bridge
    forwards to, with their arguments. *)
Inductive ClientRequest : Type :=
  | ReqSendMessage (jid text : string)
  | ReqReplyToMessage (chatJID messageID text : string)
  | ReqForwardMessage (sourceChatJID messageID targetJID : string)
  | ReqEditMessage (chatJID messageID newContent : string)
  | ReqDeleteMessage (chatJID messageID : string) (forEveryone : bool)
  | ReqReactToMessage (chatJID messageID emoji : string)
  | ReqSendImage (jid imagePath caption : string)
  | ReqSendVideo (jid videoPath caption : string)
  | ReqSendAudio (jid audioPath : string) (asVoice : bool)
  | ReqSendDocument (jid filePath filename : string)
  | ReqSendLocation (jid : string) (lat lon : Q) (name address : string)
  | ReqSendContactCard (jid contactJID : string)
  | ReqDownloadMedia (chatJID messageID savePath : string)
  | ReqArchiveChat (jid : string) (archive : bool)
  | ReqPinChat (jid : string) (pin : bool)
  | ReqMuteChat (jid : string) (mute : bool) (duration : string)
  | ReqMarkChatRead (jid : string)
  | ReqDeleteChat (jid : string)
  | ReqBlockContact (jid : string) (block : bool)
  | ReqCheckPhoneRegistered (phone : string)
  | ReqCreateGroup (name : string) (participants : list string)
  | ReqGetGroupInfo (jid : string)
  | ReqLeaveGroup (jid : string)
  | ReqAddGroupMembers (groupJID : string) (participants : list string)
  | ReqRemoveGroupMembers (groupJID : string) (participants : list string)
  | ReqPromoteAdmin (groupJID : string) (participants : list string)
  | ReqDemoteAdmin (groupJID : string) (participants : list string)
  | ReqSetGroupName (groupJID name : string)
  | ReqSetGroupTopic (groupJID topic : string)
  | ReqSetGroupPhoto (groupJID imagePath : string)
  | ReqGetInviteLink (groupJID : string)
  | ReqRevokeInviteLink (groupJID : string)
  | ReqJoinViaInvite (inviteLink : string)
  | ReqSubscribePresence (jid : string)
  | ReqSendTyping (jid : string)
  | ReqSendRecording (jid : string)
  | ReqSetOnline
  | ReqSetOffline
  | ReqPostTextStatus (text backgroundColor : string)
  | ReqPostImageStatus (imagePath caption : string)
  | ReqDeleteStatus (statusID : string).

(** What a forwarded operation returns besides its error. *)
Inductive Value : Type :=
  | VNone
  | VString (s : string)
  | VBool (b : bool)
  | VAny (description : option string).

Record Response : Type := mkResponse
  { resp_value : Value;
    resp_err : option error }.

(** The zero value a method returns next to a non-nil error. *)
Definition zero_value (req : ClientRequest) : Value :=
  match req with
  | ReqSendMessage _ _ | ReqReplyToMessage _ _ _ | ReqForwardMessage _ _ _
  | ReqSendImage _ _ _ | ReqSendVideo _ _ _ | ReqSendAudio _ _ _
  | ReqSendDocument _ _ _ | ReqSendLocation _ _ _ _ _ | ReqSendContactCard _ _
  | ReqDownloadMedia _ _ _ | ReqCreateGroup _ _ | ReqGetInviteLink _
  | ReqRevokeInviteLink _ | ReqJoinViaInvite _ => VString ""
  | ReqCheckPhoneRegistered _ => VBool false
  | ReqGetGroupInfo _ => VAny None
  | _ => VNone
  end.

(** [type WhatsAppClient interface]: the protocol client, with state [C]. *)
Class WhatsAppClient (C : Type) : Type :=
  { Client_Connect : C -> option error * C;
    Client_Disconnect : C -> C;
    Client_IsConnected : C -> bool;
    Client_IsLoggedIn : C -> bool;
    Client_AddEventHandler : C -> C;
    Client_call : ClientRequest -> C -> Response * C }.

(** [type FakeClient struct] of bridge_test.go, with the calls it answers. *)
Record FakeMessage : Type := mkFakeMessage { FM_JID : string; FM_Content : string }.

Record FakeClient : Type := mkFakeClient
  { connected : bool;
    loggedIn : bool;
    sentMessages : list FakeMessage;
    hasEventHandler : bool }.

Definition NewFakeClient : FakeClient :=
  {| connected := false; loggedIn := false; sentMessages := [];
     hasEventHandler := false |}.

Definition SetLoggedIn (v : bool) (f : FakeClient) : FakeClient :=
  {| connected := connected f; loggedIn := v; sentMessages := sentMessages f;
     hasEventHandler := hasEventHandler f |}.

Definition FakeClient_call (req : ClientRequest) (f : FakeClient) : Response * FakeClient :=
  match req with
  | ReqSendMessage jid text =>
      ({| resp_value := VString ("msg-" ++ jid); resp_err := None |},
       {| connected := connected f; loggedIn := loggedIn f;
          sentMessages := sentMessages f ++ [ {| FM_JID := jid; FM_Content := text |} ];
          hasEventHandler := hasEventHandler f |})
  | _ => ({| resp_value := zero_value req; resp_err := None |}, f)
  end.

#[global] Instance FakeClient_WhatsAppClient : WhatsAppClient FakeClient :=
  {| Client_Connect := fun f =>
       (None, {| connected := true; loggedIn := loggedIn f;
                 sentMessages := sentMessages f;
                 hasEventHandler := hasEventHandler f |});
     Client_Disconnect := fun f =>
       {| connected := false; loggedIn := loggedIn f;
          sentMessages := sentMessages f;
          hasEventHandler := hasEventHandler f |};
     Client_IsConnected := connected;
     Client_IsLoggedIn := loggedIn;
     Client_AddEventHandler := fun f =>
       {| connected := connected f; loggedIn := loggedIn f;
          sentMessages := sentMessages f; hasEventHandler := true |};
     Client_call := FakeClient_call |}.

(** The parts of a raw protocol message ([waE2E.Message]) that
    [extractMessageText] looks at; an absent sub-message is [None]. *)
Record E2EMessage : Type := mkE2EMessage
  { Conversation : option string;
    ExtendedTextMessage_Text : option string;
    ImageMessage_Caption : option string;
    VideoMessage_Caption : option string;
    DocumentMessage_Title : option string;
    AudioMessage : bool;
    StickerMessage : bool;
    LocationMessage : bool;
    ContactMessage_DisplayName : option string;
    ReactionMessage : bool }.

(** [events.Message]: the message info and the (possibly nil) content. *)
Record RawMessage : Type := mkRawMessage
  { Info_Chat : string;
    Info_Sender : string;
    Info_IsFromMe : bool;
    Info_IsGroup : bool;
    Info_Timestamp : Z;
    Info_ID : string;
    Raw_Message : option E2EMessage }.

(** [func extractMessageText(msg *waE2E.Message) string] *)
Definition extractMessageText (msg : option E2EMessage) : string :=
  match msg with
  | None => ""
  | Some m =>
      match Conversation m with
      | Some text => text
      | None =>
      match ExtendedTextMessage_Text m with
      | Some text => text
      | None =>
      match ImageMessage_Caption m with
      | Some caption => caption
      | None =>
      match VideoMessage_Caption m with
      | Some caption => caption
      | None =>
      match DocumentMessage_Title m with
      | Some title => title
      | None =>
      if AudioMessage m then "[audio]"
      else if StickerMessage m then "[sticker]"
      else if LocationMessage m then "[location]"
      else match ContactMessage_DisplayName m with
           | Some name => "[contact: " ++ name ++ "]"
           | None => if ReactionMessage m then "[reaction]" else ""
           end
      end end end end end
  end.

Section Bridge.
(** [DB] is the store, [C] the protocol client, and [W] the part of the
    process outside the bridge that registered listeners may act upon. *)
Context {DB : Type} `{Repositories DB} {C : Type} `{WhatsAppClient C} {W : Type}.

(** The fields of [type Bridge struct] other than the state machine. *)
Record Fields : Type := mkFields
  { client : C;
    store : DB;
    config : Config.Config;
    log : list LogRecord;
    events : Chan;
    eventListeners : list (Event -> W -> W);
    stateListeners : list (State -> State -> W -> W);
    cancelled : bool }.

(** What a transition callback of the bridge's machine can reach. *)
Definition Ambient : Type := (Fields * W)%type.

(** [type Bridge struct] *)
Record Bridge : Type := mkBridge
  { stateMachine : Machine Ambient;
    fields : Fields }.

Definition with_log (r : LogRecord) (f : Fields) : Fields :=
  {| client := client f; store := store f; config := config f;
     log := log f ++ [r]; events := events f;
     eventListeners := eventListeners f; stateListeners := stateListeners f;
     cancelled := cancelled f |}.

Definition with_store (db : DB) (f : Fields) : Fields :=
  {| client := client f; store := db; config := config f;
     log := log f; events := events f;
     eventListeners := eventListeners f; stateListeners := stateListeners f;
     cancelled := cancelled f |}.

Definition with_client (c : C) (f : Fields) : Fields :=
  {| client := c; store := store f; config := config f;
     log := log f; events := events f;
     eventListeners := eventListeners f; stateListeners := stateListeners f;
     cancelled := cancelled f |}.

Definition with_events (ch : Chan) (f : Fields) : Fields :=
  {| client := client f; store := store f; config := config f;
     log := log f; events := ch;
     eventListeners := eventListeners f; stateListeners := stateListeners f;
     cancelled := cancelled f |}.

(** A repository write whose error is logged and otherwise ignored. *)
Definition logged_write (write : DB -> option error * DB) (lvl : Level)
           (msg : string) (f : Fields) : Fields :=
  match write (store f) with
  | (Some _, db) => with_log {| log_level := lvl; log_msg := msg |} (with_store db f)
  | (None, db) => with_store db f
  end.

(** The callback [NewBridge] registers with [OnTransition]. *)
Definition transitionCallback : TransitionCallback Ambient :=
  fun from to trigger '(f, w) =>
    let f := with_log {| log_level := LevelInfo; log_msg := "state transition" |} f in
    let f := logged_write (State_SaveState to) LevelError "failed to save state" f in
    let f := logged_write (State_LogTransition from to (Trigger_String trigger))
                          LevelError "failed to log transition" f in
    (f, fold_left (fun acc listener => listener from to acc) (stateListeners f) w).

(** [func NewBridge(cfg, storeDB, client) *Bridge] *)
Definition NewBridge (cfg : Config.Config) (storeDB : DB) (cl : C) : Bridge :=
  {| stateMachine := OnTransition NewMachine transitionCallback;
     fields := {| client := cl; store := storeDB; config := cfg; log := [];
                  events := make_chan 100;
                  eventListeners := []; stateListeners := [];
                  cancelled := false |} |}.

(** [b.stateMachine.Fire(ctx, trigger)] as the bridge's methods issue it. *)
Definition fire (trigger : Trigger) (b : Bridge) (w : W)
  : option TransitionError * Bridge * W :=
  let '(err, m, (f, w')) := Fire (stateMachine b) trigger (fields b, w) in
  (err, {| stateMachine := m; fields := f |}, w').

(** Fire and only log a refusal. *)
Definition fire_logged (trigger : Trigger) (b : Bridge) (w : W) : Bridge * W :=
  match fire trigger b w with
  | (Some _, b', w') =>
      ({| stateMachine := stateMachine b';
          fields := with_log {| log_level := LevelError;
                                log_msg := "state transition failed" |} (fields b') |},
       w')
  | (None, b', w') => (b', w')
  end.

(** [func (b *Bridge) CurrentState() state.State] *)
Definition CurrentState (b : Bridge) : State := sm (stateMachine b).

(** [func (b *Bridge) IsReady() bool] *)
Definition IsReady (b : Bridge) : bool := State_eqb (CurrentState b) StateReady.

Definition with_fields (f : Fields) (b : Bridge) : Bridge :=
  {| stateMachine := stateMachine b; fields := f |}.

(** [func (b *Bridge) Connect(ctx) error]; [ctxCancelled] tells whether
    the caller's context was already cancelled when the client failed. *)
Definition Connect (ctxCancelled : bool) (b : Bridge) (w : W)
  : option error * Bridge * W :=
  match fire TriggerConnect b w with
  | (Some e, b1, w1) =>
      (Some (ErrorString ("failed to transition to connecting: "
                            ++ TransitionError_Error e)), b1, w1)
  | (None, b1, w1) =>
      let b2 := with_fields (with_client (Client_AddEventHandler (client (fields b1)))
                                         (fields b1)) b1 in
      match Client_Connect (client (fields b2)) with
      | (Some e, c) =>
          let b3 := with_fields (with_client c (fields b2)) b2 in
          let '(b4, w4) :=
            if ctxCancelled then (b3, w1) else fire_logged TriggerFatalError b3 w1 in
          (Some (ErrorString ("failed to connect: " ++ error_Error e)), b4, w4)
      | (None, c) =>
          let b3 := with_fields (with_client c (fields b2)) b2 in
          if Client_IsLoggedIn (client (fields b3)) then
            let '(b4, w4) := fire_logged TriggerAuthenticated b3 w1 in
            let '(b5, w5) := fire_logged TriggerSyncComplete b4 w4 in
            (None, b5, w5)
          else
            let '(b4, w4) := fire_logged TriggerQRRequired b3 w1 in
            (None, b4, w4)
      end
  end.

(** [func (b *Bridge) Disconnect()] *)
Definition Disconnect (b : Bridge) (w : W) : Bridge * W :=
  let b1 := with_fields (with_client (Client_Disconnect (client (fields b)))
                                     (fields b)) b in
  fire_logged TriggerDisconnect b1 w.

(** The not-ready error every forwarding method returns. *)
Definition notReadyError (b : Bridge) : error :=
  ErrorString ("bridge not ready, current state: " ++ State_String (CurrentState b)).

(** The forwarding methods ([ReplyToMessage] ... [DeleteStatus]): the
    ready check, then the same call on the client. *)
Definition forward (req : ClientRequest) (b : Bridge) : Response * Bridge :=
  if negb (IsReady b) then
    ({| resp_value := zero_value req; resp_err := Some (notReadyError b) |}, b)
  else
    let '(resp, c) := Client_call req (client (fields b)) in
    (resp, with_fields (with_client c (fields b)) b).

(** [func (b *Bridge) SendMessage(ctx, jid, text) (string, error)] *)
Definition SendMessage (jid text : string) (b : Bridge) : Response * Bridge :=
  if negb (IsReady b) then
    ({| resp_value := VString ""; resp_err := Some (notReadyError b) |}, b)
  else
    let '(resp, c) := Client_call (ReqSendMessage jid text) (client (fields b)) in
    let b' := with_fields (with_client c (fields b)) b in
    match resp_err resp with
    | Some e =>
        ({| resp_value := VString "";
            resp_err := Some (ErrorString ("failed to send message: " ++ error_Error e)) |},
         b')
    | None => ({| resp_value := resp_value resp; resp_err := None |}, b')
    end.

(** Any method of the bridge's operation surface, by request. *)
Definition perform (req : ClientRequest) (b : Bridge) : Response * Bridge :=
  match req with
  | ReqSendMessage jid text => SendMessage jid text b
  | _ => forward req b
  end.

(** [func (b *Bridge) EmitEvent(evt Event)]; [None] is the run-time panic
    of a send on a closed channel. *)
Definition EmitEvent (evt : Event) (b : Bridge) : option Bridge :=
  match try_send evt (events (fields b)) with
  | Sent ch => Some (with_fields (with_events ch (fields b)) b)
  | WouldBlock =>
      Some (with_fields
              (with_log {| log_level := LevelWarn;
                           log_msg := "event queue full, dropping event" |}
                        (fields b)) b)
  | PanicClosed => None
  end.

(** [func (b *Bridge) OnEvent(handler func(Event))] *)
Definition OnEvent (handler : Event -> W -> W) (b : Bridge) : Bridge :=
  let f := fields b in
  with_fields {| client := client f; store := store f; config := config f;
                 log := log f; events := events f;
                 eventListeners := eventListeners f ++ [handler];
                 stateListeners := stateListeners f;
                 cancelled := cancelled f |} b.

(** [func (b *Bridge) OnStateChange(handler func(from, to state.State))] *)
Definition OnStateChange (handler : State -> State -> W -> W) (b : Bridge) : Bridge :=
  let f := fields b in
  with_fields {| client := client f; store := store f; config := config f;
                 log := log f; events := events f;
                 eventListeners := eventListeners f;
                 stateListeners := stateListeners f ++ [handler];
                 cancelled := cancelled f |} b.

(** The [&store.Message{...}] literal of [handleMessage]; the fields it
    does not name keep their zero values. *)
Definition message_of_payload (payload : MessagePayload) : Message :=
  {| Message_ID := MP_ID payload;
     Message_ChatJID := MP_ChatJID payload;
     Message_Sender := MP_Sender payload;
     Message_Content := MP_Content payload;
     Message_Timestamp := MP_Timestamp payload;
     Message_IsFromMe := MP_IsFromMe payload;
     Message_MediaType := MP_MediaType payload;
     Message_Filename := "";
     Message_MediaURL := "";
     Message_MediaKey := [];
     Message_FileSHA256 := [];
     Message_FileLength := 0%Z;
     Message_QuotedID := "";
     Message_QuotedSender := "";
     Message_IsStarred := false;
     Message_IsDeleted := false;
     Message_Reactions := [] |}.

(** [func (b *Bridge) handleMessage(evt Event)] *)
Definition handleMessage (evt : Event) (f : Fields) : Fields :=
  match Event_Payload evt with
  | PayloadMessage payload =>
      let msg := message_of_payload payload in
      let f := logged_write (Messages_Store msg) LevelError "failed to store message" f in
      logged_write (Chats_UpdateLastMessage (MP_ChatJID payload) (MP_Timestamp payload))
                   LevelError "failed to update chat" f
  | _ => with_log {| log_level := LevelError; log_msg := "invalid message payload" |} f
  end.

(** [func (b *Bridge) handleEvent(evt Event)] *)
Definition handleEvent (evt : Event) (b : Bridge) (w : W) : Bridge * W :=
  let f := with_log {| log_level := LevelDebug; log_msg := "processing event" |}
                    (fields b) in
  let w' := fold_left (fun acc listener => listener evt acc) (eventListeners f) w in
  match Event_Type evt with
  | EventMessage => (with_fields (handleMessage evt f) b, w')
  | EventQRCode => (with_fields f b, w')
  | _ => (with_fields f b, w')
  end.

(** [func (b *Bridge) persistMessage(ctx, evt *events.Message)]: the
    handler registered on the protocol client for raw message events. *)
Definition persistMessage (evt : RawMessage) (f : Fields) : Fields :=
  let chatJID := Info_Chat evt in
  let content := extractMessageText (Raw_Message evt) in
  let sender := if Info_IsFromMe evt then "me" else Info_Sender evt in
  let chat :=
    {| Chat_JID := chatJID; Chat_Name := ""; Chat_IsGroup := Info_IsGroup evt;
       Chat_LastMessageTime := Info_Timestamp evt; Chat_UnreadCount := 0%Z;
       Chat_Archived := false; Chat_Pinned := false; Chat_Muted := false;
       Chat_MutedUntil := None; Chat_UpdatedAt := 0%Z |} in
  let f := logged_write (Chats_Upsert chat) LevelError
                        "failed to upsert chat on message" f in
  let f := logged_write (Chats_UpdateLastMessage chatJID (Info_Timestamp evt))
                        LevelDebug "failed to update last message time" f in
  let msg :=
    {| Message_ID := Info_ID evt;
       Message_ChatJID := chatJID;
       Message_Sender := sender;
       Message_Content := content;
       Message_Timestamp := Info_Timestamp evt;
       Message_IsFromMe := Info_IsFromMe evt;
       Message_MediaType := "";
       Message_Filename := "";
       Message_MediaURL := "";
       Message_MediaKey := [];
       Message_FileSHA256 := [];
       Message_FileLength := 0%Z;
       Message_QuotedID := "";
       Message_QuotedSender := "";
       Message_IsStarred := false;
       Message_IsDeleted := false;
       Message_Reactions := [] |} in
  logged_write (Messages_Store msg) LevelDebug "failed to store message" f.

(** One turn of [func (b *Bridge) processEvents()]: the oldest queued
    event, if any, is received and handled. *)
Definition processNext (b : Bridge) (w : W) : option (Bridge * W) :=
  match receive (events (fields b)) with
  | Some (evt, ch) =>
      Some (handleEvent evt (with_fields (with_events ch (fields b)) b) w)
  | None => None
  end.

(** The loop, until the queue is empty. *)
Fixpoint processEvents (fuel : nat) (b : Bridge) (w : W) : Bridge * W :=
  match fuel with
  | O => (b, w)
  | S n =>
      match processNext b w with
      | Some (b', w') => processEvents n b' w'
      | None => (b, w)
      end
  end.

(** [func (b *Bridge) Stop()]: the shutdown trigger is fired, the context
    cancelled and the channel closed; [b.wg.Wait()] then returns when the
    loop of [processEvents] has received and handled every event that was
    still queued and, the channel being closed and empty, has ended.
    [None] is the run-time panic of closing a channel twice. *)
Definition Stop (b : Bridge) (w : W) : option (Bridge * W) :=
  let '(b1, w1) := fire_logged TriggerShutdown b w in
  let f := fields b1 in
  if closed (events f) then None
  else
    let b2 := with_fields
                {| client := client f; store := store f; config := config f;
                   log := log f;
                   events := {| buffer := buffer (events f);
                                capacity := capacity (events f);
                                closed := true |};
                   eventListeners := eventListeners f;
                   stateListeners := stateListeners f;
                   cancelled := true |} b1 in
    Some (processEvents (length (buffer (events f))) b2 w1).
End Bridge.

Arguments Bridge DB C W : clear implicits.
Arguments Fields DB C W : clear implicits.

End Bridge.

(* ===================================================================== *)
(** ** package api (tools.go, errors.go, handlers_*.go)                   *)
(* ===================================================================== *)
Module Api.
Import State Store.

(** Tool name constants (tools.go). *)
Definition ToolSendMessage := "send_message".
Definition ToolReplyToMessage := "reply_to_message".
Definition ToolForwardMessage := "forward_message".
Definition ToolEditMessage := "edit_message".
Definition ToolDeleteMessage := "delete_message".
Definition ToolReactToMessage := "react_to_message".
Definition ToolStarMessage := "star_message".
Definition ToolUnstarMessage := "unstar_message".
Definition ToolListChats := "list_chats".
Definition ToolGetChat := "get_chat".
Definition ToolListMessages := "list_messages".
Definition ToolArchiveChat := "archive_chat".
Definition ToolUnarchiveChat := "unarchive_chat".
Definition ToolPinChat := "pin_chat".
Definition ToolUnpinChat := "unpin_chat".
Definition ToolMuteChat := "mute_chat".
Definition ToolUnmuteChat := "unmute_chat".
Definition ToolMarkChatRead := "mark_chat_read".
Definition ToolDeleteChat := "delete_chat".
Definition ToolSearchContacts := "search_contacts".
Definition ToolGetContact := "get_contact".
Definition ToolBlockContact := "block_contact".
Definition ToolUnblockContact := "unblock_contact".
Definition ToolGetBlockedContacts := "get_blocked_contacts".
Definition ToolCheckPhoneRegistered := "check_phone_registered".
Definition ToolCreateGroup := "create_group".
Definition ToolGetGroupInfo := "get_group_info".
Definition ToolLeaveGroup := "leave_group".
Definition ToolAddGroupMembers := "add_group_members".
Definition ToolRemoveGroupMembers := "remove_group_members".
Definition ToolPromoteAdmin := "promote_admin".
Definition ToolDemoteAdmin := "demote_admin".
Definition ToolSetGroupName := "set_group_name".
Definition ToolSetGroupTopic := "set_group_topic".
Definition ToolSetGroupPhoto := "set_group_photo".
Definition ToolGetInviteLink := "get_invite_link".
Definition ToolRevokeInviteLink := "revoke_invite_link".
Definition ToolJoinViaInvite := "join_via_invite".
Definition ToolSendImage := "send_image".
Definition ToolSendVideo := "send_video".
Definition ToolSendAudio := "send_audio".
Definition ToolSendDocument := "send_document".
Definition ToolSendLocation := "send_location".
Definition ToolSendContactCard := "send_contact_card".
Definition ToolDownloadMedia := "download_media".
Definition ToolSubscribePresence := "subscribe_presence".
Definition ToolSendTyping := "send_typing".
Definition ToolSendRecording := "send_recording".
Definition ToolSetOnline := "set_online".
Definition ToolSetOffline := "set_offline".
Definition ToolPostTextStatus := "post_text_status".
Definition ToolPostImageStatus := "post_image_status".
Definition ToolGetStatusUpdates := "get_status_updates".
Definition ToolDeleteStatus := "delete_status".
Definition ToolGetBridgeStatus := "get_bridge_status".
Definition ToolGetConnectionHistory := "get_connection_history".

(** Membership of a name in a [case a, b, c:] list. *)
Definition is_one_of (name : string) (names : list string) : bool :=
  existsb (String.eqb name) names.

(** The names of the [case] list of [requiresReady]. *)
Definition read_only_tools : list string :=
  [ ToolGetBridgeStatus; ToolGetConnectionHistory; ToolListChats; ToolGetChat;
    ToolListMessages; ToolSearchContacts; ToolGetContact; ToolGetBlockedContacts ].

(** [func requiresReady(name string) bool] *)
Definition requiresReady (name : string) : bool :=
  if is_one_of name read_only_tools then false else true.

(** The other names [HandleTool] has a [case] for, except [send_message]. *)
Definition other_tools : list string :=
  [ ToolArchiveChat; ToolUnarchiveChat; ToolPinChat; ToolUnpinChat;
    ToolMuteChat; ToolUnmuteChat; ToolMarkChatRead; ToolDeleteChat;
    ToolBlockContact; ToolUnblockContact; ToolCheckPhoneRegistered;
    ToolReplyToMessage; ToolForwardMessage; ToolEditMessage;
    ToolDeleteMessage; ToolReactToMessage; ToolStarMessage; ToolUnstarMessage;
    ToolCreateGroup; ToolGetGroupInfo; ToolLeaveGroup; ToolAddGroupMembers;
    ToolRemoveGroupMembers; ToolPromoteAdmin; ToolDemoteAdmin;
    ToolSetGroupName; ToolSetGroupTopic; ToolSetGroupPhoto;
    ToolGetInviteLink; ToolRevokeInviteLink; ToolJoinViaInvite;
    ToolSendImage; ToolSendVideo; ToolSendAudio; ToolSendDocument;
    ToolSendLocation; ToolSendContactCard; ToolDownloadMedia;
    ToolSubscribePresence; ToolSendTyping; ToolSendRecording;
    ToolSetOnline; ToolSetOffline;
    ToolPostTextStatus; ToolPostImageStatus; ToolGetStatusUpdates;
    ToolDeleteStatus ].

(** Error codes (errors.go). *)
Definition ErrNotReady := "NOT_READY".
Definition ErrInvalidJID := "INVALID_JID".
Definition ErrMessageFailed := "MESSAGE_FAILED".
Definition ErrNotFoundCode := "NOT_FOUND".
Definition ErrInvalidInput := "INVALID_INPUT".
Definition ErrInternal := "INTERNAL_ERROR".

(** [type MCPError struct] *)
Record MCPError : Type := mkMCPError
  { Err_Code : string;
    Err_Message : string;
    Err_Retry : bool }.

(** [func NewNotReadyError(state string) *MCPError] *)
Definition NewNotReadyError (state : string) : MCPError :=
  {| Err_Code := ErrNotReady;
     Err_Message := "Bridge not ready, current state: " ++ state;
     Err_Retry := true |}.

(** [func NewMessageFailedError(err error) *MCPError] *)
Definition NewMessageFailedError (err : error) : MCPError :=
  {| Err_Code := ErrMessageFailed;
     Err_Message := "Failed to send message: " ++ error_Error err;
     Err_Retry := true |}.

(** [func NewNotFoundError(resource string) *MCPError] *)
Definition NewNotFoundError (resource : string) : MCPError :=
  {| Err_Code := ErrNotFoundCode;
     Err_Message := "Resource not found: " ++ resource;
     Err_Retry := false |}.

(** [func NewInvalidInputError(message string) *MCPError] *)
Definition NewInvalidInputError (message : string) : MCPError :=
  {| Err_Code := ErrInvalidInput;
     Err_Message := message; Err_Retry := false |}.

(** [func NewInternalError(err error) *MCPError] *)
Definition NewInternalError (err : error) : MCPError :=
  {| Err_Code := ErrInternal;
     Err_Message := "Internal error: " ++ error_Error err;
     Err_Retry := false |}.

(** A decoded JSON argument ([interface{}] values of the [args] map). *)
#[warnings="-register-all"]
Inductive ArgValue : Type :=
  | ArgString (s : string)
  | ArgFloat (q : Q)
  | ArgInt (z : Z)
  | ArgBool (b : bool)
  | ArgArray (items : list ArgValue)
  | ArgNull.

(** [args map[string]interface{}] *)
Abbreviation Args := (gmap string ArgValue).

(** [func getString(args, key) string] *)
Definition getString (args : Args) (key : string) : string :=
  match args !! key with
  | Some (ArgString v) => v
  | _ => ""
  end.

(** [func getInt(args, key, defaultVal) int] *)
Definition getInt (args : Args) (key : string) (defaultVal : Z) : Z :=
  match args !! key with
  | Some (ArgFloat v) => Backoff.truncate v
  | Some (ArgInt v) => v
  | _ => defaultVal
  end.

(** [func getBool(args, key, defaultVal) bool] *)
Definition getBool (args : Args) (key : string) (defaultVal : bool) : bool :=
  match args !! key with
  | Some (ArgBool v) => v
  | _ => defaultVal
  end.

(** What a handler hands to [successResult] or [errorResult] for
    marshalling into the text block of the result. *)
Inductive Data : Type :=
  | DataStatus (s : Health.Status)
  | DataTransitions (l : list Transition)
  | DataChats (l : list Chat)
  | DataChat (c : Chat)
  | DataMessages (l : list Message)
  | DataContacts (l : list Contact)
  | DataContact (c : Contact)
  | DataObject (members : list (string * ArgValue))
  | DataError (e : MCPError).

(** [type CallToolResult struct] with its single text block. *)
Record CallToolResult : Type := mkResult
  { Content : Data;
    IsError : bool }.

(** [func (h *Handler) successResult(data)] *)
Definition successResult (data : Data) : CallToolResult :=
  {| Content := data; IsError := false |}.

(** [func (h *Handler) errorResult(err *MCPError)] *)
Definition errorResult (err : MCPError) : CallToolResult :=
  {| Content := DataError err; IsError := true |}.

(** The error codes a read-only query can end with. *)
Definition query_error_codes : list string :=
  [ ErrInvalidInput; ErrNotFoundCode; ErrInternal ].

(** The outcome of a query that was let through: its data, or an error
    with one of the query's own codes. *)
Definition is_query_outcome (r : CallToolResult) : Prop :=
  match Content r with
  | DataError e => IsError r = true /\ In (Err_Code e) query_error_codes
  | _ => IsError r = false
  end.

(** [type Bridge interface] of the api package: the operation surface a
    handler sees. *)
Class BridgeOps (B : Type) : Type :=
  { Bridge_CurrentState : B -> State;
    Bridge_IsReady : B -> bool;
    Bridge_perform : Bridge.ClientRequest -> B -> Bridge.Response * B }.

#[global] Instance Bridge_BridgeOps {DB C W : Type} `{Repositories DB}
  `{Bridge.WhatsAppClient C} : BridgeOps (Bridge.Bridge DB C W) :=
  {| Bridge_CurrentState := Bridge.CurrentState;
     Bridge_IsReady := Bridge.IsReady;
     Bridge_perform := Bridge.perform |}.

Section Handler.
Context {DB : Type} `{Repositories DB} {B : Type} `{BridgeOps B}.

(** [type Handler struct]; [bridge] may be nil, and [stateM] is the state
    of the machine that the handler and the health monitor were given. *)
Record Handler : Type := mkHandler
  { store : DB;
    health : Health.Monitor;
    bridge : option B;
    stateM : State }.

(** The handlers of the tools behind the ready gate, [send_message]
    apart; the gate decides before any of them runs. *)
Variable gatedHandler : string -> Args -> Handler -> CallToolResult * Handler.

(** [func (h *Handler) handleGetBridgeStatus] *)
Definition handleGetBridgeStatus (now : Z) (args : Args) (h : Handler) : CallToolResult :=
  successResult (DataStatus (Health.GetStatus (stateM h) now (health h))).

(** [func (h *Handler) handleGetConnectionHistory] *)
Definition handleGetConnectionHistory (args : Args) (h : Handler) : CallToolResult :=
  let limit := getInt args "limit" 20 in
  match State_GetTransitionHistory limit (store h) with
  | Err e => errorResult (NewInternalError e)
  | Ok history => successResult (DataTransitions history)
  end.

(** [func (h *Handler) handleListChats] *)
Definition handleListChats (args : Args) (h : Handler) : CallToolResult :=
  let limit := getInt args "limit" 50 in
  match Chats_List limit (store h) with
  | Err e => errorResult (NewInternalError e)
  | Ok chats => successResult (DataChats chats)
  end.

(** [func (h *Handler) handleGetChat] *)
Definition handleGetChat (args : Args) (h : Handler) : CallToolResult :=
  let jid := getString args "jid" in
  if String.eqb jid "" then errorResult (NewInvalidInputError "jid is required")
  else
    match Chats_GetByJID jid (store h) with
    | Err ErrNotFound => errorResult (NewNotFoundError "chat")
    | Err e => errorResult (NewInternalError e)
    | Ok chat => successResult (DataChat chat)
    end.

(** [func (h *Handler) handleListMessages] *)
Definition handleListMessages (args : Args) (h : Handler) : CallToolResult :=
  let chatJID := getString args "chat_jid" in
  if String.eqb chatJID "" then errorResult (NewInvalidInputError "chat_jid is required")
  else
    let limit := getInt args "limit" 50 in
    let before := getString args "before" in
    match Messages_List chatJID limit before (store h) with
    | Err e => errorResult (NewInternalError e)
    | Ok messages => successResult (DataMessages messages)
    end.

(** [func (h *Handler) handleSearchContacts] *)
Definition handleSearchContacts (args : Args) (h : Handler) : CallToolResult :=
  let query := getString args "query" in
  if String.eqb query "" then errorResult (NewInvalidInputError "query is required")
  else
    let limit := getInt args "limit" 20 in
    match Contacts_Search query limit (store h) with
    | Err e => errorResult (NewInternalError e)
    | Ok contacts => successResult (DataContacts contacts)
    end.

(** [func (h *Handler) handleGetContact] *)
Definition handleGetContact (args : Args) (h : Handler) : CallToolResult :=
  let jid := getString args "jid" in
  if String.eqb jid "" then errorResult (NewInvalidInputError "jid is required")
  else
    match Contacts_GetByJID jid (store h) with
    | Err ErrNotFound => errorResult (NewNotFoundError "contact")
    | Err e => errorResult (NewInternalError e)
    | Ok contact => successResult (DataContact contact)
    end.

(** [func (h *Handler) handleGetBlockedContacts] *)
Definition handleGetBlockedContacts (args : Args) (h : Handler) : CallToolResult :=
  match Contacts_GetBlocked (store h) with
  | Err e => errorResult (NewInternalError e)
  | Ok contacts => successResult (DataContacts contacts)
  end.

(** The same handler over another (or no) bridge. *)
Definition with_any_bridge (b : option B) (h : Handler) : Handler :=
  {| store := store h; health := health h; bridge := b; stateM := stateM h |}.

Definition with_bridge (b : B) (h : Handler) : Handler :=
  {| store := store h; health := health h; bridge := Some b; stateM := stateM h |}.

(** [func (h *Handler) handleSendMessage].  It is only reached past the
    gate, where [h.bridge] is not nil; with a nil bridge the call on it
    would fault, which the model answers with an internal error. *)
Definition handleSendMessage (args : Args) (h : Handler) : CallToolResult * Handler :=
  let recipient := getString args "recipient" in
  if String.eqb recipient "" then
    (errorResult (NewInvalidInputError "recipient is required"), h)
  else
    let message := getString args "message" in
    if String.eqb message "" then
      (errorResult (NewInvalidInputError "message is required"), h)
    else
      match bridge h with
      | None => (errorResult (NewInternalError (ErrorString "nil bridge")), h)
      | Some b =>
          let '(resp, b') := Bridge_perform (Bridge.ReqSendMessage recipient message) b in
          match Bridge.resp_err resp with
          | Some e => (errorResult (NewMessageFailedError e), with_bridge b' h)
          | None =>
              (successResult
                 (DataObject
                    [ ("success", ArgBool true);
                      ("message_id",
                       match Bridge.resp_value resp with
                       | Bridge.VString s => ArgString s
                       | _ => ArgNull
                       end) ]),
               with_bridge b' h)
          end
      end.

(** The [switch name] of [HandleTool]. *)
Definition dispatch (now : Z) (name : string) (args : Args) (h : Handler)
  : CallToolResult * Handler :=
  if String.eqb name ToolGetBridgeStatus then (handleGetBridgeStatus now args h, h)
  else if String.eqb name ToolGetConnectionHistory then (handleGetConnectionHistory args h, h)
  else if String.eqb name ToolListChats then (handleListChats args h, h)
  else if String.eqb name ToolGetChat then (handleGetChat args h, h)
  else if String.eqb name ToolListMessages then (handleListMessages args h, h)
  else if String.eqb name ToolSearchContacts then (handleSearchContacts args h, h)
  else if String.eqb name ToolGetContact then (handleGetContact args h, h)
  else if String.eqb name ToolGetBlockedContacts then (handleGetBlockedContacts args h, h)
  else if String.eqb name ToolSendMessage then handleSendMessage args h
  else if is_one_of name other_tools then gatedHandler name args h
  else (errorResult (NewInvalidInputError ("Unknown tool: " ++ name)), h).

(** [h.bridge == nil || !h.bridge.IsReady()] *)
Definition bridgeNotReady (h : Handler) : bool :=
  match bridge h with
  | None => true
  | Some b => negb (Bridge_IsReady b)
  end.

(** The state named in the not-ready error. *)
Definition reportedState (h : Handler) : string :=
  match bridge h with
  | None => "disconnected"
  | Some b => State_String (Bridge_CurrentState b)
  end.

(** [func (h *Handler) HandleTool(ctx, name, args)] *)
Definition HandleTool (now : Z) (name : string) (args : Args) (h : Handler)
  : CallToolResult * Handler :=
  if requiresReady name && bridgeNotReady h then
    (errorResult (NewNotReadyError (reportedState h)), h)
  else dispatch now name args h.
End Handler.

Arguments Handler DB B : clear implicits.

End Api.

(* ===================================================================== *)
(** ** The read-only queries: what a read-only tool asks of the store     *)
(* ===================================================================== *)
Module Queries.
Import State.

(** The specification lets "read-only queries against already-persisted
    data" through in any state.  [Query] names the question each of the
    eight read-only tools puts to the store (for the bridge status, to the
    health monitor); [parse_query] reads it from the name and the arguments
    of a call, with the required arguments and the default limits that the
    tools' input schemas advertise (50 chats, 50 messages, 20 contacts, 20
    transitions; the advertised [include_muted] of [list_chats] is no part
    of the question, no handler reads it); [run_query] puts the question
    to the store, and [answer] renders the outcome.  Nothing of this looks
    at the bridge. *)
Inductive Query : Type :=
  | QueryBridgeStatus
  | QueryConnectionHistory (limit : Z)
  | QueryListChats (limit : Z)
  | QueryGetChat (jid : string)
  | QueryListMessages (chatJID : string) (limit : Z) (before : string)
  | QuerySearchContacts (query : string) (limit : Z)
  | QueryGetContact (jid : string)
  | QueryBlockedContacts.

(** An argument the query cannot do without. *)
Definition required (args : Api.Args) (key : string) (ask : string -> Query)
  : Api.MCPError + Query :=
  if String.eqb (Api.getString args key) ""
  then inl (Api.NewInvalidInputError (key ++ " is required"))
  else inr (ask (Api.getString args key)).

(** The question of a call, or the input error of the call; [None] when
    the name is not that of a read-only query. *)
Definition parse_query (name : string) (args : Api.Args) : option (Api.MCPError + Query) :=
  if String.eqb name "get_bridge_status" then Some (inr QueryBridgeStatus)
  else if String.eqb name "get_connection_history" then
    Some (inr (QueryConnectionHistory (Api.getInt args "limit" 20)))
  else if String.eqb name "list_chats" then
    Some (inr (QueryListChats (Api.getInt args "limit" 50)))
  else if String.eqb name "get_chat" then Some (required args "jid" QueryGetChat)
  else if String.eqb name "list_messages" then
    Some (required args "chat_jid"
            (fun chatJID =>
               QueryListMessages chatJID (Api.getInt args "limit" 50)
                                 (Api.getString args "before")))
  else if String.eqb name "search_contacts" then
    Some (required args "query"
            (fun query => QuerySearchContacts query (Api.getInt args "limit" 20)))
  else if String.eqb name "get_contact" then Some (required args "jid" QueryGetContact)
  else if String.eqb name "get_blocked_contacts" then Some (inr QueryBlockedContacts)
  else None.

Definition result_map {A B : Type} (f : A -> B) (r : Store.result A) : Store.result B :=
  match r with
  | Store.Ok a => Store.Ok (f a)
  | Store.Err e => Store.Err e
  end.

(** The question put to the store [db]; the status is that of the monitor
    over the machine in state [machine], at time [now]. *)
Definition run_query {DB : Type} `{Store.Repositories DB} (now : Z) (machine : State)
           (monitor : Health.Monitor) (q : Query) (db : DB) : Store.result Api.Data :=
  match q with
  | QueryBridgeStatus => Store.Ok (Api.DataStatus (Health.GetStatus machine now monitor))
  | QueryConnectionHistory limit =>
      result_map Api.DataTransitions (Store.State_GetTransitionHistory limit db)
  | QueryListChats limit => result_map Api.DataChats (Store.Chats_List limit db)
  | QueryGetChat jid => result_map Api.DataChat (Store.Chats_GetByJID jid db)
  | QueryListMessages chatJID limit before =>
      result_map Api.DataMessages (Store.Messages_List chatJID limit before db)
  | QuerySearchContacts query limit =>
      result_map Api.DataContacts (Store.Contacts_Search query limit db)
  | QueryGetContact jid => result_map Api.DataContact (Store.Contacts_GetByJID jid db)
  | QueryBlockedContacts => result_map Api.DataContacts (Store.Contacts_GetBlocked db)
  end.

(** The resource a query for one item names when the store has none. *)
Definition resource (q : Query) : option string :=
  match q with
  | QueryGetChat _ => Some "chat"
  | QueryGetContact _ => Some "contact"
  | _ => None
  end.

(** The outcome of a query as the result of the call: the data, the
    not-found error of a query for one item, or an internal error with
    the store's own. *)
Definition answer (q : Query) (r : Store.result Api.Data) : Api.CallToolResult :=
  match r with
  | Store.Ok data => {| Api.Content := data; Api.IsError := false |}
  | Store.Err e =>
      {| Api.Content :=
           Api.DataError
             match e, resource q with
             | Store.ErrNotFound, Some what => Api.NewNotFoundError what
             | _, _ => Api.NewInternalError e
             end;
         Api.IsError := true |}
  end.

(** The result of a read-only call, from the call, the store, the monitor
    and the state of the machine alone; [None] for any other call. *)
Definition read_only_answer {DB : Type} `{Store.Repositories DB} (now : Z)
           (name : string) (args : Api.Args) (machine : State)
           (monitor : Health.Monitor) (db : DB) : option Api.CallToolResult :=
  match parse_query name args with
  | Some (inl e) => Some {| Api.Content := Api.DataError e; Api.IsError := true |}
  | Some (inr q) => Some (answer q (run_query now machine monitor q db))
  | None => None
  end.

End Queries.

(* ===================================================================== *)
(** ** The specification's own tables, for comparison with the code       *)
(* ===================================================================== *)
Module Spec.
Import State.

(** The transition table of section 4.1, by source state, as the
    specification words it. *)
Definition transition_table (s : State) (t : Trigger) : option State :=
  match s, t with
  | StateDisconnected, TriggerConnect => Some StateConnecting
  | StateDisconnected, TriggerShutdown => Some StateShuttingDown

  | StateConnecting, TriggerQRRequired => Some StateQRPending
  | StateConnecting, TriggerAuthenticated => Some StateSyncing
  | StateConnecting, TriggerConnectionLost => Some StateReconnecting
  | StateConnecting, TriggerDisconnect => Some StateDisconnected
  | StateConnecting, TriggerShutdown => Some StateShuttingDown
  | StateConnecting, TriggerFatalError => Some StateFatalError

  | StateQRPending, TriggerQRScanned => Some StateAuthenticating
  | StateQRPending, TriggerConnectionLost => Some StateReconnecting
  | StateQRPending, TriggerDisconnect => Some StateDisconnected
  | StateQRPending, TriggerShutdown => Some StateShuttingDown
  | StateQRPending, TriggerFatalError => Some StateFatalError

  | StateAuthenticating, TriggerAuthenticated => Some StateSyncing
  | StateAuthenticating, TriggerSessionInvalid => Some StateSessionExpired
  | StateAuthenticating, TriggerConnectionLost => Some StateReconnecting
  | StateAuthenticating, TriggerDisconnect => Some StateDisconnected
  | StateAuthenticating, TriggerShutdown => Some StateShuttingDown
  | StateAuthenticating, TriggerFatalError => Some StateFatalError

  | StateSyncing, TriggerSyncComplete => Some StateReady
  | StateSyncing, TriggerConnectionLost => Some StateReconnecting
  | StateSyncing, TriggerDisconnect => Some StateDisconnected
  | StateSyncing, TriggerShutdown => Some StateShuttingDown
  | StateSyncing, TriggerFatalError => Some StateFatalError

  | StateReady, TriggerConnectionLost => Some StateReconnecting
  | StateReady, TriggerSessionInvalid => Some StateSessionExpired
  | StateReady, TriggerBanDetected => Some StateTemporaryBan
  | StateReady, TriggerLogout => Some StateLoggedOut
  | StateReady, TriggerDisconnect => Some StateDisconnected
  | StateReady, TriggerShutdown => Some StateShuttingDown
  | StateReady, TriggerFatalError => Some StateFatalError

  | StateReconnecting, TriggerReconnected => Some StateReady
  | StateReconnecting, TriggerQRRequired => Some StateQRPending
  | StateReconnecting, TriggerSessionInvalid => Some StateSessionExpired
  | StateReconnecting, TriggerDisconnect => Some StateDisconnected
  | StateReconnecting, TriggerShutdown => Some StateShuttingDown
  | StateReconnecting, TriggerFatalError => Some StateFatalError

  | StateTemporaryBan, TriggerBanLifted => Some StateReconnecting
  | StateTemporaryBan, TriggerDisconnect => Some StateDisconnected
  | StateTemporaryBan, TriggerShutdown => Some StateShuttingDown
  | StateTemporaryBan, TriggerFatalError => Some StateFatalError

  | StateLoggedOut, TriggerConnect => Some StateConnecting
  | StateLoggedOut, TriggerShutdown => Some StateShuttingDown
  | StateSessionExpired, TriggerConnect => Some StateConnecting
  | StateSessionExpired, TriggerShutdown => Some StateShuttingDown

  | StateFatalError, TriggerShutdown => Some StateShuttingDown

  | _, _ => None
  end.

(** The partition of section 3: idle, transient-connecting, operational,
    recovery and terminal states. *)
Definition idle_states : list State := [ StateDisconnected ].
Definition transient_connecting_states : list State :=
  [ StateConnecting; StateQRPending; StateAuthenticating; StateSyncing ].
Definition operational_states : list State := [ StateReady ].
Definition recovery_states : list State := [ StateReconnecting ].
Definition terminal_states : list State :=
  [ StateLoggedOut; StateSessionExpired; StateTemporaryBan; StateShuttingDown;
    StateFatalError ].

Definition partition_states : list State :=
  idle_states ++ transient_connecting_states ++ operational_states
    ++ recovery_states ++ terminal_states.

(** A trigger is one of the listed ones. *)
Definition trigger_among (t : Trigger) (ts : list Trigger) : bool :=
  existsb (Trigger_eqb t) ts.

(** "Non-decreasing until the maximum is reached, then at or below it":
    a delay below the maximum is not followed by a smaller one, and none
    exceeds the maximum. *)
Fixpoint nondecreasing_until (maxDelay : Z) (delays : list Z) : bool :=
  match delays with
  | [] => true
  | d :: rest =>
      (d <=? maxDelay)%Z
      && match rest with
         | [] => true
         | d' :: _ => if (d <? maxDelay)%Z then (d <=? d')%Z else true
         end
      && nondecreasing_until maxDelay rest
  end.

End Spec.

(* ===================================================================== *)
(** ** package main: how the process wires bridge and monitor, and the    *)
(** ** scenarios and predicates the properties below are stated with      *)
(* ===================================================================== *)
Module Main.
Import State Store Backoff Config.

(** The bridge and the health monitor of one process.  The monitor is the
    part of the process outside the bridge ([W] of [Bridge.Bridge]): it is
    what listeners registered on the bridge could act upon. *)
Definition Process (DB C : Type) : Type :=
  (Bridge.Bridge DB C Health.Monitor * Health.Monitor)%type.

(** [bridgeClient := bridge.NewBridge(cfg, storeDB, waClient)] and
    [hm := health.NewMonitor(cfg, bridgeSM)]; [main] registers no listener
    on the bridge. *)
Definition start {DB C : Type} `{Repositories DB} `{Bridge.WhatsAppClient C}
           (cfg : Config) (storeDB : DB) (waClient : C) (now : Z) : Process DB C :=
  (Bridge.NewBridge cfg storeDB waClient, Health.NewMonitor cfg now).

(** The monitor after a sequence of its operations. *)
Definition monitor_after (ops : list Health.Op) (m : Health.Monitor) : Health.Monitor :=
  fold_left (fun acc o => Health.apply_op o acc) ops m.

(** The back-off cursor of the monitor: attempt count and policy state. *)
Definition cursor (m : Health.Monitor) : Z * ExponentialBackOff :=
  (Health.retryCount m, Health.reconnectBackoff m).

(** The cursor one attempt later. *)
Definition advanced (m : Health.Monitor) : Z * ExponentialBackOff :=
  (Health.wrap64 (Health.retryCount m + 1),
   incrementCurrentInterval (Health.reconnectBackoff m)).

(** The policy of a monitor built from [cfg]: library settings, the
    configured bounds, and a cursor between them. *)
Definition policy_of (cfg : Config) (b : ExponentialBackOff) : Prop :=
  RandomizationFactor b = DefaultRandomizationFactor
  /\ Multiplier b = DefaultMultiplier
  /\ InitialInterval b = ReconnectBaseDelay cfg
  /\ MaxInterval b = ReconnectMaxDelay cfg
  /\ (ReconnectBaseDelay cfg <= currentInterval b <= ReconnectMaxDelay cfg)%Z.

(** A list of integers in non-decreasing order. *)
Fixpoint nondecreasing (l : list Z) : Prop :=
  match l with
  | [] => True
  | x :: rest =>
      match rest with
      | [] => True
      | y :: _ => (x <= y)%Z
      end /\ nondecreasing rest
  end.

(** A delay drawn with the default randomization factor around an
    interval: between half of it and one and a half times it. *)
Definition within_jitter (interval delay : Z) : Prop :=
  (interval - 1 <= 2 * delay <= 3 * interval + 1)%Z.

(** A test message event and a test message payload. *)
Definition sample_payload : Bridge.MessagePayload :=
  {| Bridge.MP_ID := "test";
     Bridge.MP_ChatJID := "123@s.whatsapp.net";
     Bridge.MP_Sender := "456@s.whatsapp.net";
     Bridge.MP_Content := "Hello";
     Bridge.MP_IsFromMe := false;
     Bridge.MP_MediaType := "";
     Bridge.MP_Timestamp := 1700000000%Z |}.

Definition sample_event : Bridge.Event :=
  Bridge.NewEvent Bridge.EventMessage (Bridge.PayloadMessage sample_payload) 0%Z.

(** The chat of the test message, and a database in which it has its row
    and that is otherwise as [NewSQLiteStore] leaves it. *)
Definition sample_chat : Chat :=
  {| Chat_JID := "123@s.whatsapp.net"; Chat_Name := "Alice"; Chat_IsGroup := false;
     Chat_LastMessageTime := 1600000000%Z; Chat_UnreadCount := 0%Z;
     Chat_Archived := false; Chat_Pinned := false; Chat_Muted := false;
     Chat_MutedUntil := None; Chat_UpdatedAt := 0%Z |}.

Definition chat_known : SQLiteStore := snd (Chats_Upsert sample_chat NewSQLiteStore).

(** The rows of the tests of sqlite_test.go: a message of the test chat
    with an id and a timestamp, and a contact with a jid and a name. *)
Definition message_at (id : string) (t : Z) : Message :=
  {| Message_ID := id; Message_ChatJID := "123@s.whatsapp.net";
     Message_Sender := "456@s.whatsapp.net"; Message_Content := "Message " ++ id;
     Message_Timestamp := t; Message_IsFromMe := false; Message_MediaType := "";
     Message_Filename := ""; Message_MediaURL := ""; Message_MediaKey := [];
     Message_FileSHA256 := []; Message_FileLength := 0%Z; Message_QuotedID := "";
     Message_QuotedSender := ""; Message_IsStarred := false;
     Message_IsDeleted := false; Message_Reactions := [] |}.

Definition contact_named (jid name : string) : Contact :=
  {| Contact_JID := jid; Contact_Name := name; Contact_PushName := "";
     Contact_Phone := ""; Contact_BusinessName := ""; Contact_Blocked := false;
     Contact_IsSaved := false; Contact_UpdatedAt := 0%Z |}.

(** The database after a sequence of writes, errors dropped. *)
Definition after_writes {DB : Type} (writes : list (DB -> option error * DB)) (db : DB)
  : DB :=
  fold_left (fun acc write => snd (write acc)) writes db.

(** The test chat with three messages, stored out of the order of their
    timestamps. *)
Definition three_messages : SQLiteStore :=
  after_writes [ Messages_Store (message_at "a" 10); Messages_Store (message_at "c" 30);
                 Messages_Store (message_at "b" 20) ] chat_known.

(** A database with the three contacts of the search test. *)
Definition three_contacts : SQLiteStore :=
  {| tbl_chats := []; tbl_messages := [];
     tbl_contacts := [ contact_named "1@s.whatsapp.net" "John Doe";
                       contact_named "2@s.whatsapp.net" "Jane Doe";
                       contact_named "3@s.whatsapp.net" "Bob Smith" ];
     tbl_status_updates := []; tbl_bridge_state := StateDisconnected;
     tbl_transitions := []; clock := 0%Z |}.

(** A listener that records the type of each event it is called with. *)
Definition recording (evt : Bridge.Event) (seen : list Bridge.EventType)
  : list Bridge.EventType :=
  seen ++ [Bridge.Event_Type evt].

(** A new bridge over that database with the recording listener
    registered, and with the test message event and a presence event
    queued and not yet handled. *)
Definition busy_bridge
  : Bridge.Bridge SQLiteStore Bridge.FakeClient (list Bridge.EventType) :=
  let b := Bridge.OnEvent recording
             (Bridge.NewBridge DefaultConfig chat_known Bridge.NewFakeClient) in
  Bridge.with_fields
    (Bridge.with_events
       {| Bridge.buffer :=
            [ sample_event;
              Bridge.NewEvent Bridge.EventPresence Bridge.PayloadOther 7%Z ];
          Bridge.capacity := Bridge.capacity (Bridge.events (Bridge.fields b));
          Bridge.closed := Bridge.closed (Bridge.events (Bridge.fields b)) |}
       (Bridge.fields b)) b.

(** An event handed to [EmitEvent] and then taken by the consumer loop. *)
Definition deliver {DB C : Type} `{Repositories DB} `{Bridge.WhatsAppClient C}
           (evt : Bridge.Event) (p : Process DB C) : option (Process DB C) :=
  match Bridge.EmitEvent evt (fst p) with
  | Some b => Bridge.processNext b (snd p)
  | None => None
  end.

(** A process with a stored session: it connects, reaches [ready], loses
    the connection, schedules two reconnect attempts (draws 3/4 and 0) and
    is then told the connection is back. *)
Definition reconnect_scenario
  : option TransitionError * Bridge.Bridge SQLiteStore Bridge.FakeClient Health.Monitor
    * Health.Monitor :=
  let '(b0, hm0) :=
    start DefaultConfig NewSQLiteStore (Bridge.SetLoggedIn true Bridge.NewFakeClient) 0%Z in
  let '(_, b1, hm1) := Bridge.Connect false b0 hm0 in
  let '(_, b2, hm2) := Bridge.fire TriggerConnectionLost b1 hm1 in
  let hm3 := monitor_after [ Health.OpScheduleReconnect (3 # 4);
                             Health.OpScheduleReconnect (0 # 1) ] hm2 in
  Bridge.fire TriggerReconnected b2 hm3.

(** A bridge whose queue already holds [n] copies of an event. *)
Definition filled {DB C W : Type} (n : nat) (evt : Bridge.Event)
           (b : Bridge.Bridge DB C W) : Bridge.Bridge DB C W :=
  Bridge.with_fields
    (Bridge.with_events
       {| Bridge.buffer := repeat evt n;
          Bridge.capacity := Bridge.capacity (Bridge.events (Bridge.fields b));
          Bridge.closed := Bridge.closed (Bridge.events (Bridge.fields b)) |}
       (Bridge.fields b)) b.

End Main.

(* ===================================================================== *)
(** ** Observers of the state machine                                     *)
(* ===================================================================== *)
Module Observer.
Import State.

Local Open Scope list_scope.

(** What a transition callback is told: source, destination, trigger. *)
Definition Notice : Type := (State * State * Trigger)%type.

(** A callback that appends what it is told to a list, as the callback of
    [TestMachine_OnTransitionCallback] does. *)
Definition record : TransitionCallback (list Notice) :=
  fun from to trigger seen => seen ++ [(from, to, trigger)].

(** The notices form a path of the configured table that starts in
    [start]; the result is the state the path ends in. *)
Fixpoint path_end (start : State) (notices : list Notice) : option State :=
  match notices with
  | [] => Some start
  | (from, to, trigger) :: rest =>
      if State_eqb from start
      then match destination from trigger with
           | Some d => if State_eqb d to then path_end to rest else None
           | None => None
           end
      else None
  end.

(** The triggers of a sequence that are accepted, one after the other. *)
Fixpoint accepted (s : State) (ts : list Trigger) : list Trigger :=
  match ts with
  | [] => []
  | t :: rest =>
      match destination s t with
      | Some d => t :: accepted d rest
      | None => accepted s rest
      end
  end.

(** The (source, trigger) pairs from which the table leads to [ready]. *)
Definition ready_entries : list (State * Trigger) :=
  [ (StateSyncing, TriggerSyncComplete); (StateReconnecting, TriggerReconnected) ].

Definition pair_among (s : State) (t : Trigger) (l : list (State * Trigger)) : bool :=
  existsb (fun p => State_eqb s (fst p) && Trigger_eqb t (snd p)) l.

Definition leads_to_ready (s : State) (t : Trigger) : bool :=
  match destination s t with
  | Some d => State_eqb d StateReady
  | None => false
  end.

Definition state_among (s : State) (l : list State) : bool :=
  existsb (State_eqb s) l.

End Observer.

(* ===================================================================== *)
(** ** Sequences of monitor calls                                         *)
(* ===================================================================== *)
Module Calls.
Import Backoff Config Health.

Local Open Scope list_scope.

(** Consecutive calls of [ScheduleReconnect], one draw per call: for each
    call the delay of the timer it armed, or [None] when it armed none. *)
Fixpoint schedule_all (draws : list Q) (m : Monitor)
  : list (option Duration) * Monitor :=
  match draws with
  | [] => ([], m)
  | r :: rest =>
      let '(d, m1) := ScheduleReconnect r m in
      let '(ds, m2) := schedule_all rest m1 in
      (d :: ds, m2)
  end.

Definition armed (d : option Duration) : bool :=
  match d with
  | Some _ => true
  | None => false
  end.

(** How many operations of a sequence are of a given kind. *)
Definition is_received (o : Op) : bool :=
  match o with OpRecordMessageReceived _ => true | _ => false end.

Definition is_sent (o : Op) : bool :=
  match o with OpRecordMessageSent => true | _ => false end.

Definition is_reconnect_count (o : Op) : bool :=
  match o with OpIncrementReconnectCount => true | _ => false end.

Definition count_ops (p : Op -> bool) (ops : list Op) : Z :=
  Z.of_nat (length (List.filter p ops)).

(** The clock reading of the last [RecordMessageReceived] of a sequence,
    or [before] when there is none. *)
Definition last_received (before : Z) (ops : list Op) : Z :=
  fold_left (fun acc o => match o with
                          | OpRecordMessageReceived now => now
                          | _ => acc
                          end) ops before.

(** Two policies with the same settings (whatever their cursors). *)
Definition same_settings (a b : ExponentialBackOff) : Prop :=
  InitialInterval a = InitialInterval b
  /\ RandomizationFactor a = RandomizationFactor b
  /\ Multiplier a = Multiplier b
  /\ MaxInterval a = MaxInterval b
  /\ MaxElapsedTime a = MaxElapsedTime b.

End Calls.

(* ===================================================================== *)
(** ** package bridge: the handlers of raw protocol events                *)
(* ===================================================================== *)
Module BridgeEvents.
Import State Store Bridge.

Local Open Scope list_scope.

(** Go's [time.Time] as the nanoseconds since its zero value (January 1 of
    year 1).  [time.Unix(sec, 0)] keeps [sec + unixToInternal] as a 64-bit
    count of seconds since then. *)
Definition unixToInternal : Z := 62135596800%Z.

Definition time_Unix (sec : Z) : Z :=
  (Health.wrap64 (sec + unixToInternal) * 1000000000)%Z.

(** [int64(x)] of an unsigned 64-bit value. *)
Definition int64_of_uint64 (x : Z) : Z := Health.wrap64 x.

(** [strings.HasSuffix] *)
Definition HasSuffix (s suffix : string) : bool :=
  let n := String.length s in
  let k := String.length suffix in
  (k <=? n)%nat && String.eqb (String.substring (n - k) k s) suffix.

(** The key of a history message ([waCommon.MessageKey]). *)
Record MessageKey : Type := mkMessageKey
  { Key_ID : string;
    Key_FromMe : bool;
    Key_Participant : string }.

(** [waWeb.WebMessageInfo], as far as the history handler reads it. *)
Record WebMessageInfo : Type := mkWebMessageInfo
  { WMI_Key : option MessageKey;
    WMI_MessageTimestamp : Z;
    WMI_Message : option E2EMessage }.

(** [waHistorySync.Conversation]; an entry of [Conv_Messages] is the
    (possibly nil) message of a [HistorySyncMsg]. *)
Record Conversation : Type := mkConversation
  { Conv_ID : string;
    Conv_Name : string;
    Conv_ConversationTimestamp : Z;
    Conv_UnreadCount : Z;
    Conv_Archived : bool;
    Conv_Pinned : Z;
    Conv_MuteEndTime : Z;
    Conv_Messages : list (option WebMessageInfo) }.

(** The raw events of the protocol library, by dynamic type. *)
Inductive RawEvent : Type :=
  | RawQR (codes : list string)
  | RawPairSuccess
  | RawConnected
  | RawMessageEvent (m : RawMessage)
  | RawHistorySync (conversations : list Conversation)
  | RawOther.

Section Handlers.
Context {DB : Type} `{Repositories DB} {C W : Type}.

Local Abbreviation Fields := (Bridge.Fields DB C W).

(** The [&store.Message{...}] literal of [persistHistorySync]. *)
Definition history_message (jid : string) (webMsg : WebMessageInfo) (key : MessageKey)
  : Message :=
  let ts := time_Unix (int64_of_uint64 (WMI_MessageTimestamp webMsg)) in
  let fromMe := Key_FromMe key in
  let sender := if fromMe then "me" else Key_Participant key in
  let content := extractMessageText (WMI_Message webMsg) in
  {| Message_ID := Key_ID key;
     Message_ChatJID := jid;
     Message_Sender := sender;
     Message_Content := content;
     Message_Timestamp := ts;
     Message_IsFromMe := fromMe;
     Message_MediaType := "";
     Message_Filename := "";
     Message_MediaURL := "";
     Message_MediaKey := [];
     Message_FileSHA256 := [];
     Message_FileLength := 0%Z;
     Message_QuotedID := "";
     Message_QuotedSender := "";
     Message_IsStarred := false;
     Message_IsDeleted := false;
     Message_Reactions := [] |}.

(** The body of the inner loop of [persistHistorySync]: one history
    message of the conversation [jid]. *)
Definition persistHistoryMessage (jid : string) (histMsg : option WebMessageInfo)
           (f : Fields) : Fields :=
  match histMsg with
  | None => f
  | Some webMsg =>
      match WMI_Key webMsg with
      | None => f
      | Some key =>
          if String.eqb (Key_ID key) "" then f
          else
            logged_write (Messages_Store (history_message jid webMsg key)) LevelDebug
                         "failed to store history message" f
      end
  end.

(** The [store.Chat] built for a conversation of a history batch. *)
Definition chat_of_conversation (conv : Conversation) : Chat :=
  let jid := Conv_ID conv in
  let isGroup := HasSuffix jid "@g.us" || HasSuffix jid "@broadcast" in
  let lastMsgTime :=
    if (0 <? Conv_ConversationTimestamp conv)%Z
    then time_Unix (int64_of_uint64 (Conv_ConversationTimestamp conv))
    else 0%Z in
  let muteEnd := Conv_MuteEndTime conv in
  let muted := (0 <? muteEnd)%Z in
  {| Chat_JID := jid;
     Chat_Name := Conv_Name conv;
     Chat_IsGroup := isGroup;
     Chat_LastMessageTime := lastMsgTime;
     Chat_UnreadCount := Conv_UnreadCount conv;
     Chat_Archived := Conv_Archived conv;
     Chat_Pinned := (0 <? Conv_Pinned conv)%Z;
     Chat_Muted := muted;
     Chat_MutedUntil :=
       if muted then Some (time_Unix (int64_of_uint64 muteEnd)) else None;
     Chat_UpdatedAt := 0%Z |}.

(** The body of the outer loop of [persistHistorySync]: one conversation. *)
Definition persistConversation (conv : Conversation) (f : Fields) : Fields :=
  let jid := Conv_ID conv in
  if String.eqb jid "" then f
  else
    match Chats_Upsert (chat_of_conversation conv) (store f) with
    | (Some _, db) =>
        with_log {| log_level := LevelError;
                    log_msg := "failed to upsert chat from history" |}
                 (with_store db f)
    | (None, db) =>
        fold_left (fun acc histMsg => persistHistoryMessage jid histMsg acc)
                  (Conv_Messages conv) (with_store db f)
    end.

(** The loop over the conversations of a batch. *)
Definition persistConversations (convs : list Conversation) (f : Fields) : Fields :=
  fold_left (fun acc conv => persistConversation conv acc) convs f.

(** [func (b *Bridge) persistHistorySync(ctx, evt *events.HistorySync)] *)
Definition persistHistorySync (convs : list Conversation) (f : Fields) : Fields :=
  persistConversations convs
    (with_log {| log_level := LevelInfo; log_msg := "processing history sync" |} f).

(** [func (b *Bridge) handleWhatsAppEvent(rawEvt interface{})] *)
Definition handleWhatsAppEvent (rawEvt : RawEvent) (f : Fields) : Fields :=
  match rawEvt with
  | RawMessageEvent evt => persistMessage evt f
  | RawHistorySync convs => persistHistorySync convs f
  | _ => f
  end.

(** Consecutive calls of [EmitEvent]; [None] as soon as one panics. *)
Fixpoint emit_all (evts : list Event) (b : Bridge.Bridge DB C W)
  : option (Bridge.Bridge DB C W) :=
  match evts with
  | [] => Some b
  | evt :: rest =>
      match EmitEvent evt b with
      | Some b' => emit_all rest b'
      | None => None
      end
  end.
End Handlers.

(** The writes of the repositories, as calls. *)
Inductive StoreCall : Type :=
  | CallMessagesStore (msg : Message)
  | CallChatsUpsert (chat : Chat)
  | CallChatsUpdateLastMessage (jid : string) (t : Z)
  | CallSaveState (s : State)
  | CallLogTransition (from to : State) (trigger : string).

(** A store double: it records the writes it is asked for, in order, and
    fails those its [failure] oracle names; it holds no data to read. *)
Record Journal : Type := mkJournal
  { calls : list StoreCall;
    failure : StoreCall -> option error }.

Definition journal_write (call : StoreCall) (j : Journal) : option error * Journal :=
  (failure j call, {| calls := calls j ++ [call]; failure := failure j |}).

#[global] Instance Journal_Repositories : Repositories Journal :=
  {| Messages_Store := fun msg => journal_write (CallMessagesStore msg);
     Messages_List := fun _ _ _ _ => Ok [];
     Chats_Upsert := fun chat => journal_write (CallChatsUpsert chat);
     Chats_List := fun _ _ => Ok [];
     Chats_GetByJID := fun _ _ => Err ErrNotFound;
     Chats_UpdateLastMessage := fun jid t => journal_write (CallChatsUpdateLastMessage jid t);
     Contacts_Search := fun _ _ _ => Ok [];
     Contacts_GetByJID := fun _ _ => Err ErrNotFound;
     Contacts_GetBlocked := fun _ => Ok [];
     State_SaveState := fun s => journal_write (CallSaveState s);
     State_LogTransition := fun from to trigger =>
       journal_write (CallLogTransition from to trigger);
     State_GetTransitionHistory := fun _ _ => Ok [] |}.

(** The message of a history entry that is taken up: the entry is present,
    has a key and a non-empty id. *)
Definition taken_message (jid : string) (histMsg : option WebMessageInfo)
  : option Message :=
  match histMsg with
  | Some webMsg =>
      match WMI_Key webMsg with
      | Some key =>
          if String.eqb (Key_ID key) "" then None
          else Some (history_message jid webMsg key)
      | None => None
      end
  | None => None
  end.

Definition failed (fails : StoreCall -> option error) (call : StoreCall) : bool :=
  match fails call with
  | Some _ => true
  | None => false
  end.

(** The writes a conversation of a history batch leads to. *)
Definition conversation_calls (fails : StoreCall -> option error) (conv : Conversation)
  : list StoreCall :=
  if String.eqb (Conv_ID conv) "" then []
  else
    CallChatsUpsert (chat_of_conversation conv)
    :: (if failed fails (CallChatsUpsert (chat_of_conversation conv)) then []
        else map CallMessagesStore
                 (omap (taken_message (Conv_ID conv)) (Conv_Messages conv))).

(** The log records a conversation of a history batch leads to. *)
Definition conversation_log (fails : StoreCall -> option error) (conv : Conversation)
  : list LogRecord :=
  if String.eqb (Conv_ID conv) "" then []
  else if failed fails (CallChatsUpsert (chat_of_conversation conv))
       then [ {| log_level := LevelError;
                 log_msg := "failed to upsert chat from history" |} ]
       else map (fun _ => {| log_level := LevelDebug;
                             log_msg := "failed to store history message" |})
                (List.filter (fun msg => failed fails (CallMessagesStore msg))
                             (omap (taken_message (Conv_ID conv)) (Conv_Messages conv))).

(** What of the bridge's fields neither a store write nor a log record
    changes. *)
Definition wiring {DB C W : Type} (f : Bridge.Fields DB C W) :=
  (client f, events f, eventListeners f, stateListeners f, cancelled f, config f).

(** The store writes of [handleMessage] for an event, on the store. *)
Definition message_writes {DB : Type} `{Repositories DB} (evt : Event) (db : DB) : DB :=
  match Event_Payload evt with
  | PayloadMessage payload =>
      snd (Chats_UpdateLastMessage (MP_ChatJID payload) (MP_Timestamp payload)
             (snd (Messages_Store (message_of_payload payload) db)))
  | _ => db
  end.

(** The states in which the machine accepts [connect]. *)
Definition connect_states : list State :=
  [ StateDisconnected; StateLoggedOut; StateSessionExpired ].

(** The states in which the machine accepts [disconnect]. *)
Definition disconnect_states : list State :=
  [ StateConnecting; StateQRPending; StateAuthenticating; StateSyncing;
    StateReady; StateReconnecting; StateTemporaryBan ].

Definition transition_failed : LogRecord :=
  {| log_level := LevelError; log_msg := "state transition failed" |}.

(** The listeners of a list called with one event, then with the next. *)
Definition notify {W : Type} (listeners : list (Event -> W -> W)) (evt : Event) (w : W)
  : W :=
  fold_left (fun acc listener => listener evt acc) listeners w.

Definition notify_all {W : Type} (listeners : list (Event -> W -> W))
           (evts : list Event) (w : W) : W :=
  fold_left (fun acc evt => notify listeners evt acc) evts w.

Definition is_message_event (evt : Event) : bool :=
  match Event_Type evt with
  | EventMessage => true
  | _ => false
  end.

Definition queue_full_warning : LogRecord :=
  {| log_level := LevelWarn; log_msg := "event queue full, dropping event" |}.

(** The free places of a channel. *)
Definition free (ch : Chan) : nat := capacity ch - length (buffer ch).

End BridgeEvents.

(* ===================================================================== *)
(** ** package whatsapp: the client's event hub                           *)
(* ===================================================================== *)
Module WhatsApp.
Import Bridge BridgeEvents.

Local Open Scope list_scope.

(** A buffered channel, between two receives. *)
Record Queue (A : Type) : Type := mkQueue
  { items : list A;
    room : nat }.
Arguments items {A} q.
Arguments room {A} q.
Arguments mkQueue {A} items room.

(** The send case of a [select] with a [default]: the queue after, and
    whether the value was sent. *)
Definition offer {A : Type} (a : A) (q : Queue A) : Queue A * bool :=
  if (length (items q) <? room q)%nat
  then ({| items := items q ++ [a]; room := room q |}, true)
  else (q, false).

(** The fields of [type Client struct] that [handleEvent] touches; [W] is
    what the registered handlers act upon. *)
Record Client (W : Type) : Type := mkClient
  { isConnected : bool;
    qrChan : Queue string;
    eventChan : Queue RawEvent;
    handlers : list (RawEvent -> W -> W);
    clientLog : list LogRecord }.
Arguments isConnected {W} c.
Arguments qrChan {W} c.
Arguments eventChan {W} c.
Arguments handlers {W} c.
Arguments clientLog {W} c.

(** The channels and handler list [NewClient] sets up. *)
Definition NewClient {W : Type} : Client W :=
  {| isConnected := false;
     qrChan := {| items := []; room := 10 |};
     eventChan := {| items := []; room := 100 |};
     handlers := [];
     clientLog := [] |}.

(** [func (c *Client) AddEventHandler(handler func(interface{}))] *)
Definition AddEventHandler {W : Type} (handler : RawEvent -> W -> W) (c : Client W)
  : Client W :=
  {| isConnected := isConnected c; qrChan := qrChan c; eventChan := eventChan c;
     handlers := handlers c ++ [handler]; clientLog := clientLog c |}.

Definition logged {W : Type} (lvl : Level) (msg : string) (c : Client W) : Client W :=
  {| isConnected := isConnected c; qrChan := qrChan c; eventChan := eventChan c;
     handlers := handlers c;
     clientLog := clientLog c ++ [ {| log_level := lvl; log_msg := msg |} ] |}.

Definition set_connected {W : Type} (c : Client W) : Client W :=
  {| isConnected := true; qrChan := qrChan c; eventChan := eventChan c;
     handlers := handlers c; clientLog := clientLog c |}.

(** [func (c *Client) handleEvent(evt interface{})] *)
Definition handleEvent {W : Type} (evt : RawEvent) (c : Client W) (w : W)
  : Client W * W :=
  let c := logged LevelDebug "WhatsApp event" c in
  let c :=
    match evt with
    | RawQR codes =>
        let c := logged LevelInfo "QR code received via event handler" c in
        match codes with
        | code :: _ =>
            let '(q, sent) := offer code (qrChan c) in
            let c := {| isConnected := isConnected c; qrChan := q;
                        eventChan := eventChan c; handlers := handlers c;
                        clientLog := clientLog c |} in
            if sent then c else logged LevelWarn "QR channel full, dropping code" c
        | [] => c
        end
    | _ => c
    end in
  let c :=
    match evt with
    | RawPairSuccess => set_connected (logged LevelInfo "Pairing successful!" c)
    | _ => c
    end in
  let c :=
    match evt with
    | RawConnected => set_connected (logged LevelInfo "Connected to WhatsApp" c)
    | _ => c
    end in
  let '(q, sent) := offer evt (eventChan c) in
  let c := {| isConnected := isConnected c; qrChan := qrChan c;
              eventChan := q; handlers := handlers c;
              clientLog := clientLog c |} in
  let c := if sent then c else logged LevelWarn "Event channel full, dropping event" c in
  (c, fold_left (fun acc handler => handler evt acc) (handlers c) w).

(** The events of a sequence handled one after the other. *)
Fixpoint handleEvents {W : Type} (evts : list RawEvent) (c : Client W) (w : W)
  : Client W * W :=
  match evts with
  | [] => (c, w)
  | evt :: rest => let '(c', w') := handleEvent evt c w in handleEvents rest c' w'
  end.

(** The code a QR event puts forward: the first of its codes. *)
Definition first_code (evt : RawEvent) : option string :=
  match evt with
  | RawQR (code :: _) => Some code
  | _ => None
  end.

Definition first_codes (evts : list RawEvent) : list string :=
  omap first_code evts.

Definition is_full_warning (r : LogRecord) : bool :=
  String.eqb (log_msg r) "Event channel full, dropping event".

(** The events that mark the client as connected. *)
Definition is_connection_event (evt : RawEvent) : bool :=
  match evt with
  | RawPairSuccess | RawConnected => true
  | _ => false
  end.

(** The free places of a queue. *)
Definition vacancy {A : Type} (q : Queue A) : nat := room q - length (items q).

(** Every handler of a list called with one event, in order. *)
Definition call_handlers {W : Type} (hs : list (RawEvent -> W -> W)) (evt : RawEvent)
           (w : W) : W :=
  fold_left (fun acc handler => handler evt acc) hs w.

End WhatsApp.

(* ===================================================================== *)
(** ** package api: the handlers behind the ready gate                     *)
(* ===================================================================== *)
Module Tools.
Import Store Api.

(** [func getFloat(args, key) float64] *)
Definition getFloat (args : Args) (key : string) : Q :=
  match args !! key with
  | Some (ArgFloat v) => v
  | _ => 0%Q
  end.

(** [func getStringArray(args, key) []string]: the items that are strings,
    in order; nil, of length 0 like the empty slice, when the argument is
    not an array. *)
Definition getStringArray (args : Args) (key : string) : list string :=
  match args !! key with
  | Some (ArgArray items) =>
      omap (fun item => match item with
                        | ArgString s => Some s
                        | _ => None
                        end) items
  | _ => []
  end.

(** The repository methods that only the gated handlers call. *)
Class LocalRepositories (DB : Type) : Type :=
  { Messages_SetStarred : string -> string -> bool -> DB -> option error * DB;
    Status_GetAll : DB -> result (list StatusUpdate);
    Status_GetByContact : string -> DB -> result (list StatusUpdate) }.

(** A string result of the bridge as a member of the answer. *)
Definition string_result (v : Bridge.Value) : ArgValue :=
  match v with
  | Bridge.VString s => ArgString s
  | _ => ArgNull
  end.

Definition bool_result (v : Bridge.Value) : ArgValue :=
  match v with
  | Bridge.VBool b => ArgBool b
  | _ => ArgNull
  end.

(** The answer [{"success": true, "message": message}]. *)
Definition done (message : string) : Data :=
  DataObject [ ("success", ArgBool true); ("message", ArgString message) ].

(** [a < b] on decoded numbers. *)
Definition Qlt_bool (a b : Q) : bool := negb (Qle_bool b a).

Section Handlers.
Context {DB : Type} `{Repositories DB} `{LocalRepositories DB}
        {B : Type} `{BridgeOps B}.

Local Abbreviation Handler := (Api.Handler DB B).

(** [func validateSavePath(path string) error]; it rests on
    [filepath.Clean], which is not modelled. *)
Variable validateSavePath : string -> option error.

(** The JSON rendering of the group information and of status updates. *)
Variable marshalInfo : Bridge.Value -> Data.
Variable marshalStatuses : list StatusUpdate -> Data.

(** A method call on [h.bridge]; [None] is the nil dereference. *)
Definition call (req : Bridge.ClientRequest) (h : Handler)
  : option (Bridge.Response * Handler) :=
  match bridge h with
  | None => None
  | Some b => let '(resp, b') := Bridge_perform req b in Some (resp, with_bridge b' h)
  end.

Definition with_handler_store (db : DB) (h : Handler) : Handler :=
  {| store := db; health := health h; bridge := bridge h; stateM := stateM h |}.

(** [func (h *Handler) handleReplyToMessage] *)
Definition handleReplyToMessage (args : Args) (h : Handler)
  : option (CallToolResult * Handler) :=
  let chatJID := getString args "chat_jid" in
  if String.eqb chatJID "" then
    Some (errorResult (NewInvalidInputError "chat_jid is required"), h)
  else
  let messageID := getString args "message_id" in
  if String.eqb messageID "" then
    Some (errorResult (NewInvalidInputError "message_id is required"), h)
  else
  let message := getString args "message" in
  if String.eqb message "" then
    Some (errorResult (NewInvalidInputError "message is required"), h)
  else
  match call (Bridge.ReqReplyToMessage chatJID messageID message) h with
  | None => None
  | Some (resp, h') =>
      match Bridge.resp_err resp with
      | Some err => Some (errorResult (NewMessageFailedError err), h')
      | None =>
          Some (successResult
                  (DataObject [ ("success", ArgBool true); ("message_id", string_result (Bridge.resp_value resp)) ]),
                h')
      end
  end.

(** [func (h *Handler) handleForwardMessage] *)
Definition handleForwardMessage (args : Args) (h : Handler)
  : option (CallToolResult * Handler) :=
  let sourceChatJID := getString args "source_chat_jid" in
  if String.eqb sourceChatJID "" then
    Some (errorResult (NewInvalidInputError "source_chat_jid is required"), h)
  else
  let messageID := getString args "message_id" in
  if String.eqb messageID "" then
    Some (errorResult (NewInvalidInputError "message_id is required"), h)
  else
  let targetJID := getString args "target_jid" in
  if String.eqb targetJID "" then
    Some (errorResult (NewInvalidInputError "target_jid is required"), h)
  else
  match call (Bridge.ReqForwardMessage sourceChatJID messageID targetJID) h with
  | None => None
  | Some (resp, h') =>
      match Bridge.resp_err resp with
      | Some err => Some (errorResult (NewMessageFailedError err), h')
      | None =>
          Some (successResult
                  (DataObject [ ("success", ArgBool true); ("message_id", string_result (Bridge.resp_value resp)) ]),
                h')
      end
  end.

(** [func (h *Handler) handleEditMessage] *)
Definition handleEditMessage (args : Args) (h : Handler)
  : option (CallToolResult * Handler) :=
  let chatJID := getString args "chat_jid" in
  if String.eqb chatJID "" then
    Some (errorResult (NewInvalidInputError "chat_jid is required"), h)
  else
  let messageID := getString args "message_id" in
  if String.eqb messageID "" then
    Some (errorResult (NewInvalidInputError "message_id is required"), h)
  else
  let newContent := getString args "new_content" in
  if String.eqb newContent "" then
    Some (errorResult (NewInvalidInputError "new_content is required"), h)
  else
  match call (Bridge.ReqEditMessage chatJID messageID newContent) h with
  | None => None
  | Some (resp, h') =>
      match Bridge.resp_err resp with
      | Some err => Some (errorResult (NewMessageFailedError err), h')
      | None =>
          Some (successResult
                  (done "Message edited"),
                h')
      end
  end.

(** [func (h *Handler) handleDeleteMessage] *)
Definition handleDeleteMessage (args : Args) (h : Handler)
  : option (CallToolResult * Handler) :=
  let chatJID := getString args "chat_jid" in
  if String.eqb chatJID "" then
    Some (errorResult (NewInvalidInputError "chat_jid is required"), h)
  else
  let messageID := getString args "message_id" in
  if String.eqb messageID "" then
    Some (errorResult (NewInvalidInputError "message_id is required"), h)
  else
  let forEveryone := getBool args "for_everyone" false in
  match call (Bridge.ReqDeleteMessage chatJID messageID forEveryone) h with
  | None => None
  | Some (resp, h') =>
      match Bridge.resp_err resp with
      | Some err => Some (errorResult (NewMessageFailedError err), h')
      | None =>
          Some (successResult
                  (done "Message deleted"),
                h')
      end
  end.

(** [func (h *Handler) handleReactToMessage] *)
Definition handleReactToMessage (args : Args) (h : Handler)
  : option (CallToolResult * Handler) :=
  let chatJID := getString args "chat_jid" in
  if String.eqb chatJID "" then
    Some (errorResult (NewInvalidInputError "chat_jid is required"), h)
  else
  let messageID := getString args "message_id" in
  if String.eqb messageID "" then
    Some (errorResult (NewInvalidInputError "message_id is required"), h)
  else
  let emoji := getString args "emoji" in
  if String.eqb emoji "" then
    Some (errorResult (NewInvalidInputError "emoji is required"), h)
  else
  match call (Bridge.ReqReactToMessage chatJID messageID emoji) h with
  | None => None
  | Some (resp, h') =>
      match Bridge.resp_err resp with
      | Some err => Some (errorResult (NewMessageFailedError err), h')
      | None =>
          Some (successResult
                  (done "Reaction added"),
                h')
      end
  end.

(** [func (h *Handler) handleArchiveChat] *)
Definition handleArchiveChat (args : Args) (archive : bool) (h : Handler)
  : option (CallToolResult * Handler) :=
  let jid := getString args "jid" in
  if String.eqb jid "" then
    Some (errorResult (NewInvalidInputError "jid is required"), h)
  else
  match call (Bridge.ReqArchiveChat jid archive) h with
  | None => None
  | Some (resp, h') =>
      match Bridge.resp_err resp with
      | Some err => Some (errorResult (NewInternalError err), h')
      | None =>
          Some (successResult
                  (done ("Chat " ++ (if archive then "archived" else "unarchived"))),
                h')
      end
  end.

(** [func (h *Handler) handlePinChat] *)
Definition handlePinChat (args : Args) (pin : bool) (h : Handler)
  : option (CallToolResult * Handler) :=
  let jid := getString args "jid" in
  if String.eqb jid "" then
    Some (errorResult (NewInvalidInputError "jid is required"), h)
  else
  match call (Bridge.ReqPinChat jid pin) h with
  | None => None
  | Some (resp, h') =>
      match Bridge.resp_err resp with
      | Some err => Some (errorResult (NewInternalError err), h')
      | None =>
          Some (successResult
                  (done ("Chat " ++ (if pin then "pinned" else "unpinned"))),
                h')
      end
  end.

(** [func (h *Handler) handleMuteChat] *)
Definition handleMuteChat (args : Args) (mute : bool) (h : Handler)
  : option (CallToolResult * Handler) :=
  let jid := getString args "jid" in
  if String.eqb jid "" then
    Some (errorResult (NewInvalidInputError "jid is required"), h)
  else
  let duration := getString args "duration" in
  match call (Bridge.ReqMuteChat jid mute duration) h with
  | None => None
  | Some (resp, h') =>
      match Bridge.resp_err resp with
      | Some err => Some (errorResult (NewInternalError err), h')
      | None =>
          Some (successResult
                  (done ("Chat " ++ (if mute then "muted" else "unmuted"))),
                h')
      end
  end.

(** [func (h *Handler) handleMarkChatRead] *)
Definition handleMarkChatRead (args : Args) (h : Handler)
  : option (CallToolResult * Handler) :=
  let jid := getString args "jid" in
  if String.eqb jid "" then
    Some (errorResult (NewInvalidInputError "jid is required"), h)
  else
  match call (Bridge.ReqMarkChatRead jid) h with
  | None => None
  | Some (resp, h') =>
      match Bridge.resp_err resp with
      | Some err => Some (errorResult (NewInternalError err), h')
      | None =>
          Some (successResult
                  (done "Chat marked as read"),
                h')
      end
  end.

(** [func (h *Handler) handleDeleteChat] *)
Definition handleDeleteChat (args : Args) (h : Handler)
  : option (CallToolResult * Handler) :=
  let jid := getString args "jid" in
  if String.eqb jid "" then
    Some (errorResult (NewInvalidInputError "jid is required"), h)
  else
  match call (Bridge.ReqDeleteChat jid) h with
  | None => None
  | Some (resp, h') =>
      match Bridge.resp_err resp with
      | Some err => Some (errorResult (NewInternalError err), h')
      | None =>
          Some (successResult
                  (done "Chat deleted"),
                h')
      end
  end.

(** [func (h *Handler) handleBlockContact] *)
Definition handleBlockContact (args : Args) (block : bool) (h : Handler)
  : option (CallToolResult * Handler) :=
  let jid := getString args "jid" in
  if String.eqb jid "" then
    Some (errorResult (NewInvalidInputError "jid is required"), h)
  else
  match call (Bridge.ReqBlockContact jid block) h with
  | None => None
  | Some (resp, h') =>
      match Bridge.resp_err resp with
      | Some err => Some (errorResult (NewInternalError err), h')
      | None =>
          Some (successResult
                  (done ("Contact " ++ (if block then "blocked" else "unblocked"))),
                h')
      end
  end.

(** [func (h *Handler) handleCheckPhoneRegistered] *)
Definition handleCheckPhoneRegistered (args : Args) (h : Handler)
  : option (CallToolResult * Handler) :=
  let phone := getString args "phone" in
  if String.eqb phone "" then
    Some (errorResult (NewInvalidInputError "phone is required"), h)
  else
  match call (Bridge.ReqCheckPhoneRegistered phone) h with
  | None => None
  | Some (resp, h') =>
      match Bridge.resp_err resp with
      | Some err => Some (errorResult (NewInternalError err), h')
      | None =>
          Some (successResult
                  (DataObject [ ("phone", ArgString phone); ("registered", bool_result (Bridge.resp_value resp)) ]),
                h')
      end
  end.

(** [func (h *Handler) handleCreateGroup] *)
Definition handleCreateGroup (args : Args) (h : Handler)
  : option (CallToolResult * Handler) :=
  let name := getString args "name" in
  if String.eqb name "" then
    Some (errorResult (NewInvalidInputError "name is required"), h)
  else
  let participants := getStringArray args "participants" in
  if (length participants =? 0)%nat then
    Some (errorResult (NewInvalidInputError "participants is required"), h)
  else
  match call (Bridge.ReqCreateGroup name participants) h with
  | None => None
  | Some (resp, h') =>
      match Bridge.resp_err resp with
      | Some err => Some (errorResult (NewInternalError err), h')
      | None =>
          Some (successResult
                  (DataObject [ ("success", ArgBool true); ("group_jid", string_result (Bridge.resp_value resp)) ]),
                h')
      end
  end.

(** [func (h *Handler) handleGetGroupInfo] *)
Definition handleGetGroupInfo (args : Args) (h : Handler)
  : option (CallToolResult * Handler) :=
  let jid := getString args "jid" in
  if String.eqb jid "" then
    Some (errorResult (NewInvalidInputError "jid is required"), h)
  else
  match call (Bridge.ReqGetGroupInfo jid) h with
  | None => None
  | Some (resp, h') =>
      match Bridge.resp_err resp with
      | Some err => Some (errorResult (NewInternalError err), h')
      | None =>
          Some (successResult
                  (marshalInfo (Bridge.resp_value resp)),
                h')
      end
  end.

(** [func (h *Handler) handleLeaveGroup] *)
Definition handleLeaveGroup (args : Args) (h : Handler)
  : option (CallToolResult * Handler) :=
  let jid := getString args "jid" in
  if String.eqb jid "" then
    Some (errorResult (NewInvalidInputError "jid is required"), h)
  else
  match call (Bridge.ReqLeaveGroup jid) h with
  | None => None
  | Some (resp, h') =>
      match Bridge.resp_err resp with
      | Some err => Some (errorResult (NewInternalError err), h')
      | None =>
          Some (successResult
                  (done "Left group"),
                h')
      end
  end.

(** [func (h *Handler) handleAddGroupMembers] *)
Definition handleAddGroupMembers (args : Args) (h : Handler)
  : option (CallToolResult * Handler) :=
  let groupJID := getString args "group_jid" in
  if String.eqb groupJID "" then
    Some (errorResult (NewInvalidInputError "group_jid is required"), h)
  else
  let participants := getStringArray args "participants" in
  if (length participants =? 0)%nat then
    Some (errorResult (NewInvalidInputError "participants is required"), h)
  else
  match call (Bridge.ReqAddGroupMembers groupJID participants) h with
  | None => None
  | Some (resp, h') =>
      match Bridge.resp_err resp with
      | Some err => Some (errorResult (NewInternalError err), h')
      | None =>
          Some (successResult
                  (done "Members added"),
                h')
      end
  end.

(** [func (h *Handler) handleRemoveGroupMembers] *)
Definition handleRemoveGroupMembers (args : Args) (h : Handler)
  : option (CallToolResult * Handler) :=
  let groupJID := getString args "group_jid" in
  if String.eqb groupJID "" then
    Some (errorResult (NewInvalidInputError "group_jid is required"), h)
  else
  let participants := getStringArray args "participants" in
  if (length participants =? 0)%nat then
    Some (errorResult (NewInvalidInputError "participants is required"), h)
  else
  match call (Bridge.ReqRemoveGroupMembers groupJID participants) h with
  | None => None
  | Some (resp, h') =>
      match Bridge.resp_err resp with
      | Some err => Some (errorResult (NewInternalError err), h')
      | None =>
          Some (successResult
                  (done "Members removed"),
                h')
      end
  end.

(** [func (h *Handler) handlePromoteAdmin] *)
Definition handlePromoteAdmin (args : Args) (h : Handler)
  : option (CallToolResult * Handler) :=
  let groupJID := getString args "group_jid" in
  if String.eqb groupJID "" then
    Some (errorResult (NewInvalidInputError "group_jid is required"), h)
  else
  let participants := getStringArray args "participants" in
  if (length participants =? 0)%nat then
    Some (errorResult (NewInvalidInputError "participants is required"), h)
  else
  match call (Bridge.ReqPromoteAdmin groupJID participants) h with
  | None => None
  | Some (resp, h') =>
      match Bridge.resp_err resp with
      | Some err => Some (errorResult (NewInternalError err), h')
      | None =>
          Some (successResult
                  (done "Members promoted to admin"),
                h')
      end
  end.

(** [func (h *Handler) handleDemoteAdmin] *)
Definition handleDemoteAdmin (args : Args) (h : Handler)
  : option (CallToolResult * Handler) :=
  let groupJID := getString args "group_jid" in
  if String.eqb groupJID "" then
    Some (errorResult (NewInvalidInputError "group_jid is required"), h)
  else
  let participants := getStringArray args "participants" in
  if (length participants =? 0)%nat then
    Some (errorResult (NewInvalidInputError "participants is required"), h)
  else
  match call (Bridge.ReqDemoteAdmin groupJID participants) h with
  | None => None
  | Some (resp, h') =>
      match Bridge.resp_err resp with
      | Some err => Some (errorResult (NewInternalError err), h')
      | None =>
          Some (successResult
                  (done "Admins demoted"),
                h')
      end
  end.

(** [func (h *Handler) handleSetGroupName] *)
Definition handleSetGroupName (args : Args) (h : Handler)
  : option (CallToolResult * Handler) :=
  let groupJID := getString args "group_jid" in
  if String.eqb groupJID "" then
    Some (errorResult (NewInvalidInputError "group_jid is required"), h)
  else
  let name := getString args "name" in
  if String.eqb name "" then
    Some (errorResult (NewInvalidInputError "name is required"), h)
  else
  match call (Bridge.ReqSetGroupName groupJID name) h with
  | None => None
  | Some (resp, h') =>
      match Bridge.resp_err resp with
      | Some err => Some (errorResult (NewInternalError err), h')
      | None =>
          Some (successResult
                  (done "Group name updated"),
                h')
      end
  end.

(** [func (h *Handler) handleSetGroupTopic] *)
Definition handleSetGroupTopic (args : Args) (h : Handler)
  : option (CallToolResult * Handler) :=
  let groupJID := getString args "group_jid" in
  if String.eqb groupJID "" then
    Some (errorResult (NewInvalidInputError "group_jid is required"), h)
  else
  let topic := getString args "topic" in
  if String.eqb topic "" then
    Some (errorResult (NewInvalidInputError "topic is required"), h)
  else
  match call (Bridge.ReqSetGroupTopic groupJID topic) h with
  | None => None
  | Some (resp, h') =>
      match Bridge.resp_err resp with
      | Some err => Some (errorResult (NewInternalError err), h')
      | None =>
          Some (successResult
                  (done "Group topic updated"),
                h')
      end
  end.

(** [func (h *Handler) handleSetGroupPhoto] *)
Definition handleSetGroupPhoto (args : Args) (h : Handler)
  : option (CallToolResult * Handler) :=
  let groupJID := getString args "group_jid" in
  if String.eqb groupJID "" then
    Some (errorResult (NewInvalidInputError "group_jid is required"), h)
  else
  let imagePath := getString args "image_path" in
  if String.eqb imagePath "" then
    Some (errorResult (NewInvalidInputError "image_path is required"), h)
  else
  match call (Bridge.ReqSetGroupPhoto groupJID imagePath) h with
  | None => None
  | Some (resp, h') =>
      match Bridge.resp_err resp with
      | Some err => Some (errorResult (NewInternalError err), h')
      | None =>
          Some (successResult
                  (done "Group photo updated"),
                h')
      end
  end.

(** [func (h *Handler) handleGetInviteLink] *)
Definition handleGetInviteLink (args : Args) (h : Handler)
  : option (CallToolResult * Handler) :=
  let groupJID := getString args "group_jid" in
  if String.eqb groupJID "" then
    Some (errorResult (NewInvalidInputError "group_jid is required"), h)
  else
  match call (Bridge.ReqGetInviteLink groupJID) h with
  | None => None
  | Some (resp, h') =>
      match Bridge.resp_err resp with
      | Some err => Some (errorResult (NewInternalError err), h')
      | None =>
          Some (successResult
                  (DataObject [ ("invite_link", string_result (Bridge.resp_value resp)) ]),
                h')
      end
  end.

(** [func (h *Handler) handleRevokeInviteLink] *)
Definition handleRevokeInviteLink (args : Args) (h : Handler)
  : option (CallToolResult * Handler) :=
  let groupJID := getString args "group_jid" in
  if String.eqb groupJID "" then
    Some (errorResult (NewInvalidInputError "group_jid is required"), h)
  else
  match call (Bridge.ReqRevokeInviteLink groupJID) h with
  | None => None
  | Some (resp, h') =>
      match Bridge.resp_err resp with
      | Some err => Some (errorResult (NewInternalError err), h')
      | None =>
          Some (successResult
                  (DataObject [ ("success", ArgBool true); ("new_invite_link", string_result (Bridge.resp_value resp)) ]),
                h')
      end
  end.

(** [func (h *Handler) handleJoinViaInvite] *)
Definition handleJoinViaInvite (args : Args) (h : Handler)
  : option (CallToolResult * Handler) :=
  let inviteLink := getString args "invite_link" in
  if String.eqb inviteLink "" then
    Some (errorResult (NewInvalidInputError "invite_link is required"), h)
  else
  match call (Bridge.ReqJoinViaInvite inviteLink) h with
  | None => None
  | Some (resp, h') =>
      match Bridge.resp_err resp with
      | Some err => Some (errorResult (NewInternalError err), h')
      | None =>
          Some (successResult
                  (DataObject [ ("success", ArgBool true); ("group_jid", string_result (Bridge.resp_value resp)) ]),
                h')
      end
  end.

(** [func (h *Handler) handleSendImage] *)
Definition handleSendImage (args : Args) (h : Handler)
  : option (CallToolResult * Handler) :=
  let recipient := getString args "recipient" in
  if String.eqb recipient "" then
    Some (errorResult (NewInvalidInputError "recipient is required"), h)
  else
  let imagePath := getString args "image_path" in
  if String.eqb imagePath "" then
    Some (errorResult (NewInvalidInputError "image_path is required"), h)
  else
  let caption := getString args "caption" in
  match call (Bridge.ReqSendImage recipient imagePath caption) h with
  | None => None
  | Some (resp, h') =>
      match Bridge.resp_err resp with
      | Some err => Some (errorResult (NewInternalError err), h')
      | None =>
          Some (successResult
                  (DataObject [ ("success", ArgBool true); ("message_id", string_result (Bridge.resp_value resp)) ]),
                h')
      end
  end.

(** [func (h *Handler) handleSendVideo] *)
Definition handleSendVideo (args : Args) (h : Handler)
  : option (CallToolResult * Handler) :=
  let recipient := getString args "recipient" in
  if String.eqb recipient "" then
    Some (errorResult (NewInvalidInputError "recipient is required"), h)
  else
  let videoPath := getString args "video_path" in
  if String.eqb videoPath "" then
    Some (errorResult (NewInvalidInputError "video_path is required"), h)
  else
  let caption := getString args "caption" in
  match call (Bridge.ReqSendVideo recipient videoPath caption) h with
  | None => None
  | Some (resp, h') =>
      match Bridge.resp_err resp with
      | Some err => Some (errorResult (NewInternalError err), h')
      | None =>
          Some (successResult
                  (DataObject [ ("success", ArgBool true); ("message_id", string_result (Bridge.resp_value resp)) ]),
                h')
      end
  end.

(** [func (h *Handler) handleSendAudio] *)
Definition handleSendAudio (args : Args) (h : Handler)
  : option (CallToolResult * Handler) :=
  let recipient := getString args "recipient" in
  if String.eqb recipient "" then
    Some (errorResult (NewInvalidInputError "recipient is required"), h)
  else
  let audioPath := getString args "audio_path" in
  if String.eqb audioPath "" then
    Some (errorResult (NewInvalidInputError "audio_path is required"), h)
  else
  let asVoice := getBool args "as_voice" false in
  match call (Bridge.ReqSendAudio recipient audioPath asVoice) h with
  | None => None
  | Some (resp, h') =>
      match Bridge.resp_err resp with
      | Some err => Some (errorResult (NewInternalError err), h')
      | None =>
          Some (successResult
                  (DataObject [ ("success", ArgBool true); ("message_id", string_result (Bridge.resp_value resp)) ]),
                h')
      end
  end.

(** [func (h *Handler) handleSendDocument] *)
Definition handleSendDocument (args : Args) (h : Handler)
  : option (CallToolResult * Handler) :=
  let recipient := getString args "recipient" in
  if String.eqb recipient "" then
    Some (errorResult (NewInvalidInputError "recipient is required"), h)
  else
  let filePath := getString args "file_path" in
  if String.eqb filePath "" then
    Some (errorResult (NewInvalidInputError "file_path is required"), h)
  else
  let filename := getString args "filename" in
  match call (Bridge.ReqSendDocument recipient filePath filename) h with
  | None => None
  | Some (resp, h') =>
      match Bridge.resp_err resp with
      | Some err => Some (errorResult (NewInternalError err), h')
      | None =>
          Some (successResult
                  (DataObject [ ("success", ArgBool true); ("message_id", string_result (Bridge.resp_value resp)) ]),
                h')
      end
  end.

(** [func (h *Handler) handleSendContactCard] *)
Definition handleSendContactCard (args : Args) (h : Handler)
  : option (CallToolResult * Handler) :=
  let recipient := getString args "recipient" in
  if String.eqb recipient "" then
    Some (errorResult (NewInvalidInputError "recipient is required"), h)
  else
  let contactJID := getString args "contact_jid" in
  if String.eqb contactJID "" then
    Some (errorResult (NewInvalidInputError "contact_jid is required"), h)
  else
  match call (Bridge.ReqSendContactCard recipient contactJID) h with
  | None => None
  | Some (resp, h') =>
      match Bridge.resp_err resp with
      | Some err => Some (errorResult (NewInternalError err), h')
      | None =>
          Some (successResult
                  (DataObject [ ("success", ArgBool true); ("message_id", string_result (Bridge.resp_value resp)) ]),
                h')
      end
  end.

(** [func (h *Handler) handleSubscribePresence] *)
Definition handleSubscribePresence (args : Args) (h : Handler)
  : option (CallToolResult * Handler) :=
  let jid := getString args "jid" in
  if String.eqb jid "" then
    Some (errorResult (NewInvalidInputError "jid is required"), h)
  else
  match call (Bridge.ReqSubscribePresence jid) h with
  | None => None
  | Some (resp, h') =>
      match Bridge.resp_err resp with
      | Some err => Some (errorResult (NewInternalError err), h')
      | None =>
          Some (successResult
                  (done "Subscribed to presence"),
                h')
      end
  end.

(** [func (h *Handler) handleSendTyping] *)
Definition handleSendTyping (args : Args) (h : Handler)
  : option (CallToolResult * Handler) :=
  let jid := getString args "jid" in
  if String.eqb jid "" then
    Some (errorResult (NewInvalidInputError "jid is required"), h)
  else
  match call (Bridge.ReqSendTyping jid) h with
  | None => None
  | Some (resp, h') =>
      match Bridge.resp_err resp with
      | Some err => Some (errorResult (NewInternalError err), h')
      | None =>
          Some (successResult
                  (done "Typing indicator sent"),
                h')
      end
  end.

(** [func (h *Handler) handleSendRecording] *)
Definition handleSendRecording (args : Args) (h : Handler)
  : option (CallToolResult * Handler) :=
  let jid := getString args "jid" in
  if String.eqb jid "" then
    Some (errorResult (NewInvalidInputError "jid is required"), h)
  else
  match call (Bridge.ReqSendRecording jid) h with
  | None => None
  | Some (resp, h') =>
      match Bridge.resp_err resp with
      | Some err => Some (errorResult (NewInternalError err), h')
      | None =>
          Some (successResult
                  (done "Recording indicator sent"),
                h')
      end
  end.

(** [func (h *Handler) handleSetOnline] *)
Definition handleSetOnline (args : Args) (h : Handler)
  : option (CallToolResult * Handler) :=
  match call (Bridge.ReqSetOnline) h with
  | None => None
  | Some (resp, h') =>
      match Bridge.resp_err resp with
      | Some err => Some (errorResult (NewInternalError err), h')
      | None =>
          Some (successResult
                  (done "Set to online"),
                h')
      end
  end.

(** [func (h *Handler) handleSetOffline] *)
Definition handleSetOffline (args : Args) (h : Handler)
  : option (CallToolResult * Handler) :=
  match call (Bridge.ReqSetOffline) h with
  | None => None
  | Some (resp, h') =>
      match Bridge.resp_err resp with
      | Some err => Some (errorResult (NewInternalError err), h')
      | None =>
          Some (successResult
                  (done "Set to offline"),
                h')
      end
  end.

(** [func (h *Handler) handlePostTextStatus] *)
Definition handlePostTextStatus (args : Args) (h : Handler)
  : option (CallToolResult * Handler) :=
  let text := getString args "text" in
  if String.eqb text "" then
    Some (errorResult (NewInvalidInputError "text is required"), h)
  else
  let backgroundColor := getString args "background_color" in
  match call (Bridge.ReqPostTextStatus text backgroundColor) h with
  | None => None
  | Some (resp, h') =>
      match Bridge.resp_err resp with
      | Some err => Some (errorResult (NewInternalError err), h')
      | None =>
          Some (successResult
                  (done "Status posted"),
                h')
      end
  end.

(** [func (h *Handler) handlePostImageStatus] *)
Definition handlePostImageStatus (args : Args) (h : Handler)
  : option (CallToolResult * Handler) :=
  let imagePath := getString args "image_path" in
  if String.eqb imagePath "" then
    Some (errorResult (NewInvalidInputError "image_path is required"), h)
  else
  let caption := getString args "caption" in
  match call (Bridge.ReqPostImageStatus imagePath caption) h with
  | None => None
  | Some (resp, h') =>
      match Bridge.resp_err resp with
      | Some err => Some (errorResult (NewInternalError err), h')
      | None =>
          Some (successResult
                  (done "Status posted"),
                h')
      end
  end.

(** [func (h *Handler) handleDeleteStatus] *)
Definition handleDeleteStatus (args : Args) (h : Handler)
  : option (CallToolResult * Handler) :=
  let statusID := getString args "status_id" in
  if String.eqb statusID "" then
    Some (errorResult (NewInvalidInputError "status_id is required"), h)
  else
  match call (Bridge.ReqDeleteStatus statusID) h with
  | None => None
  | Some (resp, h') =>
      match Bridge.resp_err resp with
      | Some err => Some (errorResult (NewInternalError err), h')
      | None =>
          Some (successResult
                  (done "Status deleted"),
                h')
      end
  end.


(** [func (h *Handler) handleStarMessage] *)
Definition handleStarMessage (args : Args) (star : bool) (h : Handler)
  : option (CallToolResult * Handler) :=
  let chatJID := getString args "chat_jid" in
  if String.eqb chatJID "" then
    Some (errorResult (NewInvalidInputError "chat_jid is required"), h)
  else
  let messageID := getString args "message_id" in
  if String.eqb messageID "" then
    Some (errorResult (NewInvalidInputError "message_id is required"), h)
  else
  match Messages_SetStarred chatJID messageID star (store h) with
  | (Some err, db) => Some (errorResult (NewInternalError err), with_handler_store db h)
  | (None, db) =>
      Some (successResult (done ("Message " ++ (if star then "starred" else "unstarred"))),
            with_handler_store db h)
  end.

(** [func (h *Handler) handleSendLocation] *)
Definition handleSendLocation (args : Args) (h : Handler)
  : option (CallToolResult * Handler) :=
  let recipient := getString args "recipient" in
  if String.eqb recipient "" then
    Some (errorResult (NewInvalidInputError "recipient is required"), h)
  else
  let latitude := getFloat args "latitude" in
  let longitude := getFloat args "longitude" in
  if Qlt_bool latitude (-90) || Qlt_bool 90 latitude then
    Some (errorResult (NewInvalidInputError "latitude must be between -90 and 90"), h)
  else
  if Qlt_bool longitude (-180) || Qlt_bool 180 longitude then
    Some (errorResult (NewInvalidInputError "longitude must be between -180 and 180"), h)
  else
  let name := getString args "name" in
  let address := getString args "address" in
  match call (Bridge.ReqSendLocation recipient latitude longitude name address) h with
  | None => None
  | Some (resp, h') =>
      match Bridge.resp_err resp with
      | Some err => Some (errorResult (NewInternalError err), h')
      | None =>
          Some (successResult
                  (DataObject [ ("success", ArgBool true);
                                ("message_id", string_result (Bridge.resp_value resp)) ]),
                h')
      end
  end.

(** [func (h *Handler) handleDownloadMedia] *)
Definition handleDownloadMedia (args : Args) (h : Handler)
  : option (CallToolResult * Handler) :=
  let chatJID := getString args "chat_jid" in
  if String.eqb chatJID "" then
    Some (errorResult (NewInvalidInputError "chat_jid is required"), h)
  else
  let messageID := getString args "message_id" in
  if String.eqb messageID "" then
    Some (errorResult (NewInvalidInputError "message_id is required"), h)
  else
  let savePath := getString args "save_path" in
  match validateSavePath savePath with
  | Some err => Some (errorResult (NewInvalidInputError (error_Error err)), h)
  | None =>
      match call (Bridge.ReqDownloadMedia chatJID messageID savePath) h with
      | None => None
      | Some (resp, h') =>
          match Bridge.resp_err resp with
          | Some err => Some (errorResult (NewInternalError err), h')
          | None =>
              Some (successResult
                      (DataObject [ ("success", ArgBool true);
                                    ("file_path", string_result (Bridge.resp_value resp)) ]),
                    h')
          end
      end
  end.

(** [func (h *Handler) handleGetStatusUpdates] *)
Definition handleGetStatusUpdates (args : Args) (h : Handler)
  : option (CallToolResult * Handler) :=
  let contactJID := getString args "contact_jid" in
  match (if negb (String.eqb contactJID "")
         then Status_GetByContact contactJID (store h)
         else Status_GetAll (store h)) with
  | Err err => Some (errorResult (NewInternalError err), h)
  | Ok statuses => Some (successResult (marshalStatuses statuses), h)
  end.

(** The cases of the [switch name] of [HandleTool] that lead to the
    handlers above, in the order of the source, and its [default]. *)
Definition handler_of (name : string) (args : Args) (h : Handler)
  : option (CallToolResult * Handler) :=
  if String.eqb name ToolArchiveChat || String.eqb name ToolUnarchiveChat then
    handleArchiveChat args (String.eqb name ToolArchiveChat) h
  else if String.eqb name ToolPinChat || String.eqb name ToolUnpinChat then
    handlePinChat args (String.eqb name ToolPinChat) h
  else if String.eqb name ToolMuteChat || String.eqb name ToolUnmuteChat then
    handleMuteChat args (String.eqb name ToolMuteChat) h
  else if String.eqb name ToolMarkChatRead then
    handleMarkChatRead args h
  else if String.eqb name ToolDeleteChat then
    handleDeleteChat args h
  else if String.eqb name ToolBlockContact || String.eqb name ToolUnblockContact then
    handleBlockContact args (String.eqb name ToolBlockContact) h
  else if String.eqb name ToolCheckPhoneRegistered then
    handleCheckPhoneRegistered args h
  else if String.eqb name ToolReplyToMessage then
    handleReplyToMessage args h
  else if String.eqb name ToolForwardMessage then
    handleForwardMessage args h
  else if String.eqb name ToolEditMessage then
    handleEditMessage args h
  else if String.eqb name ToolDeleteMessage then
    handleDeleteMessage args h
  else if String.eqb name ToolReactToMessage then
    handleReactToMessage args h
  else if String.eqb name ToolStarMessage || String.eqb name ToolUnstarMessage then
    handleStarMessage args (String.eqb name ToolStarMessage) h
  else if String.eqb name ToolCreateGroup then
    handleCreateGroup args h
  else if String.eqb name ToolGetGroupInfo then
    handleGetGroupInfo args h
  else if String.eqb name ToolLeaveGroup then
    handleLeaveGroup args h
  else if String.eqb name ToolAddGroupMembers then
    handleAddGroupMembers args h
  else if String.eqb name ToolRemoveGroupMembers then
    handleRemoveGroupMembers args h
  else if String.eqb name ToolPromoteAdmin then
    handlePromoteAdmin args h
  else if String.eqb name ToolDemoteAdmin then
    handleDemoteAdmin args h
  else if String.eqb name ToolSetGroupName then
    handleSetGroupName args h
  else if String.eqb name ToolSetGroupTopic then
    handleSetGroupTopic args h
  else if String.eqb name ToolSetGroupPhoto then
    handleSetGroupPhoto args h
  else if String.eqb name ToolGetInviteLink then
    handleGetInviteLink args h
  else if String.eqb name ToolRevokeInviteLink then
    handleRevokeInviteLink args h
  else if String.eqb name ToolJoinViaInvite then
    handleJoinViaInvite args h
  else if String.eqb name ToolSendImage then
    handleSendImage args h
  else if String.eqb name ToolSendVideo then
    handleSendVideo args h
  else if String.eqb name ToolSendAudio then
    handleSendAudio args h
  else if String.eqb name ToolSendDocument then
    handleSendDocument args h
  else if String.eqb name ToolSendLocation then
    handleSendLocation args h
  else if String.eqb name ToolSendContactCard then
    handleSendContactCard args h
  else if String.eqb name ToolDownloadMedia then
    handleDownloadMedia args h
  else if String.eqb name ToolSubscribePresence then
    handleSubscribePresence args h
  else if String.eqb name ToolSendTyping then
    handleSendTyping args h
  else if String.eqb name ToolSendRecording then
    handleSendRecording args h
  else if String.eqb name ToolSetOnline then
    handleSetOnline args h
  else if String.eqb name ToolSetOffline then
    handleSetOffline args h
  else if String.eqb name ToolPostTextStatus then
    handlePostTextStatus args h
  else if String.eqb name ToolPostImageStatus then
    handlePostImageStatus args h
  else if String.eqb name ToolGetStatusUpdates then
    handleGetStatusUpdates args h
  else if String.eqb name ToolDeleteStatus then
    handleDeleteStatus args h
  else Some (errorResult (NewInvalidInputError ("Unknown tool: " ++ name)), h).

(** The gated handlers as [HandleTool] reaches them; a call through a nil
    bridge is answered as [handleSendMessage] answers it. *)
Definition or_fault (r : option (CallToolResult * Handler)) (h : Handler)
  : CallToolResult * Handler :=
  match r with
  | Some r => r
  | None => (errorResult (NewInternalError (ErrorString "nil bridge")), h)
  end.

Definition gated (name : string) (args : Args) (h : Handler)
  : CallToolResult * Handler :=
  or_fault (handler_of name args h) h.

(** [func (h *Handler) HandleTool] with every handler in place. *)
Definition HandleTool (now : Z) (name : string) (args : Args) (h : Handler)
  : CallToolResult * Handler :=
  Api.HandleTool gated now name args h.
End Handlers.

(** [type Tool struct], with the name and the [required] list of the input
    schema. *)
Record Tool : Type := mkTool
  { Tool_Name : string;
    Tool_Required : list string }.

(** [func GetAllTools() []mcp.Tool], in the order of the source. *)
Definition GetAllTools : list Tool :=
  [
    {| Tool_Name := ToolSendMessage; Tool_Required := ["recipient"; "message"] |};
    {| Tool_Name := ToolReplyToMessage; Tool_Required := ["chat_jid"; "message_id"; "message"] |};
    {| Tool_Name := ToolForwardMessage; Tool_Required := ["source_chat_jid"; "message_id"; "target_jid"] |};
    {| Tool_Name := ToolEditMessage; Tool_Required := ["chat_jid"; "message_id"; "new_content"] |};
    {| Tool_Name := ToolDeleteMessage; Tool_Required := ["chat_jid"; "message_id"] |};
    {| Tool_Name := ToolReactToMessage; Tool_Required := ["chat_jid"; "message_id"; "emoji"] |};
    {| Tool_Name := ToolStarMessage; Tool_Required := ["chat_jid"; "message_id"] |};
    {| Tool_Name := ToolUnstarMessage; Tool_Required := ["chat_jid"; "message_id"] |};
    {| Tool_Name := ToolListChats; Tool_Required := [] |};
    {| Tool_Name := ToolGetChat; Tool_Required := ["jid"] |};
    {| Tool_Name := ToolListMessages; Tool_Required := ["chat_jid"] |};
    {| Tool_Name := ToolArchiveChat; Tool_Required := ["jid"] |};
    {| Tool_Name := ToolUnarchiveChat; Tool_Required := ["jid"] |};
    {| Tool_Name := ToolPinChat; Tool_Required := ["jid"] |};
    {| Tool_Name := ToolUnpinChat; Tool_Required := ["jid"] |};
    {| Tool_Name := ToolMuteChat; Tool_Required := ["jid"] |};
    {| Tool_Name := ToolUnmuteChat; Tool_Required := ["jid"] |};
    {| Tool_Name := ToolMarkChatRead; Tool_Required := ["jid"] |};
    {| Tool_Name := ToolDeleteChat; Tool_Required := ["jid"] |};
    {| Tool_Name := ToolSearchContacts; Tool_Required := ["query"] |};
    {| Tool_Name := ToolGetContact; Tool_Required := ["jid"] |};
    {| Tool_Name := ToolBlockContact; Tool_Required := ["jid"] |};
    {| Tool_Name := ToolUnblockContact; Tool_Required := ["jid"] |};
    {| Tool_Name := ToolGetBlockedContacts; Tool_Required := [] |};
    {| Tool_Name := ToolCheckPhoneRegistered; Tool_Required := ["phone"] |};
    {| Tool_Name := ToolCreateGroup; Tool_Required := ["name"; "participants"] |};
    {| Tool_Name := ToolGetGroupInfo; Tool_Required := ["jid"] |};
    {| Tool_Name := ToolLeaveGroup; Tool_Required := ["jid"] |};
    {| Tool_Name := ToolAddGroupMembers; Tool_Required := ["group_jid"; "participants"] |};
    {| Tool_Name := ToolRemoveGroupMembers; Tool_Required := ["group_jid"; "participants"] |};
    {| Tool_Name := ToolPromoteAdmin; Tool_Required := ["group_jid"; "participants"] |};
    {| Tool_Name := ToolDemoteAdmin; Tool_Required := ["group_jid"; "participants"] |};
    {| Tool_Name := ToolSetGroupName; Tool_Required := ["group_jid"; "name"] |};
    {| Tool_Name := ToolSetGroupTopic; Tool_Required := ["group_jid"; "topic"] |};
    {| Tool_Name := ToolSetGroupPhoto; Tool_Required := ["group_jid"; "image_path"] |};
    {| Tool_Name := ToolGetInviteLink; Tool_Required := ["group_jid"] |};
    {| Tool_Name := ToolRevokeInviteLink; Tool_Required := ["group_jid"] |};
    {| Tool_Name := ToolJoinViaInvite; Tool_Required := ["invite_link"] |};
    {| Tool_Name := ToolSendImage; Tool_Required := ["recipient"; "image_path"] |};
    {| Tool_Name := ToolSendVideo; Tool_Required := ["recipient"; "video_path"] |};
    {| Tool_Name := ToolSendAudio; Tool_Required := ["recipient"; "audio_path"] |};
    {| Tool_Name := ToolSendDocument; Tool_Required := ["recipient"; "file_path"] |};
    {| Tool_Name := ToolSendLocation; Tool_Required := ["recipient"; "latitude"; "longitude"] |};
    {| Tool_Name := ToolSendContactCard; Tool_Required := ["recipient"; "contact_jid"] |};
    {| Tool_Name := ToolDownloadMedia; Tool_Required := ["chat_jid"; "message_id"] |};
    {| Tool_Name := ToolSubscribePresence; Tool_Required := ["jid"] |};
    {| Tool_Name := ToolSendTyping; Tool_Required := ["jid"] |};
    {| Tool_Name := ToolSendRecording; Tool_Required := ["jid"] |};
    {| Tool_Name := ToolSetOnline; Tool_Required := [] |};
    {| Tool_Name := ToolSetOffline; Tool_Required := [] |};
    {| Tool_Name := ToolPostTextStatus; Tool_Required := ["text"] |};
    {| Tool_Name := ToolPostImageStatus; Tool_Required := ["image_path"] |};
    {| Tool_Name := ToolGetStatusUpdates; Tool_Required := [] |};
    {| Tool_Name := ToolDeleteStatus; Tool_Required := ["status_id"] |};
    {| Tool_Name := ToolGetBridgeStatus; Tool_Required := [] |};
    {| Tool_Name := ToolGetConnectionHistory; Tool_Required := [] |} ].

(** The names [HandleTool] has a [case] for. *)
Definition handled_tools : list string :=
  read_only_tools ++ ToolSendMessage :: other_tools.

(** The six tools of handlers_messaging.go that call the bridge. *)
Definition messaging_tools : list string :=
  [ ToolSendMessage; ToolReplyToMessage; ToolForwardMessage; ToolEditMessage;
    ToolDeleteMessage; ToolReactToMessage ].

(** The gated tools whose handlers work on the store alone. *)
Definition store_only_tools : list string :=
  [ ToolStarMessage; ToolUnstarMessage; ToolGetStatusUpdates ].

(** An argument a handler takes as missing: no string, or the empty one;
    for [participants], no array or one without a string. *)
Definition argument_missing (args : Args) (key : string) : bool :=
  if String.eqb key "participants"
  then (length (getStringArray args key) =? 0)%nat
  else String.eqb (getString args key) "".

(** The error code of a result, if it is an error. *)
Definition error_code (r : CallToolResult) : option string :=
  match Content r with
  | DataError e => if IsError r then Some (Err_Code e) else None
  | _ => None
  end.

(** The same methods of sqlite.go. *)
#[global] Instance SQLiteStore_LocalRepositories : LocalRepositories SQLiteStore :=
  {| Messages_SetStarred := SQLiteMessageRepo_SetStarred;
     Status_GetAll := SQLiteStatusRepo_GetAll;
     Status_GetByContact := SQLiteStatusRepo_GetByContact |}.

(** A bridge double that is ready and fails every operation. *)
Inductive FailingBridge : Type := failingBridge.

#[global] Instance FailingBridge_BridgeOps : BridgeOps FailingBridge :=
  {| Bridge_CurrentState := fun _ => State.StateReady;
     Bridge_IsReady := fun _ => true;
     Bridge_perform := fun req b =>
       ({| Bridge.resp_value := Bridge.zero_value req;
           Bridge.resp_err := Some (ErrorString "connection reset") |}, b) |}.

(** A bridge over the fake client of the tests, connected and ready, and
    handlers over it. *)
Definition ready_bridge : Bridge.Bridge SQLiteStore Bridge.FakeClient unit :=
  snd (fst (Bridge.Connect false
              (Bridge.NewBridge Config.DefaultConfig NewSQLiteStore
                 (Bridge.SetLoggedIn true Bridge.NewFakeClient)) tt)).

Definition handler_over {B : Type} (b : option B) : Api.Handler SQLiteStore B :=
  {| store := NewSQLiteStore;
     health := Health.NewMonitor Config.DefaultConfig 0;
     bridge := b;
     stateM := State.StateReady |}.

(** Renderings and a path check for the examples. *)
Definition any_path : string -> option error := fun _ => None.
Definition no_info : Bridge.Value -> Data := fun _ => DataObject [].
Definition no_statuses : list StatusUpdate -> Data := fun _ => DataObject [].

End Tools.

(* ===================================================================== *)
(** ** package mcp: the protocol server over stdio                         *)
(* ===================================================================== *)
Module Mcp.
Import Store.

(** Standard JSON-RPC error codes (protocol.go). *)
Definition ParseError : Z := (-32700)%Z.
Definition InvalidRequest : Z := (-32600)%Z.
Definition MethodNotFound : Z := (-32601)%Z.
Definition InvalidParams : Z := (-32602)%Z.
Definition InternalError : Z := (-32603)%Z.

(** The [id] of a request or response, [None] for Go's nil. *)
Definition ID : Type := option Api.ArgValue.

(** [type Implementation struct] *)
Record Implementation : Type := mkImplementation
  { Impl_Name : string;
    Impl_Version : string }.

(** [type InitializeParams struct], without the client capabilities. *)
Record InitializeParams : Type := mkInitializeParams
  { IP_ProtocolVersion : string;
    IP_ClientInfo : Implementation }.

(** [type ToolsCapability struct] and [type ResourcesCapability struct] *)
Record ToolsCapability : Type := mkToolsCapability
  { Tools_ListChanged : bool }.

Record ResourcesCapability : Type := mkResourcesCapability
  { Resources_Subscribe : bool;
    Resources_ListChanged : bool }.

(** [type ServerCapabilities struct]; [None] is a nil pointer. *)
Record ServerCapabilities : Type := mkServerCapabilities
  { Cap_Tools : option ToolsCapability;
    Cap_Resources : option ResourcesCapability;
    Cap_Prompts : option bool }.

(** [type InitializeResult struct] *)
Record InitializeResult : Type := mkInitializeResult
  { IR_ProtocolVersion : string;
    IR_Capabilities : ServerCapabilities;
    IR_ServerInfo : Implementation }.

(** [type Error struct]; the server never sets its [Data]. *)
Record RpcError : Type := mkRpcError
  { Error_Code : Z;
    Error_Message : string }.

(** The interface [ToolHandler]: [T] is the handler with what it works on,
    [R] the result of a tool call. *)
Class ToolHandler (T R : Type) : Type :=
  { GetTools : T -> list Tools.Tool;
    HandleTool : string -> Api.Args -> T -> (R + error) * T }.

(** The [io.Writer] of the transport, a message at a time: the marshalled
    message and the newline after it. *)
Class Writer (Wr Msg : Type) : Type :=
  { Writer_Write : Msg -> Wr -> option error * Wr }.

Section Server.
(** [Raw] stands for [json.RawMessage]; what [json.Unmarshal] makes of it
    for the three parameter structs is given by the decoders. *)
Variable Raw : Type.
Variable decodeInitialize : Raw -> option InitializeParams.
Variable decodeCallTool : Raw -> option (string * Api.Args).
Variable decodeReadResource : Raw -> option string.

Context {T R : Type} `{ToolHandler T R}.

(** [type Request struct]; [Req_Params] is [None] for a nil raw message. *)
Record Request : Type := mkRequest
  { Req_ID : ID;
    Req_Method : string;
    Req_Params : option Raw }.

(** What the server puts into the [result] of a response. *)
Inductive Result : Type :=
  | ResEmpty
  | ResInitialize (r : InitializeResult)
  | ResTools (tools : list Tools.Tool)
  | ResToolCall (r : R)
  | ResToolError (text : string)
  | ResResources.

(** [type Response struct] *)
Record Response : Type := mkResponse
  { Resp_ID : ID;
    Resp_Result : option Result;
    Resp_Error : option RpcError }.

Context {Wr : Type} `{Writer Wr Response}.

(** [type Server struct] with the writer of its transport. *)
Record Server : Type := mkServer
  { transport : Wr;
    handler : T;
    log : list Bridge.LogRecord;
    initialized : bool }.

Definition serverInfo : Implementation :=
  {| Impl_Name := "whatsapp-bridge-v2"; Impl_Version := "2.0.0" |}.

Definition logged (lvl : Bridge.Level) (msg : string) (s : Server) : Server :=
  {| transport := transport s; handler := handler s;
     log := log s ++ [ {| Bridge.log_level := lvl; Bridge.log_msg := msg |} ];
     initialized := initialized s |}.

(** [func (t *Transport) WriteMessage(resp *Response) error] *)
Definition WriteMessage (resp : Response) (s : Server) : option error * Server :=
  let s := logged Bridge.LevelDebug "sending message" s in
  match Writer_Write resp (transport s) with
  | (Some e, wr) =>
      (Some (ErrorString ("failed to write response: " ++ error_Error e)),
       {| transport := wr; handler := handler s; log := log s;
          initialized := initialized s |})
  | (None, wr) =>
      (None,
       {| transport := wr; handler := handler s; log := log s;
          initialized := initialized s |})
  end.

(** [func (t *Transport) SendResult(id, result) error] *)
Definition SendResult (id : ID) (result : Result) (s : Server) : option error * Server :=
  WriteMessage {| Resp_ID := id; Resp_Result := Some result; Resp_Error := None |} s.

(** [func (t *Transport) SendError(id, code, message, data) error] *)
Definition SendError (id : ID) (code : Z) (message : string) (s : Server)
  : option error * Server :=
  WriteMessage {| Resp_ID := id; Resp_Result := None;
                  Resp_Error := Some {| Error_Code := code; Error_Message := message |} |} s.

(** [func (s *Server) handleInitialize(req *Request) error] *)
Definition handleInitialize (req : Request) (s : Server) : option error * Server :=
  match (match Req_Params req with
         | Some raw => decodeInitialize raw
         | None => Some {| IP_ProtocolVersion := "";
                           IP_ClientInfo := {| Impl_Name := ""; Impl_Version := "" |} |}
         end) with
  | None => SendError (Req_ID req) InvalidParams "Invalid initialize params" s
  | Some params =>
      let s := logged Bridge.LevelInfo "Client initializing" s in
      let result :=
        {| IR_ProtocolVersion := "2024-11-05";
           IR_Capabilities :=
             {| Cap_Tools := Some {| Tools_ListChanged := false |};
                Cap_Resources := Some {| Resources_Subscribe := false;
                                         Resources_ListChanged := false |};
                Cap_Prompts := None |};
           IR_ServerInfo := serverInfo |} in
      SendResult (Req_ID req) (ResInitialize result) s
  end.

(** [func (s *Server) handleToolsList(req *Request) error] *)
Definition handleToolsList (req : Request) (s : Server) : option error * Server :=
  SendResult (Req_ID req) (ResTools (GetTools (handler s))) s.

(** [func (s *Server) handleToolsCall(ctx, req *Request) error]; the
    decoding of a nil raw message fails. *)
Definition handleToolsCall (req : Request) (s : Server) : option error * Server :=
  match (match Req_Params req with
         | Some raw => decodeCallTool raw
         | None => None
         end) with
  | None => SendError (Req_ID req) InvalidParams "Invalid tool call params" s
  | Some (name, arguments) =>
      let s := logged Bridge.LevelInfo "Tool call" s in
      let '(outcome, t) := HandleTool name arguments (handler s) in
      let s := {| transport := transport s; handler := t; log := log s;
                  initialized := initialized s |} in
      match outcome with
      | inr err =>
          let s := logged Bridge.LevelError "Tool call failed" s in
          SendResult (Req_ID req) (ResToolError ("Error: " ++ error_Error err)) s
      | inl result => SendResult (Req_ID req) (ResToolCall result) s
      end
  end.

(** [func (s *Server) handleResourcesList(req *Request) error] *)
Definition handleResourcesList (req : Request) (s : Server) : option error * Server :=
  SendResult (Req_ID req) ResResources s.

(** [func (s *Server) handleResourcesRead(req *Request) error] *)
Definition handleResourcesRead (req : Request) (s : Server) : option error * Server :=
  match (match Req_Params req with
         | Some raw => decodeReadResource raw
         | None => None
         end) with
  | None => SendError (Req_ID req) InvalidParams "Invalid resource read params" s
  | Some uri => SendError (Req_ID req) (-32002) ("Resource not found: " ++ uri) s
  end.

(** [func (s *Server) handleRequest(ctx, req *Request) error] *)
Definition handleRequest (req : Request) (s : Server) : option error * Server :=
  let s := logged Bridge.LevelDebug "handling request" s in
  if String.eqb (Req_Method req) "initialize" then handleInitialize req s
  else if String.eqb (Req_Method req) "initialized" then
    (None,
     logged Bridge.LevelInfo "Client initialized"
            {| transport := transport s; handler := handler s; log := log s;
               initialized := true |})
  else if String.eqb (Req_Method req) "ping" then SendResult (Req_ID req) ResEmpty s
  else if String.eqb (Req_Method req) "tools/list" then handleToolsList req s
  else if String.eqb (Req_Method req) "tools/call" then handleToolsCall req s
  else if String.eqb (Req_Method req) "resources/list" then handleResourcesList req s
  else if String.eqb (Req_Method req) "resources/read" then handleResourcesRead req s
  else SendError (Req_ID req) MethodNotFound ("Unknown method: " ++ Req_Method req) s.

(** What one turn of the loop of [Run] meets: the context found
    cancelled, a read that fails, a line that does not parse, or a
    request.  The end of the input is [io.EOF]. *)
Inductive Input : Type :=
  | InCancelled
  | InReadError
  | InUnparsable
  | InRequest (req : Request).

(** [ctx.Err()] of a cancelled context. *)
Definition ctxCanceled : error := ErrorString "context canceled".

(** The loop of [Run]. *)
Fixpoint serve (inputs : list Input) (s : Server) : option error * Server :=
  match inputs with
  | [] => (None, logged Bridge.LevelInfo "Client disconnected" s)
  | InCancelled :: _ =>
      (Some ctxCanceled, logged Bridge.LevelInfo "MCP server shutting down" s)
  | InReadError :: rest =>
      serve rest (logged Bridge.LevelError "Failed to read message" s)
  | InUnparsable :: rest =>
      serve rest (logged Bridge.LevelError "Failed to read message"
                         (logged Bridge.LevelDebug "received message" s))
  | InRequest req :: rest =>
      match handleRequest req (logged Bridge.LevelDebug "received message" s) with
      | (Some _, s') =>
          serve rest (logged Bridge.LevelError "Failed to handle request" s')
      | (None, s') => serve rest s'
      end
  end.

(** [func (s *Server) Run(ctx) error] *)
Definition Run (inputs : list Input) (s : Server) : option error * Server :=
  serve inputs (logged Bridge.LevelInfo "MCP server starting" s).

(** The requests the loop gets to: those before the context is found
    cancelled. *)
Fixpoint requests_served (inputs : list Input) : list Request :=
  match inputs with
  | [] => []
  | InCancelled :: _ => []
  | InRequest req :: rest => req :: requests_served rest
  | _ :: rest => requests_served rest
  end.

Fixpoint cancelled_in (inputs : list Input) : bool :=
  match inputs with
  | [] => false
  | InCancelled :: _ => true
  | _ :: rest => cancelled_in rest
  end.

(** A request that is answered: every one but the [initialized]
    notification. *)
Definition answered (req : Request) : bool :=
  negb (String.eqb (Req_Method req) "initialized").

(** The error codes the server answers with. *)
Definition sent_error_codes : list Z := [ MethodNotFound; InvalidParams; (-32002)%Z ].

(** A response carries a result or an error, not both and not neither,
    and an error has one of the server's codes. *)
Definition well_formed (resp : Response) : bool :=
  match Resp_Result resp, Resp_Error resp with
  | Some _, None => true
  | None, Some e => existsb (Z.eqb (Error_Code e)) sent_error_codes
  | _, _ => false
  end.

Definition set_initialized (v : bool) (s : Server) : Server :=
  {| transport := transport s; handler := handler s; log := log s; initialized := v |}.
End Server.

Arguments Request Raw : clear implicits.
Arguments Input Raw : clear implicits.
Arguments Result R : clear implicits.
Arguments Response R : clear implicits.
Arguments Server T Wr : clear implicits.
Arguments Req_ID {Raw} r.
Arguments Req_Method {Raw} r.
Arguments Req_Params {Raw} r.
Arguments mkRequest {Raw} Req_ID Req_Method Req_Params.
Arguments InCancelled {Raw}.
Arguments InReadError {Raw}.
Arguments InUnparsable {Raw}.
Arguments InRequest {Raw} req.
Arguments answered {Raw} req.
Arguments requests_served {Raw} inputs.
Arguments cancelled_in {Raw} inputs.

(** A writer double: it records the messages it is handed, in order, and
    fails those its oracle names. *)
Record Outbox (Msg : Type) : Type := mkOutbox
  { written : list Msg;
    refuses : Msg -> option error }.
Arguments written {Msg} o.
Arguments refuses {Msg} o.
Arguments mkOutbox {Msg} written refuses.

#[global] Instance Outbox_Writer (Msg : Type) : Writer (Outbox Msg) Msg :=
  {| Writer_Write := fun msg o =>
       (refuses o msg, {| written := written o ++ [msg]; refuses := refuses o |}) |}.

(** The tool handler of package api behind the interface, with the time
    its calls read; the three parameters are those of its handlers. *)
Definition Handler_ToolHandler {DB B : Type} `{Repositories DB}
  `{Tools.LocalRepositories DB} `{Api.BridgeOps B}
  (validateSavePath : string -> option error)
  (marshalInfo : Bridge.Value -> Api.Data)
  (marshalStatuses : list Store.StatusUpdate -> Api.Data)
  : ToolHandler (Z * Api.Handler DB B) Api.CallToolResult :=
  {| GetTools := fun _ => Tools.GetAllTools;
     HandleTool := fun name args t =>
       let '(r, h) := Tools.HandleTool validateSavePath marshalInfo marshalStatuses
                        (fst t) name args (snd t) in
       (inl r, (fst t, h)) |}.

(** What of a server does not depend on the handshake. *)
Definition core {T Wr : Type} (s : Server T Wr) :=
  (transport s, handler s, log s).

(** A raw message that decodes as the call of a tool, for the examples. *)
Definition call_of (raw : string * Api.Args) : option (string * Api.Args) := Some raw.

End Mcp.

(* ===================================================================== *)
(** ** Properties of the state machine                                    *)
(* ===================================================================== *)
(** Closing a decidable goal by evaluating its decision procedure. *)
Ltac by_computation := apply (bool_decide_unpack _); vm_compute; exact I.

Module StateFacts.
Import State.

Lemma State_eqb_eq (a b : State) : State_eqb a b = true <-> a = b.
Proof. split; [destruct a, b; cbn; congruence | intros ->; destruct b; reflexivity]. Qed.

(** The code's table and the specification's table agree entry by entry. *)
Lemma destination_is_table (s : State) (t : Trigger) :
  destination s t = Spec.transition_table s t.
Proof. destruct s, t; reflexivity. Qed.

(** Every source state is configured at most once and no trigger is
    permitted twice from one state, so the first match is the only one. *)
Lemma configuration_unambiguous :
  NoDup (map fst NewMachine_configuration)
  /\ Forall (fun c => NoDup (map fst (snd c))) NewMachine_configuration.
Proof.
  split.
  - by_computation.
  - repeat constructor; by_computation.
Qed.

Lemma fire_all_state {W : Type} (ts : list Trigger) :
  forall (m : Machine W) (w : W), sm (fst (fire_all m ts w)) = run (sm m) ts.
Proof.
  induction ts as [|t ts IH]; intros m w; [reflexivity|].
  cbn [fire_all run]. unfold Fire.
  destruct (destination (sm m) t) as [d|]; rewrite IH; reflexivity.
Qed.

Lemma never_to_connected (s : State) (t : Trigger) :
  destination s t <> Some StateConnected.
Proof. destruct s, t; vm_compute; congruence. Qed.

Lemma run_avoids_connected (ts : list Trigger) :
  forall s, s <> StateConnected -> run s ts <> StateConnected.
Proof.
  induction ts as [|t ts IH]; intros s Hs; cbn [run]; [exact Hs|].
  destruct (destination s t) as [d|] eqn:Hd.
  - apply IH. intros ->. exact (never_to_connected _ _ Hd).
  - apply IH, Hs.
Qed.

Lemma reachable_not_connected (s : State) : reachable s -> s <> StateConnected.
Proof. intros [ts <-]. apply run_avoids_connected. discriminate. Qed.

Lemma run_app (ts1 ts2 : list Trigger) :
  forall s, run s (ts1 ++ ts2) = run (run s ts1) ts2.
Proof.
  induction ts1 as [|t ts1 IH]; intros s; cbn [run app]; [reflexivity|].
  destruct (destination s t); apply IH.
Qed.

(** Every declared state other than [connected] is reachable. *)
Lemma reachable_all_but_connected (s : State) : s <> StateConnected -> reachable s.
Proof.
  intros Hs. destruct s; try congruence.
  - exists []; reflexivity.
  - exists [TriggerConnect]; reflexivity.
  - exists [TriggerConnect; TriggerConnectionLost]; reflexivity.
  - exists [TriggerConnect; TriggerQRRequired]; reflexivity.
  - exists [TriggerConnect; TriggerQRRequired; TriggerQRScanned]; reflexivity.
  - exists [TriggerConnect; TriggerAuthenticated]; reflexivity.
  - exists [TriggerConnect; TriggerAuthenticated; TriggerSyncComplete]; reflexivity.
  - exists [TriggerConnect; TriggerAuthenticated; TriggerSyncComplete; TriggerLogout];
      reflexivity.
  - exists [TriggerConnect; TriggerAuthenticated; TriggerSyncComplete;
            TriggerSessionInvalid]; reflexivity.
  - exists [TriggerConnect; TriggerAuthenticated; TriggerSyncComplete;
            TriggerBanDetected]; reflexivity.
  - exists [TriggerShutdown]; reflexivity.
  - exists [TriggerConnect; TriggerFatalError]; reflexivity.
Qed.

(** C1: firing a trigger follows the transition table of section 4.1: a
    pair that is not in the table yields the invalid-transition error and
    leaves the machine (and everything the callbacks act on) as it was; a
    pair that is in the table yields no error and moves the machine to the
    listed destination.  The refusal of an unlisted pair is thus the only
    error of [Fire]. *)
Theorem fire_follows_transition_table :
  forall (W : Type) (s : State) (t : Trigger)
         (cbs : list (TransitionCallback W)) (w : W),
    match Spec.transition_table s t with
    | None =>
        Fire (mkMachine s cbs) t w
        = (Some (InvalidTransition s t), mkMachine s cbs, w)
    | Some d =>
        Fire (mkMachine s cbs) t w
        = (None, mkMachine d cbs, dispatch cbs s d t w)
    end.
Proof.
  intros W s t cbs w. unfold Fire. cbn [sm callbacks].
  rewrite destination_is_table.
  destruct (Spec.transition_table s t); reflexivity.
Qed.

(** C2, the claim as stated fails: [shutting_down] is itself reachable (one
    [shutdown] from the initial state), and firing [shutdown] there is
    refused. *)
Lemma shutdown_refused_when_shutting_down :
  reachable StateShuttingDown
  /\ Fire (mkMachine StateShuttingDown []) TriggerShutdown tt
     = (Some (InvalidTransition StateShuttingDown TriggerShutdown),
        mkMachine StateShuttingDown [], tt).
Proof. split; [exists [TriggerShutdown]; reflexivity | reflexivity]. Qed.

(** C2, amended: from every reachable state other than [shutting_down]
    itself, firing [shutdown] succeeds and moves the machine to
    [shutting_down]; from every reachable state the machine is in
    [shutting_down] after the call; and from [shutting_down] every trigger,
    [shutdown] included, is refused with an error and the state stays
    [shutting_down]. *)
Theorem shutdown_from_reachable :
  forall (W : Type) (s : State) (cbs : list (TransitionCallback W)) (w : W),
    reachable s ->
    (if State_eqb s StateShuttingDown
     then Fire (mkMachine s cbs) TriggerShutdown w
          = (Some (InvalidTransition s TriggerShutdown), mkMachine s cbs, w)
     else Fire (mkMachine s cbs) TriggerShutdown w
          = (None, mkMachine StateShuttingDown cbs,
             dispatch cbs s StateShuttingDown TriggerShutdown w))
    /\ sm (Fire (mkMachine s cbs) TriggerShutdown w).1.2 = StateShuttingDown
    /\ forall t : Trigger,
         Fire (mkMachine StateShuttingDown cbs) t w
         = (Some (InvalidTransition StateShuttingDown t),
            mkMachine StateShuttingDown cbs, w).
Proof.
  intros W s cbs w Hr. apply reachable_not_connected in Hr.
  split; [|split].
  - destruct s; try congruence; reflexivity.
  - destruct s; try congruence; reflexivity.
  - intros t. reflexivity.
Qed.

Lemma shutdown_from_reachable_witness :
  reachable StateReady
  /\ Fire (mkMachine StateReady []) TriggerShutdown tt
     = (None, mkMachine StateShuttingDown [], tt).
Proof.
  assert (Hr : reachable StateReady).
  { exists [TriggerConnect; TriggerAuthenticated; TriggerSyncComplete]. reflexivity. }
  split; [exact Hr|].
  exact (proj1 (shutdown_from_reachable unit StateReady [] tt Hr)).
Defined.

(** C8, the claim as stated fails: [temporary_ban] is a terminal state
    ([IsTerminal]) and permits [ban_lifted], which is neither [connect] nor
    [shutdown]. *)
Lemma temporary_ban_permits_ban_lifted :
  IsTerminal StateTemporaryBan = true
  /\ CanFire (mkMachine (W:=unit) StateTemporaryBan []) TriggerBanLifted = true
  /\ Spec.trigger_among TriggerBanLifted [TriggerConnect; TriggerShutdown] = false.
Proof. repeat split. Qed.

(** C8, amended: from [logged_out] and [session_expired] exactly [connect]
    and [shutdown] are permitted, from [fatal_error] exactly [shutdown],
    and from [shutting_down] nothing; [temporary_ban] permits exactly
    [ban_lifted], [disconnect], [shutdown] and [fatal_error].  So from
    every terminal state other than [temporary_ban], [CanFire] is false
    for every trigger other than [connect] and [shutdown]. *)
Theorem terminal_states_permits :
  forall (W : Type) (cbs : list (TransitionCallback W)) (t : Trigger),
    CanFire (mkMachine StateLoggedOut cbs) t
    = Spec.trigger_among t [TriggerConnect; TriggerShutdown]
    /\ CanFire (mkMachine StateSessionExpired cbs) t
       = Spec.trigger_among t [TriggerConnect; TriggerShutdown]
    /\ CanFire (mkMachine StateFatalError cbs) t
       = Spec.trigger_among t [TriggerShutdown]
    /\ CanFire (mkMachine StateShuttingDown cbs) t = false
    /\ CanFire (mkMachine StateTemporaryBan cbs) t
       = Spec.trigger_among t
           [TriggerBanLifted; TriggerDisconnect; TriggerShutdown; TriggerFatalError].
Proof. intros W cbs t. destruct t; repeat split. Qed.

(** C9, the claim as stated fails: the code declares thirteen states, not
    fourteen, and one of them, [connected], is not among the states of the
    specification's partition. *)
Lemma declared_states_not_fourteen :
  length declared_states <> 14
  /\ In StateConnected declared_states
  /\ ~ In StateConnected Spec.partition_states.
Proof.
  split; [cbn; lia|]. split; [cbn; tauto|].
  cbn. intros H. repeat (destruct H as [H|H]; [discriminate H|]). exact H.
Qed.

(** C9, amended: the State type is a closed enumeration of exactly 13
    distinct values, holding pairwise distinct strings: the twelve states
    named in the specification's partition and [connected]. *)
Theorem declared_states_thirteen :
  length declared_states = 13
  /\ NoDup declared_states
  /\ NoDup (map State_String declared_states)
  /\ (forall s : State, In s declared_states)
  /\ length Spec.partition_states = 12
  /\ Permutation declared_states (StateConnected :: Spec.partition_states).
Proof.
  split; [reflexivity|].
  split; [by_computation|].
  split; [by_computation|].
  split; [intros s; destruct s; cbn; tauto|].
  split; [reflexivity|].
  by_computation.
Qed.

(** C10: [connected] is unreachable: a new machine starts in
    [disconnected], no entry of the configured table has [connected] as
    its destination, and after any sequence of triggers fired on a new
    machine the current state is not [connected]. *)
Theorem connected_unreachable :
  forall (W : Type) (ts : list Trigger) (w : W),
    sm (NewMachine (W:=W)) = StateDisconnected
    /\ Forall (fun c => Forall (fun p => snd p <> StateConnected) (snd c))
              NewMachine_configuration
    /\ sm (fst (fire_all (NewMachine (W:=W)) ts w)) <> StateConnected.
Proof.
  intros W ts w. split; [reflexivity|]. split.
  - repeat constructor; cbn; discriminate.
  - rewrite fire_all_state. apply run_avoids_connected. cbn. discriminate.
Qed.

End StateFacts.

(* ===================================================================== *)
(** ** Properties of the health monitor's back-off                        *)
(* ===================================================================== *)
Module HealthFacts.
Import Backoff Config Health.

Local Open Scope Z_scope.

Lemma truncate_nonneg (q : Q) : (0 <= q)%Q -> truncate q = Qfloor q.
Proof.
  intros Hq. unfold truncate.
  replace (Qle_bool 0 q) with true; [reflexivity|].
  symmetry. apply Qle_bool_iff. exact Hq.
Qed.

(** Growth by the default multiplier, in integers. *)
Lemma grow_default (cur : Z) :
  0 <= cur -> truncate (inject_Z cur * DefaultMultiplier)%Q = (3 * cur) / 2.
Proof.
  intros Hc. rewrite truncate_nonneg.
  - unfold Qfloor, Qmult, inject_Z, DefaultMultiplier. cbn [Qnum Qden Pos.mul].
    f_equal. lia.
  - unfold Qle, Qmult, inject_Z, DefaultMultiplier. cbn [Qnum Qden Pos.mul]. lia.
Qed.

(** The cap test with the default multiplier, in integers. *)
Lemma cap_test_default (cur maxI : Z) :
  Qle_bool (inject_Z maxI / DefaultMultiplier) (inject_Z cur)
  = (2 * maxI <=? 3 * cur).
Proof.
  unfold Qle_bool, Qdiv, Qmult, Qinv, inject_Z, DefaultMultiplier.
  cbn [Qnum Qden Pos.mul].
  apply eq_true_iff_eq. rewrite !Z.leb_le. lia.
Qed.

Lemma increment_default (b : ExponentialBackOff) :
  Multiplier b = DefaultMultiplier ->
  0 <= currentInterval b ->
  currentInterval (incrementCurrentInterval b)
  = if 2 * MaxInterval b <=? 3 * currentInterval b
    then MaxInterval b
    else (3 * currentInterval b) / 2.
Proof.
  intros Hm Hc. unfold incrementCurrentInterval. cbn [currentInterval].
  rewrite Hm, cap_test_default, grow_default by exact Hc. reflexivity.
Qed.

(** The jittered value with the default randomization factor. *)
Lemma jitter_default (cur : Z) (r : Q) :
  0 <= cur -> unit_draw r ->
  Main.within_jitter cur (getRandomValueFromInterval DefaultRandomizationFactor r cur).
Proof.
  intros Hc [Hr0 Hr1]. unfold getRandomValueFromInterval, DefaultRandomizationFactor.
  change (Qeq_bool (1 # 2) 0) with false. cbv iota zeta.
  assert (Hcq : (0 <= inject_Z cur)%Q).
  { change 0%Q with (inject_Z 0). rewrite <- Zle_Qle. exact Hc. }
  set (c := inject_Z cur) in *.
  set (v := (c - (1 # 2) * c + r * (c + (1 # 2) * c - (c - (1 # 2) * c) + 1))%Q).
  assert (Hp0 : (0 <= r * (c + 1))%Q) by (apply Qmult_le_0_compat; lra).
  assert (Hp1 : (r * (c + 1) < 1 * (c + 1))%Q) by (apply Qmult_lt_compat_r; lra).
  assert (Hv : (v == (1 # 2) * c + r * (c + 1))%Q) by (unfold v; ring).
  assert (Hv0 : (0 <= v)%Q) by lra.
  rewrite truncate_nonneg by exact Hv0.
  pose proof (Qfloor_le v) as Hf1.
  pose proof (Qlt_floor v) as Hf2.
  set (d := Qfloor v) in *.
  rewrite inject_Z_plus in Hf2. change (inject_Z 1) with 1%Q in Hf2.
  unfold Main.within_jitter. split.
  - assert (Hlt : cur < 2 * d + 2); [|lia].
    rewrite Zlt_Qlt, inject_Z_plus, inject_Z_mult. fold c.
    change (inject_Z 2) with 2%Q. lra.
  - assert (Hlt : 2 * d < 3 * cur + 2); [|lia].
    rewrite Zlt_Qlt, inject_Z_plus, !inject_Z_mult. fold c.
    change (inject_Z 2) with 2%Q. change (inject_Z 3) with 3%Q. lra.
Qed.

Lemma validate_bounds (cfg : Config) :
  Validate_reconnect cfg = true ->
  0 < ReconnectBaseDelay cfg <= ReconnectMaxDelay cfg.
Proof.
  unfold Validate_reconnect. rewrite !andb_true_iff, !Z.ltb_lt, !Z.leb_le. lia.
Qed.

Lemma next_delay_value (r : Q) (m : Monitor) :
  fst (GetNextReconnectDelay r m)
  = getRandomValueFromInterval (RandomizationFactor (reconnectBackoff m)) r
      (currentInterval (reconnectBackoff m)).
Proof. reflexivity. Qed.

Lemma next_delays_cons (r : Q) (draws : list Q) (m : Monitor) :
  next_delays (r :: draws) m
  = (fst (GetNextReconnectDelay r m)
       :: fst (next_delays draws (snd (GetNextReconnectDelay r m))),
     snd (next_delays draws (snd (GetNextReconnectDelay r m)))).
Proof.
  cbn [next_delays]. destruct (GetNextReconnectDelay r m) as [d m1]. cbn [fst snd].
  destruct (next_delays draws m1); reflexivity.
Qed.

Section Policy.
Variable cfg : Config.
Hypothesis cfg_valid : Validate_reconnect cfg = true.

Lemma policy_new (now : Z) : Main.policy_of cfg (reconnectBackoff (NewMonitor cfg now)).
Proof.
  pose proof (validate_bounds cfg cfg_valid).
  unfold Main.policy_of. cbn. repeat split; lia.
Qed.

Lemma policy_reset (b : ExponentialBackOff) :
  Main.policy_of cfg b -> Main.policy_of cfg (Reset b).
Proof.
  pose proof (validate_bounds cfg cfg_valid).
  intros (Hf & Hm & Hi & Hx & Hc). unfold Main.policy_of. cbn.
  repeat split; try assumption; lia.
Qed.

(** One step of growth keeps the policy and does not shrink the cursor. *)
Lemma policy_increment (b : ExponentialBackOff) :
  Main.policy_of cfg b ->
  Main.policy_of cfg (incrementCurrentInterval b)
  /\ currentInterval b <= currentInterval (incrementCurrentInterval b).
Proof.
  pose proof (validate_bounds cfg cfg_valid) as Hv.
  intros (Hf & Hm & Hi & Hx & Hc).
  assert (Hinc := increment_default b Hm ltac:(lia)).
  assert (Hnext : currentInterval b <= currentInterval (incrementCurrentInterval b)
                  <= ReconnectMaxDelay cfg).
  { rewrite Hinc, Hx.
    destruct (2 * ReconnectMaxDelay cfg <=? 3 * currentInterval b) eqn:Hcap.
    - lia.
    - apply Z.leb_gt in Hcap. split.
      + apply Z.div_le_lower_bound; lia.
      + apply Z.lt_le_incl, Z.div_lt_upper_bound; lia. }
  split; [|lia].
  unfold Main.policy_of. cbn [RandomizationFactor Multiplier InitialInterval
                              MaxInterval incrementCurrentInterval].
  repeat split; try assumption; lia.
Qed.

Lemma policy_next_delay (r : Q) (m : Monitor) :
  Main.policy_of cfg (reconnectBackoff m) ->
  Main.policy_of cfg (reconnectBackoff (snd (GetNextReconnectDelay r m))).
Proof. intros Hp. cbn. apply policy_increment, Hp. Qed.

(** Every operation of the monitor keeps the policy. *)
Lemma policy_apply_op (o : Op) (m : Monitor) :
  Main.policy_of cfg (reconnectBackoff m) ->
  Main.policy_of cfg (reconnectBackoff (apply_op o m)).
Proof.
  intros Hp. destruct o as [now|now| |r| | |r| ]; cbn [apply_op]; try exact Hp.
  - exact (policy_next_delay r m Hp).
  - apply policy_reset, Hp.
  - unfold ScheduleReconnect. destruct (IsMaxRetriesExceeded m); [exact Hp|].
    exact (policy_next_delay r m Hp).
  - apply policy_reset, Hp.
Qed.

Lemma policy_monitor_after (ops : list Op) :
  forall m, Main.policy_of cfg (reconnectBackoff m) ->
            Main.policy_of cfg (reconnectBackoff (Main.monitor_after ops m)).
Proof.
  unfold Main.monitor_after.
  induction ops as [|o ops IH]; intros m Hp; cbn [fold_left]; [exact Hp|].
  apply IH, policy_apply_op, Hp.
Qed.

(** The calls of [next_delays], from any monitor that keeps the policy. *)
Lemma next_delays_policy (draws : list Q) :
  forall m,
    Main.policy_of cfg (reconnectBackoff m) ->
    Forall unit_draw draws ->
    Main.nondecreasing (next_intervals draws m)
    /\ Forall (fun i => ReconnectBaseDelay cfg <= i <= ReconnectMaxDelay cfg)
              (next_intervals draws m)
    /\ Forall2 Main.within_jitter (next_intervals draws m) (fst (next_delays draws m)).
Proof.
  pose proof (validate_bounds cfg cfg_valid) as Hv.
  induction draws as [|r draws IH]; intros m Hp Hd.
  - cbn. repeat split; constructor.
  - inversion Hd as [|? ? Hr Hd']; subst.
    destruct (policy_increment _ Hp) as [Hp' Hle].
    specialize (IH (snd (GetNextReconnectDelay r m)) Hp' Hd').
    destruct IH as (IHs & IHb & IHj).
    destruct Hp as (Hf & Hm & Hi & Hx & Hc).
    rewrite next_delays_cons. cbn [next_intervals fst].
    split; [|split].
    + cbn [Main.nondecreasing]. split; [|exact IHs].
      destruct draws as [|r' draws']; [exact I|]. cbn [next_intervals]. exact Hle.
    + constructor; [lia | exact IHb].
    + constructor; [|exact IHj].
      rewrite next_delay_value, Hf. apply jitter_default; [lia | exact Hr].
Qed.
End Policy.

(** C5, the claim as stated fails.  With the default settings (base 1s,
    maximum 5m) and the draws 3/4 and 0, the first two delays are 1.25s and
    0.75s: the second is smaller although the maximum is far from reached.
    With base and maximum both 1s and the draw 3/4 the delay is 1.25s,
    above the configured maximum. *)
Lemma jitter_breaks_monotonicity :
  Validate_reconnect DefaultConfig = true
  /\ Forall unit_draw [3 # 4; 0 # 1]%Q
  /\ fst (next_delays [3 # 4; 0 # 1]%Q (NewMonitor DefaultConfig 0))
     = [1250000000; 750000000]
  /\ Spec.nondecreasing_until (ReconnectMaxDelay DefaultConfig)
       (fst (next_delays [3 # 4; 0 # 1]%Q (NewMonitor DefaultConfig 0))) = false
  /\ let tight := {| ConnectTimeout := 30 * Second;
                     KeepaliveInterval := 30 * Second;
                     ReconnectMaxRetries := 10;
                     ReconnectBaseDelay := 1 * Second;
                     ReconnectMaxDelay := 1 * Second |} in
     Validate_reconnect tight = true
     /\ fst (next_delays [3 # 4]%Q (NewMonitor tight 0)) = [1250000000]
     /\ Spec.nondecreasing_until (ReconnectMaxDelay tight)
          (fst (next_delays [3 # 4]%Q (NewMonitor tight 0))) = false.
Proof.
  split; [reflexivity|]. split.
  { repeat constructor; unfold Qle, Qlt; cbn; lia. }
  split; [vm_compute; reflexivity|]. split; [vm_compute; reflexivity|].
  cbv zeta. split; [reflexivity|]. split; vm_compute; reflexivity.
Qed.

(** C5, amended: across any number of consecutive calls of the
    next-reconnect-delay operation with no intervening reset, on a monitor
    built from a valid configuration, the un-jittered interval behind each
    delay is non-decreasing and stays between the base and the configured
    maximum (so it remains at the maximum once it is reached), and each
    returned delay lies within the randomization factor of its interval
    (from half of it to one and a half times it), hence is non-negative
    and at most one and a half times the configured maximum. *)
Theorem backoff_intervals_monotone :
  forall (cfg : Config) (now : Z) (ops : list Op) (draws : list Q),
    Validate_reconnect cfg = true ->
    Forall unit_draw draws ->
    let m := Main.monitor_after ops (NewMonitor cfg now) in
    let intervals := next_intervals draws m in
    let delays := fst (next_delays draws m) in
    Main.nondecreasing intervals
    /\ Forall (fun i => ReconnectBaseDelay cfg <= i <= ReconnectMaxDelay cfg) intervals
    /\ Forall2 Main.within_jitter intervals delays
    /\ Forall (fun d => 0 <= d /\ 2 * d <= 3 * ReconnectMaxDelay cfg + 1) delays.
Proof.
  intros cfg now ops draws Hcfg Hdraws m intervals delays.
  pose proof (validate_bounds cfg Hcfg) as Hv.
  assert (Hp : Main.policy_of cfg (reconnectBackoff m)).
  { apply policy_monitor_after, policy_new; exact Hcfg. }
  destruct (next_delays_policy cfg Hcfg draws m Hp Hdraws) as (Hs & Hb & Hj).
  fold intervals in Hs, Hb, Hj. fold delays in Hj.
  split; [exact Hs|]. split; [exact Hb|]. split; [exact Hj|].
  clearbody intervals delays. clear Hs.
  induction Hj as [|i d is_ ds Hid Hrest IH]; constructor.
  - inversion Hb; subst. unfold Main.within_jitter in Hid. lia.
  - apply IH. inversion Hb; subst. assumption.
Qed.

Lemma backoff_intervals_monotone_witness :
  Main.nondecreasing
    (next_intervals [3 # 4; 0 # 1; 1 # 2]%Q (NewMonitor DefaultConfig 0))
  /\ Forall (fun d => 0 <= d /\ 2 * d <= 3 * ReconnectMaxDelay DefaultConfig + 1)
            (fst (next_delays [3 # 4; 0 # 1; 1 # 2]%Q (NewMonitor DefaultConfig 0))).
Proof.
  assert (Hd : Forall unit_draw [3 # 4; 0 # 1; 1 # 2]%Q).
  { repeat constructor; unfold Qle, Qlt; cbn; lia. }
  pose proof (backoff_intervals_monotone DefaultConfig 0 []
                [3 # 4; 0 # 1; 1 # 2]%Q eq_refl Hd) as H.
  cbv zeta in H. split; [exact (proj1 H) | exact (proj2 (proj2 (proj2 H)))].
Defined.

End HealthFacts.

(* ===================================================================== *)
(** ** The database in the scenarios of its tests                         *)
(* ===================================================================== *)
Module StoreFacts.
Import State Store.

Local Open Scope list_scope.

(** The scenarios of sqlite_test.go, on the model of the database. *)

(** A message whose chat has no row is refused, and nothing is written. *)
Example message_needs_its_chat :
  Messages_Store (Main.message_at "a" 10) NewSQLiteStore
  = (Some (ErrorString "FOREIGN KEY constraint failed"), NewSQLiteStore).
Proof. reflexivity. Qed.

(** Messages are listed latest first and up to the limit; [before] keeps
    those earlier than the named message, and none when it names none. *)
Example messages_latest_first :
  let ids := fun r : result (list Message) =>
               match r with
               | Ok l => Some (map Message_ID l)
               | Err _ => None
               end in
  ids (Messages_List "123@s.whatsapp.net" 2 "" Main.three_messages) = Some ["c"; "b"]
  /\ ids (Messages_List "123@s.whatsapp.net" 50 "c" Main.three_messages)
     = Some ["b"; "a"]
  /\ ids (Messages_List "123@s.whatsapp.net" 50 "zzz" Main.three_messages) = Some []
  /\ ids (Messages_List "other@s.whatsapp.net" 50 "" Main.three_messages) = Some [].
Proof. vm_compute. repeat split. Qed.

(** Storing a message again replaces the row of the same id and chat. *)
Example message_replaced :
  map Message_Timestamp
      (tbl_messages (snd (Messages_Store (Main.message_at "a" 40) Main.three_messages)))
  = [30; 20; 40]%Z.
Proof. vm_compute. reflexivity. Qed.

(** The search finds the query anywhere in a name, whatever the case. *)
Example contacts_search :
  Contacts_Search "doe" 20 Main.three_contacts
  = Ok [ Main.contact_named "1@s.whatsapp.net" "John Doe";
         Main.contact_named "2@s.whatsapp.net" "Jane Doe" ]
  /\ Contacts_Search "J_n" 20 Main.three_contacts
     = Ok [ Main.contact_named "2@s.whatsapp.net" "Jane Doe" ]
  /\ Contacts_Search "Doe" 1 Main.three_contacts
     = Ok [ Main.contact_named "1@s.whatsapp.net" "John Doe" ].
Proof. vm_compute. repeat split. Qed.

(** The state is saved over the seeded one, and the history of transitions
    is read latest first. *)
Example transitions_latest_first :
  let db := Main.after_writes
              [ State_SaveState StateConnecting;
                State_LogTransition StateDisconnected StateConnecting "connect";
                State_SaveState StateReady;
                State_LogTransition StateConnecting StateReady "authenticated" ]
              NewSQLiteStore in
  tbl_bridge_state db = StateReady
  /\ match State_GetTransitionHistory 10 db with
     | Ok l => map (fun t => (Transition_ID t, Transition_Trigger t)) l
     | Err _ => []
     end = [ (2%Z, "authenticated"); (1%Z, "connect") ].
Proof. vm_compute. repeat split. Qed.

(** Updating the last-message time of a chat without a row is no error
    and touches no row. *)
Example update_without_row :
  let r := Chats_UpdateLastMessage "123@s.whatsapp.net" 7 NewSQLiteStore in
  fst r = None /\ tbl_chats (snd r) = [].
Proof. vm_compute. repeat split. Qed.

End StoreFacts.

(* ===================================================================== *)
(** ** Properties of the bridge: event queue, message handling, and the   *)
(** ** transition callback                                                *)
(* ===================================================================== *)
Module BridgeFacts.
Import State Store Backoff Config Bridge.

Local Open Scope list_scope.

Section Generic.
Context {DB : Type} `{Repositories DB} {C : Type} `{WhatsAppClient C} {W : Type}.

Local Abbreviation Bridge := (Bridge.Bridge DB C W).
Local Abbreviation Fields := (Bridge.Fields DB C W).

(** A logged write changes the store as the write does and appends one
    record exactly when the write fails. *)
Lemma logged_write_spec (write : DB -> option error * DB) (lvl : Level)
      (msg : string) (f : Fields) :
  store (logged_write write lvl msg f) = snd (write (store f))
  /\ log (logged_write write lvl msg f)
     = log f ++ match fst (write (store f)) with
                | Some _ => [ {| log_level := lvl; log_msg := msg |} ]
                | None => []
                end
  /\ client (logged_write write lvl msg f) = client f
  /\ events (logged_write write lvl msg f) = events f
  /\ eventListeners (logged_write write lvl msg f) = eventListeners f
  /\ stateListeners (logged_write write lvl msg f) = stateListeners f.
Proof.
  unfold logged_write. destruct (write (store f)) as [[e|] db]; cbn;
    rewrite ?app_nil_r; repeat split; reflexivity.
Qed.

(** The transition callback hands the outside world to the registered
    state listeners and to nothing else. *)
Lemma transitionCallback_world (from to : State) (t : Trigger) (f : Fields) (w : W) :
  snd (transitionCallback from to t (f, w))
  = fold_left (fun acc listener => listener from to acc) (stateListeners f) w.
Proof.
  unfold transitionCallback. cbn [snd].
  destruct (logged_write_spec (State_SaveState to) LevelError "failed to save state"
              (with_log {| log_level := LevelInfo; log_msg := "state transition" |} f))
    as (_ & _ & _ & _ & _ & Hl1).
  destruct (logged_write_spec
              (State_LogTransition from to (Trigger_String t)) LevelError
              "failed to log transition"
              (logged_write (State_SaveState to) LevelError "failed to save state"
                 (with_log {| log_level := LevelInfo; log_msg := "state transition" |} f)))
    as (_ & _ & _ & _ & _ & Hl2).
  rewrite Hl2, Hl1. reflexivity.
Qed.

Lemma fire_world (t : Trigger) (b : Bridge) (w : W) :
  callbacks (stateMachine b) = [transitionCallback] ->
  snd (fire t b w)
  = match destination (CurrentState b) t with
    | Some d =>
        fold_left (fun acc listener => listener (CurrentState b) d acc)
                  (stateListeners (fields b)) w
    | None => w
    end.
Proof.
  intros Hcb. unfold fire, Fire, CurrentState.
  destruct (destination (sm (stateMachine b)) t) as [d|]; [|reflexivity].
  rewrite Hcb. cbn [dispatch fold_left].
  pose proof (transitionCallback_world (sm (stateMachine b)) d t (fields b) w) as Hw.
  destruct (transitionCallback (sm (stateMachine b)) d t (fields b, w)) as [f' w'].
  exact Hw.
Qed.

(** C7: submitting an event does not block.  On a bridge that has not
    been stopped, [EmitEvent] returns at once: when the queue is full the
    submitted event is dropped, a warning is logged and the queued events
    are kept as they are; otherwise the event is appended behind the
    queued ones and nothing is logged.  Nothing else of the bridge
    changes, and the queue of a new bridge holds 100 events. *)
Theorem EmitEvent_never_blocks :
  forall (evt : Event) (b : Bridge),
    closed (events (fields b)) = false ->
    exists b' : Bridge,
      EmitEvent evt b = Some b'
      /\ stateMachine b' = stateMachine b
      /\ store (fields b') = store (fields b)
      /\ client (fields b') = client (fields b)
      /\ capacity (events (fields b')) = capacity (events (fields b))
      /\ closed (events (fields b')) = false
      /\ (if (length (buffer (events (fields b))) <? capacity (events (fields b)))%nat
          then buffer (events (fields b')) = buffer (events (fields b)) ++ [evt]
               /\ log (fields b') = log (fields b)
          else buffer (events (fields b')) = buffer (events (fields b))
               /\ log (fields b')
                  = log (fields b)
                      ++ [ {| log_level := LevelWarn;
                              log_msg := "event queue full, dropping event" |} ])
      /\ forall (cfg : Config.Config) (db : DB) (cl : C),
           capacity (events (fields (NewBridge (W:=W) cfg db cl))) = 100%nat.
Proof.
  intros evt b Hopen. unfold EmitEvent, try_send. rewrite Hopen.
  destruct (length (buffer (events (fields b))) <? capacity (events (fields b)))%nat;
    eexists; (split; [reflexivity|]); cbn; rewrite ?Hopen; repeat split; reflexivity.
Qed.

(** What [handleEvent] does with a message event, over any repositories:
    the message is built from the payload and stored, then the chat's
    last-message time is updated; a failed write is logged and processing
    goes on; outside the bridge only the registered listeners run. *)
Lemma handleMessage_writes :
  forall (evt : Event) (payload : MessagePayload) (b : Bridge) (w : W),
    Event_Type evt = EventMessage ->
    Event_Payload evt = PayloadMessage payload ->
    let stored := Messages_Store (message_of_payload payload) (store (fields b)) in
    let updated := Chats_UpdateLastMessage (MP_ChatJID payload) (MP_Timestamp payload)
                                           (snd stored) in
    let after := handleEvent evt b w in
    store (fields (fst after)) = snd updated
    /\ log (fields (fst after))
       = log (fields b)
           ++ [ {| log_level := LevelDebug; log_msg := "processing event" |} ]
           ++ match fst stored with
              | Some _ => [ {| log_level := LevelError;
                               log_msg := "failed to store message" |} ]
              | None => []
              end
           ++ match fst updated with
              | Some _ => [ {| log_level := LevelError;
                               log_msg := "failed to update chat" |} ]
              | None => []
              end
    /\ Message_Sender (message_of_payload payload) = MP_Sender payload
    /\ Message_Content (message_of_payload payload) = MP_Content payload
    /\ Message_MediaType (message_of_payload payload) = MP_MediaType payload
    /\ stateMachine (fst after) = stateMachine b
    /\ client (fields (fst after)) = client (fields b)
    /\ snd after
       = fold_left (fun acc listener => listener evt acc) (eventListeners (fields b)) w.
Proof.
  intros evt payload b w Hty Hpl stored updated after.
  unfold after, handleEvent. rewrite Hty. cbn [fst snd with_fields fields stateMachine].
  unfold handleMessage. rewrite Hpl.
  set (f0 := with_log {| log_level := LevelDebug; log_msg := "processing event" |}
                      (fields b)).
  destruct (logged_write_spec (Messages_Store (message_of_payload payload)) LevelError
              "failed to store message" f0) as (Hs1 & Hl1 & Hc1 & _).
  set (f1 := logged_write (Messages_Store (message_of_payload payload)) LevelError
               "failed to store message" f0) in *.
  destruct (logged_write_spec
              (Chats_UpdateLastMessage (MP_ChatJID payload) (MP_Timestamp payload))
              LevelError "failed to update chat" f1) as (Hs2 & Hl2 & Hc2 & _).
  rewrite Hs2, Hl2, Hc2, Hs1, Hl1, Hc1.
  subst f0. cbn [store log client with_log].
  rewrite <- !app_assoc.
  repeat split; reflexivity.
Qed.

(** A message event whose payload is of another type is only logged. *)
Lemma handleEvent_invalid_payload (evt : Event) (b : Bridge) (w : W) :
  Event_Type evt = EventMessage ->
  Event_Payload evt = PayloadOther ->
  store (fields (fst (handleEvent evt b w))) = store (fields b)
  /\ log (fields (fst (handleEvent evt b w)))
     = log (fields b)
         ++ [ {| log_level := LevelDebug; log_msg := "processing event" |};
              {| log_level := LevelError; log_msg := "invalid message payload" |} ].
Proof.
  intros Hty Hpl. unfold handleEvent. rewrite Hty. cbn [fst with_fields fields].
  unfold handleMessage. rewrite Hpl. cbn. rewrite <- app_assoc. split; reflexivity.
Qed.

(** The handler of raw protocol messages writes the chat, its
    last-message time and the message, in that order. *)
Lemma persistMessage_store (evt : RawMessage) (f : Fields) :
  exists (chat : Chat) (msg : Message),
    Chat_JID chat = Info_Chat evt
    /\ Message_ID msg = Info_ID evt
    /\ Message_Sender msg = (if Info_IsFromMe evt then "me" else Info_Sender evt)
    /\ Message_Content msg = extractMessageText (Raw_Message evt)
    /\ store (persistMessage evt f)
       = snd (Messages_Store msg
                (snd (Chats_UpdateLastMessage (Info_Chat evt) (Info_Timestamp evt)
                        (snd (Chats_Upsert chat (store f)))))).
Proof.
  unfold persistMessage. eexists _, _.
  repeat rewrite (proj1 (logged_write_spec _ _ _ _)).
  repeat split; reflexivity.
Qed.

(** The bridge's forwarding methods refuse while the bridge is not ready,
    and leave the bridge, its client included, as it was. *)
Lemma perform_not_ready (req : ClientRequest) (b : Bridge) :
  IsReady b = false ->
  perform req b
  = ({| resp_value := zero_value req; resp_err := Some (notReadyError b) |}, b).
Proof.
  intros Hnr. unfold perform, SendMessage, forward. rewrite Hnr.
  destruct req; reflexivity.
Qed.

Lemma IsReady_state (b : Bridge) : IsReady b = true <-> CurrentState b = StateReady.
Proof. unfold IsReady. apply StateFacts.State_eqb_eq. Qed.
End Generic.

Lemma EmitEvent_never_blocks_witness :
  exists b' : Bridge.Bridge SQLiteStore FakeClient Health.Monitor,
    EmitEvent Main.sample_event (NewBridge DefaultConfig NewSQLiteStore NewFakeClient)
    = Some b'
    /\ buffer (events (fields b')) = [Main.sample_event].
Proof.
  destruct (EmitEvent_never_blocks (W:=Health.Monitor) Main.sample_event
              (NewBridge DefaultConfig NewSQLiteStore NewFakeClient) eq_refl)
    as (b' & He & _ & _ & _ & _ & _ & Hq & _).
  exists b'. split; [exact He|]. exact (proj1 Hq).
Defined.

(** With the queue of a new bridge filled to its capacity of 100, one more
    event is dropped and the hundred queued ones stay. *)
Example EmitEvent_overflow :
  let b := Main.filled 100 Main.sample_event
             (NewBridge (W:=Health.Monitor) DefaultConfig NewSQLiteStore NewFakeClient) in
  let late := NewEvent EventPresence PayloadOther 7 in
  option_map (fun b' => (buffer (events (fields b')), log (fields b'))) (EmitEvent late b)
  = Some (repeat Main.sample_event 100,
          [ {| log_level := LevelWarn; log_msg := "event queue full, dropping event" |} ]).
Proof. vm_compute. reflexivity. Qed.

(** An [UPDATE] by jid of a table of chats that has no row of that jid
    leaves the table as it is. *)
Lemma update_absent_chat (jid : string) (f : Chat -> Chat) (rows : list Chat) :
  existsb (same_chat jid) rows = false ->
  map (fun c => if same_chat jid c then f c else c) rows = rows.
Proof.
  induction rows as [|c rest IH]; [reflexivity|].
  cbn [existsb map]. intros Hex. apply orb_false_iff in Hex. destruct Hex as [Hc Hrest].
  rewrite Hc, (IH Hrest). reflexivity.
Qed.


(** The message event of the tests on the database as [NewSQLiteStore]
    leaves it, where the chat of the message has no row: the message is
    refused and logged, and no table has changed. *)
Example message_refused_without_chat :
  let b := NewBridge (W:=Health.Monitor) DefaultConfig NewSQLiteStore NewFakeClient in
  let after := fields (fst (handleEvent Main.sample_event b (Health.NewMonitor DefaultConfig 0))) in
  tbl_messages (store after) = []
  /\ tbl_chats (store after) = []
  /\ log after = [ {| log_level := LevelDebug; log_msg := "processing event" |};
                   {| log_level := LevelError; log_msg := "failed to store message" |} ].
Proof. vm_compute. repeat split. Qed.



(** C4, the claim as stated fails.  In the reconnect scenario the machine
    re-enters [ready] through [reconnected] after two scheduled attempts;
    the transition succeeds, and the monitor's attempt count is still 2 and
    its interval still 2.25s, not 0 and the base of 1s. *)
Lemma ready_entry_keeps_cursor :
  (let '(err, b, hm) := Main.reconnect_scenario in
   (err, CurrentState b, Health.retryCount hm,
    currentInterval (Health.reconnectBackoff hm)))
  = (None, StateReady, 2%Z, 2250000000%Z)
  /\ ReconnectBaseDelay DefaultConfig = 1000000000%Z.
Proof. split; vm_compute; reflexivity. Qed.

(** C4, amended: the reset operation ([ResetReconnectBackoff], also reached
    through [OnConnectionRestored]) sets the reconnect attempt count to
    zero and the interval back to the base, so that the next computed
    delay is drawn around the base interval again; no other operation of
    the monitor resets the cursor (each leaves it as it is or advances it
    by one attempt).  A transition of the state machine, into [ready] or
    any other state, does not invoke the reset: the bridge's transition
    callback hands the rest of the process only to the registered state
    listeners, so with none registered the cursor is unchanged. *)
Theorem reset_is_the_only_reset :
  forall (DB C : Type) (R : Repositories DB) (K : WhatsAppClient C)
         (b : Bridge.Bridge DB C Health.Monitor) (t : Trigger)
         (hm : Health.Monitor) (o : Health.Op) (r : Q),
    callbacks (stateMachine b) = [transitionCallback] ->
    Main.cursor (Health.ResetReconnectBackoff hm)
    = (0%Z, Reset (Health.reconnectBackoff hm))
    /\ currentInterval (Reset (Health.reconnectBackoff hm))
       = InitialInterval (Health.reconnectBackoff hm)
    /\ Health.OnConnectionRestored hm = Health.ResetReconnectBackoff hm
    /\ fst (Health.GetNextReconnectDelay r (Health.ResetReconnectBackoff hm))
       = getRandomValueFromInterval
           (RandomizationFactor (Health.reconnectBackoff hm)) r
           (InitialInterval (Health.reconnectBackoff hm))
    /\ (if Health.is_reset_op o
        then Main.cursor (Health.apply_op o hm)
             = (0%Z, Reset (Health.reconnectBackoff hm))
        else Main.cursor (Health.apply_op o hm) = Main.cursor hm
             \/ Main.cursor (Health.apply_op o hm) = Main.advanced hm)
    /\ snd (fire t b hm)
       = match destination (CurrentState b) t with
         | Some d =>
             fold_left (fun acc listener => listener (CurrentState b) d acc)
                       (stateListeners (fields b)) hm
         | None => hm
         end.
Proof.
  intros DB C R K b t hm o r Hcb.
  split; [reflexivity|]. split; [reflexivity|]. split; [reflexivity|].
  split; [reflexivity|]. split.
  - destruct o; cbn [Health.is_reset_op Health.apply_op]; try reflexivity;
      try (left; reflexivity); try (right; reflexivity).
    unfold Health.ScheduleReconnect.
    destruct (Health.IsMaxRetriesExceeded hm); [left | right]; reflexivity.
  - apply fire_world, Hcb.
Qed.

Lemma reset_is_the_only_reset_witness :
  let b := NewBridge (W:=Health.Monitor) DefaultConfig NewSQLiteStore NewFakeClient in
  let hm := Main.monitor_after [Health.OpGetNextReconnectDelay (1 # 2)]
                               (Health.NewMonitor DefaultConfig 0) in
  callbacks (stateMachine b) = [transitionCallback]
  /\ Health.retryCount hm = 1%Z
  /\ snd (fire TriggerConnect b hm) = hm
  /\ Main.cursor (Health.ResetReconnectBackoff hm)
     = (0%Z, Reset (Health.reconnectBackoff hm)).
Proof.
  cbv zeta. split; [reflexivity|]. split; [reflexivity|].
  pose proof (reset_is_the_only_reset SQLiteStore FakeClient _ _
                (NewBridge DefaultConfig NewSQLiteStore NewFakeClient) TriggerConnect
                (Main.monitor_after [Health.OpGetNextReconnectDelay (1 # 2)]
                                    (Health.NewMonitor DefaultConfig 0))
                Health.OpRecordMessageSent (1 # 2) eq_refl) as Hthm.
  destruct Hthm as (Hreset & _ & _ & _ & _ & Hfire).
  split; [exact Hfire | exact Hreset].
Defined.

End BridgeFacts.

(* ===================================================================== *)
(** ** Properties of the tool gate                                        *)
(* ===================================================================== *)
Module ApiFacts.
Import State Store Api.

Local Open Scope list_scope.

Lemma is_one_of_spec (name : string) (names : list string) :
  is_one_of name names = true <-> In name names.
Proof.
  unfold is_one_of. rewrite existsb_exists. split.
  - intros (x & Hin & Heq). apply String.eqb_eq in Heq. subst. exact Hin.
  - intros Hin. exists name. split; [exact Hin | apply String.eqb_refl].
Qed.

(** The gate is exactly the complement of the read-only list, and no
    read-only name is also the name of a gated tool. *)
Lemma requiresReady_spec (name : string) :
  requiresReady name = negb (is_one_of name read_only_tools).
Proof. unfold requiresReady. destruct (is_one_of name read_only_tools); reflexivity. Qed.

Lemma tool_names_distinct :
  NoDup (read_only_tools ++ ToolSendMessage :: other_tools).
Proof. by_computation. Qed.

Section Gate.
Context {DB : Type} `{Repositories DB} {B : Type} `{BridgeOps B}.
Variable gated : string -> Args -> Handler DB B -> CallToolResult * Handler DB B.

Local Abbreviation Handler := (Api.Handler DB B).

Lemma gate_not_ready (now : Z) (name : string) (args : Args) (h : Handler) :
  requiresReady name = true ->
  bridgeNotReady h = true ->
  HandleTool gated now name args h
  = (errorResult (NewNotReadyError (reportedState h)), h).
Proof. intros Hr Hn. unfold HandleTool. rewrite Hr, Hn. reflexivity. Qed.

(** With no bridge at all every gated tool is refused, so no handler ever
    calls through a nil bridge. *)
Lemma nil_bridge_is_gated (now : Z) (name : string) (args : Args) (h : Handler) :
  bridge h = None ->
  requiresReady name = true ->
  HandleTool gated now name args h
  = (errorResult (NewNotReadyError "disconnected"), h).
Proof.
  intros Hnil Hr. rewrite (gate_not_ready now name args h Hr).
  - unfold reportedState. rewrite Hnil. reflexivity.
  - unfold bridgeNotReady. rewrite Hnil. reflexivity.
Qed.

Ltac query_cases :=
  repeat match goal with
         | |- context [match ?q with Ok _ => _ | Err _ => _ end] => destruct q as [?|[|?]]
         | |- context [if ?c then _ else _] => destruct c
         end.

Lemma read_only_dispatch (now : Z) (name : string) (args : Args) (h : Handler) :
  In name read_only_tools ->
  snd (dispatch gated now name args h) = h
  /\ (forall b' : option B,
        fst (dispatch gated now name args (with_any_bridge b' h))
        = fst (dispatch gated now name args h))
  /\ is_query_outcome (fst (dispatch gated now name args h)).
Proof.
  intros Hin. cbn in Hin.
  repeat (destruct Hin as [<-|Hin]); [..|contradiction];
    (split; [reflexivity|]); (split; [intros b'; reflexivity|]);
    unfold dispatch; cbn [String.eqb Ascii.eqb Bool.eqb fst
                          ToolGetBridgeStatus ToolGetConnectionHistory ToolListChats
                          ToolGetChat ToolListMessages ToolSearchContacts
                          ToolGetContact ToolGetBlockedContacts];
    unfold handleGetBridgeStatus, handleGetConnectionHistory, handleListChats,
      handleGetChat, handleListMessages, handleSearchContacts, handleGetContact,
      handleGetBlockedContacts, is_query_outcome;
    query_cases; cbn; auto 6.
Qed.

(** A read-only tool answers what its question, put to the store, yields. *)
Lemma read_only_answer_dispatch (now : Z) (name : string) (args : Args) (h : Handler) :
  In name read_only_tools ->
  Queries.read_only_answer now name args (stateM h) (health h) (store h)
  = Some (fst (dispatch gated now name args h)).
Proof.
  intros Hin. cbn in Hin.
  repeat (destruct Hin as [<-|Hin]); [..|contradiction];
    unfold Queries.read_only_answer, Queries.parse_query, Queries.required, dispatch;
    cbn [String.eqb Ascii.eqb Bool.eqb fst
         ToolGetBridgeStatus ToolGetConnectionHistory ToolListChats
         ToolGetChat ToolListMessages ToolSearchContacts
         ToolGetContact ToolGetBlockedContacts];
    unfold handleGetBridgeStatus, handleGetConnectionHistory, handleListChats,
      handleGetChat, handleListMessages, handleSearchContacts, handleGetContact,
      handleGetBlockedContacts;
    cbv zeta;
    repeat match goal with
           | |- context [String.eqb (getString ?a ?k) ""] =>
               destruct (String.eqb (getString a k) "")
           end;
    try reflexivity;
    unfold Queries.run_query;
    match goal with
    | |- context [Queries.result_map _ ?q] => destruct q as [?|[|?]]
    end; reflexivity.
Qed.

(** The names that are let through are the names of the eight questions. *)
Lemma parse_query_names (name : string) (args : Args) :
  Queries.parse_query name args = None <-> requiresReady name = true.
Proof.
  rewrite requiresReady_spec. unfold Queries.parse_query, is_one_of, read_only_tools.
  cbn [existsb].
  unfold ToolGetBridgeStatus, ToolGetConnectionHistory, ToolListChats, ToolGetChat,
    ToolListMessages, ToolSearchContacts, ToolGetContact, ToolGetBlockedContacts.
  repeat match goal with
         | |- context [String.eqb name ?lit] => destruct (String.eqb name lit)
         end;
    cbn [orb negb]; split; intros Hx; first [reflexivity | discriminate Hx].
Qed.

End Gate.



End ApiFacts.

(* ===================================================================== *)
(** ** Further properties of the state machine                            *)
(* ===================================================================== *)
Module StateMore.
Import State Observer.

Local Open Scope list_scope.

(** X1: a callback registered with [OnTransition] runs after the callbacks
    registered before it, exactly once for a trigger that is accepted and
    not at all for one that is refused; registering it changes neither the
    error nor the state a fire ends in. *)
Theorem OnTransition_fire :
  forall (W : Type) (m : Machine W) (cb : TransitionCallback W) (t : Trigger) (w : W),
    Fire (OnTransition m cb) t w
    = (let '(err, m', w') := Fire m t w in
       (err, OnTransition m' cb,
        match destination (sm m) t with
        | Some to => cb (sm m) to t w'
        | None => w'
        end)).
Proof.
  intros W m cb t w. unfold Fire, OnTransition. cbn [sm callbacks].
  destruct (destination (sm m) t) as [to|]; [|reflexivity].
  unfold dispatch. rewrite fold_left_app. reflexivity.
Qed.

Lemma fire_all_record (ts : list Trigger) :
  forall (s : State) (seen : list Notice),
    fire_all (mkMachine s [record]) ts seen
    = (mkMachine (run s ts) [record],
       seen ++ snd (fire_all (mkMachine s [record]) ts [])).
Proof.
  induction ts as [|t ts IH]; intros s seen.
  - cbn. rewrite app_nil_r. reflexivity.
  - cbn [fire_all run]. unfold Fire. cbn [sm callbacks].
    destruct (destination s t) as [d|].
    + change (dispatch [record] s d t seen) with (seen ++ [(s, d, t)]).
      change (dispatch [record] s d t []) with [(s, d, t)].
      rewrite (IH d (seen ++ [(s, d, t)])), (IH d [(s, d, t)]).
      cbn [snd]. rewrite <- app_assoc. reflexivity.
    + rewrite (IH s seen). reflexivity.
Qed.

Lemma path_end_record (ts : list Trigger) :
  forall s : State,
    path_end s (snd (fire_all (mkMachine s [record]) ts [])) = Some (run s ts)
    /\ map (fun n : Notice => snd n) (snd (fire_all (mkMachine s [record]) ts []))
       = accepted s ts.
Proof.
  induction ts as [|t ts IH]; intros s; [split; reflexivity|].
  cbn [fire_all run accepted]. unfold Fire. cbn [sm callbacks].
  destruct (destination s t) as [d|] eqn:Hd.
  - change (dispatch [record] s d t []) with [(s, d, t)].
    rewrite !(fire_all_record ts d [(s, d, t)]). cbn [snd app].
    destruct (IH d) as [IHp IHm]. split.
    + cbn [path_end]. rewrite Hd.
      rewrite !(proj2 (StateFacts.State_eqb_eq _ _) eq_refl). exact IHp.
    + cbn [map snd]. f_equal. exact IHm.
  - exact (IH s).
Qed.

(** X2: what a recording observer sees.  On a new machine with one
    recording callback, after any sequence of triggers the recorded notices
    are, in order, exactly the accepted triggers; they form a path of the
    configured table that starts in [disconnected], each notice beginning
    where the one before ended, and the path ends in the machine's current
    state. *)
Theorem recorded_transitions_form_a_path :
  forall ts : list Trigger,
    let '(m, seen) := fire_all (OnTransition NewMachine record) ts [] in
    path_end StateDisconnected seen = Some (sm m)
    /\ map (fun n : Notice => snd n) seen = accepted StateDisconnected ts
    /\ sm m = run StateDisconnected ts
    /\ callbacks m = [record].
Proof.
  intros ts. change (OnTransition NewMachine record)
    with (mkMachine StateDisconnected [record]).
  rewrite (fire_all_record ts StateDisconnected []). cbn [app].
  destruct (path_end_record ts StateDisconnected) as [Hp Hm].
  cbn [sm callbacks]. repeat split; assumption.
Qed.

Lemma run_trapped (ts : list Trigger) :
  forall s : State,
    state_among s [StateFatalError; StateShuttingDown] = true ->
    state_among (run s ts) [StateFatalError; StateShuttingDown] = true.
Proof.
  induction ts as [|t ts IH]; intros s Hs; [exact Hs|].
  cbn [run]. destruct (destination s t) as [d|] eqn:Hd; [|apply IH, Hs].
  apply IH. destruct s; try discriminate Hs; destruct t; vm_compute in Hd;
    try discriminate Hd; injection Hd as <-; reflexivity.
Qed.

(** X3: [fatal_error] is left only towards [shutting_down], and
    [shutting_down] is never left: whatever triggers are fired on a machine
    in [fatal_error], it stays in [fatal_error] or [shutting_down] (so it
    is never [ready] again), and a machine in [shutting_down] stays
    there. *)
Theorem fatal_error_is_a_trap :
  forall (W : Type) (cbs : list (TransitionCallback W)) (ts : list Trigger) (w : W),
    state_among (sm (fst (fire_all (mkMachine StateFatalError cbs) ts w)))
                [StateFatalError; StateShuttingDown] = true
    /\ IsReady (fst (fire_all (mkMachine StateFatalError cbs) ts w)) = false
    /\ sm (fst (fire_all (mkMachine StateShuttingDown cbs) ts w)) = StateShuttingDown.
Proof.
  intros W cbs ts w. rewrite !StateFacts.fire_all_state. cbn [sm].
  assert (Hf := run_trapped ts StateFatalError eq_refl).
  split; [exact Hf|]. split.
  - unfold IsReady. rewrite StateFacts.fire_all_state. cbn [sm].
    destruct (run StateFatalError ts); try discriminate Hf; reflexivity.
  - clear Hf. induction ts as [|t ts IH]; [reflexivity|]. cbn [run].
    replace (destination StateShuttingDown t) with (@None State) by reflexivity.
    exact IH.
Qed.

(** X4: the table leads to [ready] from exactly two places, [sync_complete]
    in [syncing] and [reconnected] in [reconnecting]; and the declared
    trigger [reconnect] is permitted in no state, so firing it is always
    refused and never changes the state. *)
Theorem ready_entries_and_dead_trigger :
  forall (W : Type) (s : State) (t : Trigger)
         (cbs : list (TransitionCallback W)) (w : W),
    leads_to_ready s t = pair_among s t ready_entries
    /\ CanFire (mkMachine s cbs) TriggerReconnect = false
    /\ Fire (mkMachine s cbs) TriggerReconnect w
       = (Some (InvalidTransition s TriggerReconnect), mkMachine s cbs, w).
Proof.
  intros W s t cbs w. split; [destruct s, t; reflexivity|].
  split; destruct s; reflexivity.
Qed.

(** X5: the state predicates agree with one another: a machine that is
    ready is connected; a machine in a terminal state, in [disconnected],
    [reconnecting] or [shutting_down] is neither connected nor ready; and
    being connected means being in one of [connecting], [qr_pending],
    [authenticating], [syncing] and [ready]. *)
Theorem state_predicates_consistent :
  forall (W : Type) (m : Machine W),
    IsConnected m
    = state_among (sm m) [StateConnecting; StateQRPending; StateAuthenticating;
                          StateSyncing; StateReady]
    /\ IsReady m = IsOperational (sm m)
    /\ (IsReady m && negb (IsConnected m)) = false
    /\ (IsTerminal (sm m) && IsConnected m) = false
    /\ (state_among (sm m) [StateDisconnected; StateReconnecting; StateShuttingDown]
        && IsConnected m) = false.
Proof. intros W [s cbs]. destruct s; repeat split. Qed.

End StateMore.

(* ===================================================================== *)
(** ** Further properties of the health monitor                           *)
(* ===================================================================== *)
Module HealthMore.
Import Backoff Config Health Calls.

Local Open Scope Z_scope.
Local Open Scope list_scope.

Lemma wrap64_small (z : Z) : - 2 ^ 63 <= z < 2 ^ 63 -> wrap64 z = z.
Proof.
  intros Hz. unfold wrap64. rewrite Z.mod_small; [lia|].
  change (2 ^ 64) with (2 ^ 63 + 2 ^ 63). lia.
Qed.

Lemma next_delay_retry (r : Q) (m : Monitor) :
  retryCount (snd (GetNextReconnectDelay r m)) = wrap64 (retryCount m + 1)
  /\ maxRetries (snd (GetNextReconnectDelay r m)) = maxRetries m.
Proof. split; reflexivity. Qed.

(** X6: retry accounting.  Each call of the next-reconnect-delay operation
    counts one attempt: after n calls (short of the 64-bit limit) the
    attempt count has grown by n, one delay was returned per call, and the
    retry limit counts as exceeded exactly when the attempt count is
    above the configured maximum, so only the call after the maximum-th
    makes it so. *)
Theorem retry_count_after_delays :
  forall (draws : list Q) (m : Monitor),
    0 <= retryCount m ->
    retryCount m + Z.of_nat (length draws) < 2 ^ 63 ->
    retryCount (snd (next_delays draws m)) = retryCount m + Z.of_nat (length draws)
    /\ length (fst (next_delays draws m)) = length draws
    /\ maxRetries (snd (next_delays draws m)) = maxRetries m
    /\ IsMaxRetriesExceeded (snd (next_delays draws m))
       = (maxRetries m <? retryCount m + Z.of_nat (length draws)).
Proof.
  induction draws as [|r draws IH]; intros m H0 Hn.
  - cbn. unfold IsMaxRetriesExceeded. rewrite Z.add_0_r. repeat split; reflexivity.
  - rewrite HealthFacts.next_delays_cons. cbn [fst snd length].
    destruct (next_delay_retry r m) as [Hr Hm].
    cbn [length] in Hn. rewrite Nat2Z.inj_succ in Hn |- *.
    rewrite wrap64_small in Hr by lia.
    destruct (IH (snd (GetNextReconnectDelay r m))) as (IH1 & IH2 & IH3 & IH4);
      [rewrite Hr; lia | rewrite Hr; lia |].
    rewrite IH1, IH2, IH3, IH4, Hr, Hm.
    replace (retryCount m + 1 + Z.of_nat (length draws))
      with (retryCount m + Z.succ (Z.of_nat (length draws))) by lia.
    repeat split; reflexivity.
Qed.

Lemma retry_count_after_delays_witness :
  IsMaxRetriesExceeded
    (snd (next_delays [1 # 2; 1 # 2; 1 # 2; 1 # 2]%Q
            (NewMonitor {| ConnectTimeout := 30 * Second;
                           KeepaliveInterval := 30 * Second;
                           ReconnectMaxRetries := 3;
                           ReconnectBaseDelay := 1 * Millisecond;
                           ReconnectMaxDelay := 10 * Millisecond |} 0)))
  = true.
Proof.
  match goal with
  | |- IsMaxRetriesExceeded (snd (next_delays ?d ?m)) = _ =>
      pose proof (retry_count_after_delays d m) as H
  end.
  destruct H as (_ & _ & _ & H); [cbn; lia | cbn; lia |].
  rewrite H. reflexivity.
Defined.

Lemma schedule_all_cons (r : Q) (draws : list Q) (m : Monitor) :
  schedule_all (r :: draws) m
  = (fst (ScheduleReconnect r m)
       :: fst (schedule_all draws (snd (ScheduleReconnect r m))),
     snd (schedule_all draws (snd (ScheduleReconnect r m)))).
Proof.
  cbn [schedule_all]. destruct (ScheduleReconnect r m) as [d m1]. cbn [fst snd].
  destruct (schedule_all draws m1); reflexivity.
Qed.

Lemma schedule_all_exhausted (draws : list Q) (m : Monitor) :
  IsMaxRetriesExceeded m = true ->
  schedule_all draws m = (repeat None (length draws), m).
Proof.
  intros Hx. induction draws as [|r draws IH]; [reflexivity|].
  rewrite schedule_all_cons. unfold ScheduleReconnect. rewrite Hx.
  cbn [fst snd]. rewrite IH. reflexivity.
Qed.

Lemma schedule_not_exceeded (r : Q) (m : Monitor) :
  IsMaxRetriesExceeded m = false ->
  ScheduleReconnect r m
  = (Some (fst (GetNextReconnectDelay r m)), snd (GetNextReconnectDelay r m)).
Proof. intros Hx. unfold ScheduleReconnect. rewrite Hx. reflexivity. Qed.

Lemma schedule_all_budget (draws : list Q) :
  forall (m : Monitor) (budget : nat),
    0 <= retryCount m ->
    maxRetries m < 2 ^ 63 - 1 ->
    retryCount m + Z.of_nat budget = maxRetries m + 1 ->
    map armed (fst (schedule_all draws m))
    = repeat true (Nat.min (length draws) budget)
        ++ repeat false (length draws - budget)
    /\ retryCount (snd (schedule_all draws m))
       = retryCount m + Z.of_nat (Nat.min (length draws) budget).
Proof.
  induction draws as [|r draws IH]; intros m budget H0 Hmax Hb.
  - cbn. split; [reflexivity | lia].
  - destruct budget as [|budget].
    + rewrite schedule_all_exhausted
        by (unfold IsMaxRetriesExceeded; apply Z.ltb_lt; lia).
      cbn [fst snd]. rewrite Nat.min_0_r, Nat.sub_0_r. cbn [repeat app].
      split; [|lia]. clear. induction (length (r :: draws)); cbn; congruence.
    + assert (Hx : IsMaxRetriesExceeded m = false)
        by (unfold IsMaxRetriesExceeded; apply Z.ltb_ge; lia).
      rewrite schedule_all_cons, (schedule_not_exceeded r m Hx).
      cbn [fst snd map armed length].
      destruct (next_delay_retry r m) as [Hr Hm].
      rewrite wrap64_small in Hr by lia.
      destruct (IH (snd (GetNextReconnectDelay r m)) budget) as [IH1 IH2];
        [rewrite Hr; lia | rewrite Hm; lia | rewrite Hr, Hm; lia |].
      rewrite IH1, IH2, Hr.
      cbn [Nat.min repeat app Nat.sub]. split; [reflexivity | lia].
Qed.

(** X7: the retry ceiling of [ScheduleReconnect].  On a monitor that has
    made no attempt yet and whose maximum retry count is k, of n
    consecutive schedule requests the first k+1 arm a timer and every
    later one arms none; the attempt count ends at min(n, k+1) and never
    goes beyond k+1. *)
Theorem schedule_reconnect_ceiling :
  forall (draws : list Q) (m : Monitor),
    retryCount m = 0 ->
    0 <= maxRetries m < 2 ^ 63 - 1 ->
    let k1 := S (Z.to_nat (maxRetries m)) in
    map armed (fst (schedule_all draws m))
    = repeat true (Nat.min (length draws) k1) ++ repeat false (length draws - k1)
    /\ retryCount (snd (schedule_all draws m))
       = Z.of_nat (Nat.min (length draws) k1).
Proof.
  intros draws m Hr Hk k1.
  destruct (schedule_all_budget draws m k1) as [H1 H2];
    [lia | lia | unfold k1; lia |].
  split; [exact H1 | rewrite H2, Hr; reflexivity].
Qed.

Lemma schedule_reconnect_ceiling_witness :
  let m := NewMonitor {| ConnectTimeout := 30 * Second;
                         KeepaliveInterval := 30 * Second;
                         ReconnectMaxRetries := 1;
                         ReconnectBaseDelay := 1 * Second;
                         ReconnectMaxDelay := 5 * Minute |} 0 in
  map armed (fst (schedule_all [1 # 2; 1 # 2; 1 # 2; 1 # 2]%Q m))
  = [true; true; false; false].
Proof.
  cbv zeta.
  match goal with
  | |- map armed (fst (schedule_all ?d ?m)) = _ =>
      pose proof (schedule_reconnect_ceiling d m eq_refl) as H
  end.
  destruct H as [H _]; [cbn; lia|]. exact H.
Defined.

Lemma settings_apply_op (o : Op) (m : Monitor) :
  same_settings (reconnectBackoff (apply_op o m)) (reconnectBackoff m).
Proof.
  destruct o; cbn [apply_op]; try (repeat split; reflexivity).
  unfold ScheduleReconnect. destruct (IsMaxRetriesExceeded m); repeat split; reflexivity.
Qed.

Lemma settings_monitor_after (ops : list Op) :
  forall m, same_settings (reconnectBackoff (Main.monitor_after ops m))
                          (reconnectBackoff m).
Proof.
  unfold Main.monitor_after.
  induction ops as [|o ops IH]; intros m; cbn [fold_left]; [repeat split; reflexivity|].
  destruct (IH (apply_op o m)) as (A1 & A2 & A3 & A4 & A5).
  destruct (settings_apply_op o m) as (B1 & B2 & B3 & B4 & B5).
  repeat split; congruence.
Qed.

Lemma reset_same_settings (a b : ExponentialBackOff) :
  same_settings a b -> Reset a = Reset b.
Proof.
  destruct a, b. unfold same_settings, Reset. cbn.
  intros (-> & -> & -> & -> & ->). reflexivity.
Qed.

Lemma next_delays_backoff (draws : list Q) :
  forall m1 m2,
    reconnectBackoff m1 = reconnectBackoff m2 ->
    fst (next_delays draws m1) = fst (next_delays draws m2).
Proof.
  induction draws as [|r draws IH]; intros m1 m2 Hb; [reflexivity|].
  rewrite !HealthFacts.next_delays_cons. cbn [fst].
  rewrite !HealthFacts.next_delay_value, Hb. f_equal.
  apply IH. cbn. rewrite Hb. reflexivity.
Qed.

Lemma delays_after_reset
      (cfg : Config) (now now' : Z) (ops : list Op) (draws : list Q) :
  fst (next_delays draws
         (ResetReconnectBackoff (Main.monitor_after ops (NewMonitor cfg now))))
  = fst (next_delays draws (NewMonitor cfg now')).
Proof.
  apply next_delays_backoff.
  change (reconnectBackoff
            (ResetReconnectBackoff (Main.monitor_after ops (NewMonitor cfg now))))
    with (Reset (reconnectBackoff (Main.monitor_after ops (NewMonitor cfg now)))).
  rewrite (reset_same_settings _ _ (settings_monitor_after ops (NewMonitor cfg now))).
  reflexivity.
Qed.

(** X8: a reset starts the delay sequence over.  Whatever the monitor has
    been through since it was built, after [ResetReconnectBackoff] the
    delays it returns are, draw for draw, those a newly built monitor of
    the same configuration returns, and the attempt count is 0; resetting
    twice is the same as resetting once. *)
Theorem reset_restarts_delay_sequence :
  forall (cfg : Config) (now now' : Z) (ops : list Op) (draws : list Q),
    let m := Main.monitor_after ops (NewMonitor cfg now) in
    fst (next_delays draws (ResetReconnectBackoff m))
    = fst (next_delays draws (NewMonitor cfg now'))
    /\ retryCount (ResetReconnectBackoff m) = 0
    /\ ResetReconnectBackoff (ResetReconnectBackoff m) = ResetReconnectBackoff m.
Proof.
  intros cfg now now' ops draws m.
  split; [|split; reflexivity].
  apply delays_after_reset.
Qed.

Lemma counters_after (ops : list Op) :
  forall m : Monitor,
    0 <= messagesReceived m -> 0 <= messagesSent m -> 0 <= reconnectCount m ->
    messagesReceived m + Z.of_nat (length ops) < 2 ^ 63 ->
    messagesSent m + Z.of_nat (length ops) < 2 ^ 63 ->
    reconnectCount m + Z.of_nat (length ops) < 2 ^ 63 ->
    messagesReceived (Main.monitor_after ops m)
    = messagesReceived m + count_ops is_received ops
    /\ messagesSent (Main.monitor_after ops m) = messagesSent m + count_ops is_sent ops
    /\ reconnectCount (Main.monitor_after ops m)
       = reconnectCount m + count_ops is_reconnect_count ops
    /\ lastMessage (Main.monitor_after ops m) = last_received (lastMessage m) ops.
Proof.
  unfold Main.monitor_after, count_ops, last_received.
  induction ops as [|o ops IH]; intros m Hr Hs Hc Br Bs Bc.
  - cbn. repeat split; lia.
  - cbn [fold_left length List.filter] in *. rewrite Nat2Z.inj_succ in Br, Bs, Bc.
    assert (Hstep :
      messagesReceived (apply_op o m)
      = messagesReceived m + (if is_received o then 1 else 0)
      /\ messagesSent (apply_op o m) = messagesSent m + (if is_sent o then 1 else 0)
      /\ reconnectCount (apply_op o m)
         = reconnectCount m + (if is_reconnect_count o then 1 else 0)
      /\ lastMessage (apply_op o m)
         = match o with OpRecordMessageReceived now => now | _ => lastMessage m end).
    { destruct o; cbn [apply_op is_received is_sent is_reconnect_count];
        try (cbn; rewrite ?wrap64_small by lia; repeat split; lia).
      unfold ScheduleReconnect. destruct (IsMaxRetriesExceeded m); cbn;
        repeat split; lia. }
    destruct Hstep as (S1 & S2 & S3 & S4).
    destruct (IH (apply_op o m)) as (I1 & I2 & I3 & I4);
      [destruct (is_received o); lia | destruct (is_sent o); lia
       | destruct (is_reconnect_count o); lia
       | destruct (is_received o); lia | destruct (is_sent o); lia
       | destruct (is_reconnect_count o); lia |].
    rewrite I1, I2, I3, I4, S1, S2, S3, S4.
    destruct (is_received o), (is_sent o), (is_reconnect_count o);
      cbn [length]; rewrite ?Nat2Z.inj_succ; repeat split; lia.
Qed.



(** X10: the first delay.  For a monitor built from a valid configuration
    whose base delay is at least 3ns, the first delay asked for after
    construction (or after a reset) is positive and at most one and a half
    times the base; so it is at or below the configured maximum whenever
    three times the base, plus one, does not exceed twice the maximum. *)
Theorem first_delay_bounds :
  forall (cfg : Config) (now : Z) (ops : list Op) (r : Q),
    Validate_reconnect cfg = true ->
    3 <= ReconnectBaseDelay cfg ->
    unit_draw r ->
    let m := ResetReconnectBackoff (Main.monitor_after ops (NewMonitor cfg now)) in
    let d := fst (GetNextReconnectDelay r m) in
    fst (GetNextReconnectDelay r (NewMonitor cfg now)) = d
    /\ 0 < d
    /\ 2 * d <= 3 * ReconnectBaseDelay cfg + 1
    /\ (3 * ReconnectBaseDelay cfg + 1 <= 2 * ReconnectMaxDelay cfg ->
        d <= ReconnectMaxDelay cfg).
Proof.
  intros cfg now ops r Hv Hb Hr m d.
  assert (Heq : fst (GetNextReconnectDelay r (NewMonitor cfg now)) = d).
  { pose proof (delays_after_reset cfg now now ops [r]) as H.
    rewrite !HealthFacts.next_delays_cons in H. cbn [fst] in H.
    injection H as H. symmetry. exact H. }
  split; [exact Heq|].
  assert (Hj : Main.within_jitter (ReconnectBaseDelay cfg) d).
  { rewrite <- Heq. rewrite HealthFacts.next_delay_value. cbn.
    apply HealthFacts.jitter_default; [lia | exact Hr]. }
  unfold Main.within_jitter in Hj. repeat split; lia.
Qed.

Lemma first_delay_bounds_witness :
  0 < fst (GetNextReconnectDelay (3 # 4) (NewMonitor DefaultConfig 0))
  <= ReconnectMaxDelay DefaultConfig.
Proof.
  assert (Hr : unit_draw (3 # 4)) by (split; unfold Qle, Qlt; cbn; lia).
  assert (Hb : 3 <= ReconnectBaseDelay DefaultConfig)
    by (change (3 <= 1 * 1000000000); lia).
  pose proof (first_delay_bounds DefaultConfig 0 [] (3 # 4) eq_refl Hb Hr) as H.
  cbv zeta in H. destruct H as (He & Hp & _ & Hm).
  rewrite He. split; [exact Hp|].
  apply Hm. change (3 * (1 * 1000000000) + 1 <= 2 * (5 * (60 * 1000000000))). lia.
Defined.

End HealthMore.

(* ===================================================================== *)
(** ** More properties of the bridge                                      *)
(* ===================================================================== *)
Module BridgeMore.
Import State Store Config Bridge BridgeEvents.

Local Open Scope list_scope.

Section Generic.
Context {DB : Type} `{Repositories DB} {C : Type} `{WhatsAppClient C} {W : Type}.

Local Abbreviation Bridge := (Bridge.Bridge DB C W).
Local Abbreviation Fields := (Bridge.Fields DB C W).

Lemma logged_write_wiring (write : DB -> option error * DB) (lvl : Level)
      (msg : string) (f : Fields) :
  wiring (logged_write write lvl msg f) = wiring f.
Proof.
  unfold logged_write. destruct (write (store f)) as [[e|] db]; reflexivity.
Qed.

Lemma transitionCallback_spec (from to : State) (t : Trigger) (f : Fields) (w : W) :
  let r := transitionCallback from to t (f, w) in
  wiring (fst r) = wiring f
  /\ store (fst r)
     = snd (State_LogTransition from to (Trigger_String t)
              (snd (State_SaveState to (store f))))
  /\ snd r = fold_left (fun acc listener => listener from to acc) (stateListeners f) w.
Proof.
  cbv zeta. split; [|split].
  - unfold transitionCallback. cbn [fst]. rewrite !logged_write_wiring. reflexivity.
  - unfold transitionCallback. cbn [fst].
    rewrite !(proj1 (BridgeFacts.logged_write_spec _ _ _ _)). reflexivity.
  - apply BridgeFacts.transitionCallback_world.
Qed.

Lemma fire_spec (t : Trigger) (b : Bridge) (w : W) :
  callbacks (stateMachine b) = [transitionCallback] ->
  fire t b w
  = match destination (CurrentState b) t with
    | Some to =>
        (None,
         {| stateMachine := {| sm := to; callbacks := [transitionCallback] |};
            fields := fst (transitionCallback (CurrentState b) to t (fields b, w)) |},
         snd (transitionCallback (CurrentState b) to t (fields b, w)))
    | None => (Some (InvalidTransition (CurrentState b) t), b, w)
    end.
Proof.
  destruct b as [[s cbs] f]. cbn [stateMachine callbacks]. intros ->.
  unfold fire, Fire, CurrentState. cbn [stateMachine sm callbacks fields].
  destruct (destination s t) as [to|]; [|reflexivity].
  cbn [dispatch fold_left].
  destruct (transitionCallback s to t (f, w)) as [f' w']. reflexivity.
Qed.

Lemma fire_logged_spec (t : Trigger) (b : Bridge) (w : W) :
  callbacks (stateMachine b) = [transitionCallback] ->
  let r := fire_logged t b w in
  callbacks (stateMachine (fst r)) = [transitionCallback]
  /\ wiring (fields (fst r)) = wiring (fields b)
  /\ CurrentState (fst r)
     = match destination (CurrentState b) t with
       | Some to => to
       | None => CurrentState b
       end
  /\ log (fields (fst r))
     = match destination (CurrentState b) t with
       | Some to => log (fst (transitionCallback (CurrentState b) to t (fields b, w)))
       | None => log (fields b) ++ [transition_failed]
       end.
Proof.
  intros Hcb. cbv zeta. unfold fire_logged. rewrite (fire_spec t b w Hcb).
  destruct (destination (CurrentState b) t) as [to|].
  - cbn [fst stateMachine fields callbacks]. unfold CurrentState. cbn [stateMachine sm].
    repeat split.
    apply (proj1 (transitionCallback_spec (sm (stateMachine b)) to t (fields b) w)).
  - cbn [fst stateMachine fields]. repeat split; try assumption.
Qed.

Lemma connect_permitted (s : State) :
  destination s TriggerConnect
  = if Observer.state_among s connect_states then Some StateConnecting else None.
Proof. destruct s; vm_compute; reflexivity. Qed.

Lemma disconnect_permitted (s : State) :
  destination s TriggerDisconnect
  = if Observer.state_among s disconnect_states then Some StateDisconnected else None.
Proof. destruct s; vm_compute; reflexivity. Qed.

Lemma shutdown_permitted (s : State) :
  s <> StateConnected ->
  match destination s TriggerShutdown with
  | Some to => to
  | None => s
  end = StateShuttingDown.
Proof. destruct s; intros Hs; try (vm_compute; reflexivity). congruence. Qed.

Lemma shutting_down_refuses (t : Trigger) : destination StateShuttingDown t = None.
Proof. destruct t; vm_compute; reflexivity. Qed.

Lemma wiring_client (f g : Fields) : wiring f = wiring g -> client f = client g.
Proof. unfold wiring. congruence. Qed.

Lemma wiring_events (f g : Fields) : wiring f = wiring g -> events f = events g.
Proof. unfold wiring. congruence. Qed.

Lemma wiring_cancelled (f g : Fields) : wiring f = wiring g -> cancelled f = cancelled g.
Proof. unfold wiring. congruence. Qed.

(** X11: a transition of the bridge and its persistence.  On a bridge
    whose machine carries the callback [NewBridge] registered, a trigger
    the table permits moves the machine whether or not the store accepts
    the writes: the new state is saved, then the transition is logged (the
    second write is attempted also when the first fails), every state
    listener is called once, in registration order, with the old and the
    new state, and client, queue, listeners and configuration are as
    before.  A trigger the table does not permit returns the
    invalid-transition error and changes nothing at all. *)
Theorem transition_persisted :
  forall (t : Trigger) (b : Bridge) (w : W),
    callbacks (stateMachine b) = [transitionCallback] ->
    let from := CurrentState b in
    let '(err, b', w') := fire t b w in
    match destination from t with
    | Some to =>
        err = None
        /\ CurrentState b' = to
        /\ store (fields b')
           = snd (State_LogTransition from to (Trigger_String t)
                    (snd (State_SaveState to (store (fields b)))))
        /\ w' = fold_left (fun acc listener => listener from to acc)
                          (stateListeners (fields b)) w
        /\ wiring (fields b') = wiring (fields b)
        /\ callbacks (stateMachine b') = [transitionCallback]
    | None => err = Some (InvalidTransition from t) /\ b' = b /\ w' = w
    end.
Proof.
  intros t b w Hcb. cbv zeta. rewrite (fire_spec t b w Hcb).
  destruct (destination (CurrentState b) t) as [to|]; [|repeat split].
  destruct (transitionCallback_spec (CurrentState b) to t (fields b) w) as (Hw & Hs & Hl).
  repeat split; assumption.
Qed.

(** X12: what [Connect] leaves behind.  On a bridge whose machine carries
    the callback of [NewBridge]: in a state other than disconnected,
    logged_out and session_expired the call is refused with an error and
    nothing changes, the client is not even asked; otherwise the event
    handler is registered on the client and the client is asked to connect
    once, and the bridge ends in fatal_error when the client fails (in
    connecting when the caller's context was cancelled), in ready when the
    client is logged in, and in qr_pending when it is not.  The event queue
    is untouched throughout. *)
Theorem Connect_outcome :
  forall (ctxCancelled : bool) (b : Bridge) (w : W),
    callbacks (stateMachine b) = [transitionCallback] ->
    let '(err, b', w') := Connect ctxCancelled b w in
    let cl := Client_Connect (Client_AddEventHandler (client (fields b))) in
    if Observer.state_among (CurrentState b) connect_states then
      client (fields b') = snd cl
      /\ events (fields b') = events (fields b)
      /\ match fst cl with
         | Some e =>
             err = Some (ErrorString ("failed to connect: " ++ error_Error e))
             /\ CurrentState b'
                = (if ctxCancelled then StateConnecting else StateFatalError)
         | None =>
             err = None
             /\ CurrentState b'
                = (if Client_IsLoggedIn (snd cl) then StateReady else StateQRPending)
         end
    else
      err = Some (ErrorString
                    ("failed to transition to connecting: "
                       ++ TransitionError_Error
                            (InvalidTransition (CurrentState b) TriggerConnect)))
      /\ b' = b /\ w' = w.
Proof.
  intros ctxCancelled b w Hcb. unfold Connect.
  rewrite (fire_spec TriggerConnect b w Hcb), connect_permitted.
  destruct (Observer.state_among (CurrentState b) connect_states); [|repeat split].
  destruct (transitionCallback_spec (CurrentState b) StateConnecting TriggerConnect
              (fields b) w) as (Hw1 & _ & _).
  set (f1 := fst (transitionCallback (CurrentState b) StateConnecting TriggerConnect
                    (fields b, w))) in *.
  set (w1 := snd (transitionCallback (CurrentState b) StateConnecting TriggerConnect
                    (fields b, w))).
  cbn [with_fields with_client fields client stateMachine].
  rewrite (wiring_client _ _ Hw1).
  destruct (Client_Connect (Client_AddEventHandler (client (fields b)))) as [[e|] c];
    cbn [fst snd].
  - destruct ctxCancelled.
    + unfold with_fields, with_client, CurrentState.
      cbn [fields client events stateMachine sm].
      rewrite (wiring_events _ _ Hw1). repeat split.
    + match goal with
      | |- context [fire_logged TriggerFatalError ?b3 ?w3] =>
          destruct (fire_logged_spec TriggerFatalError b3 w3 eq_refl) as (_ & Hw & Hs & _);
          destruct (fire_logged TriggerFatalError b3 w3) as [b4 w4]
      end.
      cbn [fst] in Hw, Hs. cbn [fields] in Hw. rewrite Hs.
      rewrite (wiring_client _ _ Hw), (wiring_events _ _ Hw).
      unfold with_fields, with_client.
      cbn [fields client events]. rewrite (wiring_events _ _ Hw1). repeat split.
  - destruct (Client_IsLoggedIn c).
    + match goal with
      | |- context [fire_logged TriggerAuthenticated ?b3 ?w3] =>
          destruct (fire_logged_spec TriggerAuthenticated b3 w3 eq_refl)
            as (Hc4 & Hw4 & Hs4 & _);
          destruct (fire_logged TriggerAuthenticated b3 w3) as [b4 w4]
      end.
      cbn [fst] in Hc4, Hw4, Hs4. cbn [fields] in Hw4.
      destruct (fire_logged_spec TriggerSyncComplete b4 w4 Hc4) as (_ & Hw5 & Hs5 & _).
      destruct (fire_logged TriggerSyncComplete b4 w4) as [b5 w5].
      cbn [fst] in Hw5, Hs5. rewrite Hs5, Hs4.
      rewrite (wiring_client _ _ Hw5), (wiring_events _ _ Hw5).
      rewrite (wiring_client _ _ Hw4), (wiring_events _ _ Hw4).
      unfold with_fields, with_client.
      cbn [fields client events]. rewrite (wiring_events _ _ Hw1). repeat split.
    + match goal with
      | |- context [fire_logged TriggerQRRequired ?b3 ?w3] =>
          destruct (fire_logged_spec TriggerQRRequired b3 w3 eq_refl) as (_ & Hw & Hs & _);
          destruct (fire_logged TriggerQRRequired b3 w3) as [b4 w4]
      end.
      cbn [fst] in Hw, Hs. cbn [fields] in Hw. rewrite Hs.
      rewrite (wiring_client _ _ Hw), (wiring_events _ _ Hw).
      unfold with_fields, with_client.
      cbn [fields client events]. rewrite (wiring_events _ _ Hw1). repeat split.
Qed.

(** X13: what [Disconnect] leaves behind.  The client is told to
    disconnect in every state.  In connecting, qr_pending, authenticating,
    syncing, ready, reconnecting and temporary_ban the bridge then moves to
    disconnected; in every other state (disconnected itself, logged_out,
    session_expired, fatal_error, shutting_down) the state stays as it is
    and the refusal is logged as an error.  The event queue is untouched. *)
Theorem Disconnect_outcome :
  forall (b : Bridge) (w : W),
    callbacks (stateMachine b) = [transitionCallback] ->
    let '(b', w') := Disconnect b w in
    client (fields b') = Client_Disconnect (client (fields b))
    /\ events (fields b') = events (fields b)
    /\ callbacks (stateMachine b') = [transitionCallback]
    /\ if Observer.state_among (CurrentState b) disconnect_states
       then CurrentState b' = StateDisconnected
       else CurrentState b' = CurrentState b
            /\ store (fields b') = store (fields b)
            /\ log (fields b') = log (fields b) ++ [transition_failed]
            /\ w' = w.
Proof.
  intros b w Hcb. unfold Disconnect, fire_logged.
  rewrite fire_spec by exact Hcb.
  change (CurrentState (with_fields (with_client (Client_Disconnect (client (fields b)))
                                                 (fields b)) b))
    with (CurrentState b).
  rewrite disconnect_permitted.
  destruct (Observer.state_among (CurrentState b) disconnect_states).
  - match goal with
    | |- context [transitionCallback ?s ?d ?t (?f, w)] =>
        destruct (transitionCallback_spec s d t f w) as (Hw & _ & _)
    end.
    cbn [fields stateMachine callbacks]. unfold CurrentState in *. cbn [stateMachine sm].
    rewrite (wiring_client _ _ Hw), (wiring_events _ _ Hw). repeat split.
  - cbn. repeat split. exact Hcb.
Qed.

Lemma bridge_handleEvent_step (evt : Event) (b : Bridge) (w : W) :
  let r := handleEvent evt b w in
  snd r = notify (eventListeners (fields b)) evt w
  /\ store (fields (fst r))
     = (if is_message_event evt then message_writes evt (store (fields b))
        else store (fields b))
  /\ wiring (fields (fst r)) = wiring (fields b)
  /\ stateMachine (fst r) = stateMachine b.
Proof.
  cbv zeta. unfold handleEvent, is_message_event, notify.
  destruct (Event_Type evt); cbn [fst snd with_fields fields stateMachine];
    try (repeat split; reflexivity).
  unfold handleMessage, message_writes.
  destruct (Event_Payload evt); try (repeat split; reflexivity).
  rewrite !logged_write_wiring, !(proj1 (BridgeFacts.logged_write_spec _ _ _ _)).
  repeat split; reflexivity.
Qed.

(** The loop for some turns: the oldest queued events are handled in
    order, and nothing but the store, the log and what the listeners act
    upon changes. *)
Lemma processEvents_steps :
  forall (fuel : nat) (b : Bridge) (w : W),
    let handled := firstn fuel (buffer (events (fields b))) in
    let '(b', w') := processEvents fuel b w in
    w' = notify_all (eventListeners (fields b)) handled w
    /\ buffer (events (fields b')) = skipn fuel (buffer (events (fields b)))
    /\ store (fields b')
       = fold_left (fun db evt => message_writes evt db)
                   (List.filter is_message_event handled) (store (fields b))
    /\ stateMachine b' = stateMachine b
    /\ client (fields b') = client (fields b)
    /\ eventListeners (fields b') = eventListeners (fields b)
    /\ closed (events (fields b')) = closed (events (fields b))
    /\ cancelled (fields b') = cancelled (fields b).
Proof.
  induction fuel as [|n IH]; intros b w; cbv zeta.
  - cbn. repeat split.
  - cbn [processEvents]. unfold processNext, receive.
    destruct (buffer (events (fields b))) as [|evt rest] eqn:Hbuf.
    + cbn. rewrite Hbuf. repeat split.
    + match goal with
      | |- context [handleEvent evt ?b0 w] =>
          destruct (bridge_handleEvent_step evt b0 w) as (Hw1 & Hs1 & Hwi1 & Hm1);
          destruct (handleEvent evt b0 w) as [b1 w1]
      end.
      cbn [fst snd] in Hw1, Hs1, Hwi1, Hm1.
      cbn [with_fields with_events fields eventListeners store stateMachine]
        in Hw1, Hs1, Hwi1, Hm1.
      specialize (IH b1 w1). cbv zeta in IH.
      destruct (processEvents n b1 w1) as [b' w'].
      destruct IH as (Hw & Hb & Hs & Hm & Hc & Hl & Hcl & Hcan).
      assert (He1 : events (fields b1)
                    = {| buffer := rest; capacity := capacity (events (fields b));
                         closed := closed (events (fields b)) |})
        by (unfold wiring in Hwi1; cbn in Hwi1; congruence).
      assert (Hl1 : eventListeners (fields b1) = eventListeners (fields b))
        by (unfold wiring in Hwi1; cbn in Hwi1; congruence).
      assert (Hc1 : client (fields b1) = client (fields b))
        by (unfold wiring in Hwi1; cbn in Hwi1; congruence).
      assert (Hcan1 : cancelled (fields b1) = cancelled (fields b))
        by (unfold wiring in Hwi1; cbn in Hwi1; congruence).
      rewrite He1 in Hb, Hw, Hs, Hcl. cbn [buffer closed] in Hb, Hw, Hs, Hcl.
      rewrite Hl1 in Hw, Hl. cbn [firstn skipn List.filter].
      unfold notify_all in *. cbn [fold_left]. rewrite <- Hw1.
      split; [exact Hw|]. split; [exact Hb|].
      split.
      { rewrite Hs, Hs1. destruct (is_message_event evt); reflexivity. }
      repeat split; congruence.
Qed.

Lemma shutdown_destination (s : State) :
  s <> StateConnected ->
  destination s TriggerShutdown
  = if State_eqb s StateShuttingDown then None else Some StateShuttingDown.
Proof. destruct s; intros Hs; try (vm_compute; reflexivity). congruence. Qed.

(** What a logged firing leaves in the store and hands to the listeners. *)
Lemma fire_logged_effects (t : Trigger) (b : Bridge) (w : W) :
  callbacks (stateMachine b) = [transitionCallback] ->
  let r := fire_logged t b w in
  store (fields (fst r))
  = match destination (CurrentState b) t with
    | Some to =>
        snd (State_LogTransition (CurrentState b) to (Trigger_String t)
               (snd (State_SaveState to (store (fields b)))))
    | None => store (fields b)
    end
  /\ snd r
     = match destination (CurrentState b) t with
       | Some to =>
           fold_left (fun acc listener => listener (CurrentState b) to acc)
                     (stateListeners (fields b)) w
       | None => w
       end.
Proof.
  intros Hcb. cbv zeta. unfold fire_logged. rewrite (fire_spec t b w Hcb).
  destruct (destination (CurrentState b) t) as [to|]; cbn [fst snd fields].
  - destruct (transitionCallback_spec (CurrentState b) to t (fields b) w) as (_ & Hs & Hl).
    split; assumption.
  - split; reflexivity.
Qed.


(** X15: a burst of events.  When events are submitted one after the
    other to a bridge that has not been stopped, with nothing processed in
    between, the queue takes as many of them as it has free places, in the
    order of submission and behind the events already queued; each further
    event is dropped with one warning.  Machine, store and client are as
    before. *)
Theorem emit_all_keeps_oldest :
  forall (evts : list Event) (b : Bridge),
    closed (events (fields b)) = false ->
    exists b' : Bridge,
      emit_all evts b = Some b'
      /\ buffer (events (fields b'))
         = buffer (events (fields b)) ++ firstn (free (events (fields b))) evts
      /\ log (fields b')
         = log (fields b)
             ++ repeat queue_full_warning (length evts - free (events (fields b)))
      /\ capacity (events (fields b')) = capacity (events (fields b))
      /\ closed (events (fields b')) = false
      /\ stateMachine b' = stateMachine b
      /\ store (fields b') = store (fields b)
      /\ client (fields b') = client (fields b).
Proof.
  induction evts as [|evt rest IH]; intros b Hopen.
  - exists b. cbn [emit_all length repeat Nat.sub]. rewrite firstn_nil, !app_nil_r.
    repeat split. exact Hopen.
  - cbn [emit_all]. unfold EmitEvent, try_send. rewrite Hopen.
    destruct (length (buffer (events (fields b))) <? capacity (events (fields b)))%nat
      eqn:Hroom.
    + apply Nat.ltb_lt in Hroom.
      match goal with
      | |- context [emit_all rest ?b1] =>
          destruct (IH b1 eq_refl) as (b' & He & Hb & Hl & Hc & Hcl & Hm & Hs & Hcli)
      end.
      exists b'. split; [exact He|].
      cbn [with_fields with_events fields events buffer capacity log store client
           stateMachine] in Hb, Hl, Hc, Hm, Hs, Hcli.
      unfold free in *. cbn [buffer capacity] in Hb, Hl.
      rewrite length_app in Hb, Hl. cbn [length] in Hb, Hl.
      replace (capacity (events (fields b)) - length (buffer (events (fields b))))%nat
        with (S (capacity (events (fields b))
                 - (length (buffer (events (fields b))) + 1)))%nat by lia.
      cbn [firstn length Nat.sub].
      rewrite Hb, Hl, <- app_assoc. repeat split; assumption.
    + apply Nat.ltb_ge in Hroom.
      match goal with
      | |- context [emit_all rest ?b1] =>
          destruct (IH b1 Hopen) as (b' & He & Hb & Hl & Hc & Hcl & Hm & Hs & Hcli)
      end.
      exists b'. split; [exact He|].
      cbn [with_fields with_log fields events buffer capacity log store client
           stateMachine] in Hb, Hl, Hc, Hm, Hs, Hcli.
      unfold free in *.
      replace (capacity (events (fields b)) - length (buffer (events (fields b))))%nat
        with 0%nat in * by lia.
      rewrite Nat.sub_0_r in *. cbn [firstn length repeat] in *.
      rewrite Hb, Hl, <- app_assoc. repeat split; assumption.
Qed.

(** X16: the processing loop is first in, first out.  Running the loop for
    some turns handles that many of the queued events (all of them when
    there are fewer), oldest first: every registered listener is called
    with each handled event, in registration order, before the next event
    is taken; the events not yet handled stay queued in their order; the
    store receives the writes of the handled message events and of no
    other event; and machine, client and listeners are as before.  The loop
    does not look at whether the channel is closed, so events queued before
    [Stop] are still handled. *)
Theorem processEvents_in_order :
  forall (fuel : nat) (b : Bridge) (w : W),
    let handled := firstn fuel (buffer (events (fields b))) in
    let '(b', w') := processEvents fuel b w in
    w' = notify_all (eventListeners (fields b)) handled w
    /\ buffer (events (fields b')) = skipn fuel (buffer (events (fields b)))
    /\ store (fields b')
       = fold_left (fun db evt => message_writes evt db)
                   (List.filter is_message_event handled) (store (fields b))
    /\ stateMachine b' = stateMachine b
    /\ client (fields b') = client (fields b)
    /\ eventListeners (fields b') = eventListeners (fields b)
    /\ closed (events (fields b')) = closed (events (fields b)).
Proof.
  intros fuel b w. pose proof (processEvents_steps fuel b w) as Hloop.
  cbv zeta in Hloop |- *. destruct (processEvents fuel b w) as [b' w'].
  destruct Hloop as (Hw & Hb & Hs & Hm & Hc & Hl & Hcl & _).
  repeat split; assumption.
Qed.

End Generic.

Section Journaled.
Context {C W : Type}.

Local Abbreviation JFields := (Bridge.Fields Journal C W).

Lemma journal_logged_write (call : StoreCall) (lvl : Level) (msg : string) (f : JFields) :
  let f' := logged_write (journal_write call) lvl msg f in
  calls (store f') = calls (store f) ++ [call]
  /\ failure (store f') = failure (store f)
  /\ log f' = log f ++ (if failed (failure (store f)) call
                        then [ {| log_level := lvl; log_msg := msg |} ] else [])
  /\ wiring f' = wiring f.
Proof.
  cbv zeta. unfold logged_write, journal_write, failed.
  destruct (failure (store f) call); cbn; rewrite ?app_nil_r; repeat split.
Qed.

Lemma history_messages_journal (jid : string) (msgs : list (option WebMessageInfo)) :
  forall f : JFields,
    let f' := fold_left (fun acc histMsg => persistHistoryMessage jid histMsg acc) msgs f in
    calls (store f')
    = calls (store f) ++ map CallMessagesStore (omap (taken_message jid) msgs)
    /\ failure (store f') = failure (store f)
    /\ log f'
       = log f
           ++ map (fun _ => {| log_level := LevelDebug;
                               log_msg := "failed to store history message" |})
                  (List.filter (fun msg => failed (failure (store f)) (CallMessagesStore msg))
                               (omap (taken_message jid) msgs))
    /\ wiring f' = wiring f.
Proof.
  induction msgs as [|histMsg rest IH]; intros f; cbv zeta.
  - cbn. rewrite !app_nil_r. repeat split.
  - cbn [fold_left].
    assert (Hstep :
              let g := persistHistoryMessage jid histMsg f in
              calls (store g)
              = calls (store f)
                  ++ map CallMessagesStore (option_list (taken_message jid histMsg))
              /\ failure (store g) = failure (store f)
              /\ log g
                 = log f
                     ++ map (fun _ => {| log_level := LevelDebug;
                                         log_msg := "failed to store history message" |})
                            (List.filter
                               (fun msg => failed (failure (store f)) (CallMessagesStore msg))
                               (option_list (taken_message jid histMsg)))
              /\ wiring g = wiring f).
    { cbv zeta. unfold persistHistoryMessage, taken_message.
      destruct histMsg as [webMsg|]; [|cbn; rewrite !app_nil_r; repeat split].
      destruct (WMI_Key webMsg) as [key|]; [|cbn; rewrite !app_nil_r; repeat split].
      destruct (String.eqb (Key_ID key) ""); [cbn; rewrite !app_nil_r; repeat split|].
      destruct (journal_logged_write (CallMessagesStore (history_message jid webMsg key))
                  LevelDebug "failed to store history message" f)
        as (Hc & Hf & Hl & Hw).
      change (Messages_Store (history_message jid webMsg key))
        with (journal_write (CallMessagesStore (history_message jid webMsg key))).
      rewrite Hc, Hf, Hl, Hw. unfold option_list, option_rect. cbn [map List.filter].
      destruct (failed (failure (store f))
                       (CallMessagesStore (history_message jid webMsg key)));
        repeat split. }
    cbv zeta in Hstep. destruct Hstep as (Hc & Hf & Hl & Hw).
    specialize (IH (persistHistoryMessage jid histMsg f)). cbv zeta in IH.
    destruct IH as (Hc' & Hf' & Hl' & Hw').
    rewrite Hc', Hf', Hl', Hw', Hc, Hf, Hl, Hw, <- !app_assoc.
    cbn [omap list_omap].
    destruct (taken_message jid histMsg) as [msg|]; unfold option_list, option_rect;
      cbn [map List.filter app];
      [|repeat split].
    destruct (failed (failure (store f)) (CallMessagesStore msg)); repeat split.
Qed.

Lemma conversation_journal (conv : Conversation) (f : JFields) :
  let f' := persistConversation conv f in
  calls (store f') = calls (store f) ++ conversation_calls (failure (store f)) conv
  /\ failure (store f') = failure (store f)
  /\ log f' = log f ++ conversation_log (failure (store f)) conv
  /\ wiring f' = wiring f.
Proof.
  cbv zeta. unfold persistConversation, conversation_calls, conversation_log.
  destruct (String.eqb (Conv_ID conv) ""); [rewrite !app_nil_r; repeat split|].
  change (Chats_Upsert (chat_of_conversation conv) (store f))
    with (journal_write (CallChatsUpsert (chat_of_conversation conv)) (store f)).
  unfold journal_write, failed.
  destruct (failure (store f) (CallChatsUpsert (chat_of_conversation conv))) as [e|].
  - cbn. repeat split.
  - match goal with
    | |- context [fold_left _ _ ?g] =>
        destruct (history_messages_journal (Conv_ID conv) (Conv_Messages conv) g)
          as (Hc & Hf & Hl & Hw)
    end.
    rewrite Hc, Hf, Hl, Hw. cbn [with_store store calls failure log].
    rewrite <- app_assoc. repeat split.
Qed.

(** X17: the writes of the raw-event handler.  Against a store that
    records the writes it is asked for and fails any of them, a history
    batch leads to exactly these writes, in this order: for every
    conversation with a non-empty id one chat upsert, followed (only when
    that upsert succeeded) by one message write for every entry that has a
    message, a key and a non-empty id; a failed write is logged and the
    batch goes on with the next entry.  A raw message event leads to a chat
    upsert, a last-message update and a message write, all three also when
    an earlier one fails; every other raw event leads to no write.  The
    handler never touches client, queue, listeners or configuration. *)
Theorem handleWhatsAppEvent_writes :
  forall (rawEvt : RawEvent) (f : JFields),
    let f' := handleWhatsAppEvent rawEvt f in
    let fails := failure (store f) in
    failure (store f') = fails
    /\ wiring f' = wiring f
    /\ match rawEvt with
       | RawHistorySync convs =>
           calls (store f') = calls (store f) ++ flat_map (conversation_calls fails) convs
           /\ log f'
              = log f
                  ++ {| log_level := LevelInfo; log_msg := "processing history sync" |}
                  :: flat_map (conversation_log fails) convs
       | RawMessageEvent evt =>
           exists (chat : Chat) (msg : Message),
             calls (store f')
             = calls (store f)
                 ++ [ CallChatsUpsert chat;
                      CallChatsUpdateLastMessage (Info_Chat evt) (Info_Timestamp evt);
                      CallMessagesStore msg ]
             /\ Chat_JID chat = Info_Chat evt
             /\ Chat_IsGroup chat = Info_IsGroup evt
             /\ Message_ID msg = Info_ID evt
             /\ Message_ChatJID msg = Info_Chat evt
             /\ Message_Sender msg = (if Info_IsFromMe evt then "me" else Info_Sender evt)
             /\ Message_Content msg = extractMessageText (Raw_Message evt)
       | _ => f' = f
       end.
Proof.
  intros rawEvt f. cbv zeta.
  destruct rawEvt as [codes| | |evt|convs|]; cbn [handleWhatsAppEvent];
    try (repeat split; reflexivity).
  - unfold persistMessage.
    change (@Chats_Upsert Journal _) with (fun chat => journal_write (CallChatsUpsert chat)).
    change (@Chats_UpdateLastMessage Journal _)
      with (fun jid t => journal_write (CallChatsUpdateLastMessage jid t)).
    change (@Messages_Store Journal _) with (fun msg => journal_write (CallMessagesStore msg)).
    cbv beta.
    match goal with
    | |- context [logged_write (journal_write (CallMessagesStore ?m)) ?l3 ?s3
                    (logged_write (journal_write ?c2) ?l2 ?s2
                       (logged_write (journal_write (CallChatsUpsert ?ch)) ?l1 ?s1 f))] =>
        destruct (journal_logged_write (CallChatsUpsert ch) l1 s1 f)
          as (Hc1 & Hf1 & _ & Hw1);
        destruct (journal_logged_write c2 l2 s2
                    (logged_write (journal_write (CallChatsUpsert ch)) l1 s1 f))
          as (Hc2 & Hf2 & _ & Hw2);
        destruct (journal_logged_write (CallMessagesStore m) l3 s3
                    (logged_write (journal_write c2) l2 s2
                       (logged_write (journal_write (CallChatsUpsert ch)) l1 s1 f)))
          as (Hc3 & Hf3 & _ & Hw3);
        split; [congruence|]; split; [congruence|];
        exists ch, m
    end.
    rewrite Hc3, Hc2, Hc1, <- !app_assoc. repeat split.
  - unfold persistHistorySync, persistConversations.
    set (f0 := with_log {| log_level := LevelInfo; log_msg := "processing history sync" |} f).
    assert (Hgen : forall (g : JFields),
               let g' := fold_left (fun acc conv => persistConversation conv acc) convs g in
               calls (store g')
               = calls (store g) ++ flat_map (conversation_calls (failure (store g))) convs
               /\ failure (store g') = failure (store g)
               /\ log g' = log g ++ flat_map (conversation_log (failure (store g))) convs
               /\ wiring g' = wiring g).
    { induction convs as [|conv rest IH]; intros g; cbv zeta.
      - cbn. rewrite !app_nil_r. repeat split.
      - cbn [fold_left flat_map].
        destruct (conversation_journal conv g) as (Hc & Hf & Hl & Hw).
        destruct (IH (persistConversation conv g)) as (Hc' & Hf' & Hl' & Hw').
        rewrite Hc', Hf', Hl', Hw', Hc, Hf, Hl, Hw, <- !app_assoc. repeat split. }
    destruct (Hgen f0) as (Hc & Hf & Hl & Hw).
    rewrite Hc, Hf, Hl, Hw. subst f0. cbn [with_log store log].
    rewrite <- app_assoc. repeat split.
Qed.

End Journaled.

Lemma transition_persisted_witness :
  let b := NewBridge (W:=unit) DefaultConfig NewSQLiteStore NewFakeClient in
  CurrentState (snd (fst (fire TriggerConnect b tt))) = StateConnecting
  /\ tbl_bridge_state (store (fields (snd (fst (fire TriggerConnect b tt))))) = StateConnecting.
Proof.
  pose proof (transition_persisted (W:=unit) TriggerConnect
                (NewBridge DefaultConfig NewSQLiteStore NewFakeClient) tt eq_refl) as H.
  cbv zeta in *. vm_compute in H. destruct H as (_ & H1 & H2 & _).
  vm_compute. split; [exact H1|]. exact (f_equal tbl_bridge_state H2).
Defined.

Lemma Connect_outcome_witness :
  let b := NewBridge (W:=unit) DefaultConfig NewSQLiteStore (SetLoggedIn true NewFakeClient) in
  CurrentState (snd (fst (Connect false b tt))) = StateReady.
Proof.
  pose proof (Connect_outcome (W:=unit) false
                (NewBridge DefaultConfig NewSQLiteStore (SetLoggedIn true NewFakeClient))
                tt eq_refl) as H.
  cbv zeta in *. vm_compute in H. destruct H as (_ & _ & _ & H).
  vm_compute. exact H.
Defined.

Lemma Disconnect_outcome_witness :
  let b := NewBridge (W:=unit) DefaultConfig NewSQLiteStore NewFakeClient in
  CurrentState (fst (Disconnect b tt)) = StateDisconnected
  /\ log (fields (fst (Disconnect b tt))) = [transition_failed].
Proof.
  pose proof (Disconnect_outcome (W:=unit)
                (NewBridge DefaultConfig NewSQLiteStore NewFakeClient) tt eq_refl) as H.
  cbv zeta in *. vm_compute in H. destruct H as (_ & _ & _ & H1 & _ & H2 & _).
  vm_compute. split; [exact H1 | exact H2].
Defined.


Lemma emit_all_keeps_oldest_witness :
  exists b' : Bridge.Bridge SQLiteStore FakeClient unit,
    emit_all (repeat Main.sample_event 101)
             (NewBridge DefaultConfig NewSQLiteStore NewFakeClient) = Some b'
    /\ buffer (events (fields b')) = repeat Main.sample_event 100
    /\ log (fields b') = [queue_full_warning].
Proof.
  destruct (emit_all_keeps_oldest (W:=unit) (repeat Main.sample_event 101)
              (NewBridge DefaultConfig NewSQLiteStore NewFakeClient) eq_refl)
    as (b' & H1 & H2 & H3 & _).
  exists b'. split; [exact H1|]. split; [exact H2 | exact H3].
Defined.

End BridgeMore.

(* ===================================================================== *)
(** ** Properties of the client's event hub                               *)
(* ===================================================================== *)
Module WhatsAppMore.
Import Bridge BridgeEvents WhatsApp.

Local Open Scope list_scope.

Lemma offer_spec {A : Type} (a : A) (q : Queue A) :
  items (fst (offer a q)) = items q ++ firstn (vacancy q) [a]
  /\ room (fst (offer a q)) = room q
  /\ snd (offer a q) = negb (vacancy q =? 0)%nat.
Proof.
  unfold offer, vacancy.
  destruct (length (items q) <? room q)%nat eqn:Hroom.
  - apply Nat.ltb_lt in Hroom. cbn [fst snd items room].
    destruct (room q - length (items q))%nat as [|k] eqn:Hk; [lia|].
    cbn. rewrite firstn_nil. repeat split.
  - apply Nat.ltb_ge in Hroom. cbn [fst snd].
    replace (room q - length (items q))%nat with 0%nat by lia.
    cbn. rewrite app_nil_r. repeat split.
Qed.

Lemma offer_cases {A : Type} (a : A) (q : Queue A) :
  (exists q', offer a q = (q', true)) \/ offer a q = (q, false).
Proof.
  unfold offer. destruct (length (items q) <? room q)%nat; [left; eexists|right];
    reflexivity.
Qed.

Lemma firstn_vacancy {A : Type} (k : nat) (a : A) (l : list A) :
  firstn k [a] ++ firstn (k - length (firstn k [a])) l = firstn k (a :: l).
Proof.
  destruct k as [|k]; [reflexivity|].
  cbn [firstn]. rewrite firstn_nil. cbn [length app]. rewrite Nat.sub_succ, Nat.sub_0_r.
  reflexivity.
Qed.

Lemma hub_handleEvent_step {W : Type} (evt : RawEvent) (c : Client W) (w : W) :
  let r := handleEvent evt c w in
  snd r = call_handlers (handlers c) evt w
  /\ handlers (fst r) = handlers c
  /\ eventChan (fst r) = fst (offer evt (eventChan c))
  /\ qrChan (fst r)
     = match first_code evt with
       | Some code => fst (offer code (qrChan c))
       | None => qrChan c
       end
  /\ isConnected (fst r) = isConnected c || is_connection_event evt
  /\ List.filter is_full_warning (clientLog (fst r))
     = List.filter is_full_warning (clientLog c)
         ++ (if snd (offer evt (eventChan c)) then []
             else [ {| log_level := LevelWarn;
                       log_msg := "Event channel full, dropping event" |} ]).
Proof.
  destruct (offer_cases evt (eventChan c)) as [[q' Ho]|Ho].
  all: destruct evt as [codes| | |m|convs|]; cbn [first_code is_connection_event].
  all: try (destruct codes as [|code rest];
            [|destruct (offer_cases code (qrChan c)) as [[q Hq]|Hq]]).
  all: cbv zeta; unfold handleEvent, call_handlers;
    cbn [logged set_connected isConnected qrChan eventChan handlers clientLog];
    rewrite ?Hq;
    cbn [logged set_connected isConnected qrChan eventChan handlers clientLog];
    rewrite Ho;
    cbn [logged set_connected isConnected qrChan eventChan handlers clientLog fst snd];
    rewrite ?orb_true_r, ?orb_false_r, ?List.filter_app;
    repeat match goal with
           | |- context [List.filter is_full_warning [?r]] =>
               let v := eval vm_compute in (List.filter is_full_warning [r]) in
               change (List.filter is_full_warning [r]) with v
           end;
    rewrite ?app_nil_r; repeat split; reflexivity.
Qed.

(** X18: the client's event hub.  When raw events are handled one after
    the other with nothing received from the channels in between: every
    registered handler is called with every event, in registration order
    and event by event, also when a channel is full; the event channel
    takes as many events as it has free places, in order, and each further
    event is dropped with one warning; of a QR event only the first code is
    put on the QR channel, which likewise keeps the earliest codes; and
    the client counts as connected from the first pairing-success or
    connected event on, no event taking that back. *)
Theorem handleEvents_hub :
  forall (W : Type) (evts : list RawEvent) (c : Client W) (w : W),
    let '(c', w') := handleEvents evts c w in
    w' = fold_left (fun acc evt => call_handlers (handlers c) evt acc) evts w
    /\ handlers c' = handlers c
    /\ items (eventChan c')
       = items (eventChan c) ++ firstn (vacancy (eventChan c)) evts
    /\ items (qrChan c')
       = items (qrChan c) ++ firstn (vacancy (qrChan c)) (first_codes evts)
    /\ room (eventChan c') = room (eventChan c)
    /\ room (qrChan c') = room (qrChan c)
    /\ isConnected c' = isConnected c || existsb is_connection_event evts
    /\ List.filter is_full_warning (clientLog c')
       = List.filter is_full_warning (clientLog c)
           ++ repeat {| log_level := LevelWarn;
                        log_msg := "Event channel full, dropping event" |}
                     (length evts - vacancy (eventChan c)).
Proof.
  intros W evts. induction evts as [|evt rest IH]; intros c w.
  - cbn [handleEvents fold_left first_codes omap list_omap existsb length Nat.sub repeat].
    rewrite !firstn_nil, !app_nil_r, orb_false_r. repeat split.
  - cbn [handleEvents].
    destruct (hub_handleEvent_step evt c w) as (Hw & Hh & He & Hq & Hc & Hl).
    destruct (handleEvent evt c w) as [c1 w1]. cbn [fst snd] in Hw, Hh, He, Hq, Hc, Hl.
    specialize (IH c1 w1). destruct (handleEvents rest c1 w1) as [c' w'].
    destruct IH as (Hw' & Hh' & He' & Hq' & Hre' & Hrq' & Hc' & Hl').
    destruct (offer_spec evt (eventChan c)) as (Hoi & Hor & Hos).
    assert (Hve : vacancy (eventChan c1)
                  = (vacancy (eventChan c) - length (firstn (vacancy (eventChan c)) [evt]))%nat).
    { rewrite He. unfold vacancy at 1. rewrite Hoi, Hor, length_app. unfold vacancy. lia. }
    split; [|split; [|split; [|split; [|split; [|split; [|split]]]]]].
    + cbn [fold_left]. rewrite Hw', Hh, Hw. reflexivity.
    + congruence.
    + rewrite He', Hve, He, Hoi, <- app_assoc, firstn_vacancy. reflexivity.
    + rewrite Hq'. unfold first_codes. cbn [omap list_omap]. rewrite Hq.
      destruct (first_code evt) as [code|]; [|reflexivity].
      destruct (offer_spec code (qrChan c)) as (Hqi & Hqr & _).
      assert (Hvq : vacancy (fst (offer code (qrChan c)))
                    = (vacancy (qrChan c)
                       - length (firstn (vacancy (qrChan c)) [code]))%nat).
      { unfold vacancy at 1. rewrite Hqi, Hqr, length_app. unfold vacancy. lia. }
      rewrite Hvq, Hqi, <- app_assoc, firstn_vacancy. reflexivity.
    + rewrite Hre', He. exact Hor.
    + rewrite Hrq', Hq. destruct (first_code evt) as [code|]; [|reflexivity].
      apply (offer_spec code (qrChan c)).
    + rewrite Hc', Hc. cbn [existsb]. rewrite orb_assoc. reflexivity.
    + rewrite Hl', Hl, Hve, Hos, <- app_assoc. f_equal.
      destruct (vacancy (eventChan c)) as [|k].
      * cbn. rewrite Nat.sub_0_r. reflexivity.
      * cbn [Nat.eqb negb firstn length app]. rewrite firstn_nil. cbn [length].
        f_equal. lia.
Qed.

End WhatsAppMore.

(* ===================================================================== *)
(** ** Properties of the tool surface                                     *)
(* ===================================================================== *)
Module ApiMore.
Import Store Api Tools.

Local Open Scope list_scope.

Lemma incl_by_computation (l1 l2 : list string) :
  forallb (fun x => is_one_of x l2) l1 = true -> incl l1 l2.
Proof.
  intros Hall x Hin. rewrite forallb_forall in Hall.
  apply ApiFacts.is_one_of_spec. apply Hall. exact Hin.
Qed.

Lemma advertised_are_handled (name : string) :
  In name (map Tool_Name GetAllTools) <-> In name handled_tools.
Proof.
  split; apply incl_by_computation; vm_compute; reflexivity.
Qed.

(** Evaluates the comparisons of two tool or argument names. *)
Ltac closed_eqb :=
  repeat match goal with
         | |- context [String.eqb ?a ?b] =>
             lazymatch a with
             | context [getString] => fail
             | _ => idtac
             end;
             let v := eval vm_compute in (String.eqb a b) in
             lazymatch v with
             | true => change (String.eqb a b) with true
             | false => change (String.eqb a b) with false
             end
         end.

Section Surface.
Context {DB : Type} `{Repositories DB} `{LocalRepositories DB}
        {B : Type} `{BridgeOps B}.
Variable vsp : string -> option error.
Variable mi : Bridge.Value -> Data.
Variable ms : list StatusUpdate -> Data.

Local Abbreviation Handler := (Api.Handler DB B).

Lemma dispatch_ToolSendMessage (now : Z) (args : Args) (h : Handler) :
  Api.dispatch (gated vsp mi ms) now ToolSendMessage args h
  = handleSendMessage args h.
Proof. reflexivity. Qed.

Lemma dispatch_ToolReplyToMessage (now : Z) (args : Args) (h : Handler) :
  Api.dispatch (gated vsp mi ms) now ToolReplyToMessage args h
  = or_fault (handleReplyToMessage args h) h.
Proof. reflexivity. Qed.

Lemma dispatch_ToolForwardMessage (now : Z) (args : Args) (h : Handler) :
  Api.dispatch (gated vsp mi ms) now ToolForwardMessage args h
  = or_fault (handleForwardMessage args h) h.
Proof. reflexivity. Qed.

Lemma dispatch_ToolEditMessage (now : Z) (args : Args) (h : Handler) :
  Api.dispatch (gated vsp mi ms) now ToolEditMessage args h
  = or_fault (handleEditMessage args h) h.
Proof. reflexivity. Qed.

Lemma dispatch_ToolDeleteMessage (now : Z) (args : Args) (h : Handler) :
  Api.dispatch (gated vsp mi ms) now ToolDeleteMessage args h
  = or_fault (handleDeleteMessage args h) h.
Proof. reflexivity. Qed.

Lemma dispatch_ToolReactToMessage (now : Z) (args : Args) (h : Handler) :
  Api.dispatch (gated vsp mi ms) now ToolReactToMessage args h
  = or_fault (handleReactToMessage args h) h.
Proof. reflexivity. Qed.

Lemma dispatch_ToolStarMessage (now : Z) (args : Args) (h : Handler) :
  Api.dispatch (gated vsp mi ms) now ToolStarMessage args h
  = or_fault (handleStarMessage args true h) h.
Proof. reflexivity. Qed.

Lemma dispatch_ToolUnstarMessage (now : Z) (args : Args) (h : Handler) :
  Api.dispatch (gated vsp mi ms) now ToolUnstarMessage args h
  = or_fault (handleStarMessage args false h) h.
Proof. reflexivity. Qed.

Lemma dispatch_ToolListChats (now : Z) (args : Args) (h : Handler) :
  Api.dispatch (gated vsp mi ms) now ToolListChats args h
  = (handleListChats args h, h).
Proof. reflexivity. Qed.

Lemma dispatch_ToolGetChat (now : Z) (args : Args) (h : Handler) :
  Api.dispatch (gated vsp mi ms) now ToolGetChat args h
  = (handleGetChat args h, h).
Proof. reflexivity. Qed.

Lemma dispatch_ToolListMessages (now : Z) (args : Args) (h : Handler) :
  Api.dispatch (gated vsp mi ms) now ToolListMessages args h
  = (handleListMessages args h, h).
Proof. reflexivity. Qed.

Lemma dispatch_ToolArchiveChat (now : Z) (args : Args) (h : Handler) :
  Api.dispatch (gated vsp mi ms) now ToolArchiveChat args h
  = or_fault (handleArchiveChat args true h) h.
Proof. reflexivity. Qed.

Lemma dispatch_ToolUnarchiveChat (now : Z) (args : Args) (h : Handler) :
  Api.dispatch (gated vsp mi ms) now ToolUnarchiveChat args h
  = or_fault (handleArchiveChat args false h) h.
Proof. reflexivity. Qed.

Lemma dispatch_ToolPinChat (now : Z) (args : Args) (h : Handler) :
  Api.dispatch (gated vsp mi ms) now ToolPinChat args h
  = or_fault (handlePinChat args true h) h.
Proof. reflexivity. Qed.

Lemma dispatch_ToolUnpinChat (now : Z) (args : Args) (h : Handler) :
  Api.dispatch (gated vsp mi ms) now ToolUnpinChat args h
  = or_fault (handlePinChat args false h) h.
Proof. reflexivity. Qed.

Lemma dispatch_ToolMuteChat (now : Z) (args : Args) (h : Handler) :
  Api.dispatch (gated vsp mi ms) now ToolMuteChat args h
  = or_fault (handleMuteChat args true h) h.
Proof. reflexivity. Qed.

Lemma dispatch_ToolUnmuteChat (now : Z) (args : Args) (h : Handler) :
  Api.dispatch (gated vsp mi ms) now ToolUnmuteChat args h
  = or_fault (handleMuteChat args false h) h.
Proof. reflexivity. Qed.

Lemma dispatch_ToolMarkChatRead (now : Z) (args : Args) (h : Handler) :
  Api.dispatch (gated vsp mi ms) now ToolMarkChatRead args h
  = or_fault (handleMarkChatRead args h) h.
Proof. reflexivity. Qed.

Lemma dispatch_ToolDeleteChat (now : Z) (args : Args) (h : Handler) :
  Api.dispatch (gated vsp mi ms) now ToolDeleteChat args h
  = or_fault (handleDeleteChat args h) h.
Proof. reflexivity. Qed.

Lemma dispatch_ToolSearchContacts (now : Z) (args : Args) (h : Handler) :
  Api.dispatch (gated vsp mi ms) now ToolSearchContacts args h
  = (handleSearchContacts args h, h).
Proof. reflexivity. Qed.

Lemma dispatch_ToolGetContact (now : Z) (args : Args) (h : Handler) :
  Api.dispatch (gated vsp mi ms) now ToolGetContact args h
  = (handleGetContact args h, h).
Proof. reflexivity. Qed.

Lemma dispatch_ToolBlockContact (now : Z) (args : Args) (h : Handler) :
  Api.dispatch (gated vsp mi ms) now ToolBlockContact args h
  = or_fault (handleBlockContact args true h) h.
Proof. reflexivity. Qed.

Lemma dispatch_ToolUnblockContact (now : Z) (args : Args) (h : Handler) :
  Api.dispatch (gated vsp mi ms) now ToolUnblockContact args h
  = or_fault (handleBlockContact args false h) h.
Proof. reflexivity. Qed.

Lemma dispatch_ToolGetBlockedContacts (now : Z) (args : Args) (h : Handler) :
  Api.dispatch (gated vsp mi ms) now ToolGetBlockedContacts args h
  = (handleGetBlockedContacts args h, h).
Proof. reflexivity. Qed.

Lemma dispatch_ToolCheckPhoneRegistered (now : Z) (args : Args) (h : Handler) :
  Api.dispatch (gated vsp mi ms) now ToolCheckPhoneRegistered args h
  = or_fault (handleCheckPhoneRegistered args h) h.
Proof. reflexivity. Qed.

Lemma dispatch_ToolCreateGroup (now : Z) (args : Args) (h : Handler) :
  Api.dispatch (gated vsp mi ms) now ToolCreateGroup args h
  = or_fault (handleCreateGroup args h) h.
Proof. reflexivity. Qed.

Lemma dispatch_ToolGetGroupInfo (now : Z) (args : Args) (h : Handler) :
  Api.dispatch (gated vsp mi ms) now ToolGetGroupInfo args h
  = or_fault (handleGetGroupInfo mi args h) h.
Proof. reflexivity. Qed.

Lemma dispatch_ToolLeaveGroup (now : Z) (args : Args) (h : Handler) :
  Api.dispatch (gated vsp mi ms) now ToolLeaveGroup args h
  = or_fault (handleLeaveGroup args h) h.
Proof. reflexivity. Qed.

Lemma dispatch_ToolAddGroupMembers (now : Z) (args : Args) (h : Handler) :
  Api.dispatch (gated vsp mi ms) now ToolAddGroupMembers args h
  = or_fault (handleAddGroupMembers args h) h.
Proof. reflexivity. Qed.

Lemma dispatch_ToolRemoveGroupMembers (now : Z) (args : Args) (h : Handler) :
  Api.dispatch (gated vsp mi ms) now ToolRemoveGroupMembers args h
  = or_fault (handleRemoveGroupMembers args h) h.
Proof. reflexivity. Qed.

Lemma dispatch_ToolPromoteAdmin (now : Z) (args : Args) (h : Handler) :
  Api.dispatch (gated vsp mi ms) now ToolPromoteAdmin args h
  = or_fault (handlePromoteAdmin args h) h.
Proof. reflexivity. Qed.

Lemma dispatch_ToolDemoteAdmin (now : Z) (args : Args) (h : Handler) :
  Api.dispatch (gated vsp mi ms) now ToolDemoteAdmin args h
  = or_fault (handleDemoteAdmin args h) h.
Proof. reflexivity. Qed.

Lemma dispatch_ToolSetGroupName (now : Z) (args : Args) (h : Handler) :
  Api.dispatch (gated vsp mi ms) now ToolSetGroupName args h
  = or_fault (handleSetGroupName args h) h.
Proof. reflexivity. Qed.

Lemma dispatch_ToolSetGroupTopic (now : Z) (args : Args) (h : Handler) :
  Api.dispatch (gated vsp mi ms) now ToolSetGroupTopic args h
  = or_fault (handleSetGroupTopic args h) h.
Proof. reflexivity. Qed.

Lemma dispatch_ToolSetGroupPhoto (now : Z) (args : Args) (h : Handler) :
  Api.dispatch (gated vsp mi ms) now ToolSetGroupPhoto args h
  = or_fault (handleSetGroupPhoto args h) h.
Proof. reflexivity. Qed.

Lemma dispatch_ToolGetInviteLink (now : Z) (args : Args) (h : Handler) :
  Api.dispatch (gated vsp mi ms) now ToolGetInviteLink args h
  = or_fault (handleGetInviteLink args h) h.
Proof. reflexivity. Qed.

Lemma dispatch_ToolRevokeInviteLink (now : Z) (args : Args) (h : Handler) :
  Api.dispatch (gated vsp mi ms) now ToolRevokeInviteLink args h
  = or_fault (handleRevokeInviteLink args h) h.
Proof. reflexivity. Qed.

Lemma dispatch_ToolJoinViaInvite (now : Z) (args : Args) (h : Handler) :
  Api.dispatch (gated vsp mi ms) now ToolJoinViaInvite args h
  = or_fault (handleJoinViaInvite args h) h.
Proof. reflexivity. Qed.

Lemma dispatch_ToolSendImage (now : Z) (args : Args) (h : Handler) :
  Api.dispatch (gated vsp mi ms) now ToolSendImage args h
  = or_fault (handleSendImage args h) h.
Proof. reflexivity. Qed.

Lemma dispatch_ToolSendVideo (now : Z) (args : Args) (h : Handler) :
  Api.dispatch (gated vsp mi ms) now ToolSendVideo args h
  = or_fault (handleSendVideo args h) h.
Proof. reflexivity. Qed.

Lemma dispatch_ToolSendAudio (now : Z) (args : Args) (h : Handler) :
  Api.dispatch (gated vsp mi ms) now ToolSendAudio args h
  = or_fault (handleSendAudio args h) h.
Proof. reflexivity. Qed.

Lemma dispatch_ToolSendDocument (now : Z) (args : Args) (h : Handler) :
  Api.dispatch (gated vsp mi ms) now ToolSendDocument args h
  = or_fault (handleSendDocument args h) h.
Proof. reflexivity. Qed.

Lemma dispatch_ToolSendLocation (now : Z) (args : Args) (h : Handler) :
  Api.dispatch (gated vsp mi ms) now ToolSendLocation args h
  = or_fault (handleSendLocation args h) h.
Proof. reflexivity. Qed.

Lemma dispatch_ToolSendContactCard (now : Z) (args : Args) (h : Handler) :
  Api.dispatch (gated vsp mi ms) now ToolSendContactCard args h
  = or_fault (handleSendContactCard args h) h.
Proof. reflexivity. Qed.

Lemma dispatch_ToolDownloadMedia (now : Z) (args : Args) (h : Handler) :
  Api.dispatch (gated vsp mi ms) now ToolDownloadMedia args h
  = or_fault (handleDownloadMedia vsp args h) h.
Proof. reflexivity. Qed.

Lemma dispatch_ToolSubscribePresence (now : Z) (args : Args) (h : Handler) :
  Api.dispatch (gated vsp mi ms) now ToolSubscribePresence args h
  = or_fault (handleSubscribePresence args h) h.
Proof. reflexivity. Qed.

Lemma dispatch_ToolSendTyping (now : Z) (args : Args) (h : Handler) :
  Api.dispatch (gated vsp mi ms) now ToolSendTyping args h
  = or_fault (handleSendTyping args h) h.
Proof. reflexivity. Qed.

Lemma dispatch_ToolSendRecording (now : Z) (args : Args) (h : Handler) :
  Api.dispatch (gated vsp mi ms) now ToolSendRecording args h
  = or_fault (handleSendRecording args h) h.
Proof. reflexivity. Qed.

Lemma dispatch_ToolSetOnline (now : Z) (args : Args) (h : Handler) :
  Api.dispatch (gated vsp mi ms) now ToolSetOnline args h
  = or_fault (handleSetOnline args h) h.
Proof. reflexivity. Qed.

Lemma dispatch_ToolSetOffline (now : Z) (args : Args) (h : Handler) :
  Api.dispatch (gated vsp mi ms) now ToolSetOffline args h
  = or_fault (handleSetOffline args h) h.
Proof. reflexivity. Qed.

Lemma dispatch_ToolPostTextStatus (now : Z) (args : Args) (h : Handler) :
  Api.dispatch (gated vsp mi ms) now ToolPostTextStatus args h
  = or_fault (handlePostTextStatus args h) h.
Proof. reflexivity. Qed.

Lemma dispatch_ToolPostImageStatus (now : Z) (args : Args) (h : Handler) :
  Api.dispatch (gated vsp mi ms) now ToolPostImageStatus args h
  = or_fault (handlePostImageStatus args h) h.
Proof. reflexivity. Qed.

Lemma dispatch_ToolGetStatusUpdates (now : Z) (args : Args) (h : Handler) :
  Api.dispatch (gated vsp mi ms) now ToolGetStatusUpdates args h
  = or_fault (handleGetStatusUpdates ms args h) h.
Proof. reflexivity. Qed.

Lemma dispatch_ToolDeleteStatus (now : Z) (args : Args) (h : Handler) :
  Api.dispatch (gated vsp mi ms) now ToolDeleteStatus args h
  = or_fault (handleDeleteStatus args h) h.
Proof. reflexivity. Qed.

Lemma dispatch_ToolGetBridgeStatus (now : Z) (args : Args) (h : Handler) :
  Api.dispatch (gated vsp mi ms) now ToolGetBridgeStatus args h
  = (handleGetBridgeStatus now args h, h).
Proof. reflexivity. Qed.

Lemma dispatch_ToolGetConnectionHistory (now : Z) (args : Args) (h : Handler) :
  Api.dispatch (gated vsp mi ms) now ToolGetConnectionHistory args h
  = (handleGetConnectionHistory args h, h).
Proof. reflexivity. Qed.


Lemma HandleTool_ready (now : Z) (name : string) (args : Args) (h : Handler) :
  bridgeNotReady h = false ->
  Tools.HandleTool vsp mi ms now name args h
  = Api.dispatch (gated vsp mi ms) now name args h.
Proof.
  intros Hr. unfold Tools.HandleTool, Api.HandleTool. rewrite Hr, andb_false_r.
  reflexivity.
Qed.

Lemma unknown_dispatch (now : Z) (name : string) (args : Args) (h : Handler) :
  is_one_of name handled_tools = false ->
  Api.dispatch (gated vsp mi ms) now name args h
  = (errorResult (NewInvalidInputError ("Unknown tool: " ++ name)%string), h).
Proof.
  intros Hn. unfold is_one_of, handled_tools, read_only_tools in Hn.
  cbn [existsb app] in Hn.
  repeat match type of Hn with
         | (_ || _)%bool = false => apply orb_false_elim in Hn; destruct Hn as [?E Hn]
         end.
  unfold Api.dispatch. rewrite E, E0, E1, E2, E3, E4, E5, E6, E7.
  change (existsb (String.eqb name) other_tools) with (is_one_of name other_tools) in Hn.
  rewrite Hn. reflexivity.
Qed.

(** X19: the advertised tools and the handled ones.  [GetAllTools]
    advertises 56 tools with pairwise distinct names, and these are exactly
    the names [HandleTool] has a case for (eight of them read-only).  A
    name that is not advertised is answered with the not-ready error while
    the bridge is absent or not ready, and with the invalid-input error
    "Unknown tool: ..." once it is ready; the handler is left as it was in
    both cases. *)
Theorem advertised_tools_are_handled :
  forall (now : Z) (name : string) (args : Args) (h : Handler),
    length GetAllTools = 56%nat
    /\ NoDup (map Tool_Name GetAllTools)
    /\ (In name (map Tool_Name GetAllTools) <-> In name handled_tools)
    /\ (~ In name (map Tool_Name GetAllTools) ->
        Tools.HandleTool vsp mi ms now name args h
        = (errorResult (if bridgeNotReady h
                        then NewNotReadyError (reportedState h)
                        else NewInvalidInputError ("Unknown tool: " ++ name)%string),
           h)).
Proof.
  intros now name args h.
  split; [reflexivity|]. split; [by_computation|].
  split; [apply advertised_are_handled|].
  intros Hn.
  assert (Hh : is_one_of name handled_tools = false).
  { destruct (is_one_of name handled_tools) eqn:E; [|reflexivity].
    exfalso. apply Hn, advertised_are_handled, ApiFacts.is_one_of_spec, E. }
  assert (Hr : requiresReady name = true).
  { rewrite ApiFacts.requiresReady_spec.
    destruct (is_one_of name read_only_tools) eqn:E; [|reflexivity].
    apply ApiFacts.is_one_of_spec in E.
    assert (Hin : In name handled_tools) by (apply in_or_app; left; exact E).
    apply ApiFacts.is_one_of_spec in Hin. congruence. }
  unfold Tools.HandleTool, Api.HandleTool. rewrite Hr. cbn [andb].
  destruct (bridgeNotReady h); [reflexivity|].
  apply unknown_dispatch. exact Hh.
Qed.

(** Takes the argument checks of a handler one after the other. *)
Ltac check_args :=
  repeat match goal with
         | |- context [if String.eqb (getString ?args ?k) "" then _ else _] =>
             destruct (String.eqb (getString args k) "") eqn:?
         | |- context [if (length (getStringArray ?args ?k) =? 0)%nat then _ else _] =>
             destruct (length (getStringArray args k) =? 0)%nat eqn:?
         end.

Ltac missing_in Hm :=
  unfold argument_missing in Hm;
  repeat match type of Hm with
         | context [String.eqb ?a ?b] =>
             lazymatch a with
             | context [getString] => fail
             | _ => idtac
             end;
             let v := eval vm_compute in (String.eqb a b) in
             change (String.eqb a b) with v in Hm
         end;
  cbv iota in Hm.

Ltac missing_key k :=
  exists k; split; [cbn; tauto|];
  split; [unfold argument_missing; closed_eqb; cbv iota; assumption | reflexivity].

Ltac try_keys l :=
  lazymatch l with
  | ?k :: ?rest => first [ solve [missing_key k] | try_keys rest ]
  end.

Lemma required_ToolSendMessage (now : Z) (args : Args) (h : Handler) (key : string) :
  In key ["recipient"; "message"] ->
  argument_missing args key = true ->
  exists key' : string,
    In key' ["recipient"; "message"]
    /\ argument_missing args key' = true
    /\ handleSendMessage args h
       = (errorResult (NewInvalidInputError (key' ++ " is required")%string), h).
Proof.
  intros Hkey Hm. cbn [In] in Hkey.
  repeat (destruct Hkey as [<-|Hkey]); try contradiction;
    unfold handleSendMessage; cbv zeta; missing_in Hm; rewrite Hm; cbv iota;
    check_args; unfold or_fault; try_keys ["recipient"; "message"].
Qed.

Lemma required_ToolReplyToMessage (now : Z) (args : Args) (h : Handler) (key : string) :
  In key ["chat_jid"; "message_id"; "message"] ->
  argument_missing args key = true ->
  exists key' : string,
    In key' ["chat_jid"; "message_id"; "message"]
    /\ argument_missing args key' = true
    /\ or_fault (handleReplyToMessage args h) h
       = (errorResult (NewInvalidInputError (key' ++ " is required")%string), h).
Proof.
  intros Hkey Hm. cbn [In] in Hkey.
  repeat (destruct Hkey as [<-|Hkey]); try contradiction;
    unfold handleReplyToMessage; cbv zeta; missing_in Hm; rewrite Hm; cbv iota;
    check_args; unfold or_fault; try_keys ["chat_jid"; "message_id"; "message"].
Qed.

Lemma required_ToolForwardMessage (now : Z) (args : Args) (h : Handler) (key : string) :
  In key ["source_chat_jid"; "message_id"; "target_jid"] ->
  argument_missing args key = true ->
  exists key' : string,
    In key' ["source_chat_jid"; "message_id"; "target_jid"]
    /\ argument_missing args key' = true
    /\ or_fault (handleForwardMessage args h) h
       = (errorResult (NewInvalidInputError (key' ++ " is required")%string), h).
Proof.
  intros Hkey Hm. cbn [In] in Hkey.
  repeat (destruct Hkey as [<-|Hkey]); try contradiction;
    unfold handleForwardMessage; cbv zeta; missing_in Hm; rewrite Hm; cbv iota;
    check_args; unfold or_fault; try_keys ["source_chat_jid"; "message_id"; "target_jid"].
Qed.

Lemma required_ToolEditMessage (now : Z) (args : Args) (h : Handler) (key : string) :
  In key ["chat_jid"; "message_id"; "new_content"] ->
  argument_missing args key = true ->
  exists key' : string,
    In key' ["chat_jid"; "message_id"; "new_content"]
    /\ argument_missing args key' = true
    /\ or_fault (handleEditMessage args h) h
       = (errorResult (NewInvalidInputError (key' ++ " is required")%string), h).
Proof.
  intros Hkey Hm. cbn [In] in Hkey.
  repeat (destruct Hkey as [<-|Hkey]); try contradiction;
    unfold handleEditMessage; cbv zeta; missing_in Hm; rewrite Hm; cbv iota;
    check_args; unfold or_fault; try_keys ["chat_jid"; "message_id"; "new_content"].
Qed.

Lemma required_ToolDeleteMessage (now : Z) (args : Args) (h : Handler) (key : string) :
  In key ["chat_jid"; "message_id"] ->
  argument_missing args key = true ->
  exists key' : string,
    In key' ["chat_jid"; "message_id"]
    /\ argument_missing args key' = true
    /\ or_fault (handleDeleteMessage args h) h
       = (errorResult (NewInvalidInputError (key' ++ " is required")%string), h).
Proof.
  intros Hkey Hm. cbn [In] in Hkey.
  repeat (destruct Hkey as [<-|Hkey]); try contradiction;
    unfold handleDeleteMessage; cbv zeta; missing_in Hm; rewrite Hm; cbv iota;
    check_args; unfold or_fault; try_keys ["chat_jid"; "message_id"].
Qed.

Lemma required_ToolReactToMessage (now : Z) (args : Args) (h : Handler) (key : string) :
  In key ["chat_jid"; "message_id"; "emoji"] ->
  argument_missing args key = true ->
  exists key' : string,
    In key' ["chat_jid"; "message_id"; "emoji"]
    /\ argument_missing args key' = true
    /\ or_fault (handleReactToMessage args h) h
       = (errorResult (NewInvalidInputError (key' ++ " is required")%string), h).
Proof.
  intros Hkey Hm. cbn [In] in Hkey.
  repeat (destruct Hkey as [<-|Hkey]); try contradiction;
    unfold handleReactToMessage; cbv zeta; missing_in Hm; rewrite Hm; cbv iota;
    check_args; unfold or_fault; try_keys ["chat_jid"; "message_id"; "emoji"].
Qed.

Lemma required_ToolStarMessage (now : Z) (args : Args) (h : Handler) (key : string) :
  In key ["chat_jid"; "message_id"] ->
  argument_missing args key = true ->
  exists key' : string,
    In key' ["chat_jid"; "message_id"]
    /\ argument_missing args key' = true
    /\ or_fault (handleStarMessage args true h) h
       = (errorResult (NewInvalidInputError (key' ++ " is required")%string), h).
Proof.
  intros Hkey Hm. cbn [In] in Hkey.
  repeat (destruct Hkey as [<-|Hkey]); try contradiction;
    unfold handleStarMessage; cbv zeta; missing_in Hm; rewrite Hm; cbv iota;
    check_args; unfold or_fault; try_keys ["chat_jid"; "message_id"].
Qed.

Lemma required_ToolUnstarMessage (now : Z) (args : Args) (h : Handler) (key : string) :
  In key ["chat_jid"; "message_id"] ->
  argument_missing args key = true ->
  exists key' : string,
    In key' ["chat_jid"; "message_id"]
    /\ argument_missing args key' = true
    /\ or_fault (handleStarMessage args false h) h
       = (errorResult (NewInvalidInputError (key' ++ " is required")%string), h).
Proof.
  intros Hkey Hm. cbn [In] in Hkey.
  repeat (destruct Hkey as [<-|Hkey]); try contradiction;
    unfold handleStarMessage; cbv zeta; missing_in Hm; rewrite Hm; cbv iota;
    check_args; unfold or_fault; try_keys ["chat_jid"; "message_id"].
Qed.

Lemma required_ToolGetChat (now : Z) (args : Args) (h : Handler) (key : string) :
  In key ["jid"] ->
  argument_missing args key = true ->
  exists key' : string,
    In key' ["jid"]
    /\ argument_missing args key' = true
    /\ (handleGetChat args h, h)
       = (errorResult (NewInvalidInputError (key' ++ " is required")%string), h).
Proof.
  intros Hkey Hm. cbn [In] in Hkey.
  repeat (destruct Hkey as [<-|Hkey]); try contradiction;
    unfold handleGetChat; cbv zeta; missing_in Hm; rewrite Hm; cbv iota;
    check_args; unfold or_fault; try_keys ["jid"].
Qed.

Lemma required_ToolListMessages (now : Z) (args : Args) (h : Handler) (key : string) :
  In key ["chat_jid"] ->
  argument_missing args key = true ->
  exists key' : string,
    In key' ["chat_jid"]
    /\ argument_missing args key' = true
    /\ (handleListMessages args h, h)
       = (errorResult (NewInvalidInputError (key' ++ " is required")%string), h).
Proof.
  intros Hkey Hm. cbn [In] in Hkey.
  repeat (destruct Hkey as [<-|Hkey]); try contradiction;
    unfold handleListMessages; cbv zeta; missing_in Hm; rewrite Hm; cbv iota;
    check_args; unfold or_fault; try_keys ["chat_jid"].
Qed.

Lemma required_ToolArchiveChat (now : Z) (args : Args) (h : Handler) (key : string) :
  In key ["jid"] ->
  argument_missing args key = true ->
  exists key' : string,
    In key' ["jid"]
    /\ argument_missing args key' = true
    /\ or_fault (handleArchiveChat args true h) h
       = (errorResult (NewInvalidInputError (key' ++ " is required")%string), h).
Proof.
  intros Hkey Hm. cbn [In] in Hkey.
  repeat (destruct Hkey as [<-|Hkey]); try contradiction;
    unfold handleArchiveChat; cbv zeta; missing_in Hm; rewrite Hm; cbv iota;
    check_args; unfold or_fault; try_keys ["jid"].
Qed.

Lemma required_ToolUnarchiveChat (now : Z) (args : Args) (h : Handler) (key : string) :
  In key ["jid"] ->
  argument_missing args key = true ->
  exists key' : string,
    In key' ["jid"]
    /\ argument_missing args key' = true
    /\ or_fault (handleArchiveChat args false h) h
       = (errorResult (NewInvalidInputError (key' ++ " is required")%string), h).
Proof.
  intros Hkey Hm. cbn [In] in Hkey.
  repeat (destruct Hkey as [<-|Hkey]); try contradiction;
    unfold handleArchiveChat; cbv zeta; missing_in Hm; rewrite Hm; cbv iota;
    check_args; unfold or_fault; try_keys ["jid"].
Qed.

Lemma required_ToolPinChat (now : Z) (args : Args) (h : Handler) (key : string) :
  In key ["jid"] ->
  argument_missing args key = true ->
  exists key' : string,
    In key' ["jid"]
    /\ argument_missing args key' = true
    /\ or_fault (handlePinChat args true h) h
       = (errorResult (NewInvalidInputError (key' ++ " is required")%string), h).
Proof.
  intros Hkey Hm. cbn [In] in Hkey.
  repeat (destruct Hkey as [<-|Hkey]); try contradiction;
    unfold handlePinChat; cbv zeta; missing_in Hm; rewrite Hm; cbv iota;
    check_args; unfold or_fault; try_keys ["jid"].
Qed.

Lemma required_ToolUnpinChat (now : Z) (args : Args) (h : Handler) (key : string) :
  In key ["jid"] ->
  argument_missing args key = true ->
  exists key' : string,
    In key' ["jid"]
    /\ argument_missing args key' = true
    /\ or_fault (handlePinChat args false h) h
       = (errorResult (NewInvalidInputError (key' ++ " is required")%string), h).
Proof.
  intros Hkey Hm. cbn [In] in Hkey.
  repeat (destruct Hkey as [<-|Hkey]); try contradiction;
    unfold handlePinChat; cbv zeta; missing_in Hm; rewrite Hm; cbv iota;
    check_args; unfold or_fault; try_keys ["jid"].
Qed.

Lemma required_ToolMuteChat (now : Z) (args : Args) (h : Handler) (key : string) :
  In key ["jid"] ->
  argument_missing args key = true ->
  exists key' : string,
    In key' ["jid"]
    /\ argument_missing args key' = true
    /\ or_fault (handleMuteChat args true h) h
       = (errorResult (NewInvalidInputError (key' ++ " is required")%string), h).
Proof.
  intros Hkey Hm. cbn [In] in Hkey.
  repeat (destruct Hkey as [<-|Hkey]); try contradiction;
    unfold handleMuteChat; cbv zeta; missing_in Hm; rewrite Hm; cbv iota;
    check_args; unfold or_fault; try_keys ["jid"].
Qed.

Lemma required_ToolUnmuteChat (now : Z) (args : Args) (h : Handler) (key : string) :
  In key ["jid"] ->
  argument_missing args key = true ->
  exists key' : string,
    In key' ["jid"]
    /\ argument_missing args key' = true
    /\ or_fault (handleMuteChat args false h) h
       = (errorResult (NewInvalidInputError (key' ++ " is required")%string), h).
Proof.
  intros Hkey Hm. cbn [In] in Hkey.
  repeat (destruct Hkey as [<-|Hkey]); try contradiction;
    unfold handleMuteChat; cbv zeta; missing_in Hm; rewrite Hm; cbv iota;
    check_args; unfold or_fault; try_keys ["jid"].
Qed.

Lemma required_ToolMarkChatRead (now : Z) (args : Args) (h : Handler) (key : string) :
  In key ["jid"] ->
  argument_missing args key = true ->
  exists key' : string,
    In key' ["jid"]
    /\ argument_missing args key' = true
    /\ or_fault (handleMarkChatRead args h) h
       = (errorResult (NewInvalidInputError (key' ++ " is required")%string), h).
Proof.
  intros Hkey Hm. cbn [In] in Hkey.
  repeat (destruct Hkey as [<-|Hkey]); try contradiction;
    unfold handleMarkChatRead; cbv zeta; missing_in Hm; rewrite Hm; cbv iota;
    check_args; unfold or_fault; try_keys ["jid"].
Qed.

Lemma required_ToolDeleteChat (now : Z) (args : Args) (h : Handler) (key : string) :
  In key ["jid"] ->
  argument_missing args key = true ->
  exists key' : string,
    In key' ["jid"]
    /\ argument_missing args key' = true
    /\ or_fault (handleDeleteChat args h) h
       = (errorResult (NewInvalidInputError (key' ++ " is required")%string), h).
Proof.
  intros Hkey Hm. cbn [In] in Hkey.
  repeat (destruct Hkey as [<-|Hkey]); try contradiction;
    unfold handleDeleteChat; cbv zeta; missing_in Hm; rewrite Hm; cbv iota;
    check_args; unfold or_fault; try_keys ["jid"].
Qed.

Lemma required_ToolSearchContacts (now : Z) (args : Args) (h : Handler) (key : string) :
  In key ["query"] ->
  argument_missing args key = true ->
  exists key' : string,
    In key' ["query"]
    /\ argument_missing args key' = true
    /\ (handleSearchContacts args h, h)
       = (errorResult (NewInvalidInputError (key' ++ " is required")%string), h).
Proof.
  intros Hkey Hm. cbn [In] in Hkey.
  repeat (destruct Hkey as [<-|Hkey]); try contradiction;
    unfold handleSearchContacts; cbv zeta; missing_in Hm; rewrite Hm; cbv iota;
    check_args; unfold or_fault; try_keys ["query"].
Qed.

Lemma required_ToolGetContact (now : Z) (args : Args) (h : Handler) (key : string) :
  In key ["jid"] ->
  argument_missing args key = true ->
  exists key' : string,
    In key' ["jid"]
    /\ argument_missing args key' = true
    /\ (handleGetContact args h, h)
       = (errorResult (NewInvalidInputError (key' ++ " is required")%string), h).
Proof.
  intros Hkey Hm. cbn [In] in Hkey.
  repeat (destruct Hkey as [<-|Hkey]); try contradiction;
    unfold handleGetContact; cbv zeta; missing_in Hm; rewrite Hm; cbv iota;
    check_args; unfold or_fault; try_keys ["jid"].
Qed.

Lemma required_ToolBlockContact (now : Z) (args : Args) (h : Handler) (key : string) :
  In key ["jid"] ->
  argument_missing args key = true ->
  exists key' : string,
    In key' ["jid"]
    /\ argument_missing args key' = true
    /\ or_fault (handleBlockContact args true h) h
       = (errorResult (NewInvalidInputError (key' ++ " is required")%string), h).
Proof.
  intros Hkey Hm. cbn [In] in Hkey.
  repeat (destruct Hkey as [<-|Hkey]); try contradiction;
    unfold handleBlockContact; cbv zeta; missing_in Hm; rewrite Hm; cbv iota;
    check_args; unfold or_fault; try_keys ["jid"].
Qed.

Lemma required_ToolUnblockContact (now : Z) (args : Args) (h : Handler) (key : string) :
  In key ["jid"] ->
  argument_missing args key = true ->
  exists key' : string,
    In key' ["jid"]
    /\ argument_missing args key' = true
    /\ or_fault (handleBlockContact args false h) h
       = (errorResult (NewInvalidInputError (key' ++ " is required")%string), h).
Proof.
  intros Hkey Hm. cbn [In] in Hkey.
  repeat (destruct Hkey as [<-|Hkey]); try contradiction;
    unfold handleBlockContact; cbv zeta; missing_in Hm; rewrite Hm; cbv iota;
    check_args; unfold or_fault; try_keys ["jid"].
Qed.

Lemma required_ToolCheckPhoneRegistered (now : Z) (args : Args) (h : Handler) (key : string) :
  In key ["phone"] ->
  argument_missing args key = true ->
  exists key' : string,
    In key' ["phone"]
    /\ argument_missing args key' = true
    /\ or_fault (handleCheckPhoneRegistered args h) h
       = (errorResult (NewInvalidInputError (key' ++ " is required")%string), h).
Proof.
  intros Hkey Hm. cbn [In] in Hkey.
  repeat (destruct Hkey as [<-|Hkey]); try contradiction;
    unfold handleCheckPhoneRegistered; cbv zeta; missing_in Hm; rewrite Hm; cbv iota;
    check_args; unfold or_fault; try_keys ["phone"].
Qed.

Lemma required_ToolCreateGroup (now : Z) (args : Args) (h : Handler) (key : string) :
  In key ["name"; "participants"] ->
  argument_missing args key = true ->
  exists key' : string,
    In key' ["name"; "participants"]
    /\ argument_missing args key' = true
    /\ or_fault (handleCreateGroup args h) h
       = (errorResult (NewInvalidInputError (key' ++ " is required")%string), h).
Proof.
  intros Hkey Hm. cbn [In] in Hkey.
  repeat (destruct Hkey as [<-|Hkey]); try contradiction;
    unfold handleCreateGroup; cbv zeta; missing_in Hm; rewrite Hm; cbv iota;
    check_args; unfold or_fault; try_keys ["name"; "participants"].
Qed.

Lemma required_ToolGetGroupInfo (now : Z) (args : Args) (h : Handler) (key : string) :
  In key ["jid"] ->
  argument_missing args key = true ->
  exists key' : string,
    In key' ["jid"]
    /\ argument_missing args key' = true
    /\ or_fault (handleGetGroupInfo mi args h) h
       = (errorResult (NewInvalidInputError (key' ++ " is required")%string), h).
Proof.
  intros Hkey Hm. cbn [In] in Hkey.
  repeat (destruct Hkey as [<-|Hkey]); try contradiction;
    unfold handleGetGroupInfo; cbv zeta; missing_in Hm; rewrite Hm; cbv iota;
    check_args; unfold or_fault; try_keys ["jid"].
Qed.

Lemma required_ToolLeaveGroup (now : Z) (args : Args) (h : Handler) (key : string) :
  In key ["jid"] ->
  argument_missing args key = true ->
  exists key' : string,
    In key' ["jid"]
    /\ argument_missing args key' = true
    /\ or_fault (handleLeaveGroup args h) h
       = (errorResult (NewInvalidInputError (key' ++ " is required")%string), h).
Proof.
  intros Hkey Hm. cbn [In] in Hkey.
  repeat (destruct Hkey as [<-|Hkey]); try contradiction;
    unfold handleLeaveGroup; cbv zeta; missing_in Hm; rewrite Hm; cbv iota;
    check_args; unfold or_fault; try_keys ["jid"].
Qed.

Lemma required_ToolAddGroupMembers (now : Z) (args : Args) (h : Handler) (key : string) :
  In key ["group_jid"; "participants"] ->
  argument_missing args key = true ->
  exists key' : string,
    In key' ["group_jid"; "participants"]
    /\ argument_missing args key' = true
    /\ or_fault (handleAddGroupMembers args h) h
       = (errorResult (NewInvalidInputError (key' ++ " is required")%string), h).
Proof.
  intros Hkey Hm. cbn [In] in Hkey.
  repeat (destruct Hkey as [<-|Hkey]); try contradiction;
    unfold handleAddGroupMembers; cbv zeta; missing_in Hm; rewrite Hm; cbv iota;
    check_args; unfold or_fault; try_keys ["group_jid"; "participants"].
Qed.

Lemma required_ToolRemoveGroupMembers (now : Z) (args : Args) (h : Handler) (key : string) :
  In key ["group_jid"; "participants"] ->
  argument_missing args key = true ->
  exists key' : string,
    In key' ["group_jid"; "participants"]
    /\ argument_missing args key' = true
    /\ or_fault (handleRemoveGroupMembers args h) h
       = (errorResult (NewInvalidInputError (key' ++ " is required")%string), h).
Proof.
  intros Hkey Hm. cbn [In] in Hkey.
  repeat (destruct Hkey as [<-|Hkey]); try contradiction;
    unfold handleRemoveGroupMembers; cbv zeta; missing_in Hm; rewrite Hm; cbv iota;
    check_args; unfold or_fault; try_keys ["group_jid"; "participants"].
Qed.

Lemma required_ToolPromoteAdmin (now : Z) (args : Args) (h : Handler) (key : string) :
  In key ["group_jid"; "participants"] ->
  argument_missing args key = true ->
  exists key' : string,
    In key' ["group_jid"; "participants"]
    /\ argument_missing args key' = true
    /\ or_fault (handlePromoteAdmin args h) h
       = (errorResult (NewInvalidInputError (key' ++ " is required")%string), h).
Proof.
  intros Hkey Hm. cbn [In] in Hkey.
  repeat (destruct Hkey as [<-|Hkey]); try contradiction;
    unfold handlePromoteAdmin; cbv zeta; missing_in Hm; rewrite Hm; cbv iota;
    check_args; unfold or_fault; try_keys ["group_jid"; "participants"].
Qed.

Lemma required_ToolDemoteAdmin (now : Z) (args : Args) (h : Handler) (key : string) :
  In key ["group_jid"; "participants"] ->
  argument_missing args key = true ->
  exists key' : string,
    In key' ["group_jid"; "participants"]
    /\ argument_missing args key' = true
    /\ or_fault (handleDemoteAdmin args h) h
       = (errorResult (NewInvalidInputError (key' ++ " is required")%string), h).
Proof.
  intros Hkey Hm. cbn [In] in Hkey.
  repeat (destruct Hkey as [<-|Hkey]); try contradiction;
    unfold handleDemoteAdmin; cbv zeta; missing_in Hm; rewrite Hm; cbv iota;
    check_args; unfold or_fault; try_keys ["group_jid"; "participants"].
Qed.

Lemma required_ToolSetGroupName (now : Z) (args : Args) (h : Handler) (key : string) :
  In key ["group_jid"; "name"] ->
  argument_missing args key = true ->
  exists key' : string,
    In key' ["group_jid"; "name"]
    /\ argument_missing args key' = true
    /\ or_fault (handleSetGroupName args h) h
       = (errorResult (NewInvalidInputError (key' ++ " is required")%string), h).
Proof.
  intros Hkey Hm. cbn [In] in Hkey.
  repeat (destruct Hkey as [<-|Hkey]); try contradiction;
    unfold handleSetGroupName; cbv zeta; missing_in Hm; rewrite Hm; cbv iota;
    check_args; unfold or_fault; try_keys ["group_jid"; "name"].
Qed.

Lemma required_ToolSetGroupTopic (now : Z) (args : Args) (h : Handler) (key : string) :
  In key ["group_jid"; "topic"] ->
  argument_missing args key = true ->
  exists key' : string,
    In key' ["group_jid"; "topic"]
    /\ argument_missing args key' = true
    /\ or_fault (handleSetGroupTopic args h) h
       = (errorResult (NewInvalidInputError (key' ++ " is required")%string), h).
Proof.
  intros Hkey Hm. cbn [In] in Hkey.
  repeat (destruct Hkey as [<-|Hkey]); try contradiction;
    unfold handleSetGroupTopic; cbv zeta; missing_in Hm; rewrite Hm; cbv iota;
    check_args; unfold or_fault; try_keys ["group_jid"; "topic"].
Qed.

Lemma required_ToolSetGroupPhoto (now : Z) (args : Args) (h : Handler) (key : string) :
  In key ["group_jid"; "image_path"] ->
  argument_missing args key = true ->
  exists key' : string,
    In key' ["group_jid"; "image_path"]
    /\ argument_missing args key' = true
    /\ or_fault (handleSetGroupPhoto args h) h
       = (errorResult (NewInvalidInputError (key' ++ " is required")%string), h).
Proof.
  intros Hkey Hm. cbn [In] in Hkey.
  repeat (destruct Hkey as [<-|Hkey]); try contradiction;
    unfold handleSetGroupPhoto; cbv zeta; missing_in Hm; rewrite Hm; cbv iota;
    check_args; unfold or_fault; try_keys ["group_jid"; "image_path"].
Qed.

Lemma required_ToolGetInviteLink (now : Z) (args : Args) (h : Handler) (key : string) :
  In key ["group_jid"] ->
  argument_missing args key = true ->
  exists key' : string,
    In key' ["group_jid"]
    /\ argument_missing args key' = true
    /\ or_fault (handleGetInviteLink args h) h
       = (errorResult (NewInvalidInputError (key' ++ " is required")%string), h).
Proof.
  intros Hkey Hm. cbn [In] in Hkey.
  repeat (destruct Hkey as [<-|Hkey]); try contradiction;
    unfold handleGetInviteLink; cbv zeta; missing_in Hm; rewrite Hm; cbv iota;
    check_args; unfold or_fault; try_keys ["group_jid"].
Qed.

Lemma required_ToolRevokeInviteLink (now : Z) (args : Args) (h : Handler) (key : string) :
  In key ["group_jid"] ->
  argument_missing args key = true ->
  exists key' : string,
    In key' ["group_jid"]
    /\ argument_missing args key' = true
    /\ or_fault (handleRevokeInviteLink args h) h
       = (errorResult (NewInvalidInputError (key' ++ " is required")%string), h).
Proof.
  intros Hkey Hm. cbn [In] in Hkey.
  repeat (destruct Hkey as [<-|Hkey]); try contradiction;
    unfold handleRevokeInviteLink; cbv zeta; missing_in Hm; rewrite Hm; cbv iota;
    check_args; unfold or_fault; try_keys ["group_jid"].
Qed.

Lemma required_ToolJoinViaInvite (now : Z) (args : Args) (h : Handler) (key : string) :
  In key ["invite_link"] ->
  argument_missing args key = true ->
  exists key' : string,
    In key' ["invite_link"]
    /\ argument_missing args key' = true
    /\ or_fault (handleJoinViaInvite args h) h
       = (errorResult (NewInvalidInputError (key' ++ " is required")%string), h).
Proof.
  intros Hkey Hm. cbn [In] in Hkey.
  repeat (destruct Hkey as [<-|Hkey]); try contradiction;
    unfold handleJoinViaInvite; cbv zeta; missing_in Hm; rewrite Hm; cbv iota;
    check_args; unfold or_fault; try_keys ["invite_link"].
Qed.

Lemma required_ToolSendImage (now : Z) (args : Args) (h : Handler) (key : string) :
  In key ["recipient"; "image_path"] ->
  argument_missing args key = true ->
  exists key' : string,
    In key' ["recipient"; "image_path"]
    /\ argument_missing args key' = true
    /\ or_fault (handleSendImage args h) h
       = (errorResult (NewInvalidInputError (key' ++ " is required")%string), h).
Proof.
  intros Hkey Hm. cbn [In] in Hkey.
  repeat (destruct Hkey as [<-|Hkey]); try contradiction;
    unfold handleSendImage; cbv zeta; missing_in Hm; rewrite Hm; cbv iota;
    check_args; unfold or_fault; try_keys ["recipient"; "image_path"].
Qed.

Lemma required_ToolSendVideo (now : Z) (args : Args) (h : Handler) (key : string) :
  In key ["recipient"; "video_path"] ->
  argument_missing args key = true ->
  exists key' : string,
    In key' ["recipient"; "video_path"]
    /\ argument_missing args key' = true
    /\ or_fault (handleSendVideo args h) h
       = (errorResult (NewInvalidInputError (key' ++ " is required")%string), h).
Proof.
  intros Hkey Hm. cbn [In] in Hkey.
  repeat (destruct Hkey as [<-|Hkey]); try contradiction;
    unfold handleSendVideo; cbv zeta; missing_in Hm; rewrite Hm; cbv iota;
    check_args; unfold or_fault; try_keys ["recipient"; "video_path"].
Qed.

Lemma required_ToolSendAudio (now : Z) (args : Args) (h : Handler) (key : string) :
  In key ["recipient"; "audio_path"] ->
  argument_missing args key = true ->
  exists key' : string,
    In key' ["recipient"; "audio_path"]
    /\ argument_missing args key' = true
    /\ or_fault (handleSendAudio args h) h
       = (errorResult (NewInvalidInputError (key' ++ " is required")%string), h).
Proof.
  intros Hkey Hm. cbn [In] in Hkey.
  repeat (destruct Hkey as [<-|Hkey]); try contradiction;
    unfold handleSendAudio; cbv zeta; missing_in Hm; rewrite Hm; cbv iota;
    check_args; unfold or_fault; try_keys ["recipient"; "audio_path"].
Qed.

Lemma required_ToolSendDocument (now : Z) (args : Args) (h : Handler) (key : string) :
  In key ["recipient"; "file_path"] ->
  argument_missing args key = true ->
  exists key' : string,
    In key' ["recipient"; "file_path"]
    /\ argument_missing args key' = true
    /\ or_fault (handleSendDocument args h) h
       = (errorResult (NewInvalidInputError (key' ++ " is required")%string), h).
Proof.
  intros Hkey Hm. cbn [In] in Hkey.
  repeat (destruct Hkey as [<-|Hkey]); try contradiction;
    unfold handleSendDocument; cbv zeta; missing_in Hm; rewrite Hm; cbv iota;
    check_args; unfold or_fault; try_keys ["recipient"; "file_path"].
Qed.

Lemma required_ToolSendLocation (now : Z) (args : Args) (h : Handler) (key : string) :
  In key ["recipient"] ->
  argument_missing args key = true ->
  exists key' : string,
    In key' ["recipient"; "latitude"; "longitude"]
    /\ argument_missing args key' = true
    /\ or_fault (handleSendLocation args h) h
       = (errorResult (NewInvalidInputError (key' ++ " is required")%string), h).
Proof.
  intros Hkey Hm. cbn [In] in Hkey.
  repeat (destruct Hkey as [<-|Hkey]); try contradiction;
    unfold handleSendLocation; cbv zeta; missing_in Hm; rewrite Hm; cbv iota;
    check_args; unfold or_fault; try_keys ["recipient"].
Qed.

Lemma required_ToolSendContactCard (now : Z) (args : Args) (h : Handler) (key : string) :
  In key ["recipient"; "contact_jid"] ->
  argument_missing args key = true ->
  exists key' : string,
    In key' ["recipient"; "contact_jid"]
    /\ argument_missing args key' = true
    /\ or_fault (handleSendContactCard args h) h
       = (errorResult (NewInvalidInputError (key' ++ " is required")%string), h).
Proof.
  intros Hkey Hm. cbn [In] in Hkey.
  repeat (destruct Hkey as [<-|Hkey]); try contradiction;
    unfold handleSendContactCard; cbv zeta; missing_in Hm; rewrite Hm; cbv iota;
    check_args; unfold or_fault; try_keys ["recipient"; "contact_jid"].
Qed.

Lemma required_ToolDownloadMedia (now : Z) (args : Args) (h : Handler) (key : string) :
  In key ["chat_jid"; "message_id"] ->
  argument_missing args key = true ->
  exists key' : string,
    In key' ["chat_jid"; "message_id"]
    /\ argument_missing args key' = true
    /\ or_fault (handleDownloadMedia vsp args h) h
       = (errorResult (NewInvalidInputError (key' ++ " is required")%string), h).
Proof.
  intros Hkey Hm. cbn [In] in Hkey.
  repeat (destruct Hkey as [<-|Hkey]); try contradiction;
    unfold handleDownloadMedia; cbv zeta; missing_in Hm; rewrite Hm; cbv iota;
    check_args; unfold or_fault; try_keys ["chat_jid"; "message_id"].
Qed.

Lemma required_ToolSubscribePresence (now : Z) (args : Args) (h : Handler) (key : string) :
  In key ["jid"] ->
  argument_missing args key = true ->
  exists key' : string,
    In key' ["jid"]
    /\ argument_missing args key' = true
    /\ or_fault (handleSubscribePresence args h) h
       = (errorResult (NewInvalidInputError (key' ++ " is required")%string), h).
Proof.
  intros Hkey Hm. cbn [In] in Hkey.
  repeat (destruct Hkey as [<-|Hkey]); try contradiction;
    unfold handleSubscribePresence; cbv zeta; missing_in Hm; rewrite Hm; cbv iota;
    check_args; unfold or_fault; try_keys ["jid"].
Qed.

Lemma required_ToolSendTyping (now : Z) (args : Args) (h : Handler) (key : string) :
  In key ["jid"] ->
  argument_missing args key = true ->
  exists key' : string,
    In key' ["jid"]
    /\ argument_missing args key' = true
    /\ or_fault (handleSendTyping args h) h
       = (errorResult (NewInvalidInputError (key' ++ " is required")%string), h).
Proof.
  intros Hkey Hm. cbn [In] in Hkey.
  repeat (destruct Hkey as [<-|Hkey]); try contradiction;
    unfold handleSendTyping; cbv zeta; missing_in Hm; rewrite Hm; cbv iota;
    check_args; unfold or_fault; try_keys ["jid"].
Qed.

Lemma required_ToolSendRecording (now : Z) (args : Args) (h : Handler) (key : string) :
  In key ["jid"] ->
  argument_missing args key = true ->
  exists key' : string,
    In key' ["jid"]
    /\ argument_missing args key' = true
    /\ or_fault (handleSendRecording args h) h
       = (errorResult (NewInvalidInputError (key' ++ " is required")%string), h).
Proof.
  intros Hkey Hm. cbn [In] in Hkey.
  repeat (destruct Hkey as [<-|Hkey]); try contradiction;
    unfold handleSendRecording; cbv zeta; missing_in Hm; rewrite Hm; cbv iota;
    check_args; unfold or_fault; try_keys ["jid"].
Qed.

Lemma required_ToolPostTextStatus (now : Z) (args : Args) (h : Handler) (key : string) :
  In key ["text"] ->
  argument_missing args key = true ->
  exists key' : string,
    In key' ["text"]
    /\ argument_missing args key' = true
    /\ or_fault (handlePostTextStatus args h) h
       = (errorResult (NewInvalidInputError (key' ++ " is required")%string), h).
Proof.
  intros Hkey Hm. cbn [In] in Hkey.
  repeat (destruct Hkey as [<-|Hkey]); try contradiction;
    unfold handlePostTextStatus; cbv zeta; missing_in Hm; rewrite Hm; cbv iota;
    check_args; unfold or_fault; try_keys ["text"].
Qed.

Lemma required_ToolPostImageStatus (now : Z) (args : Args) (h : Handler) (key : string) :
  In key ["image_path"] ->
  argument_missing args key = true ->
  exists key' : string,
    In key' ["image_path"]
    /\ argument_missing args key' = true
    /\ or_fault (handlePostImageStatus args h) h
       = (errorResult (NewInvalidInputError (key' ++ " is required")%string), h).
Proof.
  intros Hkey Hm. cbn [In] in Hkey.
  repeat (destruct Hkey as [<-|Hkey]); try contradiction;
    unfold handlePostImageStatus; cbv zeta; missing_in Hm; rewrite Hm; cbv iota;
    check_args; unfold or_fault; try_keys ["image_path"].
Qed.

Lemma required_ToolDeleteStatus (now : Z) (args : Args) (h : Handler) (key : string) :
  In key ["status_id"] ->
  argument_missing args key = true ->
  exists key' : string,
    In key' ["status_id"]
    /\ argument_missing args key' = true
    /\ or_fault (handleDeleteStatus args h) h
       = (errorResult (NewInvalidInputError (key' ++ " is required")%string), h).
Proof.
  intros Hkey Hm. cbn [In] in Hkey.
  repeat (destruct Hkey as [<-|Hkey]); try contradiction;
    unfold handleDeleteStatus; cbv zeta; missing_in Hm; rewrite Hm; cbv iota;
    check_args; unfold or_fault; try_keys ["status_id"].
Qed.

(** X20: the arguments the schema requires are enforced.  For every
    advertised tool and every argument its input schema lists as required,
    the latitude and longitude of send_location apart: when the bridge is
    ready and that argument is missing (absent, not a string, or empty; for
    participants, not an array holding a string), the call is answered
    with the invalid-input error "<argument> is required" for a required
    argument that is missing, and the handler, with its bridge and store,
    is left untouched. *)
Theorem required_arguments_enforced :
  forall (now : Z) (tool : Tool) (key : string) (args : Args) (h : Handler),
    In tool GetAllTools ->
    In key (Tool_Required tool) ->
    is_one_of key ["latitude"; "longitude"] = false ->
    bridgeNotReady h = false ->
    argument_missing args key = true ->
    exists key' : string,
      In key' (Tool_Required tool)
      /\ argument_missing args key' = true
      /\ Tools.HandleTool vsp mi ms now (Tool_Name tool) args h
         = (errorResult (NewInvalidInputError (key' ++ " is required")%string), h).
Proof.
  intros now tool key args h Hin Hkey Hex Hr Hm.
  rewrite (HandleTool_ready now _ args h Hr).
  unfold GetAllTools in Hin. cbn [In] in Hin.
  repeat (destruct Hin as [<-|Hin]); try contradiction;
    cbn [Tool_Name Tool_Required] in *.
  - rewrite dispatch_ToolSendMessage. apply (required_ToolSendMessage now args h key Hkey Hm).
  - rewrite dispatch_ToolReplyToMessage. apply (required_ToolReplyToMessage now args h key Hkey Hm).
  - rewrite dispatch_ToolForwardMessage. apply (required_ToolForwardMessage now args h key Hkey Hm).
  - rewrite dispatch_ToolEditMessage. apply (required_ToolEditMessage now args h key Hkey Hm).
  - rewrite dispatch_ToolDeleteMessage. apply (required_ToolDeleteMessage now args h key Hkey Hm).
  - rewrite dispatch_ToolReactToMessage. apply (required_ToolReactToMessage now args h key Hkey Hm).
  - rewrite dispatch_ToolStarMessage. apply (required_ToolStarMessage now args h key Hkey Hm).
  - rewrite dispatch_ToolUnstarMessage. apply (required_ToolUnstarMessage now args h key Hkey Hm).
  - rewrite dispatch_ToolGetChat. apply (required_ToolGetChat now args h key Hkey Hm).
  - rewrite dispatch_ToolListMessages. apply (required_ToolListMessages now args h key Hkey Hm).
  - rewrite dispatch_ToolArchiveChat. apply (required_ToolArchiveChat now args h key Hkey Hm).
  - rewrite dispatch_ToolUnarchiveChat. apply (required_ToolUnarchiveChat now args h key Hkey Hm).
  - rewrite dispatch_ToolPinChat. apply (required_ToolPinChat now args h key Hkey Hm).
  - rewrite dispatch_ToolUnpinChat. apply (required_ToolUnpinChat now args h key Hkey Hm).
  - rewrite dispatch_ToolMuteChat. apply (required_ToolMuteChat now args h key Hkey Hm).
  - rewrite dispatch_ToolUnmuteChat. apply (required_ToolUnmuteChat now args h key Hkey Hm).
  - rewrite dispatch_ToolMarkChatRead. apply (required_ToolMarkChatRead now args h key Hkey Hm).
  - rewrite dispatch_ToolDeleteChat. apply (required_ToolDeleteChat now args h key Hkey Hm).
  - rewrite dispatch_ToolSearchContacts. apply (required_ToolSearchContacts now args h key Hkey Hm).
  - rewrite dispatch_ToolGetContact. apply (required_ToolGetContact now args h key Hkey Hm).
  - rewrite dispatch_ToolBlockContact. apply (required_ToolBlockContact now args h key Hkey Hm).
  - rewrite dispatch_ToolUnblockContact. apply (required_ToolUnblockContact now args h key Hkey Hm).
  - rewrite dispatch_ToolCheckPhoneRegistered. apply (required_ToolCheckPhoneRegistered now args h key Hkey Hm).
  - rewrite dispatch_ToolCreateGroup. apply (required_ToolCreateGroup now args h key Hkey Hm).
  - rewrite dispatch_ToolGetGroupInfo. apply (required_ToolGetGroupInfo now args h key Hkey Hm).
  - rewrite dispatch_ToolLeaveGroup. apply (required_ToolLeaveGroup now args h key Hkey Hm).
  - rewrite dispatch_ToolAddGroupMembers. apply (required_ToolAddGroupMembers now args h key Hkey Hm).
  - rewrite dispatch_ToolRemoveGroupMembers. apply (required_ToolRemoveGroupMembers now args h key Hkey Hm).
  - rewrite dispatch_ToolPromoteAdmin. apply (required_ToolPromoteAdmin now args h key Hkey Hm).
  - rewrite dispatch_ToolDemoteAdmin. apply (required_ToolDemoteAdmin now args h key Hkey Hm).
  - rewrite dispatch_ToolSetGroupName. apply (required_ToolSetGroupName now args h key Hkey Hm).
  - rewrite dispatch_ToolSetGroupTopic. apply (required_ToolSetGroupTopic now args h key Hkey Hm).
  - rewrite dispatch_ToolSetGroupPhoto. apply (required_ToolSetGroupPhoto now args h key Hkey Hm).
  - rewrite dispatch_ToolGetInviteLink. apply (required_ToolGetInviteLink now args h key Hkey Hm).
  - rewrite dispatch_ToolRevokeInviteLink. apply (required_ToolRevokeInviteLink now args h key Hkey Hm).
  - rewrite dispatch_ToolJoinViaInvite. apply (required_ToolJoinViaInvite now args h key Hkey Hm).
  - rewrite dispatch_ToolSendImage. apply (required_ToolSendImage now args h key Hkey Hm).
  - rewrite dispatch_ToolSendVideo. apply (required_ToolSendVideo now args h key Hkey Hm).
  - rewrite dispatch_ToolSendAudio. apply (required_ToolSendAudio now args h key Hkey Hm).
  - rewrite dispatch_ToolSendDocument. apply (required_ToolSendDocument now args h key Hkey Hm).
  - rewrite dispatch_ToolSendLocation.
    destruct Hkey as [<-|[<-|[<-|[]]]]; try (vm_compute in Hex; discriminate).
    apply (required_ToolSendLocation now args h "recipient"); [left; reflexivity | exact Hm].
  - rewrite dispatch_ToolSendContactCard. apply (required_ToolSendContactCard now args h key Hkey Hm).
  - rewrite dispatch_ToolDownloadMedia. apply (required_ToolDownloadMedia now args h key Hkey Hm).
  - rewrite dispatch_ToolSubscribePresence. apply (required_ToolSubscribePresence now args h key Hkey Hm).
  - rewrite dispatch_ToolSendTyping. apply (required_ToolSendTyping now args h key Hkey Hm).
  - rewrite dispatch_ToolSendRecording. apply (required_ToolSendRecording now args h key Hkey Hm).
  - rewrite dispatch_ToolPostTextStatus. apply (required_ToolPostTextStatus now args h key Hkey Hm).
  - rewrite dispatch_ToolPostImageStatus. apply (required_ToolPostImageStatus now args h key Hkey Hm).
  - rewrite dispatch_ToolDeleteStatus. apply (required_ToolDeleteStatus now args h key Hkey Hm).
Qed.

Ltac unfold_handlers :=
  unfold handleAddGroupMembers, handleArchiveChat, handleBlockContact, handleCheckPhoneRegistered, handleCreateGroup, handleDeleteChat, handleDeleteMessage, handleDeleteStatus, handleDemoteAdmin, handleDownloadMedia, handleEditMessage, handleForwardMessage, handleGetBlockedContacts, handleGetBridgeStatus, handleGetChat, handleGetConnectionHistory, handleGetContact, handleGetGroupInfo, handleGetInviteLink, handleGetStatusUpdates, handleJoinViaInvite, handleLeaveGroup, handleListChats, handleListMessages, handleMarkChatRead, handleMuteChat, handlePinChat, handlePostImageStatus, handlePostTextStatus, handlePromoteAdmin, handleReactToMessage, handleRemoveGroupMembers, handleReplyToMessage, handleRevokeInviteLink, handleSearchContacts, handleSendAudio, handleSendContactCard, handleSendDocument, handleSendImage, handleSendLocation, handleSendMessage, handleSendRecording, handleSendTyping, handleSendVideo, handleSetGroupName, handleSetGroupPhoto, handleSetGroupTopic, handleSetOffline, handleSetOnline, handleStarMessage, handleSubscribePresence;
  cbv zeta.

(** Past the argument checks, the one call on the bridge fails. *)
Ltac fails_after_checks Hfail :=
  repeat match goal with
         | |- context [if String.eqb (getString ?args ?k) "" then _ else _] =>
             destruct (String.eqb (getString args k) "") eqn:?
         | |- context [if (length (getStringArray ?args ?k) =? 0)%nat then _ else _] =>
             destruct (length (getStringArray args k) =? 0)%nat eqn:?
         | |- context [if (?a || ?b)%bool then _ else _] =>
             destruct (a || b)%bool eqn:?
         | |- context [match ?v ?p with Some _ => _ | None => _ end] =>
             lazymatch type of v with
             | string -> option error => destruct (v p) eqn:?
             end
         end;
  unfold call;
  try match goal with
      | Hb : bridge ?h = Some ?b |- _ => rewrite Hb
      end;
  try match goal with
      | |- context [Bridge_perform ?req ?b] =>
          let Hf := fresh "Hf" in
          pose proof (Hfail req b) as Hf;
          destruct (Bridge_perform req b) as [resp b'];
          cbn [fst] in Hf;
          destruct (Bridge.resp_err resp) as [e|]; [|congruence]
      end;
  eexists; (split; [reflexivity|]);
  first [left; reflexivity | right; reflexivity].


(** X22: the coordinates of send_location.  With a ready bridge and a
    recipient, the latitude is checked first and the longitude next: a
    latitude outside [-90, 90] or a longitude outside [-180, 180] (bounds
    included in the range) is answered with the invalid-input error naming
    it, the bridge not being asked; otherwise the bridge is asked once to
    send exactly these coordinates, and its failure is an internal error.
    A coordinate that is absent or not a number counts as 0, although the
    schema lists both as required. *)
Theorem send_location_bounds :
  forall (now : Z) (args : Args) (h : Handler) (b : B),
    bridge h = Some b ->
    Bridge_IsReady b = true ->
    getString args "recipient" <> "" ->
    let lat := getFloat args "latitude" in
    let lon := getFloat args "longitude" in
    let r := Tools.HandleTool vsp mi ms now ToolSendLocation args h in
    let asked :=
      Bridge_perform (Bridge.ReqSendLocation (getString args "recipient") lat lon
                        (getString args "name") (getString args "address")) b in
    (~ (-90 <= lat <= 90)%Q ->
     r = (errorResult (NewInvalidInputError "latitude must be between -90 and 90"), h))
    /\ ((-90 <= lat <= 90)%Q -> ~ (-180 <= lon <= 180)%Q ->
        r = (errorResult (NewInvalidInputError "longitude must be between -180 and 180"),
             h))
    /\ ((-90 <= lat <= 90)%Q -> (-180 <= lon <= 180)%Q ->
        snd r = with_bridge (snd asked) h
        /\ fst r
           = match Bridge.resp_err (fst asked) with
             | Some err => errorResult (NewInternalError err)
             | None =>
                 successResult
                   (DataObject [ ("success", ArgBool true);
                                 ("message_id",
                                  string_result (Bridge.resp_value (fst asked))) ])
             end)
    /\ (forall key : string,
          match args !! key with
          | Some (ArgFloat v) => getFloat args key = v
          | _ => getFloat args key = 0%Q
          end).
Proof.
  intros now args h b Hb Hready Hrec lat lon r asked.
  assert (Hr : bridgeNotReady h = false)
    by (unfold bridgeNotReady; rewrite Hb, Hready; reflexivity).
  assert (Hrec' : String.eqb (getString args "recipient") "" = false)
    by (apply String.eqb_neq; exact Hrec).
  assert (Hlat : (Qlt_bool lat (-90) || Qlt_bool 90 lat)%bool = false
                 <-> (-90 <= lat <= 90)%Q).
  { unfold Qlt_bool. rewrite orb_false_iff, !negb_false_iff, !Qle_bool_iff. tauto. }
  assert (Hlon : (Qlt_bool lon (-180) || Qlt_bool 180 lon)%bool = false
                 <-> (-180 <= lon <= 180)%Q).
  { unfold Qlt_bool. rewrite orb_false_iff, !negb_false_iff, !Qle_bool_iff. tauto. }
  assert (Heq : r = or_fault (handleSendLocation args h) h).
  { subst r. rewrite (HandleTool_ready now _ args h Hr). apply dispatch_ToolSendLocation. }
  unfold handleSendLocation in Heq. cbv zeta in Heq. rewrite Hrec' in Heq.
  fold lat lon in Heq.
  split; [|split; [|split]].
  - intros Hout. rewrite Heq.
    destruct (Qlt_bool lat (-90) || Qlt_bool 90 lat)%bool; [reflexivity|].
    exfalso. apply Hout, Hlat. reflexivity.
  - intros Hin Hout. rewrite Heq, (proj2 Hlat Hin).
    destruct (Qlt_bool lon (-180) || Qlt_bool 180 lon)%bool; [reflexivity|].
    exfalso. apply Hout, Hlon. reflexivity.
  - intros Hin1 Hin2. rewrite Heq, (proj2 Hlat Hin1), (proj2 Hlon Hin2).
    unfold call. rewrite Hb. fold asked. destruct asked as [resp b'].
    cbn [fst snd]. destruct (Bridge.resp_err resp); split; reflexivity.
  - intros key. unfold getFloat. destruct (args !! key) as [[ | | | | | ]|]; reflexivity.
Qed.

(** X23: the store-only tools behind the gate.  star_message,
    unstar_message and get_status_updates work on the store alone: once
    the bridge is ready their answer and the store they leave do not depend
    on which bridge the handler holds, and that bridge is left as it was.
    They are refused all the same, with the not-ready error and the store
    untouched, while the bridge is absent or not ready. *)
Theorem store_only_tools_behind_gate :
  forall (now : Z) (name : string) (args : Args) (h : Handler),
    In name store_only_tools ->
    (bridgeNotReady h = true ->
     Tools.HandleTool vsp mi ms now name args h
     = (errorResult (NewNotReadyError (reportedState h)), h))
    /\ (bridgeNotReady h = false ->
        bridge (snd (Tools.HandleTool vsp mi ms now name args h)) = bridge h
        /\ forall b' : B,
             Bridge_IsReady b' = true ->
             fst (Tools.HandleTool vsp mi ms now name args (with_bridge b' h))
             = fst (Tools.HandleTool vsp mi ms now name args h)
             /\ store (snd (Tools.HandleTool vsp mi ms now name args (with_bridge b' h)))
                = store (snd (Tools.HandleTool vsp mi ms now name args h))).
Proof.
  intros now name args h Hin. split.
  - intros Hn. apply ApiFacts.gate_not_ready; [|exact Hn].
    cbn in Hin. repeat (destruct Hin as [<-|Hin]); try contradiction; reflexivity.
  - intros Hr.
    assert (Hr' : forall b' : B, Bridge_IsReady b' = true ->
                                 bridgeNotReady (with_bridge b' h) = false).
    { intros b' Hb'. unfold bridgeNotReady, with_bridge. cbn [bridge]. rewrite Hb'.
      reflexivity. }
    cbn in Hin. repeat (destruct Hin as [<-|Hin]); try contradiction.
    + rewrite (HandleTool_ready now _ args h Hr), dispatch_ToolStarMessage.
      split.
      * unfold handleStarMessage. cbv zeta.
        repeat match goal with
               | |- context [if ?c then _ else _] => destruct c
               end; try reflexivity.
        destruct (Messages_SetStarred _ _ _ _) as [[e|] db]; reflexivity.
      * intros b' Hb'.
        rewrite (HandleTool_ready now _ args _ (Hr' b' Hb')), dispatch_ToolStarMessage.
        unfold handleStarMessage. cbv zeta.
        repeat match goal with
               | |- context [if ?c then _ else _] => destruct c
               end; try (split; reflexivity).
        cbn [store with_bridge].
        destruct (Messages_SetStarred _ _ _ _) as [[e|] db]; split; reflexivity.
    + rewrite (HandleTool_ready now _ args h Hr), dispatch_ToolUnstarMessage.
      split.
      * unfold handleStarMessage. cbv zeta.
        repeat match goal with
               | |- context [if ?c then _ else _] => destruct c
               end; try reflexivity.
        destruct (Messages_SetStarred _ _ _ _) as [[e|] db]; reflexivity.
      * intros b' Hb'.
        rewrite (HandleTool_ready now _ args _ (Hr' b' Hb')), dispatch_ToolUnstarMessage.
        unfold handleStarMessage. cbv zeta.
        repeat match goal with
               | |- context [if ?c then _ else _] => destruct c
               end; try (split; reflexivity).
        cbn [store with_bridge].
        destruct (Messages_SetStarred _ _ _ _) as [[e|] db]; split; reflexivity.
    + rewrite (HandleTool_ready now _ args h Hr), dispatch_ToolGetStatusUpdates.
      split.
      * unfold handleGetStatusUpdates. cbv zeta.
        destruct (if negb _ then _ else _); reflexivity.
      * intros b' Hb'.
        rewrite (HandleTool_ready now _ args _ (Hr' b' Hb')), dispatch_ToolGetStatusUpdates.
        unfold handleGetStatusUpdates. cbv zeta. cbn [store with_bridge].
        destruct (if negb _ then _ else _); split; reflexivity.
Qed.

End Surface.

Section EndToEnd.
Context {DB : Type} `{Repositories DB} `{LocalRepositories DB}
        {C : Type} `{Bridge.WhatsAppClient C} {W : Type}.
Variable vsp : string -> option error.
Variable mi : Bridge.Value -> Data.
Variable ms : list StatusUpdate -> Data.

(** X24: send_message from the tool call to the protocol client.  With a
    ready bridge and both arguments present, the protocol client is asked
    exactly once to send exactly this text to exactly this recipient, and
    nothing else of the bridge or the handler's store changes.  The id the
    client returns is the message_id of the answer; a failure of the client
    is answered with MESSAGE_FAILED (to be retried), its message carrying
    the prefix of the bridge after that of the handler. *)
Theorem send_message_end_to_end :
  forall (now : Z) (args : Args) (h : Api.Handler DB (Bridge.Bridge DB C W))
         (b : Bridge.Bridge DB C W),
    bridge h = Some b ->
    Bridge.IsReady b = true ->
    getString args "recipient" <> "" ->
    getString args "message" <> "" ->
    let asked :=
      Bridge.Client_call
        (Bridge.ReqSendMessage (getString args "recipient") (getString args "message"))
        (Bridge.client (Bridge.fields b)) in
    let r := Tools.HandleTool vsp mi ms now ToolSendMessage args h in
    bridge (snd r)
    = Some (Bridge.with_fields (Bridge.with_client (snd asked) (Bridge.fields b)) b)
    /\ store (snd r) = store h
    /\ fst r
       = match Bridge.resp_err (fst asked) with
         | Some e =>
             errorResult
               {| Err_Code := ErrMessageFailed;
                  Err_Message :=
                    ("Failed to send message: failed to send message: "
                       ++ error_Error e)%string;
                  Err_Retry := true |}
         | None =>
             successResult
               (DataObject [ ("success", ArgBool true);
                             ("message_id",
                              string_result (Bridge.resp_value (fst asked))) ])
         end.
Proof.
  intros now args h b Hb Hready Hrec Hmsg asked r.
  assert (Hr : bridgeNotReady h = false).
  { unfold bridgeNotReady. rewrite Hb. cbn [Bridge_IsReady Bridge_BridgeOps].
    rewrite Hready. reflexivity. }
  apply String.eqb_neq in Hrec. apply String.eqb_neq in Hmsg.
  subst r. rewrite (HandleTool_ready vsp mi ms now _ args h Hr), dispatch_ToolSendMessage.
  unfold handleSendMessage. cbv zeta. rewrite Hrec, Hmsg, Hb.
  cbn [Bridge_perform Bridge_BridgeOps]. unfold Bridge.perform, Bridge.SendMessage.
  rewrite Hready. cbn [negb]. fold asked. destruct asked as [resp c'].
  cbn [fst snd]. destruct (Bridge.resp_err resp) as [e|]; cbn [Bridge.resp_err Bridge.resp_value].
  - cbn. repeat split.
  - cbn. repeat split.
Qed.

End EndToEnd.

Lemma advertised_tools_are_handled_witness :
  fst (Tools.HandleTool any_path no_info no_statuses 0 "no_such_tool" ∅
         (handler_over (Some ready_bridge)))
  = errorResult (NewInvalidInputError "Unknown tool: no_such_tool").
Proof.
  assert (Hn : ~ In "no_such_tool" (map Tool_Name GetAllTools)).
  { intros Hin. apply advertised_are_handled, ApiFacts.is_one_of_spec in Hin.
    vm_compute in Hin. discriminate. }
  destruct (advertised_tools_are_handled any_path no_info no_statuses 0 "no_such_tool" ∅
              (handler_over (Some ready_bridge))) as (_ & _ & _ & Hu).
  rewrite (Hu Hn). reflexivity.
Defined.

Lemma required_arguments_enforced_witness :
  exists key' : string,
    Tools.HandleTool any_path no_info no_statuses 0 ToolSendMessage
      {[ "recipient" := ArgString "123@s.whatsapp.net" ]}
      (handler_over (Some ready_bridge))
    = (errorResult (NewInvalidInputError (key' ++ " is required")%string),
       handler_over (Some ready_bridge)).
Proof.
  destruct (required_arguments_enforced any_path no_info no_statuses 0
              {| Tool_Name := ToolSendMessage;
                 Tool_Required := ["recipient"; "message"] |}
              "message" {[ "recipient" := ArgString "123@s.whatsapp.net" ]}
              (handler_over (Some ready_bridge)))
    as (key' & _ & _ & Hk).
  - left. reflexivity.
  - right. left. reflexivity.
  - reflexivity.
  - vm_compute. reflexivity.
  - vm_compute. reflexivity.
  - exists key'. exact Hk.
Defined.


Lemma send_location_bounds_witness :
  fst (Tools.HandleTool any_path no_info no_statuses 0 ToolSendLocation
         {[ "recipient" := ArgString "123@s.whatsapp.net" ]}
         (handler_over (Some ready_bridge)))
  = successResult (DataObject [ ("success", ArgBool true); ("message_id", ArgString "") ]).
Proof.
  assert (Hrec : getString {[ "recipient" := ArgString "123@s.whatsapp.net" ]} "recipient"
                 <> "") by (vm_compute; discriminate).
  pose proof (send_location_bounds any_path no_info no_statuses 0
                {[ "recipient" := ArgString "123@s.whatsapp.net" ]}
                (handler_over (Some ready_bridge)) ready_bridge eq_refl eq_refl Hrec) as Hs.
  cbv zeta in Hs. destruct Hs as (_ & _ & Hin & _).
  assert (Hlat : (-90 <= getFloat {[ "recipient" := ArgString "123@s.whatsapp.net" ]}
                                  "latitude" <= 90)%Q)
    by (split; vm_compute; discriminate).
  assert (Hlon : (-180 <= getFloat {[ "recipient" := ArgString "123@s.whatsapp.net" ]}
                                   "longitude" <= 180)%Q)
    by (split; vm_compute; discriminate).
  destruct (Hin Hlat Hlon) as (_ & Hf). rewrite Hf. vm_compute. reflexivity.
Defined.

Lemma store_only_tools_behind_gate_witness :
  Tools.HandleTool any_path no_info no_statuses 0 ToolStarMessage ∅
    (handler_over (B:=FailingBridge) None)
  = (errorResult (NewNotReadyError "disconnected"), handler_over None).
Proof.
  destruct (store_only_tools_behind_gate any_path no_info no_statuses 0 ToolStarMessage ∅
              (handler_over (B:=FailingBridge) None)) as (Hn & _).
  - left. reflexivity.
  - apply Hn. reflexivity.
Defined.

Lemma send_message_end_to_end_witness :
  let args : Args := {[ "recipient" := ArgString "123@s.whatsapp.net";
                        "message" := ArgString "hello" ]} in
  let r := Tools.HandleTool any_path no_info no_statuses 0 ToolSendMessage args
             (handler_over (Some ready_bridge)) in
  fst r = successResult
            (DataObject [ ("success", ArgBool true);
                          ("message_id", ArgString "msg-123@s.whatsapp.net") ])
  /\ option_map (fun b => Bridge.sentMessages (Bridge.client (Bridge.fields b)))
                (bridge (snd r))
     = Some [ {| Bridge.FM_JID := "123@s.whatsapp.net"; Bridge.FM_Content := "hello" |} ].
Proof.
  cbv zeta.
  assert (Hrec : getString {[ "recipient" := ArgString "123@s.whatsapp.net";
                              "message" := ArgString "hello" ]} "recipient" <> "")
    by (vm_compute; discriminate).
  assert (Hmsg : getString {[ "recipient" := ArgString "123@s.whatsapp.net";
                              "message" := ArgString "hello" ]} "message" <> "")
    by (vm_compute; discriminate).
  pose proof (send_message_end_to_end any_path no_info no_statuses 0
                {[ "recipient" := ArgString "123@s.whatsapp.net";
                   "message" := ArgString "hello" ]}
                (handler_over (Some ready_bridge)) ready_bridge eq_refl eq_refl Hrec Hmsg)
    as Hs.
  cbv zeta in Hs. destruct Hs as (Hb & _ & Hf).
  rewrite Hf, Hb. split; vm_compute; reflexivity.
Defined.

End ApiMore.

(* ===================================================================== *)
(** ** Properties of the protocol server                                  *)
(* ===================================================================== *)
Module McpMore.
Import Store Mcp.

Local Open Scope list_scope.

Section Generic.
Variable Raw : Type.
Variable decodeInitialize : Raw -> option InitializeParams.
Variable decodeCallTool : Raw -> option (string * Api.Args).
Variable decodeReadResource : Raw -> option string.
Context {T R : Type} `{ToolHandler T R}.

Section AnyWriter.
Context {Wr : Type} `{Writer Wr (Response R)}.

Local Abbreviation handle_request req s :=
  (Mcp.handleRequest Raw decodeInitialize decodeCallTool decodeReadResource req s).
Local Abbreviation serve_loop inputs s :=
  (Mcp.serve Raw decodeInitialize decodeCallTool decodeReadResource inputs s).
Local Abbreviation run_server inputs s :=
  (Mcp.Run Raw decodeInitialize decodeCallTool decodeReadResource inputs s).

Lemma core_eq (s1 s2 : Server T Wr) :
  core s1 = core s2 -> s2 = set_initialized (initialized s2) s1.
Proof.
  destruct s1, s2. unfold core, set_initialized. cbn. intros Hc.
  injection Hc as -> -> ->. reflexivity.
Qed.

Lemma WriteMessage_flag (resp : Response R) (s : Server T Wr) (v : bool) :
  WriteMessage resp (set_initialized v s)
  = (fst (WriteMessage resp s), set_initialized v (snd (WriteMessage resp s))).
Proof.
  unfold WriteMessage, logged, set_initialized. cbn.
  destruct (Writer_Write resp (transport s)) as [[e|] wr]; reflexivity.
Qed.

Lemma logged_flag (lvl : Bridge.Level) (msg : string) (s : Server T Wr) (v : bool) :
  logged lvl msg (set_initialized v s) = set_initialized v (logged lvl msg s).
Proof. reflexivity. Qed.

Lemma WriteMessage_initialized (resp : Response R) (s : Server T Wr) :
  initialized (snd (WriteMessage resp s)) = initialized s.
Proof.
  unfold WriteMessage. destruct (Writer_Write _ _) as [[e|] wr]; reflexivity.
Qed.

Lemma WriteMessage_core (resp : Response R) (s1 s2 : Server T Wr) :
  core s1 = core s2 ->
  fst (WriteMessage resp s1) = fst (WriteMessage resp s2)
  /\ core (snd (WriteMessage resp s1)) = core (snd (WriteMessage resp s2)).
Proof.
  intros Hc. rewrite (core_eq s1 s2 Hc), WriteMessage_flag. split; reflexivity.
Qed.

Ltac write_flag :=
  cbn [handler logged set_initialized transport log initialized];
  match goal with
  | |- fst (WriteMessage ?r ?sA) = fst (WriteMessage ?r ?sB) /\ _ /\ _ =>
      let Hf := fresh "Hf" in
      let Hc := fresh "Hc" in
      destruct (WriteMessage_core r sA sB eq_refl) as (Hf & Hc);
      split; [exact Hf|]; split; [exact Hc|]; exact (WriteMessage_initialized r sB)
  end.

(** The flag a request leaves: set by [initialized], kept by all others. *)
Lemma handleRequest_flag (req : Request Raw) (s : Server T Wr) (v : bool) :
  fst (handle_request req (set_initialized v s)) = fst (handle_request req s)
  /\ core (snd (handle_request req (set_initialized v s)))
     = core (snd (handle_request req s))
  /\ initialized (snd (handle_request req s)) = initialized s || negb (answered req).
Proof.
  unfold Mcp.handleRequest, answered.
  unfold handleInitialize, handleToolsList, handleToolsCall, handleResourcesList,
    handleResourcesRead, SendResult, SendError.
  destruct (String.eqb (Req_Method req) "initialize") eqn:E1.
  { assert (E2 : String.eqb (Req_Method req) "initialized" = false).
    { apply String.eqb_eq in E1. rewrite E1. reflexivity. }
    rewrite E2. cbn [negb]. rewrite orb_false_r.
    destruct (match Req_Params req with
              | Some raw => decodeInitialize raw
              | None => _
              end); write_flag. }
  destruct (String.eqb (Req_Method req) "initialized") eqn:E2.
  { cbn [negb fst snd]. rewrite orb_true_r. repeat split. }
  cbn [negb]. rewrite orb_false_r.
  destruct (String.eqb (Req_Method req) "ping"); [write_flag|].
  destruct (String.eqb (Req_Method req) "tools/list"); [write_flag|].
  destruct (String.eqb (Req_Method req) "tools/call").
  { destruct (match Req_Params req with
              | Some raw => decodeCallTool raw
              | None => None
              end) as [[name arguments]|]; [|write_flag].
    cbn [handler logged set_initialized].
    destruct (HandleTool name arguments (handler s)) as [[result|err] t]; write_flag. }
  destruct (String.eqb (Req_Method req) "resources/list"); [write_flag|].
  destruct (String.eqb (Req_Method req) "resources/read").
  { destruct (match Req_Params req with
              | Some raw => decodeReadResource raw
              | None => None
              end); write_flag. }
  write_flag.
Qed.

Lemma serve_flag (inputs : list (Input Raw)) :
  forall (s1 s2 : Server T Wr),
    core s1 = core s2 ->
    fst (serve_loop inputs s1) = fst (serve_loop inputs s2)
    /\ core (snd (serve_loop inputs s1)) = core (snd (serve_loop inputs s2))
    /\ initialized (snd (serve_loop inputs s1))
       = initialized s1
         || existsb (fun req => negb (answered req)) (requests_served inputs).
Proof.
  induction inputs as [|input rest IH]; intros s1 s2 Hc.
  - cbn. rewrite orb_false_r. unfold core in *. cbn. repeat split. congruence.
  - destruct input as [| | |req]; cbn [Mcp.serve requests_served existsb].
    + cbn. rewrite orb_false_r. unfold core in *. cbn. repeat split. congruence.
    + destruct (IH (logged Bridge.LevelError "Failed to read message" s1)
                   (logged Bridge.LevelError "Failed to read message" s2))
        as (H1 & H2 & H3); [unfold core in *; cbn; congruence|].
      split; [exact H1|]. split; [exact H2 | exact H3].
    + destruct (IH (logged Bridge.LevelError "Failed to read message"
                           (logged Bridge.LevelDebug "received message" s1))
                   (logged Bridge.LevelError "Failed to read message"
                           (logged Bridge.LevelDebug "received message" s2)))
        as (H1 & H2 & H3); [unfold core in *; cbn; congruence|].
      split; [exact H1|]. split; [exact H2 | exact H3].
    + rewrite (core_eq s1 s2 Hc), !logged_flag.
      destruct (handleRequest_flag req (logged Bridge.LevelDebug "received message" s1)
                  (initialized s2)) as (He & Hco & Hi).
      destruct (handle_request req
                  (set_initialized (initialized s2)
                     (logged Bridge.LevelDebug "received message" s1)))
        as [e2 s2'].
      destruct (handle_request req (logged Bridge.LevelDebug "received message" s1))
        as [e1 s1'].
      cbn [fst snd] in He, Hco, Hi. subst e2.
      destruct e1 as [e|].
      * destruct (IH (logged Bridge.LevelError "Failed to handle request" s1')
                     (logged Bridge.LevelError "Failed to handle request" s2'))
          as (H1 & H2 & H3).
        { unfold core in *. cbn. congruence. }
        split; [exact H1|]. split; [exact H2|].
        rewrite H3. cbn [initialized logged]. rewrite Hi. cbn [initialized logged].
        rewrite orb_assoc. reflexivity.
      * destruct (IH s1' s2') as (H1 & H2 & H3); [congruence|].
        split; [exact H1|]. split; [exact H2|].
        rewrite H3, Hi. cbn [initialized logged]. rewrite orb_assoc. reflexivity.
Qed.

(** X26: the handshake is not enforced.  The server records that the
    client has sent [initialized] and never looks at the record: whatever
    the flag is when the loop starts, the same input leads to the same
    writes, the same handler state, the same log and the same return
    value, so tools are listed and called before any handshake.  The flag
    itself is set by the [initialized] notification and by nothing else,
    and never cleared. *)
Theorem handshake_not_enforced :
  forall (inputs : list (Input Raw)) (s : Server T Wr) (v : bool),
    let r1 := run_server inputs s in
    let r2 := run_server inputs (set_initialized v s) in
    fst r1 = fst r2
    /\ transport (snd r1) = transport (snd r2)
    /\ handler (snd r1) = handler (snd r2)
    /\ log (snd r1) = log (snd r2)
    /\ initialized (snd r1)
       = initialized s
         || existsb (fun req => negb (answered req)) (requests_served inputs).
Proof.
  intros inputs s v. cbv zeta. unfold Mcp.Run.
  destruct (serve_flag inputs
              (logged Bridge.LevelInfo "MCP server starting" s)
              (logged Bridge.LevelInfo "MCP server starting" (set_initialized v s))
              eq_refl) as (H1 & H2 & H3).
  unfold core in H2. injection H2 as Ht Hh Hl.
  repeat split; assumption.
Qed.
End AnyWriter.

Local Abbreviation Box := (Outbox (Response R)).

Lemma WriteMessage_outbox (resp : Response R) (s : Server T Box) :
  written (transport (snd (WriteMessage resp s))) = written (transport s) ++ [resp]
  /\ refuses (transport (snd (WriteMessage resp s))) = refuses (transport s)
  /\ handler (snd (WriteMessage resp s)) = handler s.
Proof.
  unfold WriteMessage. cbn.
  destruct (refuses (transport s) resp); cbn; repeat split.
Qed.

Lemma handleRequest_outbox (req : Request Raw) (s : Server T Box) :
  let s' := snd (Mcp.handleRequest Raw decodeInitialize decodeCallTool decodeReadResource
                   req s) in
  exists resps : list (Response R),
    written (transport s') = written (transport s) ++ resps
    /\ refuses (transport s') = refuses (transport s)
    /\ map Resp_ID resps = (if answered req then [Req_ID req] else [])
    /\ forallb well_formed resps = true.
Proof.
  cbv zeta. unfold Mcp.handleRequest, answered.
  unfold handleInitialize, handleToolsList, handleToolsCall, handleResourcesList,
    handleResourcesRead, SendResult, SendError.
  destruct (String.eqb (Req_Method req) "initialize") eqn:E1.
  { assert (E2 : String.eqb (Req_Method req) "initialized" = false).
    { apply String.eqb_eq in E1. rewrite E1. reflexivity. }
    rewrite E2. cbn [negb].
    destruct (match Req_Params req with
              | Some raw => decodeInitialize raw
              | None => _
              end);
      match goal with
      | |- context [WriteMessage ?resp ?s0] =>
          destruct (WriteMessage_outbox resp s0) as (Hw & Hr & _);
          exists [resp]; rewrite Hw, Hr; repeat split
      end. }
  destruct (String.eqb (Req_Method req) "initialized") eqn:E2.
  { cbn [negb snd]. exists []. cbn. rewrite app_nil_r. repeat split. }
  cbn [negb].
  destruct (String.eqb (Req_Method req) "ping");
    [match goal with
     | |- context [WriteMessage ?resp ?s0] =>
         destruct (WriteMessage_outbox resp s0) as (Hw & Hr & _);
         exists [resp]; rewrite Hw, Hr; repeat split
     end|].
  destruct (String.eqb (Req_Method req) "tools/list");
    [match goal with
     | |- context [WriteMessage ?resp ?s0] =>
         destruct (WriteMessage_outbox resp s0) as (Hw & Hr & _);
         exists [resp]; rewrite Hw, Hr; repeat split
     end|].
  destruct (String.eqb (Req_Method req) "tools/call").
  { destruct (match Req_Params req with
              | Some raw => decodeCallTool raw
              | None => None
              end) as [[name arguments]|].
    - cbn [handler logged].
      destruct (HandleTool name arguments (handler s)) as [[result|err] t];
        match goal with
        | |- context [WriteMessage ?resp ?s0] =>
            destruct (WriteMessage_outbox resp s0) as (Hw & Hr & _);
            exists [resp]; rewrite Hw, Hr; repeat split
        end.
    - match goal with
      | |- context [WriteMessage ?resp ?s0] =>
          destruct (WriteMessage_outbox resp s0) as (Hw & Hr & _);
          exists [resp]; rewrite Hw, Hr; repeat split
      end. }
  destruct (String.eqb (Req_Method req) "resources/list");
    [match goal with
     | |- context [WriteMessage ?resp ?s0] =>
         destruct (WriteMessage_outbox resp s0) as (Hw & Hr & _);
         exists [resp]; rewrite Hw, Hr; repeat split
     end|].
  destruct (String.eqb (Req_Method req) "resources/read").
  { destruct (match Req_Params req with
              | Some raw => decodeReadResource raw
              | None => None
              end);
      match goal with
      | |- context [WriteMessage ?resp ?s0] =>
          destruct (WriteMessage_outbox resp s0) as (Hw & Hr & _);
          exists [resp]; rewrite Hw, Hr; repeat split
      end. }
  match goal with
  | |- context [WriteMessage ?resp ?s0] =>
      destruct (WriteMessage_outbox resp s0) as (Hw & Hr & _);
      exists [resp]; rewrite Hw, Hr; repeat split
  end.
Qed.

(** X25: one response per request.  Against a writer that records what it
    is handed (and may fail any write), the loop writes exactly one
    response for every request it reads, the [initialized] notification
    apart, in the order of the requests and each with the id of its
    request, also when an earlier write has failed; a line that does not
    parse and a failed read are only logged and get no response.  Every
    response carries either a result or an error, and the only error codes
    sent are -32601, -32602 and -32002.  The loop returns nil at the end of
    the input and the context's error when it finds the context
    cancelled, after which nothing more is read. *)
Theorem one_response_per_request :
  forall (inputs : list (Input Raw)) (s : Server T Box),
    let r := Mcp.Run Raw decodeInitialize decodeCallTool decodeReadResource inputs s in
    exists resps : list (Response R),
      written (transport (snd r)) = written (transport s) ++ resps
      /\ map Resp_ID resps
         = map Req_ID (List.filter answered (requests_served inputs))
      /\ forallb well_formed resps = true
      /\ fst r = (if cancelled_in inputs then Some ctxCanceled else None).
Proof.
  intros inputs s. cbv zeta. unfold Mcp.Run.
  change (written (transport s))
    with (written (transport (logged Bridge.LevelInfo "MCP server starting" s))).
  generalize (logged Bridge.LevelInfo "MCP server starting" s). clear s.
  induction inputs as [|input rest IH]; intros s.
  - exists []. cbn. rewrite app_nil_r. repeat split.
  - destruct input as [| | |req]; cbn [Mcp.serve requests_served cancelled_in].
    + exists []. cbn. rewrite app_nil_r. repeat split.
    + destruct (IH (logged Bridge.LevelError "Failed to read message" s))
        as (resps & Hw & Hid & Hwf & He).
      exists resps. repeat split; assumption.
    + destruct (IH (logged Bridge.LevelError "Failed to read message"
                           (logged Bridge.LevelDebug "received message" s)))
        as (resps & Hw & Hid & Hwf & He).
      exists resps. repeat split; assumption.
    + destruct (handleRequest_outbox req (logged Bridge.LevelDebug "received message" s))
        as (resps1 & Hw1 & Hr1 & Hid1 & Hwf1).
      cbv zeta in *.
      destruct (Mcp.handleRequest Raw decodeInitialize decodeCallTool decodeReadResource
                  req (logged Bridge.LevelDebug "received message" s)) as [e s1].
      cbn [snd] in *. cbn [logged transport] in Hw1.
      assert (Hstep : forall s2 : Server T Box,
                 written (transport s2) = written (transport s1) ->
                 exists resps : list (Response R),
                   written (transport
                              (snd (Mcp.serve Raw decodeInitialize decodeCallTool
                                      decodeReadResource rest s2)))
                   = written (transport s) ++ resps
                   /\ map Resp_ID resps
                      = map Req_ID (List.filter answered (req :: requests_served rest))
                   /\ forallb well_formed resps = true
                   /\ fst (Mcp.serve Raw decodeInitialize decodeCallTool
                             decodeReadResource rest s2)
                      = (if cancelled_in rest then Some ctxCanceled else None)).
      { intros s2 Hs2. destruct (IH s2) as (resps2 & Hw2 & Hid2 & Hwf2 & He2).
        exists (resps1 ++ resps2). rewrite Hw2, Hs2, Hw1, <- app_assoc.
        split; [reflexivity|]. split.
        - rewrite map_app, Hid1, Hid2. cbn [List.filter].
          destruct (answered req); reflexivity.
        - split; [|exact He2]. rewrite forallb_app, Hwf1, Hwf2. reflexivity. }
      destruct e as [e|]; apply Hstep; reflexivity.
Qed.

End Generic.

Section ApiServer.
Context {DB : Type} `{Repositories DB} `{Tools.LocalRepositories DB}
        {B : Type} `{Api.BridgeOps B}.
Variable vsp : string -> option error.
Variable mi : Bridge.Value -> Api.Data.
Variable ms : list Store.StatusUpdate -> Api.Data.
Variable Raw : Type.
Variable decodeInitialize : Raw -> option InitializeParams.
Variable decodeCallTool : Raw -> option (string * Api.Args).
Variable decodeReadResource : Raw -> option string.

Local Abbreviation ApiServer :=
  (Server (Z * Api.Handler DB B) (Outbox (Response Api.CallToolResult))).

(** X27: a tool call over the wire.  With the handler of package api
    behind the server, a [tools/call] request whose parameters decode is
    always answered with a result that holds the handler's answer, never
    with a JSON-RPC error and never with the "Error: ..." text block (the
    handler returns no Go error, the marshalling of an answer being taken
    to succeed), and the handler is left in the state the call produced; in particular a gated tool called while the bridge is
    not ready arrives as a result holding the not-ready error, the handler
    unchanged.  Parameters that are absent or do not decode are answered
    with error -32602 and the handler is not called. *)
Theorem tool_call_over_the_wire :
  forall (req : Request Raw) (s : ApiServer),
    Req_Method req = "tools/call" ->
    let r := @Mcp.handleRequest Raw decodeInitialize decodeCallTool decodeReadResource
               _ _ (Handler_ToolHandler vsp mi ms) _ _ req s in
    match (match Req_Params req with
           | Some raw => decodeCallTool raw
           | None => None
           end) with
    | Some (name, args) =>
        let out := Tools.HandleTool vsp mi ms (fst (handler s)) name args
                     (snd (handler s)) in
        written (transport (snd r))
        = written (transport s)
            ++ [ {| Resp_ID := Req_ID req;
                    Resp_Result := Some (ResToolCall (fst out));
                    Resp_Error := None |} ]
        /\ handler (snd r) = (fst (handler s), snd out)
        /\ (Api.requiresReady name = true ->
            Api.bridgeNotReady (snd (handler s)) = true ->
            out = (Api.errorResult
                     (Api.NewNotReadyError (Api.reportedState (snd (handler s)))),
                   snd (handler s)))
    | None =>
        written (transport (snd r))
        = written (transport s)
            ++ [ {| Resp_ID := Req_ID req;
                    Resp_Result := None;
                    Resp_Error := Some {| Error_Code := InvalidParams;
                                          Error_Message := "Invalid tool call params" |} |} ]
        /\ handler (snd r) = handler s
    end.
Proof.
  intros req s Hm. cbv zeta. unfold Mcp.handleRequest. rewrite Hm.
  ApiMore.closed_eqb. cbv iota. unfold handleToolsCall, SendResult, SendError.
  destruct (match Req_Params req with
            | Some raw => decodeCallTool raw
            | None => None
            end) as [[name args]|].
  - cbn [HandleTool Handler_ToolHandler handler logged].
    assert (Hgate : Api.requiresReady name = true ->
                    Api.bridgeNotReady (snd (handler s)) = true ->
                    Tools.HandleTool vsp mi ms (fst (handler s)) name args (snd (handler s))
                    = (Api.errorResult
                         (Api.NewNotReadyError (Api.reportedState (snd (handler s)))),
                       snd (handler s))).
    { intros Hr Hn. apply ApiFacts.gate_not_ready; assumption. }
    destruct (Tools.HandleTool vsp mi ms (fst (handler s)) name args (snd (handler s)))
      as [r0 h0].
    match goal with
    | |- context [WriteMessage ?resp ?s0] =>
        destruct (WriteMessage_outbox resp s0) as (Hw & _ & Hh)
    end.
    rewrite Hw, Hh. cbn [fst snd]. repeat split. exact Hgate.
  - match goal with
    | |- context [WriteMessage ?resp ?s0] =>
        destruct (WriteMessage_outbox resp s0) as (Hw & _ & Hh)
    end.
    rewrite Hw, Hh. repeat split.
Qed.

End ApiServer.

Lemma tool_call_over_the_wire_witness :
  let b := Bridge.NewBridge (W:=unit) Config.DefaultConfig NewSQLiteStore
             Bridge.NewFakeClient in
  let s : Server (Z * Api.Handler SQLiteStore (Bridge.Bridge SQLiteStore Bridge.FakeClient unit))
                 (Outbox (Response Api.CallToolResult)) :=
    {| transport := {| written := []; refuses := fun _ => None |};
       handler := (0%Z, Tools.handler_over (Some b));
       log := [];
       initialized := false |} in
  let req := {| Req_ID := Some (Api.ArgInt 7);
                Req_Method := "tools/call";
                Req_Params := Some (Api.ToolSendMessage, (∅ : Api.Args)) |} in
  written (transport
             (snd (@Mcp.handleRequest (string * Api.Args) (fun _ => None) call_of
                     (fun _ => None) _ _
                     (Handler_ToolHandler Tools.any_path Tools.no_info Tools.no_statuses)
                     _ _ req s)))
  = [ {| Resp_ID := Some (Api.ArgInt 7);
         Resp_Result :=
           Some (ResToolCall
                   (Api.errorResult (Api.NewNotReadyError "disconnected")));
         Resp_Error := None |} ].
Proof.
  cbv zeta.
  pose proof (tool_call_over_the_wire Tools.any_path Tools.no_info Tools.no_statuses
                (string * Api.Args) (fun _ => None) call_of (fun _ => None)
                {| Req_ID := Some (Api.ArgInt 7);
                   Req_Method := "tools/call";
                   Req_Params := Some (Api.ToolSendMessage, (∅ : Api.Args)) |}
                {| transport := {| written := []; refuses := fun _ => None |};
                   handler :=
                     (0%Z,
                      Tools.handler_over
                        (Some (Bridge.NewBridge (W:=unit) Config.DefaultConfig
                                 NewSQLiteStore Bridge.NewFakeClient)));
                   log := [];
                   initialized := false |}
                eq_refl) as Hs.
  cbv zeta in Hs. cbn [Req_Params call_of] in Hs.
  destruct Hs as (Hw & _ & Hg).
  rewrite Hw, (Hg eq_refl eq_refl). reflexivity.
Defined.

End McpMore.
